(** * The incremental 3D Delaunay / regular triangulation of OVITO

    A shallow embedding of [src/3rdparty/geogram/delaunay/delaunay_3d.cpp]
    (class [Delaunay3d]) and the properties its specification states.

    Conventions of the embedding.
    - [index_t] is an unsigned 32-bit integer and [signed_index_t] a signed
      one; both are carried as [Z], the casts between them are written out
      ([index_t_of], [signed_index_t_of]).
    - [double] is Rocq's primitive binary64 [float]; the exact predicates
      see a double through its rational value [value].
    - The three stores of the mesh are lists read and written by index;
      a read or write outside a list is the result [Fault].  The
      [geo_debug_assert]s, compiled out of a release build, are not part
      of the model.
    - Loops with no structural bound (the walks, the recursive flood fill
      and stellation) take a [fuel] and answer [OutOfFuel] when it is spent. *)

From Stdlib Require Import ZArith QArith Qpower Floats Lia Lqa Bool.
From stdpp Require Import base option list.

Local Open Scope Z_scope.

(* ================================================================= *)
(** ** Numbers, signs, points                                          *)
(* ================================================================= *)

(** [enum Sign { NEGATIVE = -1, ZERO = 0, POSITIVE = 1 }]. *)
Inductive Sign : Set := NEGATIVE | ZERO | POSITIVE.

#[global] Instance Sign_eq_dec : EqDecision Sign.
Proof. solve_decision. Defined.

Definition Sign_value (s : Sign) : Z :=
  match s with NEGATIVE => -1 | ZERO => 0 | POSITIVE => 1 end.

(** The C++ comparison [s == ZERO] as an [int] summand. *)
Definition is_zero_sign (s : Sign) : Z :=
  match s with ZERO => 1 | _ => 0 end.

(** Modelled from the spec: [geo_sgn] (numeric.h is not among the sources)
    is the three-valued sign of a double; a NaN compares neither above nor
    below zero and gives [ZERO]. *)
Definition geo_sgn (x : float) : Sign :=
  if PrimFloat.ltb 0 x then POSITIVE
  else if PrimFloat.ltb x 0 then NEGATIVE
  else ZERO.

(** Modelled from the spec: [geo_sqr] (numeric.h is not among the sources)
    is the square, [height = sum(coord_i^2) - ...]. *)
Definition geo_sqr (x : float) : float := (x * x)%float.

(** The rational number a finite double stands for.  Infinities and NaN,
    on which the exact predicates are not specified, are sent to [0]. *)
Definition SF2Q (s : spec_float) : Q :=
  match s with
  | S754_finite sg m e =>
      ((if sg then (Zneg m # 1) else (Zpos m # 1)) * Qpower 2 e)%Q
  | _ => 0%Q
  end.

Definition value (x : float) : Q := SF2Q (Prim2SF x).

Definition sgnQ (q : Q) : Sign :=
  match (q ?= 0)%Q with Lt => NEGATIVE | Eq => ZERO | Gt => POSITIVE end.

(** A [const double*] to three consecutive coordinates. *)
Record point : Set := mkpoint { p_0 : float; p_1 : float; p_2 : float }.

(** Points and vectors with rational coordinates. *)
Definition Q3 : Set := (Q * Q * Q)%type.

Definition pos (p : point) : Q3 := (value (p_0 p), value (p_1 p), value (p_2 p)).

Definition Q3_eq (a b : Q3) : Prop :=
  let '(a0, a1, a2) := a in
  let '(b0, b1, b2) := b in
  (a0 == b0 /\ a1 == b1 /\ a2 == b2)%Q.

Definition Q3_zero (d : Q3) : Prop := Q3_eq d (0, 0, 0)%Q.

(** [a + t d]. *)
Definition Q3_along (a d : Q3) (t : Q) : Q3 :=
  let '(a0, a1, a2) := a in
  let '(d0, d1, d2) := d in
  (a0 + t * d0, a1 + t * d1, a2 + t * d2)%Q.

Definition Q3_sub (a b : Q3) : Q3 :=
  let '(a0, a1, a2) := a in
  let '(b0, b1, b2) := b in
  (a0 - b0, a1 - b1, a2 - b2)%Q.

(** The cross product. *)
Definition cross (u v : Q3) : Q3 :=
  let '(u0, u1, u2) := u in
  let '(v0, v1, v2) := v in
  (u1 * v2 - u2 * v1, u2 * v0 - u0 * v2, u0 * v1 - u1 * v0)%Q.

Definition dot (u v : Q3) : Q :=
  let '(u0, u1, u2) := u in
  let '(v0, v1, v2) := v in
  (u0 * v0 + u1 * v1 + u2 * v2)%Q.

(** Three points are collinear when one line (a point [a] and a direction
    [d] that is not null) goes through them. *)
Definition collinear (x y z : Q3) : Prop :=
  exists (a d : Q3) (tx ty tz : Q),
    ~ Q3_zero d /\
    Q3_eq x (Q3_along a d tx) /\
    Q3_eq y (Q3_along a d ty) /\
    Q3_eq z (Q3_along a d tz).

(** A plane [n . x = c] with [n] not null goes through every point of the
    list. *)
Definition coplanar_all (ps : list Q3) : Prop :=
  exists (n : Q3) (c : Q),
    ~ Q3_zero n /\
    Forall (fun x : Q3 =>
      let '(x0, x1, x2) := x in
      let '(n0, n1, n2) := n in
      (n0 * x0 + n1 * x1 + n2 * x2 == c)%Q) ps.

(* ================================================================= *)
(** ** Predicates                                                      *)
(* ================================================================= *)

(** Modelled from the spec: [det3x3] (matrix.h is not among the sources),
    the determinant expanded along its first column, in doubles. *)
Definition det3x3 (a11 a12 a13 a21 a22 a23 a31 a32 a33 : float) : float :=
  (a11 * (a22 * a33 - a23 * a32)
   - a21 * (a12 * a33 - a13 * a32)
   + a31 * (a12 * a23 - a13 * a22))%float.

(** The same determinant over the rationals. *)
Definition det3x3_Q (a11 a12 a13 a21 a22 a23 a31 a32 a33 : Q) : Q :=
  (a11 * (a22 * a33 - a23 * a32)
   - a21 * (a12 * a33 - a13 * a32)
   + a31 * (a12 * a23 - a13 * a22))%Q.

(** [orient_3d_inexact]: the sign of the determinant as the doubles
    compute it. *)
Definition orient_3d_inexact (p0 p1 p2 p3 : point) : Sign :=
  let a11 := (p_0 p1 - p_0 p0)%float in
  let a12 := (p_1 p1 - p_1 p0)%float in
  let a13 := (p_2 p1 - p_2 p0)%float in
  let a21 := (p_0 p2 - p_0 p0)%float in
  let a22 := (p_1 p2 - p_1 p0)%float in
  let a23 := (p_2 p2 - p_2 p0)%float in
  let a31 := (p_0 p3 - p_0 p0)%float in
  let a32 := (p_1 p3 - p_1 p0)%float in
  let a33 := (p_2 p3 - p_2 p0)%float in
  let Delta := det3x3 a11 a12 a13 a21 a22 a23 a31 a32 a33 in
  geo_sgn Delta.

(** The signed volume of the tetrahedron [x0 x1 x2 x3], up to the factor 6. *)
Definition orient_det (x0 x1 x2 x3 : Q3) : Q :=
  let '(x00, x01, x02) := x0 in
  let '(x10, x11, x12) := x1 in
  let '(x20, x21, x22) := x2 in
  let '(x30, x31, x32) := x3 in
  det3x3_Q (x10 - x00) (x11 - x01) (x12 - x02)
           (x20 - x00) (x21 - x01) (x22 - x02)
           (x30 - x00) (x31 - x01) (x32 - x02).

(** Modelled from the spec: [PCK::orient_3d] (the exact predicate layer is
    not among the sources) is the orientation of four points "with correct
    sign even under floating-point cancellation": the sign of the
    determinant that [orient_3d_inexact] approximates, on the exact values
    of the coordinates. *)
Definition orient_3d (p0 p1 p2 p3 : point) : Sign :=
  sgnQ (orient_det (pos p0) (pos p1) (pos p2) (pos p3)).

(** [points_are_identical]: [==] on doubles is IEEE equality. *)
Definition points_are_identical (p1 p2 : point) : bool :=
  PrimFloat.eqb (p_0 p1) (p_0 p2) &&
  PrimFloat.eqb (p_1 p1) (p_1 p2) &&
  PrimFloat.eqb (p_2 p1) (p_2 p2).

Definition q000 : point := mkpoint 0 0 0.
Definition q001 : point := mkpoint 0 0 1.
Definition q010 : point := mkpoint 0 1 0.
Definition q100 : point := mkpoint 1 0 0.

(** [points_are_colinear]: four coplanarity tests against four points that
    are not coplanar. *)
Definition points_are_colinear (p1 p2 p3 : point) : bool :=
  bool_decide (orient_3d p1 p2 p3 q000 = ZERO) &&
  bool_decide (orient_3d p1 p2 p3 q001 = ZERO) &&
  bool_decide (orient_3d p1 p2 p3 q010 = ZERO) &&
  bool_decide (orient_3d p1 p2 p3 q100 = ZERO).

(* ================================================================= *)
(** ** The two lookup tables                                           *)
(* ================================================================= *)

(** Reading a C array at a [Z] index; nothing outside it. *)
Definition zth {A : Type} (l : list A) (i : Z) : option A :=
  if (0 <=? i) && (i <? Z.of_nat (length l)) then l !! Z.to_nat i else None.

(** [char Delaunay3d::halfedge_facet_[4][4]]. *)
Definition halfedge_facet_ : list (list Z) :=
  [ [4; 2; 3; 1];
    [3; 4; 0; 2];
    [1; 3; 4; 0];
    [2; 0; 1; 4] ].

(** [char Delaunay3d::tet_facet_vertex_[4][3]]. *)
Definition tet_facet_vertex_ : list (list Z) :=
  [ [1; 2; 3];
    [0; 3; 2];
    [3; 0; 1];
    [1; 0; 2] ].

Definition halfedge_facet (f1 f2 : Z) : option Z :=
  row ← zth halfedge_facet_ f1; zth row f2.

(** Modelled from the spec: the accessor [tet_facet_vertex(f, v)] of
    delaunay_3d.h reads the table. *)
Definition tet_facet_vertex (f v : Z) : option Z :=
  row ← zth tet_facet_vertex_ f; zth row v.

(** The parity of the arrangement [l] of [0 .. 3]: the number of its
    inversions. *)
Fixpoint inversions (l : list Z) : nat :=
  match l with
  | [] => 0%nat
  | x :: r => (length (filter (fun y => (y < x)%Z) r) + inversions r)%nat
  end.

Definition even_arrangement (l : list Z) : bool := Nat.even (inversions l).

(* ================================================================= *)
(** ** Indices                                                         *)
(* ================================================================= *)

(** The cast to [index_t] (32 bits, unsigned). *)
Definition index_t_of (x : Z) : Z := x mod 2 ^ 32.

(** The cast to [signed_index_t] (32 bits, two's complement). *)
Definition signed_index_t_of (x : Z) : Z :=
  let r := x mod 2 ^ 32 in
  if r <? 2 ^ 31 then r else r - 2 ^ 32.

(* ================================================================= *)
(** ** Heights of the weighted variant                                 *)
(* ================================================================= *)

(** The loop of [set_vertices] that fills [heights_] from the 4d input:
    [n] iterations are left, [i] is the loop counter. *)
Fixpoint heights_loop (n : nat) (i : Z) (vertices heights_ : list float)
  : option (list float) :=
  match n with
  | O => Some heights_
  | S n' =>
      v3 ← zth vertices (index_t_of (4 * i + 3));
      v0 ← zth vertices (index_t_of (4 * i));
      v1 ← zth vertices (index_t_of (4 * i + 1));
      v2 ← zth vertices (index_t_of (4 * i + 2));
      let w := (- geo_sqr v3)%float in
      let h := (- w + geo_sqr v0 + geo_sqr v1 + geo_sqr v2)%float in
      heights_loop n' (i + 1) vertices (<[Z.to_nat i := h]> heights_)
  end.

(** [std::vector::resize(n)]: the first [n] elements, then copies of
    [fill]. *)
Definition vector_resize {A : Type} (l : list A) (n : Z) (fill : A) : list A :=
  take (Z.to_nat n) l ++ replicate (Z.to_nat n - length l) fill.

(** [heights_.resize(nb_vertices)] followed by the loop; [old] is what
    [heights_] held before. *)
Definition compute_heights (old : list float) (nb_vertices : Z)
    (vertices : list float) : option (list float) :=
  heights_loop (Z.to_nat nb_vertices) 0 vertices
               (vector_resize old nb_vertices 0%float).

(** The height as the specification words it: the three squared
    coordinates minus the square of the fourth input component. *)
Definition height_as_specified (x y z t : float) : float :=
  (geo_sqr x + geo_sqr y + geo_sqr z - geo_sqr t)%float.

(** The height as the loop computes it. *)
Definition height_as_computed (x y z t : float) : float :=
  (geo_sqr t + geo_sqr x + geo_sqr y + geo_sqr z)%float.

(** What [heights_[i]] is said to hold, read off the input array. *)
Definition height_of (formula : float -> float -> float -> float -> float)
    (vertices : list float) (i : Z) : option float :=
  x ← zth vertices (4 * i);
  y ← zth vertices (4 * i + 1);
  z ← zth vertices (4 * i + 2);
  t ← zth vertices (4 * i + 3);
  Some (formula x y z t).

(* ================================================================= *)
(** ** Results of running the code                                     *)
(* ================================================================= *)

(** A call either returns, or reads or writes outside an array
    ([Fault], undefined behaviour in C++), or has not finished on the fuel
    it was given. *)
Inductive result (A : Type) : Type :=
| Ok (a : A)
| Fault
| OutOfFuel.

Arguments Ok {A} a.
Arguments Fault {A}.
Arguments OutOfFuel {A}.

Definition bindR {A B : Type} (m : result A) (k : A -> result B) : result B :=
  match m with
  | Ok a => k a
  | Fault => Fault
  | OutOfFuel => OutOfFuel
  end.

Notation "'let+' x ':=' m 'in' k" := (bindR m (fun x => k))
  (at level 10, x pattern, m at level 100, k at level 200, only parsing).

Definition of_option {A : Type} (o : option A) : result A :=
  match o with Some a => Ok a | None => Fault end.

(** Writing a C array at a [Z] index. *)
Definition zset {A : Type} (l : list A) (i : Z) (a : A) : result (list A) :=
  if (0 <=? i) && (i <? Z.of_nat (length l))
  then Ok (<[Z.to_nat i := a]> l)
  else Fault.

(* ================================================================= *)
(** ** Named constants                                              *)
(* ================================================================= *)

(** Modelled from the spec: the named constants of delaunay_3d.h, which is
    not among the sources.  [NO_TETRAHEDRON] is "no cell" as an [index_t],
    [VERTEX_AT_INFINITY] the "no vertex" of the virtual cells and the
    negative sentinel of the finalized arrays, [END_OF_LIST] closes the
    linked lists kept in [cell_next_], and a [cell_next_] entry with
    [NOT_IN_LIST_BIT] set belongs to no list. *)
Definition NO_TETRAHEDRON : Z := index_t_of (-1).
Definition VERTEX_AT_INFINITY : Z := -1.
Definition END_OF_LIST : Z := 2 ^ 31 - 1.
Definition NOT_IN_LIST_BIT : Z := 2 ^ 31.

(* ================================================================= *)
(** ** The object                                                      *)
(* ================================================================= *)

(** The fields of [Delaunay3d] and of its base class [Delaunay] that
    delaunay_3d.cpp reads or writes. *)
Record Delaunay3d : Type := mkDelaunay3d {
  (* Delaunay *)
  dimension_ : Z;
  nb_vertices_ : Z;
  vertices_ : list float;
  reorder_ : list Z;
  do_reorder_ : bool;
  keep_infinite_ : bool;
  nb_cells_ : Z;
  nb_finite_cells_ : Z;
  (* Delaunay3d *)
  cell_to_v_store_ : list Z;
  cell_to_cell_store_ : list Z;
  cell_next_ : list Z;
  first_free_ : Z;
  weighted_ : bool;
  heights_ : list float;
  cur_stamp_ : Z;
  debug_mode_ : bool
}.

Definition set_reorder (d : Delaunay3d) (x : list Z) : Delaunay3d :=
  mkDelaunay3d (dimension_ d) (nb_vertices_ d) (vertices_ d) x
    (do_reorder_ d) (keep_infinite_ d) (nb_cells_ d) (nb_finite_cells_ d)
    (cell_to_v_store_ d) (cell_to_cell_store_ d) (cell_next_ d)
    (first_free_ d) (weighted_ d) (heights_ d) (cur_stamp_ d) (debug_mode_ d).

Definition set_vertex_array (d : Delaunay3d) (n : Z) (x : list float)
  : Delaunay3d :=
  mkDelaunay3d (dimension_ d) n x (reorder_ d)
    (do_reorder_ d) (keep_infinite_ d) (nb_cells_ d) (nb_finite_cells_ d)
    (cell_to_v_store_ d) (cell_to_cell_store_ d) (cell_next_ d)
    (first_free_ d) (weighted_ d) (heights_ d) (cur_stamp_ d) (debug_mode_ d).

Definition set_nb_cells (d : Delaunay3d) (x : Z) : Delaunay3d :=
  mkDelaunay3d (dimension_ d) (nb_vertices_ d) (vertices_ d) (reorder_ d)
    (do_reorder_ d) (keep_infinite_ d) x (nb_finite_cells_ d)
    (cell_to_v_store_ d) (cell_to_cell_store_ d) (cell_next_ d)
    (first_free_ d) (weighted_ d) (heights_ d) (cur_stamp_ d) (debug_mode_ d).

Definition set_nb_finite_cells (d : Delaunay3d) (x : Z) : Delaunay3d :=
  mkDelaunay3d (dimension_ d) (nb_vertices_ d) (vertices_ d) (reorder_ d)
    (do_reorder_ d) (keep_infinite_ d) (nb_cells_ d) x
    (cell_to_v_store_ d) (cell_to_cell_store_ d) (cell_next_ d)
    (first_free_ d) (weighted_ d) (heights_ d) (cur_stamp_ d) (debug_mode_ d).

Definition set_cell_to_v_store (d : Delaunay3d) (x : list Z) : Delaunay3d :=
  mkDelaunay3d (dimension_ d) (nb_vertices_ d) (vertices_ d) (reorder_ d)
    (do_reorder_ d) (keep_infinite_ d) (nb_cells_ d) (nb_finite_cells_ d)
    x (cell_to_cell_store_ d) (cell_next_ d)
    (first_free_ d) (weighted_ d) (heights_ d) (cur_stamp_ d) (debug_mode_ d).

Definition set_cell_to_cell_store (d : Delaunay3d) (x : list Z) : Delaunay3d :=
  mkDelaunay3d (dimension_ d) (nb_vertices_ d) (vertices_ d) (reorder_ d)
    (do_reorder_ d) (keep_infinite_ d) (nb_cells_ d) (nb_finite_cells_ d)
    (cell_to_v_store_ d) x (cell_next_ d)
    (first_free_ d) (weighted_ d) (heights_ d) (cur_stamp_ d) (debug_mode_ d).

Definition set_cell_next (d : Delaunay3d) (x : list Z) : Delaunay3d :=
  mkDelaunay3d (dimension_ d) (nb_vertices_ d) (vertices_ d) (reorder_ d)
    (do_reorder_ d) (keep_infinite_ d) (nb_cells_ d) (nb_finite_cells_ d)
    (cell_to_v_store_ d) (cell_to_cell_store_ d) x
    (first_free_ d) (weighted_ d) (heights_ d) (cur_stamp_ d) (debug_mode_ d).

Definition set_first_free (d : Delaunay3d) (x : Z) : Delaunay3d :=
  mkDelaunay3d (dimension_ d) (nb_vertices_ d) (vertices_ d) (reorder_ d)
    (do_reorder_ d) (keep_infinite_ d) (nb_cells_ d) (nb_finite_cells_ d)
    (cell_to_v_store_ d) (cell_to_cell_store_ d) (cell_next_ d)
    x (weighted_ d) (heights_ d) (cur_stamp_ d) (debug_mode_ d).

Definition set_heights (d : Delaunay3d) (x : list float) : Delaunay3d :=
  mkDelaunay3d (dimension_ d) (nb_vertices_ d) (vertices_ d) (reorder_ d)
    (do_reorder_ d) (keep_infinite_ d) (nb_cells_ d) (nb_finite_cells_ d)
    (cell_to_v_store_ d) (cell_to_cell_store_ d) (cell_next_ d)
    (first_free_ d) (weighted_ d) x (cur_stamp_ d) (debug_mode_ d).

Definition set_cur_stamp (d : Delaunay3d) (x : Z) : Delaunay3d :=
  mkDelaunay3d (dimension_ d) (nb_vertices_ d) (vertices_ d) (reorder_ d)
    (do_reorder_ d) (keep_infinite_ d) (nb_cells_ d) (nb_finite_cells_ d)
    (cell_to_v_store_ d) (cell_to_cell_store_ d) (cell_next_ d)
    (first_free_ d) (weighted_ d) (heights_ d) x (debug_mode_ d).

(** The constructor [Delaunay3d(dimension)]; [None] is the exception
    [InvalidDimension].  The two flags of the base class are set by the
    caller before [set_vertices]. *)
Definition new_Delaunay3d (dimension : Z) (do_reorder keep_infinite : bool)
  : option Delaunay3d :=
  if negb (dimension =? 3) && negb (dimension =? 4) then None
  else Some (mkDelaunay3d dimension 0 [] [] do_reorder keep_infinite 0 0
               [] [] [] END_OF_LIST (dimension =? 4) [] 0 false).

(** A method that changes the object. *)
Definition M (A : Type) : Type := Delaunay3d -> result (A * Delaunay3d).

Definition retM {A : Type} (a : A) : M A := fun d => Ok (a, d).

Definition bindM {A B : Type} (m : M A) (k : A -> M B) : M B :=
  fun d =>
    match m d with
    | Ok (a, d') => k a d'
    | Fault => Fault
    | OutOfFuel => OutOfFuel
    end.

Notation "'let*' x ':=' m 'in' k" := (bindM m (fun x => k))
  (at level 10, x pattern, m at level 100, k at level 200, only parsing).

(** A [const] method called from one that changes the object. *)
Definition const {A : Type} (f : Delaunay3d -> result A) : M A :=
  fun d => match f d with
           | Ok a => Ok (a, d)
           | Fault => Fault
           | OutOfFuel => OutOfFuel
           end.

Definition modify (f : Delaunay3d -> Delaunay3d) : M unit :=
  fun d => Ok (tt, f d).

Definition failM {A : Type} : M A := fun _ => Fault.

(* ================================================================= *)
(** ** The tetrahedron store                                           *)
(* ================================================================= *)

(** A [const double*]: into the vertex array of the object (at an offset
    counted in doubles), or to three coordinates kept by the caller. *)
Inductive double_ptr : Set :=
| in_vertices (offset : Z)
| elsewhere (p : point).

(** Modelled from the spec: [vertex_ptr] of the base class (delaunay.h is
    not among the sources) points to the coordinates of a vertex in the
    flat coordinate buffer, [dimension] doubles per vertex. *)
Definition vertex_ptr (d : Delaunay3d) (v : Z) : double_ptr :=
  in_vertices (index_t_of (dimension_ d * v)).

(** Reading [p[0]], [p[1]], [p[2]]. *)
Definition deref (d : Delaunay3d) (p : double_ptr) : result point :=
  match p with
  | in_vertices o =>
      let+ x := of_option (zth (vertices_ d) o) in
      let+ y := of_option (zth (vertices_ d) (o + 1)) in
      let+ z := of_option (zth (vertices_ d) (o + 2)) in
      Ok (mkpoint x y z)
  | elsewhere q => Ok q
  end.

Definition nb_vertices (d : Delaunay3d) : Z := nb_vertices_ d.

(** Modelled from the spec: the accessors of delaunay_3d.h, which is not
    among the sources.  A cell has 4 vertex slots and 4 neighbour slots in
    two parallel flat arrays; [cell_next_] holds one word per cell.
    [max_t] is read off [cell_next_].  From the start of [set_vertices] to
    its compaction the three stores grow together, a word and 4 + 4 slots
    at a time, so that this is also the number of cells of the two other
    stores; the compaction shrinks these two and not [cell_next_]. *)
Definition max_t (d : Delaunay3d) : Z := Z.of_nat (length (cell_next_ d)).

Definition tet_vertex (d : Delaunay3d) (t lv : Z) : result Z :=
  of_option (zth (cell_to_v_store_ d) (index_t_of (4 * t + lv))).

Definition tet_adjacent (d : Delaunay3d) (t lf : Z) : result Z :=
  of_option (zth (cell_to_cell_store_ d) (index_t_of (4 * t + lf))).

Definition set_tet_vertex (t lv v : Z) : M unit :=
  fun d =>
    let+ s := zset (cell_to_v_store_ d) (index_t_of (4 * t + lv)) v in
    Ok (tt, set_cell_to_v_store d s).

Definition set_tet_adjacent (t1 lf1 t2 : Z) : M unit :=
  fun d =>
    let+ s := zset (cell_to_cell_store_ d) (index_t_of (4 * t1 + lf1))
                   (signed_index_t_of t2) in
    Ok (tt, set_cell_to_cell_store d s).

Definition tet_next (d : Delaunay3d) (t : Z) : result Z :=
  of_option (zth (cell_next_ d) t).

Definition set_tet_next (t x : Z) : M unit :=
  fun d =>
    let+ s := zset (cell_next_ d) t x in
    Ok (tt, set_cell_next d s).

(** Modelled from the spec: a cell is on a list (the free list, or the
    conflict list of the insertion under way, which reuse the same field)
    when the flag "in no list" is absent from its [cell_next_] word; a free
    cell is a cell on a list. *)
Definition tet_is_in_list (d : Delaunay3d) (t : Z) : result bool :=
  let+ n := tet_next d t in
  Ok (Z.land n NOT_IN_LIST_BIT =? 0).

Definition tet_is_free (d : Delaunay3d) (t : Z) : result bool :=
  tet_is_in_list d t.

Definition remove_tet_from_list (t : Z) : M unit :=
  set_tet_next t NOT_IN_LIST_BIT.

(** Modelled from the spec: the mark of a cell is its [cell_next_] word
    compared against the stamp of the insertion under way; the stamp is
    made from the index of the vertex being inserted and carries the flag
    "in no list". *)
Definition set_tet_mark_stamp (stamp : Z) : M unit :=
  modify (fun d => set_cur_stamp d (Z.lor stamp NOT_IN_LIST_BIT)).

Definition tet_is_marked (d : Delaunay3d) (t : Z) : result bool :=
  let+ n := tet_next d t in
  Ok (n =? cur_stamp_ d).

Definition mark_tet (t : Z) : M unit :=
  fun d => set_tet_next t (cur_stamp_ d) d.

(** Modelled from the spec: a cell is virtual when one of its vertex slots
    is the vertex at infinity, finite otherwise, real when neither free nor
    virtual. *)
Definition tet_is_virtual (d : Delaunay3d) (t : Z) : result bool :=
  let+ v0 := tet_vertex d t 0 in
  let+ v1 := tet_vertex d t 1 in
  let+ v2 := tet_vertex d t 2 in
  let+ v3 := tet_vertex d t 3 in
  Ok ((v0 =? VERTEX_AT_INFINITY) || (v1 =? VERTEX_AT_INFINITY) ||
      (v2 =? VERTEX_AT_INFINITY) || (v3 =? VERTEX_AT_INFINITY)).

Definition tet_is_finite (d : Delaunay3d) (t : Z) : result bool :=
  let+ b := tet_is_virtual d t in Ok (negb b).

Definition tet_is_real (d : Delaunay3d) (t : Z) : result bool :=
  let+ free := tet_is_free d t in
  if free then Ok false else tet_is_finite d t.

(** Modelled from the spec: [finite_tet_vertex] returns a vertex that has
    coordinates; where the slot holds the vertex at infinity it takes the
    next slot of the cell, so that the walk never reads the coordinates of
    the vertex at infinity. *)
Definition finite_tet_vertex (d : Delaunay3d) (t lv : Z) : result Z :=
  let+ r := tet_vertex d t lv in
  if r =? VERTEX_AT_INFINITY
  then let+ r' := tet_vertex d t ((lv + 1) mod 4) in Ok (index_t_of r')
  else Ok (index_t_of r).

(** The first of the four slots [T[0..3]] that holds [x]. *)
Definition find_4 (T : Z -> result Z) (x : Z) : result Z :=
  let+ a0 := T 0 in
  if a0 =? x then Ok 0 else
  let+ a1 := T 1 in
  if a1 =? x then Ok 1 else
  let+ a2 := T 2 in
  if a2 =? x then Ok 2 else
  let+ a3 := T 3 in
  if a3 =? x then Ok 3 else Fault.

(** Modelled from the spec: the local facet of [t1] across which [t2]
    lies, and the local index of vertex [v] in [t]. *)
Definition find_tet_adjacent (d : Delaunay3d) (t1 t2_in : Z) : result Z :=
  find_4 (tet_adjacent d t1) (signed_index_t_of t2_in).

Definition find_tet_vertex (d : Delaunay3d) (t v : Z) : result Z :=
  find_4 (tet_vertex d t) v.

(** Modelled from the spec: in the primal reading of [halfedge_facet_],
    the facet of [t] that holds the two vertices [v1], [v2] and is entered
    when turning around the edge from [v1] to [v2]; [get_facets_by_halfedge]
    gives the two facets of [t] on that edge. *)
Definition get_facet_by_halfedge (d : Delaunay3d) (t v1 v2 : Z) : result Z :=
  let+ lv1 := find_tet_vertex d t v1 in
  let+ lv2 := find_tet_vertex d t v2 in
  of_option (halfedge_facet lv1 lv2).

Definition get_facets_by_halfedge (d : Delaunay3d) (t v1 v2 : Z)
  : result (Z * Z) :=
  let+ lv1 := find_tet_vertex d t v1 in
  let+ lv2 := find_tet_vertex d t v2 in
  let+ f12 := of_option (halfedge_facet lv1 lv2) in
  let+ f21 := of_option (halfedge_facet lv2 lv1) in
  Ok (f12, f21).

(** Modelled from the spec: [add_tet_to_list] chains a cell into the list
    [first .. last] through [cell_next_]: the first cell added closes the
    list, the following ones are put in front. *)
Definition add_tet_to_list (t first last : Z) : M (Z * Z) :=
  if last =? END_OF_LIST then
    let* _ := set_tet_next t END_OF_LIST in
    retM (t, t)
  else
    let* _ := set_tet_next t first in
    retM (t, last).

(** Modelled from the spec: [new_tetrahedron] "allocates from free list or
    appends; sets vertex slots; neighbor slots are left to be set by
    caller" (they read [-1] until then). *)
Definition new_tetrahedron0 : M Z :=
  fun d =>
    let+ (result, d1) :=
      (if first_free_ d =? END_OF_LIST then
         let d1 :=
           set_cell_next
             (set_cell_to_cell_store
                (set_cell_to_v_store d (cell_to_v_store_ d ++ replicate 4 (-1)))
                (cell_to_cell_store_ d ++ replicate 4 (-1)))
             (cell_next_ d ++ [NOT_IN_LIST_BIT]) in
         Ok (max_t d1 - 1, d1)
       else
         let result := first_free_ d in
         let+ n := tet_next d result in
         let+ (_, d1) := remove_tet_from_list result (set_first_free d n) in
         Ok (result, d1)) in
    let+ (_, d2) := set_tet_adjacent result 0 (-1) d1 in
    let+ (_, d3) := set_tet_adjacent result 1 (-1) d2 in
    let+ (_, d4) := set_tet_adjacent result 2 (-1) d3 in
    let+ (_, d5) := set_tet_adjacent result 3 (-1) d4 in
    Ok (result, d5).

Definition new_tetrahedron (v0 v1 v2 v3 : Z) : M Z :=
  let* result := new_tetrahedron0 in
  let* _ := set_tet_vertex result 0 v0 in
  let* _ := set_tet_vertex result 1 v1 in
  let* _ := set_tet_vertex result 2 v2 in
  let* _ := set_tet_vertex result 3 v3 in
  retM result.

(* ================================================================= *)
(** ** The first tetrahedron                                           *)
(* ================================================================= *)

(** [while(iv < nb_vertices() && cond(iv)) ++iv;] with [n] the number of
    indices from [iv] to [nb_vertices()]. *)
Fixpoint scan_while (cond : Z -> result bool) (n : nat) (iv : Z) : result Z :=
  match n with
  | O => Ok iv
  | S n' =>
      let+ b := cond iv in
      if b then scan_while cond n' (iv + 1) else Ok iv
  end.

(** The third scan also keeps the last sign computed in [s]. *)
Fixpoint scan_while_zero (ori : Z -> result Sign) (n : nat) (iv : Z) (s : Sign)
  : result (Z * Sign) :=
  match n with
  | O => Ok (iv, s)
  | S n' =>
      let+ s' := ori iv in
      if bool_decide (s' = ZERO) then scan_while_zero ori n' (iv + 1) s'
      else Ok (iv, s')
  end.

(** The three loop conditions of [create_first_tetrahedron]. *)
Definition identical_to (d : Delaunay3d) (iv0 iv1 : Z) : result bool :=
  let+ p0 := deref d (vertex_ptr d iv0) in
  let+ p1 := deref d (vertex_ptr d iv1) in
  Ok (points_are_identical p0 p1).

Definition colinear_with (d : Delaunay3d) (iv0 iv1 iv2 : Z) : result bool :=
  let+ p0 := deref d (vertex_ptr d iv0) in
  let+ p1 := deref d (vertex_ptr d iv1) in
  let+ p2 := deref d (vertex_ptr d iv2) in
  Ok (points_are_colinear p0 p1 p2).

Definition orientation_of (d : Delaunay3d) (iv0 iv1 iv2 iv3 : Z) : result Sign :=
  let+ p0 := deref d (vertex_ptr d iv0) in
  let+ p1 := deref d (vertex_ptr d iv1) in
  let+ p2 := deref d (vertex_ptr d iv2) in
  let+ p3 := deref d (vertex_ptr d iv3) in
  Ok (orient_3d p0 p1 p2 p3).

(** The three scans of [create_first_tetrahedron] and the swap that makes
    the orientation positive: the four vertex indices, or [None] where the
    function returns [false]. *)
Definition first_tetrahedron_vertices (d : Delaunay3d)
  : result (option (Z * Z * Z * Z)) :=
  if nb_vertices d <? 4 then Ok None else
  let iv0 := 0 in
  let iv1 := 1 in
  let+ iv1 :=
    scan_while (identical_to d iv0) (Z.to_nat (nb_vertices d - iv1)) iv1 in
  if iv1 =? nb_vertices d then Ok None else
  let iv2 := iv1 + 1 in
  let+ iv2 :=
    scan_while (colinear_with d iv0 iv1) (Z.to_nat (nb_vertices d - iv2)) iv2 in
  if iv2 =? nb_vertices d then Ok None else
  let iv3 := iv2 + 1 in
  let+ (iv3, s) :=
    scan_while_zero (orientation_of d iv0 iv1 iv2)
                    (Z.to_nat (nb_vertices d - iv3)) iv3 ZERO in
  if iv3 =? nb_vertices d then Ok None else
  if bool_decide (s = NEGATIVE)
  then Ok (Some (iv0, iv1, iv3, iv2))
  else Ok (Some (iv0, iv1, iv2, iv3)).

(** The same scans made along the reordered sequence, as the
    specification words them: position [i] of the scan is the vertex
    [reorder_[i]]. *)
Definition first_tetrahedron_vertices_reordered (d : Delaunay3d)
  : result (option (Z * Z * Z * Z)) :=
  let at_ (i : Z) : result Z := of_option (zth (reorder_ d) i) in
  if nb_vertices d <? 4 then Ok None else
  let i0 := 0 in
  let i1 := 1 in
  let+ v0 := at_ i0 in
  let+ i1 :=
    scan_while (fun i => let+ v := at_ i in identical_to d v0 v)
               (Z.to_nat (nb_vertices d - i1)) i1 in
  if i1 =? nb_vertices d then Ok None else
  let+ v1 := at_ i1 in
  let i2 := i1 + 1 in
  let+ i2 :=
    scan_while (fun i => let+ v := at_ i in colinear_with d v0 v1 v)
               (Z.to_nat (nb_vertices d - i2)) i2 in
  if i2 =? nb_vertices d then Ok None else
  let+ v2 := at_ i2 in
  let i3 := i2 + 1 in
  let+ (i3, s) :=
    scan_while_zero (fun i => let+ v := at_ i in orientation_of d v0 v1 v2 v)
                    (Z.to_nat (nb_vertices d - i3)) i3 ZERO in
  if i3 =? nb_vertices d then Ok None else
  let+ v3 := at_ i3 in
  if bool_decide (s = NEGATIVE)
  then Ok (Some (v0, v1, v3, v2))
  else Ok (Some (v0, v1, v2, v3)).

(** [for(f = 0; f < 4; ++f) body(f)]. *)
Definition for_4 (body : Z -> M unit) : M unit :=
  let* _ := body 0 in
  let* _ := body 1 in
  let* _ := body 2 in
  body 3.

(** The one real cell and the four virtual cells around it. *)
Definition link_first_tetrahedron (iv0 iv1 iv2 iv3 : Z) : M unit :=
  let* t0 := new_tetrahedron (signed_index_t_of iv0) (signed_index_t_of iv1)
                             (signed_index_t_of iv2) (signed_index_t_of iv3) in
  let virtual_of (f : Z) : M Z :=
    let* lv1 := const (fun _ => of_option (tet_facet_vertex f 2)) in
    let* lv2 := const (fun _ => of_option (tet_facet_vertex f 1)) in
    let* lv3 := const (fun _ => of_option (tet_facet_vertex f 0)) in
    let* v1 := const (fun d => tet_vertex d t0 lv1) in
    let* v2 := const (fun d => tet_vertex d t0 lv2) in
    let* v3 := const (fun d => tet_vertex d t0 lv3) in
    new_tetrahedron VERTEX_AT_INFINITY v1 v2 v3 in
  let* t_0 := virtual_of 0 in
  let* t_1 := virtual_of 1 in
  let* t_2 := virtual_of 2 in
  let* t_3 := virtual_of 3 in
  let t := [t_0; t_1; t_2; t_3] in
  let* _ :=
    for_4 (fun f =>
      let* tf := const (fun _ => of_option (zth t f)) in
      let* _ := set_tet_adjacent tf 0 t0 in
      set_tet_adjacent t0 f tf) in
  for_4 (fun f =>
    let* lv1 := const (fun _ => of_option (tet_facet_vertex f 2)) in
    let* lv2 := const (fun _ => of_option (tet_facet_vertex f 1)) in
    let* lv3 := const (fun _ => of_option (tet_facet_vertex f 0)) in
    let* tf := const (fun _ => of_option (zth t f)) in
    let* t1 := const (fun _ => of_option (zth t lv1)) in
    let* t2 := const (fun _ => of_option (zth t lv2)) in
    let* t3 := const (fun _ => of_option (zth t lv3)) in
    let* _ := set_tet_adjacent tf 1 t1 in
    let* _ := set_tet_adjacent tf 2 t2 in
    set_tet_adjacent tf 3 t3).

(** [create_first_tetrahedron]: [Some] of the four vertices where the C++
    returns [true] with [iv0 .. iv3] set, [None] where it returns [false]. *)
Definition create_first_tetrahedron : M (option (Z * Z * Z * Z)) :=
  let* found := const first_tetrahedron_vertices in
  match found with
  | None => retM None
  | Some (iv0, iv1, iv2, iv3) =>
      let* _ := link_first_tetrahedron iv0 iv1 iv2 iv3 in
      retM (Some (iv0, iv1, iv2, iv3))
  end.

(* ================================================================= *)
(** ** Point location                                                  *)
(* ================================================================= *)

(** One turn of a loop written with [goto]: it returns, or it goes on from
    a new state. *)
Inductive step (S R : Type) : Type :=
| Done (r : R)
| Goto (s : S).

Arguments Done {S R} r.
Arguments Goto {S R} s.

Fixpoint iterate {S R : Type} (f : S -> result (step S R)) (fuel : nat) (s : S)
  : result R :=
  match fuel with
  | O => OutOfFuel
  | S fuel' =>
      let+ x := f s in
      match x with
      | Done r => Ok r
      | Goto s' => iterate f fuel' s'
      end
  end.

(** The state reached after [n] turns, if none of them returned. *)
Fixpoint state_after {S R : Type} (f : S -> result (step S R)) (n : nat) (s : S)
  : option S :=
  match n with
  | O => Some s
  | S n' =>
      match f s with
      | Ok (Goto s') => state_after f n' s'
      | _ => None
      end
  end.

(** The array [const double* pv[4]] of the walks. *)
Definition pv_of (d : Delaunay3d) (t : Z) : result (list double_ptr) :=
  let+ v0 := finite_tet_vertex d t 0 in
  let+ v1 := finite_tet_vertex d t 1 in
  let+ v2 := finite_tet_vertex d t 2 in
  let+ v3 := finite_tet_vertex d t 3 in
  Ok [vertex_ptr d v0; vertex_ptr d v1; vertex_ptr d v2; vertex_ptr d v3].

(** A predicate called on [pv[0], pv[1], pv[2], pv[3]]. *)
Definition on_pv (d : Delaunay3d) (pred : point -> point -> point -> point -> Sign)
    (pv : list double_ptr) : result Sign :=
  let+ q0 := of_option (pv !! 0%nat) in
  let+ q1 := of_option (pv !! 1%nat) in
  let+ q2 := of_option (pv !! 2%nat) in
  let+ q3 := of_option (pv !! 3%nat) in
  let+ p0 := deref d q0 in
  let+ p1 := deref d q1 in
  let+ p2 := deref d q2 in
  let+ p3 := deref d q3 in
  Ok (pred p0 p1 p2 p3).

(** "Always start from a real tet. If the tet is virtual, find its real
    neighbor (always opposite to the infinite vertex)". *)
Definition start_from_real (d : Delaunay3d) (hint : Z) : result Z :=
  let+ virt := tet_is_virtual d hint in
  if negb virt then Ok hint else
  let+ v0 := tet_vertex d hint 0 in
  if v0 =? VERTEX_AT_INFINITY
  then let+ a := tet_adjacent d hint 0 in Ok (index_t_of a) else
  let+ v1 := tet_vertex d hint 1 in
  if v1 =? VERTEX_AT_INFINITY
  then let+ a := tet_adjacent d hint 1 in Ok (index_t_of a) else
  let+ v2 := tet_vertex d hint 2 in
  if v2 =? VERTEX_AT_INFINITY
  then let+ a := tet_adjacent d hint 2 in Ok (index_t_of a) else
  let+ v3 := tet_vertex d hint 3 in
  if v3 =? VERTEX_AT_INFINITY
  then let+ a := tet_adjacent d hint 3 in Ok (index_t_of a) else
  Ok hint.

(** The four orientation slots [Sign orient[4]]; a slot never written
    holds nothing. *)
Abbreviation orient_slots := (list (option Sign)).

Definition all_POSITIVE : orient_slots := replicate 4 (Some POSITIVE).

Section Walks.

(** The draws of [Numeric::random_int32()], in the order they are made. *)
Variable random_int32 : nat -> Z.

(** "If no hint specified, find a tetrahedron randomly": the loop draws
    until it hits a cell that is not free.  [rng] counts the draws. *)
Fixpoint random_hint (d : Delaunay3d) (fuel : nat) (hint : Z) (rng : nat)
  : result (Z * nat) :=
  if negb (hint =? NO_TETRAHEDRON) then Ok (hint, rng) else
  match fuel with
  | O => OutOfFuel
  | S fuel' =>
      if max_t d =? 0 then Fault else
      let hint' := index_t_of (random_int32 rng) mod max_t d in
      let+ free := tet_is_free d hint' in
      random_hint d fuel' (if free then NO_TETRAHEDRON else hint') (S rng)
  end.

(** *** The inexact walk *)

Record inexact_walk : Type := mk_inexact_walk {
  iw_t : Z;
  iw_t_pred : Z;
  iw_pv : list double_ptr;
  iw_f : Z;
  iw_max_iter : Z
}.

(** Arriving at the label [still_walking]. *)
Definition inexact_enter (d : Delaunay3d) (t t_pred max_iter : Z)
  : result inexact_walk :=
  let+ pv := pv_of d t in
  Ok (mk_inexact_walk t t_pred pv 0 max_iter).

(** One facet of the loop [for(f = 0; f < 4; ++f)] of [locate_inexact]. *)
Definition locate_inexact_step (d : Delaunay3d) (p : double_ptr)
    (w : inexact_walk) : result (step inexact_walk Z) :=
  let t := iw_t w in
  let f := iw_f w in
  if negb (f <? 4) then Ok (Done t) else
  let+ s_t_next := tet_adjacent d t f in
  if s_t_next =? -1 then Ok (Done NO_TETRAHEDRON) else
  let t_next := index_t_of s_t_next in
  if t_next =? iw_t_pred w then
    Ok (Goto (mk_inexact_walk t (iw_t_pred w) (iw_pv w) (f + 1) (iw_max_iter w)))
  else
  let pv' := <[Z.to_nat f := p]> (iw_pv w) in
  let+ ori := on_pv d orient_3d_inexact pv' in
  if negb (bool_decide (ori = NEGATIVE)) then
    Ok (Goto (mk_inexact_walk t (iw_t_pred w) (iw_pv w) (f + 1) (iw_max_iter w)))
  else
  let+ virt := tet_is_virtual d t_next in
  if virt then Ok (Done t_next) else
  let max_iter' := index_t_of (iw_max_iter w - 1) in
  if negb (max_iter' =? 0) then
    let+ w' := inexact_enter d t_next t max_iter' in Ok (Goto w')
  else
    Ok (Goto (mk_inexact_walk t_next t pv' (f + 1) max_iter')).

Definition locate_inexact (d : Delaunay3d) (fuel : nat) (p : double_ptr)
    (hint max_iter : Z) (rng : nat) : result (Z * nat) :=
  let+ (hint, rng) := random_hint d fuel hint rng in
  let+ hint := start_from_real d hint in
  let+ w := inexact_enter d hint NO_TETRAHEDRON max_iter in
  let+ t := iterate (locate_inexact_step d p) fuel w in
  Ok (t, rng).

(** *** The exact walk *)

Record walk : Type := mk_walk {
  w_t : Z;
  w_t_pred : Z;
  w_pv : list double_ptr;
  w_f0 : Z;
  w_df : Z;
  w_orient : orient_slots;
  w_rng : nat
}.

(** Arriving at the label [still_walking]: the four vertices are looked up
    and the first facet is drawn. *)
Definition walk_enter (d : Delaunay3d) (t t_pred : Z) (orient : orient_slots)
    (rng : nat) : result walk :=
  let+ pv := pv_of d t in
  let f0 := index_t_of (random_int32 rng) mod 4 in
  Ok (mk_walk t t_pred pv f0 0 orient (S rng)).

(** The facet examined in state [w]. *)
Definition w_f (w : walk) : Z := (w_f0 w + w_df w) mod 4.

(** One facet of the loop [for(df = 0; df < 4; ++df)] of [locate].  The
    predicate is a parameter: [locate] runs it with [orient_3d]. *)
Definition locate_step_with (pred : point -> point -> point -> point -> Sign)
    (d : Delaunay3d) (p : double_ptr) (w : walk)
  : result (step walk (Z * orient_slots * nat)) :=
  let t := w_t w in
  if negb (w_df w <? 4) then Ok (Done (t, w_orient w, w_rng w)) else
  let f := w_f w in
  let+ s_t_next := tet_adjacent d t f in
  if s_t_next =? -1 then Ok (Done (NO_TETRAHEDRON, w_orient w, w_rng w)) else
  let t_next := index_t_of s_t_next in
  if t_next =? w_t_pred w then
    Ok (Goto (mk_walk t (w_t_pred w) (w_pv w) (w_f0 w) (w_df w + 1)
                      (<[Z.to_nat f := Some POSITIVE]> (w_orient w)) (w_rng w)))
  else
  let pv' := <[Z.to_nat f := p]> (w_pv w) in
  let+ ori := on_pv d pred pv' in
  let orient' := <[Z.to_nat f := Some ori]> (w_orient w) in
  if negb (bool_decide (ori = NEGATIVE)) then
    Ok (Goto (mk_walk t (w_t_pred w) (w_pv w) (w_f0 w) (w_df w + 1)
                      orient' (w_rng w)))
  else
  let+ virt := tet_is_virtual d t_next in
  if virt then Ok (Done (t_next, all_POSITIVE, w_rng w)) else
  let+ w' := walk_enter d t_next t orient' (w_rng w) in
  Ok (Goto w').

Definition locate_step := locate_step_with orient_3d.

(** Where the walk of [locate] starts: after the inexact walk (at most
    2500 cells, as long as the counter has not wrapped), the draw of a
    hint where there is none, and the move to a real cell. *)
Definition locate_start (d : Delaunay3d) (fuel : nat) (p : double_ptr)
    (hint : Z) (orient : orient_slots) (rng : nat) : result walk :=
  let+ (hint, rng) := locate_inexact d fuel p hint 2500 rng in
  let+ (hint, rng) := random_hint d fuel hint rng in
  let+ hint := start_from_real d hint in
  walk_enter d hint NO_TETRAHEDRON orient rng.

(** [locate(p, hint, thread_safe, orient)]: the cell, the four orientation
    slots and the number of draws made.  The spinlock taken around the
    walk when [thread_safe] is set has no effect on the result and is left
    out.  A caller that passes no [orient] gets a local array: four empty
    slots. *)
Definition locate (d : Delaunay3d) (fuel : nat) (p : double_ptr) (hint : Z)
    (orient : orient_slots) (rng : nat) : result (Z * orient_slots * nat) :=
  let+ w := locate_start d fuel p hint orient rng in
  iterate (locate_step d p) fuel w.

End Walks.

(* ================================================================= *)
(** ** Insertion                                                       *)
(* ================================================================= *)

(** The four references [t_bndry], [f_bndry], [first], [last] that
    [find_conflict_zone] fills.  [insert] declares the first two without a
    value: they hold nothing until the flood fill meets the boundary. *)
Record zone : Type := mk_zone {
  z_bndry : option (Z * Z);
  z_first : Z;
  z_last : Z
}.

Definition outOfFuelM {A : Type} : M A := fun _ => OutOfFuel.

Section Construction.

Variable random_int32 : nat -> Z.

(** Modelled from the spec: the conflict predicate [tet_is_conflict(t, p)]
    of delaunay_3d.h, "Delaunay in-sphere / regular-triangulation test",
    which rests on the exact predicates with symbolic perturbation.  It is
    a [const] method: a function of the object, the cell and the point. *)
Variable tet_is_conflict : Delaunay3d -> Z -> double_ptr -> result bool.

(** [compute_BRIO_order]: the spatial sort, an external collaborator. *)
Variable compute_BRIO_order : Z -> list float -> list Z.

Definition chain (t : Z) (z : zone) : M zone :=
  let* (first, last) := add_tet_to_list t (z_first z) (z_last z) in
  retM (mk_zone (z_bndry z) first last).

(** [find_conflict_zone_recursive]. *)
Fixpoint find_conflict_zone_recursive (fuel : nat) (p : double_ptr) (t : Z)
    (z : zone) : M zone :=
  match fuel with
  | O => outOfFuelM
  | S fuel' =>
      let body (lf : Z) (z : zone) : M zone :=
        let* a := const (fun d => tet_adjacent d t lf) in
        let t2 := index_t_of a in
        let* in_list := const (fun d => tet_is_in_list d t2) in
        if in_list then retM z else
        let* marked := const (fun d => tet_is_marked d t2) in
        if marked then retM z else
        let* conflict := const (fun d => tet_is_conflict d t2 p) in
        if conflict then
          let* z := chain t2 z in
          find_conflict_zone_recursive fuel' p t2 z
        else
          let* _ := mark_tet t2 in
          retM (mk_zone (Some (t, lf)) (z_first z) (z_last z)) in
      let* z := body 0 z in
      let* z := body 1 z in
      let* z := body 2 z in
      body 3 z
  end.

Definition read_slot (orient : orient_slots) (i : nat) : result Sign :=
  match orient !! i with
  | Some (Some s) => Ok s
  | _ => Fault
  end.

(** [find_conflict_zone]; [bndry] is what [t_bndry], [f_bndry] held at the
    call. *)
Definition find_conflict_zone (fuel : nat) (v t : Z) (orient : orient_slots)
    (bndry : option (Z * Z)) : M zone :=
  let z := mk_zone bndry END_OF_LIST END_OF_LIST in
  let* _ := set_tet_mark_stamp v in
  let* p := const (fun d => Ok (vertex_ptr d v)) in
  let* o0 := const (fun _ => read_slot orient 0) in
  let* o1 := const (fun _ => read_slot orient 1) in
  let* o2 := const (fun _ => read_slot orient 2) in
  let* o3 := const (fun _ => read_slot orient 3) in
  let nb_zero :=
    is_zero_sign o0 + is_zero_sign o1 + is_zero_sign o2 + is_zero_sign o3 in
  if nb_zero >=? 3 then retM z else
  let* weighted := const (fun d => Ok (weighted_ d)) in
  let* dangling :=
    (if weighted
     then let* c := const (fun d => tet_is_conflict d t p) in retM (negb c)
     else retM false) in
  if dangling then retM z else
  let* z := chain t z in
  let* z :=
    (if negb weighted && negb (nb_zero =? 0) then
       let seed (o : Sign) (lf : Z) (z : zone) : M zone :=
         if bool_decide (o = ZERO) then
           let* a := const (fun d => tet_adjacent d t lf) in
           chain (index_t_of a) z
         else retM z in
       let grow (o : Sign) (lf : Z) (z : zone) : M zone :=
         if bool_decide (o = ZERO) then
           let* a := const (fun d => tet_adjacent d t lf) in
           find_conflict_zone_recursive fuel p (index_t_of a) z
         else retM z in
       let* z := seed o0 0 z in
       let* z := seed o1 1 z in
       let* z := seed o2 2 z in
       let* z := seed o3 3 z in
       let* z := grow o0 0 z in
       let* z := grow o1 1 z in
       let* z := grow o2 2 z in
       grow o3 3 z
     else retM z) in
  find_conflict_zone_recursive fuel p t z.

(** "Turn around edge [ev1,ev2] inside the conflict zone until we reach
    again the boundary of the conflict zone". *)
Fixpoint turn_around (fuel : nat) (d : Delaunay3d) (ev1 ev2 cur_t cur_f next_t : Z)
  : result (Z * Z * Z) :=
  match fuel with
  | O => OutOfFuel
  | S fuel' =>
      let+ inside := tet_is_in_list d next_t in
      if inside then
        let cur_t := next_t in
        let+ cur_f := get_facet_by_halfedge d cur_t ev1 ev2 in
        let+ a := tet_adjacent d cur_t cur_f in
        turn_around fuel' d ev1 ev2 cur_t cur_f (index_t_of a)
      else Ok (cur_t, cur_f, next_t)
  end.

(** [stellate_conflict_zone(v_in, t1, f1, prev_f)]. *)
Fixpoint stellate_conflict_zone (fuel : nat) (v_in t1 f1 prev_f : Z) : M Z :=
  match fuel with
  | O => outOfFuelM
  | S fuel' =>
      let v := signed_index_t_of v_in in
      let* a0 := const (fun d => tet_vertex d t1 0) in
      let* a1 := const (fun d => tet_vertex d t1 1) in
      let* a2 := const (fun d => tet_vertex d t1 2) in
      let* a3 := const (fun d => tet_vertex d t1 3) in
      let* new_t := new_tetrahedron a0 a1 a2 a3 in
      let* _ := set_tet_vertex new_t f1 v in
      let* a := const (fun d => tet_adjacent d t1 f1) in
      let t2 := index_t_of a in
      let* _ := set_tet_adjacent new_t f1 t2 in
      let* back := const (fun d => find_tet_adjacent d t2 t1) in
      let* _ := set_tet_adjacent t2 back new_t in
      let* _ :=
        for_4 (fun new_f =>
          let* skip :=
            (if new_f =? prev_f then retM true else
             let* a := const (fun d => tet_adjacent d new_t new_f) in
             retM (negb (a =? -1))) in
          if skip then retM tt else
          let* e1 := const (fun _ => of_option (halfedge_facet new_f f1)) in
          let* e2 := const (fun _ => of_option (halfedge_facet f1 new_f)) in
          let* ev1 := const (fun d => tet_vertex d t1 e1) in
          let* ev2 := const (fun d => tet_vertex d t1 e2) in
          let* a := const (fun d => tet_adjacent d t1 new_f) in
          let* (cur, next_t) :=
            const (fun d => turn_around fuel' d ev1 ev2 t1 new_f (index_t_of a)) in
          let (cur_t, cur_f) := cur in
          let* (f12, f21) :=
            const (fun d => get_facets_by_halfedge d next_t ev1 ev2) in
          let* a := const (fun d => tet_adjacent d next_t f21) in
          let t_neigh := index_t_of a in
          let* v_neigh_opposite := const (fun d => tet_vertex d next_t f12) in
          let* v_neigh_index :=
            const (fun d => find_tet_vertex d t_neigh v_neigh_opposite) in
          let* t_neigh :=
            (if t_neigh =? cur_t
             then stellate_conflict_zone fuel' v_in t_neigh cur_f v_neigh_index
             else retM t_neigh) in
          let* _ := set_tet_adjacent t_neigh v_neigh_index new_t in
          set_tet_adjacent new_t new_f t_neigh) in
      retM new_t
  end.

(** Modelled from the spec: the default of the last parameter of
    [stellate_conflict_zone] in delaunay_3d.h, no facet. *)
Definition no_prev_f : Z := index_t_of (-1).

(** [insert(v, hint)]: the hint for the next insertion and the number of
    random draws made so far. *)
Definition insert (fuel : nat) (v hint : Z) (rng : nat) : M (Z * nat) :=
  let* p := const (fun d => Ok (vertex_ptr d v)) in
  let orient : orient_slots := replicate 4 None in
  let* (located, rng) :=
    const (fun d => locate random_int32 d fuel p hint orient rng) in
  let (t, orient) := located in
  let* z := find_conflict_zone fuel v t orient None in
  if z_first z =? END_OF_LIST then retM (NO_TETRAHEDRON, rng) else
  let* (t_bndry, f_bndry) := const (fun _ => of_option (z_bndry z)) in
  let* new_tet := stellate_conflict_zone fuel v t_bndry f_bndry no_prev_f in
  let* first_free := const (fun d => Ok (first_free_ d)) in
  let* _ := set_tet_next (z_last z) first_free in
  let* _ := modify (fun d => set_first_free d (z_first z)) in
  retM (new_tet, rng).

(** *** The self-checks *)

(** [check_combinatorics]: the value of [ok] when [geo_assert(ok)] is
    reached.  The first part of the body of the loop on the cells, on a
    cell that is not free: the four neighbours and the count of the
    vertices at infinity. *)
Definition tet_combinatorics_ok (d : Delaunay3d) (t : Z) : result bool :=
  let+ free := tet_is_free d t in
  if free then Ok true else
  let facet_ok (lf : Z) : result bool :=
    let+ a := tet_adjacent d t lf in
    if a =? -1 then Ok false
    else if a =? signed_index_t_of t then Ok false
    else
      let t2 := index_t_of a in
      let+ b0 := tet_adjacent d t2 0 in
      let+ b1 := tet_adjacent d t2 1 in
      let+ b2 := tet_adjacent d t2 2 in
      let+ b3 := tet_adjacent d t2 3 in
      let s := signed_index_t_of t in
      Ok ((b0 =? s) || (b1 =? s) || (b2 =? s) || (b3 =? s)) in
  let+ ok0 := facet_ok 0 in
  let+ ok1 := facet_ok 1 in
  let+ ok2 := facet_ok 2 in
  let+ ok3 := facet_ok 3 in
  let+ v0 := tet_vertex d t 0 in
  let+ v1 := tet_vertex d t 1 in
  let+ v2 := tet_vertex d t 2 in
  let+ v3 := tet_vertex d t 3 in
  let inf (v : Z) : Z := if v =? -1 then 1 else 0 in
  let nb_infinite := inf v0 + inf v1 + inf v2 + inf v3 in
  Ok (ok0 && ok1 && ok2 && ok3 && negb (nb_infinite >? 1)).

(** [if(v >= 0) v_has_tet[index_t(v)] = true]: a write that the code does
    not guard, into a table of [nb_vertices()] flags. *)
Definition mark_vertex (v : Z) (v_has_tet : list bool) : result (list bool) :=
  if v >=? 0 then zset v_has_tet (index_t_of v) true else Ok v_has_tet.

(** The body of the loop on the cells, on [ok] and [v_has_tet]: the checks
    of a cell that is not free, then the marks of the four vertex slots of
    the cell, free or not. *)
Definition check_combinatorics_tet (d : Delaunay3d) (t : Z)
    (state : bool * list bool) : result (bool * list bool) :=
  let+ b := tet_combinatorics_ok d t in
  let+ v0 := tet_vertex d t 0 in
  let+ h := mark_vertex v0 (snd state) in
  let+ v1 := tet_vertex d t 1 in
  let+ h := mark_vertex v1 h in
  let+ v2 := tet_vertex d t 2 in
  let+ h := mark_vertex v2 h in
  let+ v3 := tet_vertex d t 3 in
  let+ h := mark_vertex v3 h in
  Ok (fst state && b, h).

Fixpoint check_combinatorics_loop (d : Delaunay3d) (l : list Z)
    (state : bool * list bool) : result (bool * list bool) :=
  match l with
  | [] => Ok state
  | t :: l' =>
      let+ state := check_combinatorics_tet d t state in
      check_combinatorics_loop d l' state
  end.

(** The last loop, which reads [v_has_tet[v]] for every vertex (and prints
    the isolated ones when [verbose] is set). *)
Fixpoint isolated_vertices_loop (v_has_tet : list bool) (n : nat) (v : Z)
  : result unit :=
  match n with
  | O => Ok tt
  | S n' =>
      let+ _ := of_option (zth v_has_tet v) in
      isolated_vertices_loop v_has_tet n' (v + 1)
  end.

Definition check_combinatorics (d : Delaunay3d) : result bool :=
  let v_has_tet := replicate (Z.to_nat (nb_vertices d)) false in
  let+ state := check_combinatorics_loop d (seqZ 0 (max_t d)) (true, v_has_tet) in
  let+ _ := isolated_vertices_loop (snd state) (Z.to_nat (nb_vertices d)) 0 in
  Ok (fst state).

(** The vertex slots of cell [t] can be read, and each holds a vertex
    below [n] or a negative value: what the marks of [check_combinatorics]
    need in a table of [n] flags. *)
Definition vertex_slots_below (d : Delaunay3d) (n t : Z) : Prop :=
  forall lv : Z, 0 <= lv < 4 ->
    exists v : Z, tet_vertex d t lv = Ok v /\ (v < 0 \/ index_t_of v < n).

Fixpoint all_ok (check : Z -> result bool) (l : list Z) : result bool :=
  match l with
  | [] => Ok true
  | t :: l' =>
      let+ b := check t in
      let+ r := all_ok check l' in
      Ok (b && r)
  end.

(** The statement of adjacency symmetry on the first [n] cells of the
    stores, free or not: a neighbour slot that holds a cell index below [n]
    holds a cell other than the cell itself, which has the cell in one of
    its own slots. *)
Definition links_back (d : Delaunay3d) (n t : Z) : result bool :=
  let facet_ok (f : Z) : result bool :=
    let+ a := tet_adjacent d t f in
    if (0 <=? a) && (a <? n) then
      let+ b0 := tet_adjacent d a 0 in
      let+ b1 := tet_adjacent d a 1 in
      let+ b2 := tet_adjacent d a 2 in
      let+ b3 := tet_adjacent d a 3 in
      Ok (negb (a =? t) && ((b0 =? t) || (b1 =? t) || (b2 =? t) || (b3 =? t)))
    else Ok true in
  let+ ok0 := facet_ok 0 in
  let+ ok1 := facet_ok 1 in
  let+ ok2 := facet_ok 2 in
  let+ ok3 := facet_ok 3 in
  Ok (ok0 && ok1 && ok2 && ok3).

(** [check_geometry]: no cell in use is in conflict with a vertex that is
    not one of its four. *)
Definition check_geometry_tet (d : Delaunay3d) (t : Z) : result bool :=
  let+ free := tet_is_free d t in
  if free then Ok true else
  let+ v0 := tet_vertex d t 0 in
  let+ v1 := tet_vertex d t 1 in
  let+ v2 := tet_vertex d t 2 in
  let+ v3 := tet_vertex d t 3 in
  all_ok (fun v =>
            let sv := signed_index_t_of v in
            if (sv =? v0) || (sv =? v1) || (sv =? v2) || (sv =? v3)
            then Ok true
            else let+ c := tet_is_conflict d t (vertex_ptr d v) in Ok (negb c))
         (seqZ 0 (nb_vertices d)).

Definition check_geometry (d : Delaunay3d) : result bool :=
  all_ok (check_geometry_tet d) (seqZ 0 (max_t d)).

(** *** Compression of the stores *)

(** [Memory::copy] of the four slots of cell [from] onto those of [to]. *)
Definition copy_cell (store : list Z) (to from : Z) : result (list Z) :=
  let+ a0 := of_option (zth store (index_t_of (from * 4))) in
  let+ a1 := of_option (zth store (index_t_of (from * 4) + 1)) in
  let+ a2 := of_option (zth store (index_t_of (from * 4) + 2)) in
  let+ a3 := of_option (zth store (index_t_of (from * 4) + 3)) in
  let+ s := zset store (index_t_of (to * 4)) a0 in
  let+ s := zset s (index_t_of (to * 4) + 1) a1 in
  let+ s := zset s (index_t_of (to * 4) + 2) a2 in
  zset s (index_t_of (to * 4) + 3) a3.

(** The first loop: the cells kept move down, [cell_next_] becomes
    [old2new].  [n] cells are left to visit from [t]. *)
Fixpoint compress_loop (n : nat) (t nb_tets nb_tets_to_delete : Z) : M (Z * Z) :=
  match n with
  | O => retM (nb_tets, nb_tets_to_delete)
  | S n' =>
      let* keep_infinite := const (fun d => Ok (keep_infinite_ d)) in
      let* free := const (fun d => tet_is_free d t) in
      let* keep :=
        (if keep_infinite && negb free then retM true
         else const (fun d => tet_is_real d t)) in
      if keep then
        let* _ :=
          (if negb (t =? nb_tets) then
             fun d =>
               let+ sv := copy_cell (cell_to_v_store_ d) nb_tets t in
               let+ sc := copy_cell (cell_to_cell_store_ d) nb_tets t in
               Ok (tt, set_cell_to_cell_store (set_cell_to_v_store d sv) sc)
           else retM tt) in
        let* _ := set_tet_next t nb_tets in
        compress_loop n' (t + 1) (nb_tets + 1) nb_tets_to_delete
      else
        let* _ := set_tet_next t (index_t_of (-1)) in
        compress_loop n' (t + 1) nb_tets (nb_tets_to_delete + 1)
  end.

(** The loop that sends every neighbour slot through [old2new]. *)
Fixpoint remap_loop (n : nat) (i : Z) : M unit :=
  match n with
  | O => retM tt
  | S n' =>
      let* t := const (fun d => of_option (zth (cell_to_cell_store_ d) i)) in
      let* t' := const (fun d => of_option (zth (cell_next_ d) t)) in
      let* _ :=
        (fun d =>
           let+ s := zset (cell_to_cell_store_ d) i (signed_index_t_of t') in
           Ok (tt, set_cell_to_cell_store d s)) in
      remap_loop n' (i + 1)
  end.

(** [while(tet_is_finite(finite_ptr))] and [while(!tet_is_finite(infinite_ptr))]. *)
Fixpoint advance_finite (fuel : nat) (finite_ptr : Z) : M Z :=
  match fuel with
  | O => outOfFuelM
  | S fuel' =>
      let* fin := const (fun d => tet_is_finite d finite_ptr) in
      if fin then
        let* _ := set_tet_next finite_ptr finite_ptr in
        let* _ := modify (fun d => set_nb_finite_cells d
                                     (index_t_of (nb_finite_cells_ d + 1))) in
        advance_finite fuel' (index_t_of (finite_ptr + 1))
      else retM finite_ptr
  end.

Fixpoint retreat_infinite (fuel : nat) (infinite_ptr : Z) : M Z :=
  match fuel with
  | O => outOfFuelM
  | S fuel' =>
      let* fin := const (fun d => tet_is_finite d infinite_ptr) in
      if negb fin then
        let* _ := set_tet_next infinite_ptr infinite_ptr in
        retreat_infinite fuel' (index_t_of (infinite_ptr - 1))
      else retM infinite_ptr
  end.

Definition swap_cells (store : list Z) (a b : Z) : result (list Z) :=
  let swap1 (l : Z) (s : list Z) : result (list Z) :=
    let+ x := of_option (zth s (index_t_of (4 * a + l))) in
    let+ y := of_option (zth s (index_t_of (4 * b + l))) in
    let+ s := zset s (index_t_of (4 * a + l)) y in
    zset s (index_t_of (4 * b + l)) x in
  let+ s := swap1 0 store in
  let+ s := swap1 1 s in
  let+ s := swap1 2 s in
  swap1 3 s.

(** The loop [for(;;)] that moves the finite cells before the others. *)
Fixpoint partition_loop (fuel : nat) (finite_ptr infinite_ptr : Z) : M unit :=
  match fuel with
  | O => outOfFuelM
  | S fuel' =>
      let* finite_ptr := advance_finite fuel' finite_ptr in
      let* infinite_ptr := retreat_infinite fuel' infinite_ptr in
      if finite_ptr >? infinite_ptr then retM tt else
      let* _ := set_tet_next finite_ptr infinite_ptr in
      let* _ := set_tet_next infinite_ptr finite_ptr in
      let* _ := modify (fun d => set_nb_finite_cells d
                                   (index_t_of (nb_finite_cells_ d + 1))) in
      let* _ :=
        (fun d =>
           let+ sc := swap_cells (cell_to_cell_store_ d) finite_ptr infinite_ptr in
           let+ sv := swap_cells (cell_to_v_store_ d) finite_ptr infinite_ptr in
           Ok (tt, set_cell_to_v_store (set_cell_to_cell_store d sc) sv)) in
      partition_loop fuel' (index_t_of (finite_ptr + 1))
                     (index_t_of (infinite_ptr - 1))
  end.

(** The end of [set_vertices], from "Compress cell_to_v_store_ and
    cell_to_cell_store_" to [set_arrays]. *)
Definition compress (fuel : nat) : M unit :=
  let* n := const (fun d => Ok (max_t d)) in
  let* (nb_tets, _) := compress_loop (Z.to_nat n) 0 0 0 in
  let* _ := modify (fun d =>
              set_cell_to_cell_store
                (set_cell_to_v_store d
                   (vector_resize (cell_to_v_store_ d) (4 * nb_tets) 0))
                (vector_resize (cell_to_cell_store_ d) (4 * nb_tets) 0)) in
  let* _ := remap_loop (Z.to_nat (4 * nb_tets)) 0 in
  let* keep_infinite := const (fun d => Ok (keep_infinite_ d)) in
  let* _ :=
    (if keep_infinite then
       let* _ := modify (fun d => set_nb_finite_cells d 0) in
       let* _ := partition_loop fuel 0 (index_t_of (nb_tets - 1)) in
       remap_loop (Z.to_nat (4 * nb_tets)) 0
     else retM tt) in
  modify (fun d => set_nb_cells d nb_tets).

(** *** The driver *)

(** [progressCallback && !progressCallback(i, n)]. *)
Definition aborts (progressCallback : option (Z -> Z -> bool)) (i n : Z) : bool :=
  match progressCallback with
  | Some f => negb (f i n)
  | None => false
  end.

(** The loop "Insert all the vertices incrementally"; [false] when the
    callback aborts. *)
Fixpoint insert_loop (fuel : nat) (progressCallback : option (Z -> Z -> bool))
    (nb_vertices v0 v1 v2 v3 : Z) (n : nat) (i hint : Z) (rng : nat)
  : M (bool * nat) :=
  match n with
  | O => retM (true, rng)
  | S n' =>
      if aborts progressCallback i nb_vertices then retM (false, rng) else
      let* v := const (fun d => of_option (zth (reorder_ d) i)) in
      if negb (v =? v0) && negb (v =? v1) && negb (v =? v2) && negb (v =? v3)
      then
        let* (new_hint, rng) := insert fuel v hint rng in
        let hint := if negb (new_hint =? NO_TETRAHEDRON) then new_hint else hint in
        insert_loop fuel progressCallback nb_vertices v0 v1 v2 v3 n' (i + 1) hint rng
      else
        insert_loop fuel progressCallback nb_vertices v0 v1 v2 v3 n' (i + 1) hint rng
  end.

(** [set_vertices(nb_vertices, vertices, progressCallback)]: the boolean
    returned, and the number of random draws made. *)
Definition set_vertices (fuel : nat) (nb_vertices : Z) (vertices : list float)
    (progressCallback : option (Z -> Z -> bool)) (rng : nat) : M (bool * nat) :=
  let* _ := modify (fun d => set_cur_stamp d 0) in
  let* weighted := const (fun d => Ok (weighted_ d)) in
  let* _ :=
    (if weighted then
       let* h := const (fun d =>
                   of_option (compute_heights (heights_ d) nb_vertices vertices)) in
       modify (fun d => set_heights d h)
     else retM tt) in
  let* _ := modify (fun d => set_vertex_array d nb_vertices vertices) in
  let* _ := modify (fun d =>
              set_first_free
                (set_cell_next
                   (set_cell_to_cell_store (set_cell_to_v_store d []) []) [])
                END_OF_LIST) in
  let* do_reorder := const (fun d => Ok (do_reorder_ d)) in
  let* _ := modify (fun d =>
              set_reorder d
                (if do_reorder then compute_BRIO_order nb_vertices vertices
                 else seqZ 0 nb_vertices)) in
  if aborts progressCallback 0 0 then retM (false, rng) else
  let* first := create_first_tetrahedron in
  match first with
  | None => retM (true, rng)
  | Some (v0, v1, v2, v3) =>
      let* (completed, rng) :=
        insert_loop fuel progressCallback nb_vertices v0 v1 v2 v3
                    (Z.to_nat nb_vertices) 0 NO_TETRAHEDRON rng in
      if negb completed then retM (false, rng) else
      let* debug := const (fun d => Ok (debug_mode_ d)) in
      let* _ :=
        (if debug then
           let* ok := const check_combinatorics in
           if negb ok then failM else
           let* ok := const check_geometry in
           if negb ok then failM else retM tt
         else retM tt) in
      let* _ := compress fuel in
      retM (true, rng)
  end.

End Construction.

(* ================================================================= *)
(** ** An instance of the conflict predicate                           *)
(* ================================================================= *)

(** The determinant of the four rows [(x_i - x, h_i - h)]: the side of
    the lifted point [(x, h)] with respect to the hyperplane through the
    four lifted points [(x_i, h_i)]. *)
Definition lifted_det (x0 x1 x2 x3 x : Q3) (h0 h1 h2 h3 h : Q) : Q :=
  let '(a0, a1, a2) := Q3_sub x0 x in
  let '(b0, b1, b2) := Q3_sub x1 x in
  let '(c0, c1, c2) := Q3_sub x2 x in
  let '(d0, d1, d2) := Q3_sub x3 x in
  let a3 := (h0 - h)%Q in
  let b3 := (h1 - h)%Q in
  let c3 := (h2 - h)%Q in
  let d3 := (h3 - h)%Q in
  (a3 * det3x3_Q b0 b1 b2 c0 c1 c2 d0 d1 d2
   - b3 * det3x3_Q a0 a1 a2 c0 c1 c2 d0 d1 d2
   + c3 * det3x3_Q a0 a1 a2 b0 b1 b2 d0 d1 d2
   - d3 * det3x3_Q a0 a1 a2 b0 b1 b2 c0 c1 c2)%Q.

Definition norm2 (x : Q3) : Q := dot x x.

(** The point [x] is strictly below the lifted hyperplane of the cell
    (strictly inside its circumsphere when the heights are the squared
    norms), whatever the orientation of the cell. *)
Definition strictly_below (x0 x1 x2 x3 x : Q3) (h0 h1 h2 h3 h : Q) : bool :=
  bool_decide
    (sgnQ (lifted_det x0 x1 x2 x3 x h0 h1 h2 h3 h * orient_det x0 x1 x2 x3)
     = POSITIVE).

(** An instance of [tet_is_conflict] without symbolic perturbation: a
    finite cell is in conflict with the points strictly inside its
    circumsphere (strictly below its lifted hyperplane in weighted mode); a
    virtual cell with the points strictly beyond its hull facet and, for a
    point in the plane of that facet, when the real cell behind the facet
    is. *)
Definition tet_is_conflict_exact (d : Delaunay3d) (t : Z) (p : double_ptr)
  : result bool :=
  let+ x := deref d p in
  let finite_conflict (t : Z) : result bool :=
    let+ v0 := tet_vertex d t 0 in
    let+ v1 := tet_vertex d t 1 in
    let+ v2 := tet_vertex d t 2 in
    let+ v3 := tet_vertex d t 3 in
    let+ p0 := deref d (vertex_ptr d v0) in
    let+ p1 := deref d (vertex_ptr d v1) in
    let+ p2 := deref d (vertex_ptr d v2) in
    let+ p3 := deref d (vertex_ptr d v3) in
    if weighted_ d then
      let+ h0 := of_option (zth (heights_ d) v0) in
      let+ h1 := of_option (zth (heights_ d) v1) in
      let+ h2 := of_option (zth (heights_ d) v2) in
      let+ h3 := of_option (zth (heights_ d) v3) in
      let+ h :=
        match p with
        | in_vertices o => of_option (zth (heights_ d) (o / 4))
        | elsewhere _ => Fault
        end in
      Ok (strictly_below (pos p0) (pos p1) (pos p2) (pos p3) (pos x)
            (value h0) (value h1) (value h2) (value h3) (value h))
    else
      Ok (strictly_below (pos p0) (pos p1) (pos p2) (pos p3) (pos x)
            (norm2 (pos p0)) (norm2 (pos p1)) (norm2 (pos p2))
            (norm2 (pos p3)) (norm2 (pos x))) in
  let hull_conflict (lf : Z) : result bool :=
    let+ pv := pv_of d t in
    let+ s := on_pv d orient_3d (<[Z.to_nat lf := elsewhere x]> pv) in
    match s with
    | POSITIVE => Ok true
    | NEGATIVE => Ok false
    | ZERO =>
        let+ a := tet_adjacent d t lf in
        let t2 := index_t_of a in
        let+ in_list := tet_is_in_list d t2 in
        if in_list then Ok true else
        let+ marked := tet_is_marked d t2 in
        if marked then Ok false else finite_conflict t2
    end in
  let+ v0 := tet_vertex d t 0 in
  if v0 =? VERTEX_AT_INFINITY then hull_conflict 0 else
  let+ v1 := tet_vertex d t 1 in
  if v1 =? VERTEX_AT_INFINITY then hull_conflict 1 else
  let+ v2 := tet_vertex d t 2 in
  if v2 =? VERTEX_AT_INFINITY then hull_conflict 2 else
  let+ v3 := tet_vertex d t 3 in
  if v3 =? VERTEX_AT_INFINITY then hull_conflict 3 else
  finite_conflict t.

(* ================================================================= *)
(** ** What point location reports                                     *)
(* ================================================================= *)




(** A mesh whose infinite cells were stripped: one real cell on the four
    points below, no neighbour. *)
Definition corner_points : list float :=
  [0; 0; 0;  1; 0; 0;  0; 1; 0;  0; 0; 1]%float.

Definition stripped_mesh : Delaunay3d :=
  mkDelaunay3d 3 4 corner_points [0; 1; 2; 3] false false 1 0
    [0; 1; 2; 3] [-1; -1; -1; -1] [NOT_IN_LIST_BIT]
    END_OF_LIST false [] 0 false.

(** A source of random numbers for the examples. *)
Definition sample_random (k : nat) : Z := 7 * Z.of_nat k + 3.


(** The mesh of the four corner points while it is built: the real cell
    and the four virtual cells around it. *)
Definition first_mesh : Delaunay3d :=
  mkDelaunay3d 3 4 corner_points [0; 1; 2; 3] false false 0 0
    [0; 1; 2; 3;  -1; 3; 2; 1;  -1; 2; 3; 0;  -1; 1; 0; 3;  -1; 2; 0; 1]
    [1; 2; 3; 4;  0; 4; 3; 2;  0; 3; 4; 1;  0; 2; 1; 4;  0; 3; 1; 2]
    (replicate 5 NOT_IN_LIST_BIT)
    END_OF_LIST false [] 0 false.

Definition outer_point : point := mkpoint 5 5 5.


(** Five points, the four corners and [(1, 1, 1)], before the first
    tetrahedron is made; the spatial sort has put the last point first. *)
Definition five_points : list float := corner_points ++ [1; 1; 1]%float.

Definition unbuilt_mesh : Delaunay3d :=
  mkDelaunay3d 3 5 five_points [4; 0; 1; 2; 3] true false 0 0
    [] [] [] END_OF_LIST false [] 0 false.

(** The same once [create_first_tetrahedron] has run. *)
Definition five_points_first_mesh : Delaunay3d :=
  mkDelaunay3d 3 5 five_points [4; 0; 1; 2; 3] true false 0 0
    [0; 1; 2; 3;  -1; 3; 2; 1;  -1; 2; 3; 0;  -1; 1; 0; 3;  -1; 2; 0; 1]
    [1; 2; 3; 4;  0; 4; 3; 2;  0; 3; 4; 1;  0; 2; 1; 4;  0; 3; 1; 2]
    (replicate 5 NOT_IN_LIST_BIT)
    END_OF_LIST false [] 0 false.

(* ================================================================= *)
(** ** Degenerate inputs                                               *)
(* ================================================================= *)

(** The exact value of the [k]-th double of the coordinate buffer. *)
Definition coordinate (vertices : list float) (k : Z) : Q :=
  match zth vertices k with
  | Some x => value x
  | None => 0%Q
  end.

(** The position of vertex [i] in a buffer of [dim] doubles per vertex. *)
Definition input_point (dim : Z) (vertices : list float) (i : Z) : Q3 :=
  (coordinate vertices (dim * i),
   coordinate vertices (dim * i + 1),
   coordinate vertices (dim * i + 2)).

Definition input_points (dim nb_vertices : Z) (vertices : list float) : list Q3 :=
  map (input_point dim vertices) (seqZ 0 nb_vertices).

(** All the points are one point; all the points are on one line. *)
Definition all_identical (ps : list Q3) : Prop :=
  exists a : Q3, Forall (fun x => Q3_eq x a) ps.

Definition all_collinear (ps : list Q3) : Prop :=
  exists a dir : Q3,
    ~ Q3_zero dir /\
    Forall (fun x => exists t : Q, Q3_eq x (Q3_along a dir t)) ps.

(** The inputs from which no tetrahedron can be made. *)
Definition degenerate_input (dim nb_vertices : Z) (vertices : list float) : Prop :=
  nb_vertices < 4 \/
  all_identical (input_points dim nb_vertices vertices) \/
  all_collinear (input_points dim nb_vertices vertices) \/
  coplanar_all (input_points dim nb_vertices vertices).

(** An object as its constructor sets it up (dimension 3 or 4, weighted in
    dimension 4), new or used before, and a coordinate buffer that holds
    [nb_vertices] points of its dimension. *)
Definition well_formed_input (d : Delaunay3d) (nb_vertices : Z)
    (vertices : list float) : Prop :=
  (dimension_ d = 3 \/ dimension_ d = 4) /\
  weighted_ d = (dimension_ d =? 4) /\
  0 <= nb_vertices /\
  Z.of_nat (length vertices) = dimension_ d * nb_vertices /\
  dimension_ d * nb_vertices < 2 ^ 32.

(** An object out of [Delaunay3d(3)]; five points of one line. *)
Definition new_object : Delaunay3d :=
  mkDelaunay3d 3 0 [] [] false false 0 0 [] [] [] END_OF_LIST false [] 0 false.

Definition points_on_a_line : list float :=
  [0; 0; 0;  1; 0; 0;  2; 0; 0;  3; 0; 0;  4; 0; 0]%float.

(** No spatial sort: the vertices in the order of their indices. *)
Definition identity_order (nb_vertices : Z) (vertices : list float) : list Z :=
  seqZ 0 nb_vertices.

(** An object that has been used: what [set_vertices] leaves of the four
    corner points, one cell. *)
Definition used_object : Delaunay3d :=
  Eval vm_compute in
    match set_vertices sample_random tet_is_conflict_exact identity_order 10
                       4 corner_points None 0 new_object with
    | Ok (_, d) => d
    | _ => new_object
    end.

(* ================================================================= *)
(** ** Reasoning on methods                                            *)
(* ================================================================= *)

(** Whenever the method [m] returns from a state where [P] holds, [P]
    holds of the state it leaves and [Q] of the value it returns. *)
Definition triple {A : Type} (P : Delaunay3d -> Prop) (m : M A) (Q : A -> Prop)
  : Prop :=
  forall (d : Delaunay3d) (a : A) (d' : Delaunay3d),
    m d = Ok (a, d') -> P d -> P d' /\ Q a.

(** The neighbour store holds at least [n] slots. *)
Definition at_least (n : nat) (d : Delaunay3d) : Prop :=
  (n <= length (cell_to_cell_store_ d))%nat.

(** There are fewer cells than [bound]. *)
Definition fewer_cells (bound : Z) (d : Delaunay3d) : Prop :=
  max_t d < bound.

(** As many cells as 32-bit indices can address, four slots each. *)
Definition addressable (d : Delaunay3d) : Prop :=
  max_t d < 2 ^ 30 /\
  Z.of_nat (length (cell_to_cell_store_ d)) <= 2 ^ 32 - 4.

(* ================================================================= *)
(** ** The empty conflict zone                                         *)
(* ================================================================= *)

(** [nb_zero] of [find_conflict_zone]. *)
Definition nb_zero_of (o0 o1 o2 o3 : Sign) : Z :=
  is_zero_sign o0 + is_zero_sign o1 + is_zero_sign o2 + is_zero_sign o3.

(** The object once [find_conflict_zone] has set the stamp of vertex [v]. *)
Definition stamped (d : Delaunay3d) (v : Z) : Delaunay3d :=
  set_cur_stamp d (Z.lor v NOT_IN_LIST_BIT).

(** The two cases in which nothing is inserted: the point is on three of
    the four facets of the cell located (it is one of its vertices), or
    the triangulation is weighted and the cell located is not in conflict
    with the point. *)
Definition nothing_to_insert
    (tet_is_conflict : Delaunay3d -> Z -> double_ptr -> result bool)
    (d : Delaunay3d) (v t : Z) (o0 o1 o2 o3 : Sign) : Prop :=
  3 <= nb_zero_of o0 o1 o2 o3 \/
  (weighted_ d = true /\
   tet_is_conflict (stamped d v) t (vertex_ptr d v) = Ok false).

(** The four corners and a fifth point that repeats the first, once the
    first tetrahedron is made. *)
Definition duplicate_points : list float := corner_points ++ [0; 0; 0]%float.

Definition duplicate_mesh : Delaunay3d :=
  mkDelaunay3d 3 5 duplicate_points [0; 1; 2; 3; 4] false false 0 0
    [0; 1; 2; 3;  -1; 3; 2; 1;  -1; 2; 3; 0;  -1; 1; 0; 3;  -1; 2; 0; 1]
    [1; 2; 3; 4;  0; 4; 3; 2;  0; 3; 4; 1;  0; 2; 1; 4;  0; 3; 1; 2]
    (replicate 5 NOT_IN_LIST_BIT)
    END_OF_LIST false [] 0 false.

(** Twelve points: the four corners, [(1, 1, 1)], a point inside the first
    cell, two far points, a point on a facet, a copy of the first point, a
    point in the plane of a facet and a point on an edge.  An object whose
    self-checks are switched on, without and with the infinite cells. *)
Definition twelve_points : list float :=
  [0; 0; 0;  1; 0; 0;  0; 1; 0;  0; 0; 1;  1; 1; 1;  0.25; 0.25; 0.25;
   3; -1; 0.5;  -2; 0.5; 0.75;  0.5; 0.5; 0;  0; 0; 0;  1; 1; 0;
   0.5; 0; 0.5]%float.

Definition checking_object (keep_infinite : bool) : Delaunay3d :=
  mkDelaunay3d 3 0 [] [] false keep_infinite 0 0 [] [] [] END_OF_LIST
    false [] 0 true.

(* ================================================================= *)
(** ** Notions for the further properties                           *)
(* ================================================================= *)

(** A double that is a number: a zero or a finite value, neither an
    infinity nor a NaN. *)
Definition is_number (x : float) : bool :=
  match Prim2SF x with
  | S754_zero _ | S754_finite _ _ _ => true
  | _ => false
  end.

Definition point_is_number (p : point) : bool :=
  is_number (p_0 p) && is_number (p_1 p) && is_number (p_2 p).

(** The plane through [x], [y], [z]: its normal is the cross product, and
    it holds [x], the line through [x] and [y], [z], and every point that
    spans no volume with the three. *)
Definition in_plane (x y z q : Q3) : Prop :=
  (dot (cross (Q3_sub y x) (Q3_sub z x)) q
   == dot (cross (Q3_sub y x) (Q3_sub z x)) x)%Q.

(** Facet [lf] of cell [t] has a neighbour, other than [t], that has [t]
    behind one of its own facets. *)
Definition facet_linked (d : Delaunay3d) (t lf : Z) : Prop :=
  exists a : Z,
    tet_adjacent d t lf = Ok a /\ a <> -1 /\ a <> t /\
    exists lf2 : Z, 0 <= lf2 < 4 /\ tet_adjacent d a lf2 = Ok t.

(** No two vertex slots of cell [t] hold the vertex at infinity. *)
Definition one_infinite_vertex_at_most (d : Delaunay3d) (t : Z) : Prop :=
  forall lv lv' : Z, 0 <= lv < lv' -> lv' < 4 ->
    ~ (tet_vertex d t lv = Ok (-1) /\ tet_vertex d t lv' = Ok (-1)).

(** What [check_combinatorics] asks of every cell in use. *)
Definition combinatorics_ok (d : Delaunay3d) : Prop :=
  forall t : Z, 0 <= t < max_t d -> tet_is_free d t = Ok false ->
    (forall lf : Z, 0 <= lf < 4 -> facet_linked d t lf) /\
    one_infinite_vertex_at_most d t.

(** The three stores describe the same [max_t] cells, four slots each, and
    a neighbour slot holds [-1] or the index of a cell. *)
Definition well_sized (d : Delaunay3d) : Prop :=
  max_t d < 2 ^ 30 /\
  Z.of_nat (length (cell_to_v_store_ d)) = 4 * max_t d /\
  Z.of_nat (length (cell_to_cell_store_ d)) = 4 * max_t d /\
  Forall (fun a : Z => -1 <= a < max_t d) (cell_to_cell_store_ d).

(** Every vertex slot of every cell of the stores, free or not, holds a
    negative value or a vertex of the object: the marks that
    [check_combinatorics] makes stay in its table. *)
Definition vertices_in_range (d : Delaunay3d) : Prop :=
  forall t : Z, 0 <= t < max_t d -> vertex_slots_below d (nb_vertices d) t.

(** What [check_geometry] asks: no cell in use is in conflict with a
    vertex that is not one of its four. *)
Definition geometry_ok
    (tet_is_conflict : Delaunay3d -> Z -> double_ptr -> result bool)
    (d : Delaunay3d) : Prop :=
  forall t : Z, 0 <= t < max_t d -> tet_is_free d t = Ok false ->
  forall v : Z, 0 <= v < nb_vertices d ->
    (forall lv : Z, 0 <= lv < 4 -> tet_vertex d t lv <> Ok v) ->
    tet_is_conflict d t (vertex_ptr d v) = Ok false.

(** What the object holds besides the three cell stores, the head of the
    free list and the stamp: the input, the flags and the counts that the
    base class reports. *)
Definition input_of (d : Delaunay3d)
  : Z * Z * list float * list Z * bool * bool * Z * Z * bool * list float * bool :=
  (dimension_ d, nb_vertices_ d, vertices_ d, reorder_ d, do_reorder_ d,
   keep_infinite_ d, nb_cells_ d, nb_finite_cells_ d, weighted_ d, heights_ d,
   debug_mode_ d).

(** The three stores are in step: four vertex slots and four neighbour
    slots for each word of [cell_next_]. *)
Definition stores_in_step (d : Delaunay3d) : Prop :=
  Z.of_nat (length (cell_to_v_store_ d)) = 4 * max_t d /\
  Z.of_nat (length (cell_to_cell_store_ d)) = 4 * max_t d.

(** The object with one more cell at the end of its stores, as
    [new_tetrahedron] makes it when the free list is empty. *)
Definition append_cell (d : Delaunay3d) : Delaunay3d :=
  set_cell_next
    (set_cell_to_cell_store
       (set_cell_to_v_store d (cell_to_v_store_ d ++ replicate 4 (-1)))
       (cell_to_cell_store_ d ++ replicate 4 (-1)))
    (cell_next_ d ++ [NOT_IN_LIST_BIT]).

(** A property of the object that writing a slot of a store, moving the
    head of the free list, changing the stamp or appending a cell cannot
    break. *)
Definition store_invariant (P : Delaunay3d -> Prop) : Prop :=
  (forall (d : Delaunay3d) (s : list Z),
     length s = length (cell_to_v_store_ d) -> P d -> P (set_cell_to_v_store d s)) /\
  (forall (d : Delaunay3d) (s : list Z),
     length s = length (cell_to_cell_store_ d) -> P d ->
     P (set_cell_to_cell_store d s)) /\
  (forall (d : Delaunay3d) (s : list Z),
     length s = length (cell_next_ d) -> P d -> P (set_cell_next d s)) /\
  (forall (d : Delaunay3d) (x : Z), P d -> P (set_first_free d x)) /\
  (forall (d : Delaunay3d) (x : Z), P d -> P (set_cur_stamp d x)) /\
  (forall d : Delaunay3d, P d -> P (append_cell d)).

(** The method [m] keeps [P]. *)
Definition keeps {A : Type} (P : Delaunay3d -> Prop) (m : M A) : Prop :=
  triple P m (fun _ => True).

(** The object [d'] is [d] with other words in [cell_next_], as many. *)
Definition only_words (d d' : Delaunay3d) : Prop :=
  exists words : list Z,
    length words = length (cell_next_ d) /\ d' = set_cell_next d words.

(** From [d] to [d'] only words of [cell_next_] have changed, and no cell
    has left the list or lost its mark. *)
Definition grows (d d' : Delaunay3d) : Prop :=
  only_words d d' /\
  (forall c : Z, tet_is_in_list d c = Ok true -> tet_is_in_list d' c = Ok true) /\
  (forall c : Z, tet_is_marked d c = Ok true -> tet_is_marked d' c = Ok true).

(** The stamp carries the flag "in no list". *)
Definition stamp_flagged (d : Delaunay3d) : Prop :=
  Z.land (cur_stamp_ d) NOT_IN_LIST_BIT <> 0.

(** The head of the conflict list is a word that reads "in a list", and a
    cell of the list unless the list is empty. *)
Definition head_ok (d : Delaunay3d) (z : zone) : Prop :=
  0 <= z_first z < 2 ^ 31 /\
  (z_first z <> END_OF_LIST -> tet_is_in_list d (z_first z) = Ok true).

(** What [stellate_conflict_zone] asserts of the facet it starts from: the
    cell is in the conflict list, the cell behind the facet is not (it
    carries the mark of the cells found not in conflict). *)
Definition boundary_facet (d : Delaunay3d) (t f : Z) : Prop :=
  tet_is_in_list d t = Ok true /\
  exists a : Z,
    tet_adjacent d t f = Ok a /\
    tet_is_marked d (index_t_of a) = Ok true /\
    tet_is_in_list d (index_t_of a) = Ok false.

Definition bndry_ok (d : Delaunay3d) (z : zone) : Prop :=
  forall t f : Z, z_bndry z = Some (t, f) -> boundary_facet d t f.

(** From [d] to [d'] only words of [cell_next_] have changed, and no cell
    has left the list. *)
Definition relinks (d d' : Delaunay3d) : Prop :=
  only_words d d' /\
  (forall c : Z, tet_is_in_list d c = Ok true -> tet_is_in_list d' c = Ok true).

(** The test of the first loop of the compression:
    [(keep_infinite_ && !tet_is_free(t)) || tet_is_real(t)]. *)
Definition is_kept (d : Delaunay3d) (t : Z) : result bool :=
  let+ free := tet_is_free d t in
  if keep_infinite_ d && negb free then Ok true else tet_is_real d t.

Definition keepb (d : Delaunay3d) (t : Z) : bool :=
  match is_kept d t with Ok true => true | _ => false end.

(** The cells below [t] that the compression keeps, in their order. *)
Definition kept_below (d : Delaunay3d) (t : Z) : list Z :=
  filter (fun c => keepb d c = true) (seqZ 0 t).

Definition kept_cells (d : Delaunay3d) : list Z := kept_below d (max_t d).

(** The index of cell [a] once the cells that are not kept are gone: the
    number of cells kept below it; [-1] where [a] is not kept. *)
Definition new_index (d : Delaunay3d) (a : Z) : Z :=
  if keepb d a then Z.of_nat (length (kept_below d a)) else -1.

(** The word that the first loop leaves in [old2new[t]]. *)
Definition old2new_word (d : Delaunay3d) (t : Z) : Z :=
  if keepb d t then Z.of_nat (length (kept_below d t)) else index_t_of (-1).

(** Four slots per cell in the two stores, for the [max_t] cells. *)
Definition four_slots (d : Delaunay3d) : Prop :=
  max_t d < 2 ^ 30 /\
  Z.of_nat (length (cell_to_v_store_ d)) = 4 * max_t d /\
  Z.of_nat (length (cell_to_cell_store_ d)) = 4 * max_t d.

(** What holds when the first loop of the compression reaches cell [t]
    with [nb_tets] cells kept, [d0] being the object when the loop
    started: the cells from [t] on are untouched, the cells kept so far
    have been moved down in their order, and [cell_next_] holds [old2new]
    below [t]. *)
Definition compress_inv (d0 : Delaunay3d) (t nb_tets : Z) (d : Delaunay3d) : Prop :=
  nb_tets = Z.of_nat (length (kept_below d0 t)) /\
  keep_infinite_ d = keep_infinite_ d0 /\
  length (cell_to_v_store_ d) = length (cell_to_v_store_ d0) /\
  length (cell_to_cell_store_ d) = length (cell_to_cell_store_ d0) /\
  length (cell_next_ d) = length (cell_next_ d0) /\
  (forall i : Z, 4 * t <= i ->
     zth (cell_to_v_store_ d) i = zth (cell_to_v_store_ d0) i /\
     zth (cell_to_cell_store_ d) i = zth (cell_to_cell_store_ d0) i) /\
  (forall j : Z, t <= j -> zth (cell_next_ d) j = zth (cell_next_ d0) j) /\
  (forall (k : nat) (c : Z), kept_below d0 t !! k = Some c ->
   forall l : Z, 0 <= l < 4 ->
     zth (cell_to_v_store_ d) (4 * Z.of_nat k + l)
     = zth (cell_to_v_store_ d0) (4 * c + l) /\
     zth (cell_to_cell_store_ d) (4 * Z.of_nat k + l)
     = zth (cell_to_cell_store_ d0) (4 * c + l)) /\
  (forall j : Z, 0 <= j < t -> zth (cell_next_ d) j = Some (old2new_word d0 j)).

(** The object after the first loop, the two [resize] and the loop that
    renumbers the neighbours: the cells kept, in their order, with
    neighbour slots that hold the new indices; [cell_next_] has its length
    of before and holds [old2new]. *)
Definition compressed (d d' : Delaunay3d) : Prop :=
  input_of d' = input_of d /\
  (forall j : Z, 0 <= j < max_t d ->
     zth (cell_next_ d') j = Some (old2new_word d j)) /\
  keep_infinite_ d' = keep_infinite_ d /\
  Z.of_nat (length (cell_to_v_store_ d')) = 4 * Z.of_nat (length (kept_cells d)) /\
  Z.of_nat (length (cell_to_cell_store_ d')) = 4 * Z.of_nat (length (kept_cells d)) /\
  length (cell_next_ d') = length (cell_next_ d) /\
  (forall (k : nat) (c : Z), kept_cells d !! k = Some c ->
   forall l : Z, 0 <= l < 4 ->
     zth (cell_to_v_store_ d') (4 * Z.of_nat k + l)
     = zth (cell_to_v_store_ d) (4 * c + l) /\
     exists a : Z,
       zth (cell_to_cell_store_ d) (4 * c + l) = Some a /\
       zth (cell_to_cell_store_ d') (4 * Z.of_nat k + l) = Some (new_index d a)).

(** The neighbour slots of the cells kept hold indices of cells. *)
Definition neighbours_in_range (d : Delaunay3d) : Prop :=
  forall c : Z, c ∈ kept_cells d ->
  forall l : Z, 0 <= l < 4 ->
    exists a : Z, tet_adjacent d c l = Ok a /\ 0 <= a < max_t d.

(** The mesh of the five points once the fifth is inserted, before the
    compression. *)
Definition five_points_mesh : Delaunay3d :=
  Eval vm_compute in
    match insert sample_random tet_is_conflict_exact 10 4 NO_TETRAHEDRON 0
                 five_points_first_mesh with
    | Ok (_, d) => d
    | _ => five_points_first_mesh
    end.

(** *** Queries *)

Section Queries.

Variable random_int32 : nat -> Z.

(** [Delaunay::nearest_vertex], the linear search of the base class
    (delaunay.cpp is not among the sources), and [Geom::distance2] on
    three coordinates. *)
Variable Delaunay_nearest_vertex : Delaunay3d -> double_ptr -> result Z.
Variable distance2 : point -> point -> float.

(** The double [1e30]. *)
Definition far_away : float := 0x1.93e5939a08ceap+99%float.

(** One round of the loop "Find the nearest vertex among t's vertices",
    on the pair [(sq_dist, result)]. *)
Definition nearest_vertex_step (d : Delaunay3d) (p : double_ptr) (t lv : Z)
    (best : float * Z) : result (float * Z) :=
  let+ v := tet_vertex d t lv in
  if v <? 0 then Ok best else
  let+ x := deref d p in
  let+ y := deref d (vertex_ptr d (index_t_of v)) in
  let cur_sq_dist := distance2 x y in
  if (cur_sq_dist <? fst best)%float then Ok (cur_sq_dist, index_t_of v)
  else Ok best.

(** [nearest_vertex(p)]: the vertex, and the number of random draws made. *)
Definition nearest_vertex (fuel : nat) (p : double_ptr) (rng : nat)
    (d : Delaunay3d) : result (Z * nat) :=
  if weighted_ d then
    let+ r := Delaunay_nearest_vertex d p in Ok (r, rng)
  else
  let+ (located, rng) :=
    locate random_int32 d fuel p NO_TETRAHEDRON (replicate 4 None) rng in
  let t := fst located in
  let+ outside :=
    (if t =? NO_TETRAHEDRON then Ok true else tet_is_virtual d t) in
  if outside then
    let+ r := Delaunay_nearest_vertex d p in Ok (r, rng)
  else
  let+ best := nearest_vertex_step d p t 0 (far_away, NO_TETRAHEDRON) in
  let+ best := nearest_vertex_step d p t 1 best in
  let+ best := nearest_vertex_step d p t 2 best in
  let+ best := nearest_vertex_step d p t 3 best in
  Ok (snd best, rng).

(** The squared distance from [p] to the vertex in slot [lv] of cell [t],
    where the slot holds a vertex. *)
Definition slot_distance (d : Delaunay3d) (p : double_ptr) (t lv : Z)
    (v : Z) (dist : float) : Prop :=
  0 <= lv < 4 /\ tet_vertex d t lv = Ok v /\ 0 <= v /\
  exists x y : point,
    deref d p = Ok x /\ deref d (vertex_ptr d (index_t_of v)) = Ok y /\
    dist = distance2 x y.

End Queries.

(** After [k] rounds of the loop of [nearest_vertex]: [best] is the start
    value or comes from a slot seen, and no slot seen is strictly
    nearer. *)
Definition nearest_so_far (distance2 : point -> point -> float)
    (d : Delaunay3d) (p : double_ptr) (t k : Z) (best : float * Z) : Prop :=
  (best = (far_away, NO_TETRAHEDRON) \/
   exists lv v : Z,
     lv < k /\ slot_distance distance2 d p t lv v (fst best) /\
     snd best = index_t_of v /\ (fst best <? far_away)%float = true) /\
  forall (lv v : Z) (dist : float),
    lv < k -> slot_distance distance2 d p t lv v dist ->
    (dist <? fst best)%float = false.

(** What the loop that moves the finite cells before the others keeps of
    an object [d1] with [nb] cells, as far as the queries go: the flag
    [weighted_], the length of [cell_next_] and its words from [nb] on,
    and the size of the vertex store. *)
Definition query_frame (nb : Z) (d1 x : Delaunay3d) : Prop :=
  weighted_ x = weighted_ d1 /\
  length (cell_next_ x) = length (cell_next_ d1) /\
  Z.of_nat (length (cell_to_v_store_ x)) = 4 * nb /\
  (forall j : Z, nb <= j -> zth (cell_next_ x) j = zth (cell_next_ d1) j).

(** With [finite_ptr] at [f] and [infinite_ptr] at [i] ([-1] once the
    unsigned pointer has gone below 0), the words of [cell_next_] below
    [f] and above [i] are indices of cells. *)
Definition partition_words (nb : Z) (d1 x : Delaunay3d) (f i : Z) : Prop :=
  0 <= f <= nb /\ -1 <= i < nb /\
  query_frame nb d1 x /\
  (forall j : Z, 0 <= j < f \/ i < j < nb ->
     exists w : Z, zth (cell_next_ x) j = Some w /\ 0 <= w < nb).

(** A squared distance on doubles and a base class that answers vertex 0,
    to run [nearest_vertex] on the sample meshes. *)
Definition sample_distance2 (x y : point) : float :=
  (geo_sqr (p_0 y - p_0 x) + geo_sqr (p_1 y - p_1 x)
   + geo_sqr (p_2 y - p_2 x))%float.

Definition no_search (d : Delaunay3d) (p : double_ptr) : result Z := Ok 0.

Definition near_corner_2 : point := mkpoint 0.125 0.625 0.125.

(** The mesh of the five points in an object that keeps its infinite
    cells. *)
Definition five_points_mesh_with_infinite : Delaunay3d :=
  mkDelaunay3d
    (dimension_ five_points_mesh) (nb_vertices_ five_points_mesh)
    (vertices_ five_points_mesh) (reorder_ five_points_mesh)
    (do_reorder_ five_points_mesh) true
    (nb_cells_ five_points_mesh) (nb_finite_cells_ five_points_mesh)
    (cell_to_v_store_ five_points_mesh) (cell_to_cell_store_ five_points_mesh)
    (cell_next_ five_points_mesh) (first_free_ five_points_mesh)
    (weighted_ five_points_mesh) (heights_ five_points_mesh)
    (cur_stamp_ five_points_mesh) (debug_mode_ five_points_mesh).

(** The test of [neighbours_in_range], run. *)
Definition neighbours_in_rangeb (d : Delaunay3d) : bool :=
  forallb
    (fun c =>
       forallb
         (fun l =>
            match tet_adjacent d c l with
            | Ok a => (0 <=? a) && (a <? max_t d)
            | _ => false
            end)
         [0; 1; 2; 3])
    (kept_cells d).

(** Cell [j] of [x] has the vertex slots and the neighbour slots of cell
    [w] of [y]. *)
Definition cells_agree (x y : Delaunay3d) (j w : Z) : Prop :=
  forall l : Z, 0 <= l < 4 ->
    zth (cell_to_v_store_ x) (4 * j + l) = zth (cell_to_v_store_ y) (4 * w + l) /\
    zth (cell_to_cell_store_ x) (4 * j + l) = zth (cell_to_cell_store_ y) (4 * w + l).

(** What holds in the loop that moves the finite cells before the others,
    with [finite_ptr] at [f] and [infinite_ptr] at [i], [d1] being the
    object when the loop started, with [nb] cells: the cells from [f] to
    [i] are untouched; the cells below [f] are finite, those above [i]
    are not; the cells below [f] and above [i] have been exchanged in
    pairs, and [cell_next_] sends each of them to the cell it was
    exchanged with. *)
Definition partition_inv (nb : Z) (d1 : Delaunay3d) (f i : Z) (x : Delaunay3d)
  : Prop :=
  0 <= f /\ f <= i + 1 /\ i < nb /\
  Z.of_nat (length (cell_to_v_store_ x)) = 4 * nb /\
  Z.of_nat (length (cell_to_cell_store_ x)) = 4 * nb /\
  length (cell_next_ x) = length (cell_next_ d1) /\
  nb_finite_cells_ x = f /\
  (forall j : Z, f <= j <= i -> cells_agree x d1 j j) /\
  (forall j : Z, 0 <= j < f \/ i < j < nb ->
     exists w : Z,
       (0 <= w < f \/ i < w < nb) /\
       zth (cell_next_ x) j = Some w /\ zth (cell_next_ x) w = Some j /\
       cells_agree x d1 j w) /\
  (forall j : Z, 0 <= j < f -> tet_is_finite x j = Ok true) /\
  (forall j : Z, i < j < nb -> tet_is_finite x j = Ok false).

(* ================================================================= *)
(** * Properties                                                       *)
(* ================================================================= *)

(** ** Signs and determinants *)

Lemma sgnQ_proper (q r : Q) : (q == r)%Q -> sgnQ q = sgnQ r.
Proof. intros H. unfold sgnQ. now rewrite H. Qed.

Lemma sgnQ_zero (q : Q) : sgnQ q = ZERO <-> (q == 0)%Q.
Proof.
  unfold sgnQ. rewrite Qeq_alt.
  destruct (q ?= 0)%Q; split; intros H; congruence.
Qed.

Lemma sgnQ_opp (q : Q) :
  sgnQ (- q) = match sgnQ q with
               | NEGATIVE => POSITIVE | ZERO => ZERO | POSITIVE => NEGATIVE
               end.
Proof.
  unfold sgnQ.
  destruct (Qcompare_spec q 0), (Qcompare_spec (- q) 0);
    try reflexivity; exfalso; lra.
Qed.

(** Exchanging the last two points flips the orientation. *)
Lemma orient_det_swap23 (x0 x1 x2 x3 : Q3) :
  (orient_det x0 x1 x3 x2 == - orient_det x0 x1 x2 x3)%Q.
Proof.
  destruct x0 as [[? ?] ?], x1 as [[? ?] ?], x2 as [[? ?] ?], x3 as [[? ?] ?].
  unfold orient_det, det3x3_Q. ring.
Qed.

(** The three even arrangements the facet table uses. *)
Lemma orient_det_1032 (x0 x1 x2 x3 : Q3) :
  (orient_det x1 x0 x3 x2 == orient_det x0 x1 x2 x3)%Q.
Proof.
  destruct x0 as [[? ?] ?], x1 as [[? ?] ?], x2 as [[? ?] ?], x3 as [[? ?] ?].
  unfold orient_det, det3x3_Q. ring.
Qed.

Lemma orient_det_2301 (x0 x1 x2 x3 : Q3) :
  (orient_det x2 x3 x0 x1 == orient_det x0 x1 x2 x3)%Q.
Proof.
  destruct x0 as [[? ?] ?], x1 as [[? ?] ?], x2 as [[? ?] ?], x3 as [[? ?] ?].
  unfold orient_det, det3x3_Q. ring.
Qed.

Lemma orient_det_3102 (x0 x1 x2 x3 : Q3) :
  (orient_det x3 x1 x0 x2 == orient_det x0 x1 x2 x3)%Q.
Proof.
  destruct x0 as [[? ?] ?], x1 as [[? ?] ?], x2 as [[? ?] ?], x3 as [[? ?] ?].
  unfold orient_det, det3x3_Q. ring.
Qed.

(** ** The lookup tables *)

Ltac local_index f :=
  match goal with
  | H : 0 <= f < 4 |- _ =>
      let E := fresh in
      assert (E : f = 0 \/ f = 1 \/ f = 2 \/ f = 3) by lia;
      clear H; destruct E as [-> | [-> | [-> | ->]]]
  end.

(** C9. Both lookup tables are combinatorially correct.  For two distinct
    local facets [f1], [f2] the entry [halfedge_facet_[f1][f2]] is a local
    vertex other than [f1] and [f2] (hence on both facets), and the entries
    at [f1][f2] and [f2][f1] differ.  For a local vertex [lv] the row
    [tet_facet_vertex_[lv]] holds the three other local vertices, in an
    order that makes [(lv, row)] an even arrangement of [(0,1,2,3)]: the
    tetrahedron of the four points taken in that order has the orientation
    of the original one, whatever the points. *)
Theorem lookup_tables_correct :
  (forall f1 f2 : Z, 0 <= f1 < 4 -> 0 <= f2 < 4 -> f1 <> f2 ->
     exists v w : Z,
       halfedge_facet f1 f2 = Some v /\
       halfedge_facet f2 f1 = Some w /\
       0 <= v < 4 /\ v <> f1 /\ v <> f2 /\ v <> w) /\
  (forall lv : Z, 0 <= lv < 4 ->
     exists a b c : Z,
       zth tet_facet_vertex_ lv = Some [a; b; c] /\
       tet_facet_vertex lv 0 = Some a /\
       tet_facet_vertex lv 1 = Some b /\
       tet_facet_vertex lv 2 = Some c /\
       [lv; a; b; c] ≡ₚ [0; 1; 2; 3] /\
       even_arrangement [lv; a; b; c] = true /\
       forall x : Z -> point,
         orient_3d (x lv) (x a) (x b) (x c) = orient_3d (x 0) (x 1) (x 2) (x 3)).
Proof.
  split.
  - intros f1 f2 H1 H2 Hne.
    local_index f1; local_index f2; try congruence;
      (eexists; eexists; repeat split; try reflexivity; lia).
  - intros lv H. local_index lv.
    + exists 1, 2, 3. repeat split; reflexivity.
    + exists 0, 3, 2. repeat split; try reflexivity.
      * solve_Permutation.
      * intros x. apply sgnQ_proper, orient_det_1032.
    + exists 3, 0, 1. repeat split; try reflexivity.
      * solve_Permutation.
      * intros x. apply sgnQ_proper, orient_det_2301.
    + exists 1, 0, 2. repeat split; try reflexivity.
      * solve_Permutation.
      * intros x. apply sgnQ_proper, orient_det_3102.
Qed.

(** ** Collinearity *)

Lemma value_zero : value 0 = 0%Q.
Proof. reflexivity. Qed.

Lemma value_one : (value 1 == 1)%Q.
Proof. vm_compute. reflexivity. Qed.

Lemma orient_det_last_ext (x y z q q' : Q3) :
  Q3_eq q q' -> (orient_det x y z q == orient_det x y z q')%Q.
Proof.
  destruct x as [[? ?] ?], y as [[? ?] ?], z as [[? ?] ?],
           q as [[? ?] ?], q' as [[? ?] ?].
  intros (H0 & H1 & H2). unfold orient_det, det3x3_Q.
  rewrite H0, H1, H2. reflexivity.
Qed.

Lemma orient_det_cross (x y z q : Q3) :
  (orient_det x y z q == dot (cross (Q3_sub y x) (Q3_sub z x)) (Q3_sub q x))%Q.
Proof.
  destruct x as [[? ?] ?], y as [[? ?] ?], z as [[? ?] ?], q as [[? ?] ?].
  unfold orient_det, det3x3_Q, dot, cross, Q3_sub. ring.
Qed.

Lemma dot_zero_l (n w : Q3) : Q3_zero n -> (dot n w == 0)%Q.
Proof.
  destruct n as [[? ?] ?], w as [[? ?] ?]. intros (H0 & H1 & H2).
  unfold dot. rewrite H0, H1, H2. ring.
Qed.

(** The four determinants of [points_are_colinear] vanish together exactly
    when the cross product [(y - x) x (z - x)] is null. *)
Lemma four_tests_cross (x y z : Q3) :
  ((orient_det x y z (0, 0, 0) == 0 /\
    orient_det x y z (0, 0, 1) == 0 /\
    orient_det x y z (0, 1, 0) == 0 /\
    orient_det x y z (1, 0, 0) == 0)%Q) <->
  Q3_zero (cross (Q3_sub y x) (Q3_sub z x)).
Proof.
  split.
  - rewrite !orient_det_cross.
    destruct (cross (Q3_sub y x) (Q3_sub z x)) as [[n0 n1] n2].
    destruct x as [[x0 x1] x2].
    unfold dot, Q3_sub, Q3_zero, Q3_eq.
    intros (H & Hz & Hy & Hx). repeat split; lra.
  - intros H. rewrite !orient_det_cross. repeat split; now apply dot_zero_l.
Qed.

Lemma Q3_zero_dec (d : Q3) : {Q3_zero d} + {~ Q3_zero d}.
Proof.
  destruct d as [[d0 d1] d2]. unfold Q3_zero, Q3_eq.
  destruct (Qeq_dec d0 0); [| right; tauto].
  destruct (Qeq_dec d1 0); [| right; tauto].
  destruct (Qeq_dec d2 0); [left; tauto | right; tauto].
Qed.

Lemma Qquot_scale (a b c d : Q) :
  (~ a == 0 -> a * d == c * b -> d == (c / a) * b)%Q.
Proof.
  intros Ha H.
  assert (E : (d == (a * d) / a)%Q) by (field; exact Ha).
  rewrite E, H. field. exact Ha.
Qed.

(** A vector whose cross product with a non-null [u] vanishes is a
    multiple of [u]. *)
Lemma cross_zero_parallel (u v : Q3) :
  ~ Q3_zero u -> Q3_zero (cross u v) ->
  exists t : Q, Q3_eq v (Q3_along (0, 0, 0)%Q u t).
Proof.
  destruct u as [[u0 u1] u2], v as [[v0 v1] v2].
  unfold Q3_zero, Q3_eq, cross, Q3_along. intros Hu (H0 & H1 & H2).
  destruct (Qeq_dec u0 0) as [E0 | N0].
  - destruct (Qeq_dec u1 0) as [E1 | N1].
    + destruct (Qeq_dec u2 0) as [E2 | N2]; [tauto |].
      exists (v2 / u2)%Q. rewrite !Qplus_0_l. repeat split.
      * apply Qquot_scale; [exact N2 | lra].
      * apply Qquot_scale; [exact N2 | lra].
      * field. exact N2.
    + exists (v1 / u1)%Q. rewrite !Qplus_0_l. repeat split.
      * apply Qquot_scale; [exact N1 | lra].
      * field. exact N1.
      * apply Qquot_scale; [exact N1 | lra].
  - exists (v0 / u0)%Q. rewrite !Qplus_0_l. repeat split.
    + field. exact N0.
    + apply Qquot_scale; [exact N0 | lra].
    + apply Qquot_scale; [exact N0 | lra].
Qed.

Lemma cross_zero_collinear (x y z : Q3) :
  Q3_zero (cross (Q3_sub y x) (Q3_sub z x)) <-> collinear x y z.
Proof.
  split.
  - intros H.
    destruct (Q3_zero_dec (Q3_sub y x)) as [Zu | Nu].
    + destruct (Q3_zero_dec (Q3_sub z x)) as [Zv | Nv].
      * exists x, (1, 0, 0)%Q, 0%Q, 0%Q, 0%Q.
        destruct x as [[x0 x1] x2], y as [[y0 y1] y2], z as [[z0 z1] z2].
        unfold Q3_zero, Q3_eq, Q3_sub, Q3_along in *.
        repeat split; try lra; intros (A & _); lra.
      * exists x, (Q3_sub z x), 0%Q, 0%Q, 1%Q.
        split; [exact Nv |].
        destruct x as [[x0 x1] x2], y as [[y0 y1] y2], z as [[z0 z1] z2].
        unfold Q3_zero, Q3_eq, Q3_sub, Q3_along in *.
        repeat split; lra.
    + destruct (cross_zero_parallel _ _ Nu H) as [t Ht].
      exists x, (Q3_sub y x), 0%Q, 1%Q, t.
      split; [exact Nu |].
      destruct x as [[x0 x1] x2], y as [[y0 y1] y2], z as [[z0 z1] z2].
      unfold Q3_zero, Q3_eq, Q3_sub, Q3_along in *.
      repeat split; lra.
  - intros (a & d & tx & ty & tz & _ & Hx & Hy & Hz).
    destruct x as [[x0 x1] x2], y as [[y0 y1] y2], z as [[z0 z1] z2].
    destruct a as [[a0 a1] a2], d as [[d0 d1] d2].
    unfold Q3_zero, Q3_eq, Q3_sub, Q3_along, cross in *.
    destruct Hx as (-> & -> & ->), Hy as (-> & -> & ->), Hz as (-> & -> & ->).
    repeat split; ring.
Qed.

(** C10. [points_are_colinear p1 p2 p3] answers [true] exactly when the
    three points are collinear: one line goes through the three of them.
    The four reference points are not coplanar, so the three points are
    coplanar with each of them only if they are on one line. *)
Theorem points_are_colinear_iff (p1 p2 p3 : point) :
  points_are_colinear p1 p2 p3 = true <-> collinear (pos p1) (pos p2) (pos p3).
Proof.
  rewrite <- cross_zero_collinear, <- four_tests_cross.
  unfold points_are_colinear. rewrite !andb_true_iff, !bool_decide_eq_true.
  unfold orient_3d. rewrite !sgnQ_zero.
  assert (E0 : Q3_eq (pos q000) (0, 0, 0)%Q) by (repeat split; reflexivity).
  assert (E1 : Q3_eq (pos q001) (0, 0, 1)%Q)
    by (repeat split; try reflexivity; apply value_one).
  assert (E2 : Q3_eq (pos q010) (0, 1, 0)%Q)
    by (repeat split; try reflexivity; apply value_one).
  assert (E3 : Q3_eq (pos q100) (1, 0, 0)%Q)
    by (repeat split; try reflexivity; apply value_one).
  rewrite (orient_det_last_ext _ _ _ _ _ E0), (orient_det_last_ext _ _ _ _ _ E1),
          (orient_det_last_ext _ _ _ _ _ E2), (orient_det_last_ext _ _ _ _ _ E3).
  tauto.
Qed.

(** ** Heights *)

Lemma float_opp_involutive (x : float) : (- - x)%float = x.
Proof.
  apply Prim2SF_inj. rewrite !opp_spec.
  destruct (Prim2SF x) as [s | s | | s m e]; try reflexivity;
    destruct s; reflexivity.
Qed.

Lemma zth_Some {A : Type} (l : list A) (i : Z) (a : A) :
  zth l i = Some a <-> 0 <= i /\ l !! Z.to_nat i = Some a.
Proof.
  unfold zth.
  destruct (Z.leb_spec 0 i), (Z.ltb_spec i (Z.of_nat (length l)));
    cbn [andb]; split; try discriminate; try tauto.
  - intros [_ E]. apply lookup_lt_Some in E. lia.
  - intros [? _]. lia.
  - intros [? _]. lia.
Qed.

Lemma zth_is_Some {A : Type} (l : list A) (i : Z) :
  0 <= i < Z.of_nat (length l) -> is_Some (zth l i).
Proof.
  intros H. unfold zth.
  destruct (Z.leb_spec 0 i), (Z.ltb_spec i (Z.of_nat (length l)));
    cbn [andb]; try lia.
  apply lookup_lt_is_Some. lia.
Qed.

Lemma length_vector_resize {A : Type} (l : list A) (n : Z) (fill : A) :
  length (vector_resize l n fill) = Z.to_nat n.
Proof.
  unfold vector_resize. rewrite length_app, length_take, length_replicate. lia.
Qed.

Lemma heights_loop_spec (vertices : list float) (n : nat) :
  forall (i : Z) (h : list float),
    0 <= i ->
    4 * (i + Z.of_nat n) <= Z.of_nat (length vertices) ->
    4 * (i + Z.of_nat n) <= 2 ^ 32 ->
    Z.of_nat (length h) = i + Z.of_nat n ->
    exists hs : list float,
      heights_loop n i vertices h = Some hs /\
      length hs = length h /\
      (forall j : Z, 0 <= j < i -> zth hs j = zth h j) /\
      (forall j : Z, i <= j < i + Z.of_nat n ->
         is_Some (zth hs j) /\
         zth hs j = height_of height_as_computed vertices j).
Proof.
  induction n as [| n IH]; intros i h Hi Hv Hw Hh.
  - exists h. repeat split; try reflexivity; lia.
  - cbn [heights_loop]. unfold index_t_of. rewrite !Z.mod_small by lia.
    destruct (zth_is_Some vertices (4 * i + 3)) as [t Et]; [lia |].
    destruct (zth_is_Some vertices (4 * i)) as [x Ex]; [lia |].
    destruct (zth_is_Some vertices (4 * i + 1)) as [y Ey]; [lia |].
    destruct (zth_is_Some vertices (4 * i + 2)) as [z Ez]; [lia |].
    rewrite Et, Ex, Ey, Ez. cbn [mbind option_bind].
    rewrite float_opp_involutive.
    destruct (IH (i + 1) (<[Z.to_nat i := (geo_sqr t + geo_sqr x + geo_sqr y + geo_sqr z)%float]> h))
      as (hs & Hrun & Hlen & Hlow & Hhigh).
    + lia.
    + lia.
    + lia.
    + rewrite length_insert. lia.
    + exists hs. split; [exact Hrun |]. rewrite length_insert in Hlen.
      split; [exact Hlen |]. split.
      * intros j Hj. rewrite Hlow by lia. unfold zth.
        rewrite length_insert.
        destruct ((0 <=? j) && (j <? Z.of_nat (length h))); [| reflexivity].
        apply list_lookup_insert_ne. lia.
      * intros j Hj. destruct (Z.eq_dec j i) as [-> | Hne].
        -- rewrite Hlow by lia.
           assert (E : zth (<[Z.to_nat i := (geo_sqr t + geo_sqr x + geo_sqr y + geo_sqr z)%float]> h) i
                       = Some (height_as_computed x y z t)).
           { apply zth_Some. split; [lia |].
             apply list_lookup_insert_eq. lia. }
           rewrite E. split; [eauto |].
           unfold height_of. rewrite Ex, Ey, Ez, Et. reflexivity.
        -- apply Hhigh. lia.
Qed.

(** C7, as the code has it.  In weighted mode [set_vertices] fills
    [heights_] in one pass, one assignment per vertex, and the height of
    vertex [i] is the square of the fourth input component PLUS the three
    squared coordinates, summed from left to right in doubles:
    [heights_[i] = vertices[4i+3]^2 + x_i^2 + y_i^2 + z_i^2].  The fourth
    component enters through [w = -vertices[4i+3]^2] and the height is
    [-w + ...]. *)
Theorem heights_as_computed (old : list float) (nb_vertices : Z)
    (vertices : list float) :
  0 <= nb_vertices ->
  4 * nb_vertices <= Z.of_nat (length vertices) ->
  4 * nb_vertices <= 2 ^ 32 ->
  exists heights_ : list float,
    compute_heights old nb_vertices vertices = Some heights_ /\
    Z.of_nat (length heights_) = nb_vertices /\
    forall i : Z, 0 <= i < nb_vertices ->
      is_Some (zth heights_ i) /\
      zth heights_ i = height_of height_as_computed vertices i.
Proof.
  intros Hn Hv Hw. unfold compute_heights.
  destruct (heights_loop_spec vertices (Z.to_nat nb_vertices) 0
              (vector_resize old nb_vertices 0%float))
    as (hs & Hrun & Hlen & _ & Hhigh).
  - lia.
  - lia.
  - lia.
  - rewrite length_vector_resize. lia.
  - exists hs. split; [exact Hrun |]. split.
    + rewrite Hlen, length_vector_resize. lia.
    + intros i Hi. apply Hhigh. lia.
Qed.

Lemma heights_as_computed_witness :
  exists heights_ : list float,
    compute_heights [] 2 [1; 2; 3; 4; 0; 0; 0; 1]%float = Some heights_ /\
    Z.of_nat (length heights_) = 2 /\
    forall i : Z, 0 <= i < 2 ->
      is_Some (zth heights_ i) /\
      zth heights_ i =
        height_of height_as_computed [1; 2; 3; 4; 0; 0; 0; 1]%float i.
Proof.
  apply (heights_as_computed [] 2 [1; 2; 3; 4; 0; 0; 0; 1]%float).
  - lia.
  - simpl. lia.
  - lia.
Defined.

(** C7, as the specification words it, fails: for the single vertex
    [(0, 0, 0)] with fourth component [1] the height is [1], not
    [0 + 0 + 0 - 1]. *)
Lemma heights_not_as_specified :
  exists h : float,
    (compute_heights [] 1 [0; 0; 0; 1]%float ≫= fun hs => zth hs 0) = Some h /\
    height_of height_as_specified [0; 0; 0; 1]%float 0 <> Some h /\
    (value h == 1)%Q /\
    (value (height_as_specified 0 0 0 1) == -1)%Q.
Proof.
  exists 1%float. split; [vm_compute; reflexivity |]. split.
  - intros H.
    apply (f_equal (fun o => match o with
                             | Some f => Prim2SF f
                             | None => S754_nan
                             end)) in H.
    vm_compute in H. discriminate.
  - split; vm_compute; reflexivity.
Qed.

Lemma lookup_tables_correct_witness :
  exists v w : Z,
    halfedge_facet 0 1 = Some v /\
    halfedge_facet 1 0 = Some w /\
    0 <= v < 4 /\ v <> 0 /\ v <> 1 /\ v <> w.
Proof.
  destruct lookup_tables_correct as [H _]. apply (H 0 1); lia.
Defined.

(** ** Running the code: general facts *)

Lemma bindR_Ok {A B : Type} (m : result A) (k : A -> result B) (b : B) :
  bindR m k = Ok b <-> exists a : A, m = Ok a /\ k a = Ok b.
Proof.
  destruct m as [a | |]; cbn; split.
  - intros H. exists a. split; [reflexivity | exact H].
  - intros (a' & E & H). injection E as <-. exact H.
  - discriminate.
  - intros (a' & E & _). discriminate.
  - discriminate.
  - intros (a' & E & _). discriminate.
Qed.

Lemma bindM_Ok {A B : Type} (m : M A) (k : A -> M B) (d d' : Delaunay3d) (b : B) :
  bindM m k d = Ok (b, d') <->
  exists (a : A) (d1 : Delaunay3d), m d = Ok (a, d1) /\ k a d1 = Ok (b, d').
Proof.
  unfold bindM. destruct (m d) as [[a d1] | |]; split.
  - intros H. exists a, d1. split; [reflexivity | exact H].
  - intros (a' & d1' & E & H). injection E as <- <-. exact H.
  - discriminate.
  - intros (a' & d1' & E & _). discriminate.
  - discriminate.
  - intros (a' & d1' & E & _). discriminate.
Qed.

Lemma const_Ok {A : Type} (f : Delaunay3d -> result A) (d d' : Delaunay3d) (a : A) :
  const f d = Ok (a, d') <-> f d = Ok a /\ d' = d.
Proof.
  unfold const. destruct (f d) as [a0 | |]; split.
  - intros H. injection H as <- <-. split; reflexivity.
  - intros (E & ->). injection E as <-. reflexivity.
  - discriminate.
  - intros (E & _). discriminate.
  - discriminate.
  - intros (E & _). discriminate.
Qed.


(** A walk that reaches, after [n] turns, a state in which the next turn
    returns [r] returns [r] on any fuel above [n]. *)
Lemma iterate_state_after {S R : Type} (f : S -> result (step S R)) (n : nat) :
  forall (fuel : nat) (s s' : S) (r : R),
    state_after f n s = Some s' -> f s' = Ok (Done r) -> (n < fuel)%nat ->
    iterate f fuel s = Ok r.
Proof.
  induction n as [| n IH]; intros fuel s s' r Hn Hr Hlt;
    (destruct fuel as [| fuel]; [lia |]); cbn [state_after iterate] in *.
  - injection Hn as ->. rewrite Hr. reflexivity.
  - destruct (f s) as [[r0 | s1] | |]; try discriminate. cbn.
    apply (IH fuel s1 s' r Hn Hr). lia.
Qed.


(** ** Point location: an unset neighbour slot *)

Lemma locate_step_unset (random_int32 : nat -> Z) (d : Delaunay3d)
    (p : double_ptr) (w : walk) :
  w_df w < 4 ->
  tet_adjacent d (w_t w) (w_f w) = Ok (-1) ->
  locate_step random_int32 d p w
  = Ok (Done (NO_TETRAHEDRON, w_orient w, w_rng w)).
Proof.
  intros Hdf Hadj. unfold locate_step, locate_step_with.
  destruct (Z.ltb_spec (w_df w) 4) as [_ | ?]; [| lia]. cbn [negb].
  rewrite Hadj. reflexivity.
Qed.

Lemma locate_inexact_step_unset (d : Delaunay3d) (p : double_ptr)
    (w : inexact_walk) :
  iw_f w < 4 ->
  tet_adjacent d (iw_t w) (iw_f w) = Ok (-1) ->
  locate_inexact_step d p w = Ok (Done NO_TETRAHEDRON).
Proof.
  intros Hf Hadj. unfold locate_inexact_step.
  destruct (Z.ltb_spec (iw_f w) 4) as [_ | ?]; [| lia]. cbn [negb].
  rewrite Hadj. reflexivity.
Qed.

(** C8. When the walk of [locate] or of [locate_inexact] comes to examine,
    in its current cell, a facet whose neighbour slot is [-1], that turn of
    the loop returns [NO_TETRAHEDRON] and nothing more is read; so the
    routine, started where it starts from its query point and hint, returns
    [NO_TETRAHEDRON] on any fuel above the number of facets examined so
    far. *)
Theorem unset_neighbor_ends_walk (random_int32 : nat -> Z) (d : Delaunay3d)
    (p : double_ptr) (fuel : nat) (hint : Z) (rng : nat) :
  (forall (orient : orient_slots) (w0 w : walk) (n : nat),
     locate_start random_int32 d fuel p hint orient rng = Ok w0 ->
     state_after (locate_step random_int32 d p) n w0 = Some w ->
     w_df w < 4 ->
     tet_adjacent d (w_t w) (w_f w) = Ok (-1) ->
     (n < fuel)%nat ->
     locate random_int32 d fuel p hint orient rng
     = Ok (NO_TETRAHEDRON, w_orient w, w_rng w)) /\
  (forall (max_iter hint1 hint2 : Z) (rng' : nat) (w0 w : inexact_walk) (n : nat),
     random_hint random_int32 d fuel hint rng = Ok (hint1, rng') ->
     start_from_real d hint1 = Ok hint2 ->
     inexact_enter d hint2 NO_TETRAHEDRON max_iter = Ok w0 ->
     state_after (locate_inexact_step d p) n w0 = Some w ->
     iw_f w < 4 ->
     tet_adjacent d (iw_t w) (iw_f w) = Ok (-1) ->
     (n < fuel)%nat ->
     locate_inexact random_int32 d fuel p hint max_iter rng
     = Ok (NO_TETRAHEDRON, rng')).
Proof.
  split.
  - intros orient w0 w n Hstart Hn Hdf Hadj Hlt.
    unfold locate. rewrite Hstart. cbn [bindR].
    apply (iterate_state_after _ n fuel w0 w); [exact Hn | | exact Hlt].
    apply locate_step_unset; assumption.
  - intros max_iter hint1 hint2 rng' w0 w n Hh Hr He Hn Hf Hadj Hlt.
    unfold locate_inexact. rewrite Hh. cbn [bindR]. rewrite Hr. cbn [bindR].
    rewrite He. cbn [bindR].
    rewrite (iterate_state_after _ n fuel w0 w NO_TETRAHEDRON Hn
               (locate_inexact_step_unset d p w Hf Hadj) Hlt).
    reflexivity.
Qed.

Lemma unset_neighbor_ends_walk_witness :
  locate sample_random stripped_mesh 10 (elsewhere (mkpoint 5 5 5)) 0
         (replicate 4 None) 0
  = Ok (NO_TETRAHEDRON, replicate 4 None, 2%nat).
Proof.
  pose (w0 := mk_walk 0 NO_TETRAHEDRON
                [in_vertices 0; in_vertices 3; in_vertices 6; in_vertices 9]
                2 0 (replicate 4 None) 2).
  apply (proj1 (unset_neighbor_ends_walk sample_random stripped_mesh
                  (elsewhere (mkpoint 5 5 5)) 10 0 0)
               (replicate 4 None) w0 w0 0%nat).
  - vm_compute. reflexivity.
  - reflexivity.
  - vm_compute. reflexivity.
  - vm_compute. reflexivity.
  - lia.
Defined.

(** ** Point location: what is reported *)















(** ** The first tetrahedron *)

Lemma scan_while_spec (cond : Z -> result bool) (n : nat) :
  forall iv j : Z,
    scan_while cond n iv = Ok j ->
    iv <= j <= iv + Z.of_nat n /\
    (forall k : Z, iv <= k < j -> cond k = Ok true) /\
    (j < iv + Z.of_nat n -> cond j = Ok false).
Proof.
  induction n as [| n IH]; intros iv j H; cbn [scan_while] in H.
  - injection H as <-. split; [lia |]. split; intros; lia.
  - apply bindR_Ok in H as (b & Hb & H). destruct b.
    + apply IH in H as (Hr & Hlow & Hstop). split; [lia |]. split.
      * intros k Hk. destruct (Z.eq_dec k iv) as [-> | Hne];
          [exact Hb | apply Hlow; lia].
      * intros Hj. apply Hstop. lia.
    + injection H as <-. split; [lia |]. split.
      * intros k Hk. lia.
      * intros _. exact Hb.
Qed.

Lemma scan_while_zero_spec (ori : Z -> result Sign) (n : nat) :
  forall (iv : Z) (s : Sign) (j : Z) (s' : Sign),
    scan_while_zero ori n iv s = Ok (j, s') ->
    iv <= j <= iv + Z.of_nat n /\
    (forall k : Z, iv <= k < j -> ori k = Ok ZERO) /\
    (j < iv + Z.of_nat n -> ori j = Ok s' /\ s' <> ZERO).
Proof.
  induction n as [| n IH]; intros iv s j s' H; cbn [scan_while_zero] in H.
  - injection H as <- <-. split; [lia |]. split; intros; lia.
  - apply bindR_Ok in H as (s1 & Hs1 & H).
    destruct (bool_decide_reflect (s1 = ZERO)) as [-> | Hnz].
    + apply IH in H as (Hr & Hlow & Hstop). split; [lia |]. split.
      * intros k Hk. destruct (Z.eq_dec k iv) as [-> | Hne];
          [exact Hs1 | apply Hlow; lia].
      * intros Hj. apply Hstop. lia.
    + injection H as <- <-. split; [lia |]. split.
      * intros k Hk. lia.
      * intros _. split; [exact Hs1 | exact Hnz].
Qed.

Lemma orient_3d_swap23 (p0 p1 p2 p3 : point) :
  orient_3d p0 p1 p3 p2 = match orient_3d p0 p1 p2 p3 with
                          | NEGATIVE => POSITIVE
                          | ZERO => ZERO
                          | POSITIVE => NEGATIVE
                          end.
Proof.
  unfold orient_3d. rewrite <- sgnQ_opp. apply sgnQ_proper, orient_det_swap23.
Qed.

Lemma orientation_of_swap23 (d : Delaunay3d) (iv0 iv1 iv2 iv3 : Z) :
  orientation_of d iv0 iv1 iv2 iv3 = Ok NEGATIVE ->
  orientation_of d iv0 iv1 iv3 iv2 = Ok POSITIVE.
Proof.
  unfold orientation_of. intros H.
  apply bindR_Ok in H as (p0 & E0 & H). apply bindR_Ok in H as (p1 & E1 & H).
  apply bindR_Ok in H as (p2 & E2 & H). apply bindR_Ok in H as (p3 & E3 & H).
  rewrite E0, E1, E3, E2. cbn [bindR]. rewrite orient_3d_swap23.
  injection H as ->. reflexivity.
Qed.

(** What the scans of [create_first_tetrahedron] settle on: vertex [0],
    the first vertex [j1] after it that is not identical to it, the first
    vertex [j2] after [j1] that is not on the line through them, the first
    vertex [j3] after [j2] that is not in the plane through them; [j2] and
    [j3] exchanged when their orientation [s] is [NEGATIVE]. *)
Lemma first_tetrahedron_vertices_spec (d : Delaunay3d) (iv0 iv1 iv2 iv3 : Z) :
  first_tetrahedron_vertices d = Ok (Some (iv0, iv1, iv2, iv3)) ->
  exists (j1 j2 j3 : Z) (s : Sign),
    4 <= nb_vertices d /\
    1 <= j1 /\ j1 < j2 /\ j2 < j3 /\ j3 < nb_vertices d /\
    (forall k : Z, 1 <= k < j1 -> identical_to d 0 k = Ok true) /\
    identical_to d 0 j1 = Ok false /\
    (forall k : Z, j1 < k < j2 -> colinear_with d 0 j1 k = Ok true) /\
    colinear_with d 0 j1 j2 = Ok false /\
    (forall k : Z, j2 < k < j3 -> orientation_of d 0 j1 j2 k = Ok ZERO) /\
    orientation_of d 0 j1 j2 j3 = Ok s /\ s <> ZERO /\
    (iv0, iv1, iv2, iv3)
    = (if bool_decide (s = NEGATIVE) then (0, j1, j3, j2) else (0, j1, j2, j3)) /\
    orientation_of d iv0 iv1 iv2 iv3 = Ok POSITIVE.
Proof.
  unfold first_tetrahedron_vertices. intros H.
  destruct (Z.ltb_spec (nb_vertices d) 4) as [? | Hnb]; [discriminate |].
  apply bindR_Ok in H as (j1 & H1 & H).
  apply scan_while_spec in H1 as (R1 & L1 & S1).
  destruct (Z.eqb_spec j1 (nb_vertices d)) as [? | N1]; [discriminate |].
  apply bindR_Ok in H as (j2 & H2 & H).
  apply scan_while_spec in H2 as (R2 & L2 & S2).
  destruct (Z.eqb_spec j2 (nb_vertices d)) as [? | N2]; [discriminate |].
  apply bindR_Ok in H as ([j3 s] & H3 & H).
  apply scan_while_zero_spec in H3 as (R3 & L3 & S3).
  destruct (Z.eqb_spec j3 (nb_vertices d)) as [? | N3]; [discriminate |].
  destruct S3 as [S3 Hs]; [lia |].
  exists j1, j2, j3, s.
  repeat (split; [first [lia | assumption
                        | (intros k Hk; first [apply L1 | apply L2 | apply L3]; lia)
                        | (apply S1; lia) | (apply S2; lia)] |]).
  destruct (bool_decide_reflect (s = NEGATIVE)) as [-> | Hn];
    injection H as <- <- <- <-.
  - split; [reflexivity |]. apply orientation_of_swap23. exact S3.
  - split; [reflexivity |]. destruct s; [contradiction | contradiction | exact S3].
Qed.

Lemma signed_index_t_of_small (x : Z) :
  0 <= x < 2 ^ 31 -> signed_index_t_of x = x.
Proof.
  intros H. unfold signed_index_t_of.
  rewrite Z.mod_small by lia.
  destruct (Z.ltb_spec x (2 ^ 31)); [reflexivity | lia].
Qed.

(** The stores after [link_first_tetrahedron] on empty stores. *)
Lemma link_first_tetrahedron_stores (d : Delaunay3d) (a0 a1 a2 a3 : Z) :
  cell_to_v_store_ d = [] ->
  cell_to_cell_store_ d = [] ->
  cell_next_ d = [] ->
  first_free_ d = END_OF_LIST ->
  0 <= a0 < 2 ^ 31 -> 0 <= a1 < 2 ^ 31 -> 0 <= a2 < 2 ^ 31 -> 0 <= a3 < 2 ^ 31 ->
  link_first_tetrahedron a0 a1 a2 a3 d
  = Ok (tt,
        set_cell_next
          (set_cell_to_cell_store
             (set_cell_to_v_store d
                [a0; a1; a2; a3;  -1; a3; a2; a1;  -1; a2; a3; a0;
                 -1; a1; a0; a3;  -1; a2; a0; a1])
             [1; 2; 3; 4;  0; 4; 3; 2;  0; 3; 4; 1;  0; 2; 1; 4;  0; 3; 1; 2])
          (replicate 5 NOT_IN_LIST_BIT)).
Proof.
  destruct d as [dim nb vs ro dr ki nc nf sv sc cn ff wt hs st db].
  cbn [cell_to_v_store_ cell_to_cell_store_ cell_next_ first_free_].
  intros -> -> -> -> H0 H1 H2 H3.
  unfold link_first_tetrahedron.
  rewrite !signed_index_t_of_small by assumption.
  vm_compute. reflexivity.
Qed.

(** The marks of [check_combinatorics] stay in the table when the vertex
    slots hold vertices of the object. *)
Lemma mark_vertex_Ok (v : Z) (v_has_tet : list bool) :
  v < 0 \/ index_t_of v < Z.of_nat (length v_has_tet) ->
  exists h : list bool,
    mark_vertex v v_has_tet = Ok h /\ length h = length v_has_tet.
Proof.
  intros H. unfold mark_vertex.
  destruct (Z.geb_spec v 0) as [Hv | Hv].
  - assert (Hi : 0 <= index_t_of v < Z.of_nat (length v_has_tet)).
    { split; [apply Z.mod_pos_bound; lia | lia]. }
    unfold zset. destruct (Z.leb_spec 0 (index_t_of v)); [| lia].
    destruct (Z.ltb_spec (index_t_of v) (Z.of_nat (length v_has_tet))); [| lia].
    cbn [andb]. eexists. split; [reflexivity |]. apply length_insert.
  - exists v_has_tet. split; reflexivity.
Qed.

Lemma check_combinatorics_tet_run (d : Delaunay3d) (t : Z) (ok b : bool)
    (v_has_tet : list bool) :
  tet_combinatorics_ok d t = Ok b ->
  vertex_slots_below d (Z.of_nat (length v_has_tet)) t ->
  exists h : list bool,
    check_combinatorics_tet d t (ok, v_has_tet) = Ok (ok && b, h) /\
    length h = length v_has_tet.
Proof.
  intros Hb Hs. unfold check_combinatorics_tet. rewrite Hb. cbn [bindR fst snd].
  destruct (Hs 0) as (v0 & E0 & R0); [lia |].
  destruct (Hs 1) as (v1 & E1 & R1); [lia |].
  destruct (Hs 2) as (v2 & E2 & R2); [lia |].
  destruct (Hs 3) as (v3 & E3 & R3); [lia |].
  rewrite E0. cbn [bindR].
  destruct (mark_vertex_Ok v0 v_has_tet R0) as (h0 & M0 & L0).
  rewrite M0. cbn [bindR]. rewrite E1. cbn [bindR].
  destruct (mark_vertex_Ok v1 h0) as (h1 & M1 & L1); [rewrite L0; exact R1 |].
  rewrite M1. cbn [bindR]. rewrite E2. cbn [bindR].
  destruct (mark_vertex_Ok v2 h1) as (h2 & M2 & L2); [rewrite L1, L0; exact R2 |].
  rewrite M2. cbn [bindR]. rewrite E3. cbn [bindR].
  destruct (mark_vertex_Ok v3 h2) as (h3 & M3 & L3); [rewrite L2, L1, L0; exact R3 |].
  rewrite M3. cbn [bindR]. exists h3. split; [reflexivity | congruence].
Qed.

Lemma check_combinatorics_loop_run (d : Delaunay3d) (l : list Z) :
  forall (ok b : bool) (v_has_tet : list bool),
    all_ok (tet_combinatorics_ok d) l = Ok b ->
    (forall t : Z, t ∈ l ->
       vertex_slots_below d (Z.of_nat (length v_has_tet)) t) ->
    exists h : list bool,
      check_combinatorics_loop d l (ok, v_has_tet) = Ok (ok && b, h) /\
      length h = length v_has_tet.
Proof.
  induction l as [| t l IH]; intros ok b h Hall Hs; cbn [all_ok] in Hall.
  - injection Hall as <-. exists h. rewrite andb_true_r. split; reflexivity.
  - apply bindR_Ok in Hall as (b1 & Hb1 & Hall).
    apply bindR_Ok in Hall as (r & Hr & Hall). injection Hall as <-.
    cbn [check_combinatorics_loop].
    destruct (check_combinatorics_tet_run d t ok b1 h Hb1) as (h1 & E1 & L1).
    { apply Hs. apply list_elem_of_here. }
    rewrite E1. cbn [bindR].
    destruct (IH (ok && b1) r h1 Hr) as (h2 & E2 & L2).
    { intros t' Ht'. rewrite L1. apply Hs. apply list_elem_of_further. exact Ht'. }
    exists h2. rewrite E2, andb_assoc. split; [reflexivity | congruence].
Qed.

Lemma isolated_vertices_loop_Ok (v_has_tet : list bool) (n : nat) :
  forall v : Z,
    0 <= v -> v + Z.of_nat n <= Z.of_nat (length v_has_tet) ->
    isolated_vertices_loop v_has_tet n v = Ok tt.
Proof.
  induction n as [| n IH]; intros v Hv Hn; cbn [isolated_vertices_loop].
  - reflexivity.
  - destruct (zth_is_Some v_has_tet v) as [b Eb]; [lia |].
    rewrite Eb. cbn [of_option bindR]. apply IH; lia.
Qed.

(** [check_combinatorics] reaches its assertion when the vertex slots of
    all the cells hold vertices of the object, with the flag that the
    checks of the cells give. *)
Lemma check_combinatorics_run (d : Delaunay3d) (b : bool) :
  (forall t : Z, 0 <= t < max_t d -> vertex_slots_below d (nb_vertices d) t) ->
  all_ok (tet_combinatorics_ok d) (seqZ 0 (max_t d)) = Ok b ->
  check_combinatorics d = Ok b.
Proof.
  intros Hs Hall. unfold check_combinatorics.
  destruct (check_combinatorics_loop_run d (seqZ 0 (max_t d)) true b
              (replicate (Z.to_nat (nb_vertices d)) false) Hall)
    as (h & E & L).
  { intros t Ht. apply elem_of_seqZ in Ht.
    intros lv Hlv. destruct (Hs t ltac:(lia) lv Hlv) as (v & Ev & Rv).
    exists v. split; [exact Ev |]. rewrite length_replicate.
    destruct Rv as [Rv | Rv]; [left; exact Rv | right; lia]. }
  rewrite E. cbn [bindR fst snd andb].
  rewrite isolated_vertices_loop_Ok; [reflexivity | lia |].
  rewrite L, length_replicate. lia.
Qed.

Lemma index_t_of_le (x : Z) : 0 <= x -> index_t_of x <= x.
Proof. intros H. unfold index_t_of. apply Z.mod_le; lia. Qed.

Ltac cell_index t :=
  match goal with
  | H : 0 <= t < 5 |- _ =>
      let E := fresh in
      assert (E : t = 0 \/ t = 1 \/ t = 2 \/ t = 3 \/ t = 4) by lia;
      clear H; destruct E as [-> | [-> | [-> | [-> | ->]]]]
  end.

Ltac positive_index a :=
  match goal with
  | H : 1 <= a < 2 ^ 31 |- _ =>
      destruct a as [| ? | ?]; [exfalso; lia | clear H | exfalso; lia]
  end.

(** C5, as the code has it.  [create_first_tetrahedron] scans the vertices
    in the order of their indices [0, 1, 2, ...] (the reordering plays no
    part): vertex [0], then the first vertex not identical to it, then the
    first vertex after that not collinear with the two, then the first
    vertex after that not coplanar with the three; the last two are
    exchanged when the orientation found is [NEGATIVE], so that the cell
    created has [POSITIVE] orientation.  On the empty stores this makes
    five cells: the real cell [0] on the four vertices and, for each of its
    facets [f], the virtual cell [1 + f] whose three finite vertices are
    the vertices of that facet; [0] and [1 + f] are neighbours of each
    other across [f] and across the vertex at infinity, any two of the five
    cells list each other, no cell lists itself, and
    [check_combinatorics] answers [true]. *)
Theorem first_tetrahedron_created (d d' : Delaunay3d) (iv0 iv1 iv2 iv3 : Z) :
  cell_to_v_store_ d = [] ->
  cell_to_cell_store_ d = [] ->
  cell_next_ d = [] ->
  first_free_ d = END_OF_LIST ->
  nb_vertices d <= 2 ^ 31 ->
  create_first_tetrahedron d = Ok (Some (iv0, iv1, iv2, iv3), d') ->
  (exists (j1 j2 j3 : Z) (s : Sign),
     1 <= j1 /\ j1 < j2 /\ j2 < j3 /\ j3 < nb_vertices d /\
     (forall k : Z, 1 <= k < j1 -> identical_to d 0 k = Ok true) /\
     identical_to d 0 j1 = Ok false /\
     (forall k : Z, j1 < k < j2 -> colinear_with d 0 j1 k = Ok true) /\
     colinear_with d 0 j1 j2 = Ok false /\
     (forall k : Z, j2 < k < j3 -> orientation_of d 0 j1 j2 k = Ok ZERO) /\
     orientation_of d 0 j1 j2 j3 = Ok s /\ s <> ZERO /\
     (iv0, iv1, iv2, iv3)
     = (if bool_decide (s = NEGATIVE) then (0, j1, j3, j2)
        else (0, j1, j2, j3))) /\
  orientation_of d iv0 iv1 iv2 iv3 = Ok POSITIVE /\
  max_t d' = 5 /\
  tet_is_real d' 0 = Ok true /\
  tet_vertex d' 0 0 = Ok iv0 /\ tet_vertex d' 0 1 = Ok iv1 /\
  tet_vertex d' 0 2 = Ok iv2 /\ tet_vertex d' 0 3 = Ok iv3 /\
  (forall f : Z, 0 <= f < 4 ->
     tet_is_virtual d' (1 + f) = Ok true /\
     tet_is_free d' (1 + f) = Ok false /\
     tet_vertex d' (1 + f) 0 = Ok VERTEX_AT_INFINITY /\
     (exists a b c : Z,
        tet_vertex d' (1 + f) 1 = Ok a /\
        tet_vertex d' (1 + f) 2 = Ok b /\
        tet_vertex d' (1 + f) 3 = Ok c /\
        [a; b; c] ≡ₚ delete (Z.to_nat f) [iv0; iv1; iv2; iv3]) /\
     tet_adjacent d' 0 f = Ok (1 + f) /\
     tet_adjacent d' (1 + f) 0 = Ok 0) /\
  (forall t t' : Z, 0 <= t < 5 -> 0 <= t' < 5 -> t <> t' ->
     exists f g : Z,
       0 <= f < 4 /\ 0 <= g < 4 /\
       tet_adjacent d' t f = Ok t' /\ tet_adjacent d' t' g = Ok t) /\
  (forall t f : Z, 0 <= t < 5 -> 0 <= f < 4 ->
     exists t' : Z, tet_adjacent d' t f = Ok t' /\ 0 <= t' < 5 /\ t' <> t) /\
  check_combinatorics d' = Ok true.
Proof.
  intros Ev Ec En Ef Hnb H.
  unfold create_first_tetrahedron in H.
  apply bindM_Ok in H as (found & d1 & Hfound & H).
  apply const_Ok in Hfound as (Hfound & ->).
  destruct found as [[[[i0 i1] i2] i3] |]; [| injection H as H; discriminate].
  apply bindM_Ok in H as ([] & d2 & Hlink & H).
  injection H as <- <- <- <- <-.
  destruct (first_tetrahedron_vertices_spec _ _ _ _ _ Hfound)
    as (j1 & j2 & j3 & s & H4 & Hj1 & Hj2 & Hj3 & Hjn & L1 & S1 & L2 & S2
        & L3 & S3 & Hs & Hiv & Hpos).
  assert (B : i0 = 0 /\ 1 <= i1 < 2 ^ 31 /\
              1 <= i2 < 2 ^ 31 /\ 1 <= i3 < 2 ^ 31 /\
              i1 < nb_vertices d /\ i2 < nb_vertices d /\ i3 < nb_vertices d).
  { destruct (bool_decide (s = NEGATIVE)); injection Hiv as -> -> -> ->; lia. }
  destruct B as (-> & B1 & B2 & B3 & N1 & N2 & N3).
  rewrite (link_first_tetrahedron_stores d 0 i1 i2 i3 Ev Ec En Ef) in Hlink
    by lia.
  injection Hlink as <-.
  split; [exists j1, j2, j3, s; tauto |].
  split; [exact Hpos |].
  clear Hfound Hiv Hpos L1 S1 L2 S2 L3 S3 Hs Ev Ec En Ef.
  destruct d as [dim nb vs ro dr ki nc nf sv sc cn ff wt hs st db].
  positive_index i1; positive_index i2; positive_index i3.
  do 6 (split; [vm_compute; reflexivity |]).
  split; [intros f Hf; local_index f;
               (do 3 (split; [vm_compute; reflexivity |]));
               (split; [| split; vm_compute; reflexivity]);
               (eexists; eexists; eexists;
                do 3 (split; [vm_compute; reflexivity |]);
                cbn; solve_Permutation) |].
  split; [intros t t' Ht Ht' Hne; cell_index t; cell_index t';
               try congruence;
               first [ exists 0, 0; repeat split; (lia || (vm_compute; reflexivity))
                     | exists 0, 1; repeat split; (lia || (vm_compute; reflexivity))
                     | exists 0, 2; repeat split; (lia || (vm_compute; reflexivity))
                     | exists 0, 3; repeat split; (lia || (vm_compute; reflexivity))
                     | exists 1, 0; repeat split; (lia || (vm_compute; reflexivity))
                     | exists 1, 1; repeat split; (lia || (vm_compute; reflexivity))
                     | exists 1, 2; repeat split; (lia || (vm_compute; reflexivity))
                     | exists 1, 3; repeat split; (lia || (vm_compute; reflexivity))
                     | exists 2, 0; repeat split; (lia || (vm_compute; reflexivity))
                     | exists 2, 1; repeat split; (lia || (vm_compute; reflexivity))
                     | exists 2, 2; repeat split; (lia || (vm_compute; reflexivity))
                     | exists 2, 3; repeat split; (lia || (vm_compute; reflexivity))
                     | exists 3, 0; repeat split; (lia || (vm_compute; reflexivity))
                     | exists 3, 1; repeat split; (lia || (vm_compute; reflexivity))
                     | exists 3, 2; repeat split; (lia || (vm_compute; reflexivity))
                     | exists 3, 3; repeat split; (lia || (vm_compute; reflexivity)) ] |].
  split; [intros t f Ht Hf; cell_index t; local_index f;
               eexists; (split; [vm_compute; reflexivity | lia]) |].
  unfold nb_vertices in N1, N2, N3. cbn [nb_vertices_] in N1, N2, N3.
  apply check_combinatorics_run; [| vm_compute; reflexivity].
  intros t Ht lv Hlv. change (0 <= t < 5) in Ht.
  cell_index t; local_index lv;
    (eexists; split; [vm_compute; reflexivity |]);
    match goal with
    | |- _ \/ index_t_of ?x < ?n =>
        change n with nb;
        first [ left; lia
              | right; pose proof (index_t_of_le x ltac:(lia)); lia ]
    end.
Qed.

Lemma first_tetrahedron_created_witness :
  orientation_of unbuilt_mesh 0 1 2 3 = Ok POSITIVE /\
  max_t five_points_first_mesh = 5 /\
  check_combinatorics five_points_first_mesh = Ok true.
Proof.
  pose proof (first_tetrahedron_created unbuilt_mesh five_points_first_mesh
                0 1 2 3 eq_refl eq_refl eq_refl eq_refl) as H.
  assert (Hnb : nb_vertices unbuilt_mesh <= 2 ^ 31) by (vm_compute; discriminate).
  assert (Hrun : create_first_tetrahedron unbuilt_mesh
                 = Ok (Some (0, 1, 2, 3), five_points_first_mesh))
    by (vm_compute; reflexivity).
  specialize (H Hnb Hrun).
  split; [apply H |]. split; apply H.
Defined.

(** C5, as the specification words it, fails where the spatial sort does
    not leave the vertices in place: with the fifth point sorted first,
    the scan of the reordered sequence would start the tetrahedron at
    vertex 4, while the cell created is on the vertices 0, 1, 2, 3. *)
Lemma first_tetrahedron_not_in_reorder :
  reorder_ unbuilt_mesh = [4; 0; 1; 2; 3] /\
  first_tetrahedron_vertices_reordered unbuilt_mesh = Ok (Some (4, 0, 2, 1)) /\
  create_first_tetrahedron unbuilt_mesh
  = Ok (Some (0, 1, 2, 3), five_points_first_mesh) /\
  first_tetrahedron_vertices unbuilt_mesh
  <> first_tetrahedron_vertices_reordered unbuilt_mesh.
Proof.
  split; [reflexivity |]. split; [vm_compute; reflexivity |].
  split; [vm_compute; reflexivity |].
  intros H. vm_compute in H. discriminate.
Qed.

(** ** Degenerate inputs *)

(** Four points of one plane span no volume. *)
Lemma plane_orient_det (n x0 x1 x2 x3 : Q3) (c : Q) :
  ~ Q3_zero n ->
  (dot n x0 == c)%Q -> (dot n x1 == c)%Q ->
  (dot n x2 == c)%Q -> (dot n x3 == c)%Q ->
  (orient_det x0 x1 x2 x3 == 0)%Q.
Proof.
  destruct n as [[n0 n1] n2], x0 as [[a0 a1] a2], x1 as [[b0 b1] b2],
           x2 as [[c0 c1] c2], x3 as [[d0 d1] d2].
  unfold Q3_zero, Q3_eq, dot, orient_det, det3x3_Q. intros Hn H0 H1 H2 H3.
  set (u0 := (b0 - a0)%Q). set (u1 := (b1 - a1)%Q). set (u2 := (b2 - a2)%Q).
  set (v0 := (c0 - a0)%Q). set (v1 := (c1 - a1)%Q). set (v2 := (c2 - a2)%Q).
  set (w0 := (d0 - a0)%Q). set (w1 := (d1 - a1)%Q). set (w2 := (d2 - a2)%Q).
  assert (Hu : (n0 * u0 + n1 * u1 + n2 * u2 == 0)%Q) by (unfold u0, u1, u2; lra).
  assert (Hv : (n0 * v0 + n1 * v1 + n2 * v2 == 0)%Q) by (unfold v0, v1, v2; lra).
  assert (Hw : (n0 * w0 + n1 * w1 + n2 * w2 == 0)%Q) by (unfold w0, w1, w2; lra).
  clearbody u0 u1 u2 v0 v1 v2 w0 w1 w2. clear H0 H1 H2 H3.
  set (D := (u0 * (v1 * w2 - v2 * w1) - v0 * (u1 * w2 - u2 * w1)
             + w0 * (u1 * v2 - u2 * v1))%Q).
  assert (E0 : (n0 * D == 0)%Q).
  { assert (E : (n0 * D ==
                 (n0 * u0 + n1 * u1 + n2 * u2) * (v1 * w2 - v2 * w1)
                 - (n0 * v0 + n1 * v1 + n2 * v2) * (u1 * w2 - u2 * w1)
                 + (n0 * w0 + n1 * w1 + n2 * w2) * (u1 * v2 - u2 * v1))%Q)
      by (unfold D; ring).
    rewrite E, Hu, Hv, Hw. ring. }
  assert (E1 : (n1 * D == 0)%Q).
  { assert (E : (n1 * D ==
                 - (n0 * u0 + n1 * u1 + n2 * u2) * (v0 * w2 - v2 * w0)
                 + (n0 * v0 + n1 * v1 + n2 * v2) * (u0 * w2 - u2 * w0)
                 - (n0 * w0 + n1 * w1 + n2 * w2) * (u0 * v2 - u2 * v0))%Q)
      by (unfold D; ring).
    rewrite E, Hu, Hv, Hw. ring. }
  assert (E2 : (n2 * D == 0)%Q).
  { assert (E : (n2 * D ==
                 (n0 * u0 + n1 * u1 + n2 * u2) * (v0 * w1 - v1 * w0)
                 - (n0 * v0 + n1 * v1 + n2 * v2) * (u0 * w1 - u1 * w0)
                 + (n0 * w0 + n1 * w1 + n2 * w2) * (u0 * v1 - u1 * v0))%Q)
      by (unfold D; ring).
    rewrite E, Hu, Hv, Hw. ring. }
  destruct (Qeq_dec D 0) as [? | ND]; [assumption |].
  exfalso. apply Hn.
  apply Qmult_integral in E0, E1, E2. tauto.
Qed.

(** Points of one line are points of one plane; one point is a line. *)
Lemma all_identical_collinear (ps : list Q3) : all_identical ps -> all_collinear ps.
Proof.
  intros (a & H). exists a, (1, 0, 0)%Q. split.
  - unfold Q3_zero, Q3_eq. intros (E & _). lra.
  - eapply Forall_impl; [exact H |]. intros [[x0 x1] x2] Hx. exists 0%Q.
    destruct a as [[a0 a1] a2]. unfold Q3_eq, Q3_along in *. repeat split; lra.
Qed.

Lemma all_collinear_coplanar (ps : list Q3) : all_collinear ps -> coplanar_all ps.
Proof.
  intros ([[a0 a1] a2] & [[d0 d1] d2] & Hd & H).
  unfold Q3_zero, Q3_eq in Hd.
  destruct (Qeq_dec d0 0) as [E0 | N0].
  - destruct (Qeq_dec d1 0) as [E1 | N1].
    + (* the line is along the third axis: the plane [x0 = a0] *)
      exists (1, 0, 0)%Q, a0. split.
      * unfold Q3_zero, Q3_eq. intros (E & _). lra.
      * eapply Forall_impl; [exact H |]. intros [[x0 x1] x2] (t & Hx).
        unfold Q3_eq, Q3_along in Hx. destruct Hx as (-> & _). rewrite E0. ring.
    + (* the plane [x0 = a0] again *)
      exists (1, 0, 0)%Q, a0. split.
      * unfold Q3_zero, Q3_eq. intros (E & _). lra.
      * eapply Forall_impl; [exact H |]. intros [[x0 x1] x2] (t & Hx).
        unfold Q3_eq, Q3_along in Hx. destruct Hx as (-> & _). rewrite E0. ring.
  - (* the plane through the line and the third axis direction *)
    exists (d1, - d0, 0)%Q, (d1 * a0 - d0 * a1)%Q. split.
    + unfold Q3_zero, Q3_eq. intros (_ & E & _). lra.
    + eapply Forall_impl; [exact H |]. intros [[x0 x1] x2] (t & Hx).
      unfold Q3_eq, Q3_along in Hx. destruct Hx as (-> & -> & _). ring.
Qed.

Lemma degenerate_input_coplanar (dim nb_vertices : Z) (vertices : list float) :
  degenerate_input dim nb_vertices vertices ->
  nb_vertices < 4 \/ coplanar_all (input_points dim nb_vertices vertices).
Proof.
  intros [H | [H | [H | H]]]; [left; exact H | right | right | right; exact H].
  - apply all_collinear_coplanar, all_identical_collinear, H.
  - apply all_collinear_coplanar, H.
Qed.

(** The coordinates of the vertices of a loaded buffer can be read. *)
Lemma deref_vertex (d : Delaunay3d) (i : Z) :
  (dimension_ d = 3 \/ dimension_ d = 4) ->
  Z.of_nat (length (vertices_ d)) = dimension_ d * nb_vertices_ d ->
  dimension_ d * nb_vertices_ d < 2 ^ 32 ->
  0 <= i < nb_vertices_ d ->
  exists p : point,
    deref d (vertex_ptr d i) = Ok p /\
    pos p = input_point (dimension_ d) (vertices_ d) i.
Proof.
  intros Hdim Hlen Hsmall Hi.
  unfold vertex_ptr, index_t_of. rewrite Z.mod_small by nia.
  unfold deref, input_point, coordinate.
  destruct (zth_is_Some (vertices_ d) (dimension_ d * i)) as [x Ex]; [nia |].
  destruct (zth_is_Some (vertices_ d) (dimension_ d * i + 1)) as [y Ey]; [nia |].
  destruct (zth_is_Some (vertices_ d) (dimension_ d * i + 2)) as [z Ez]; [nia |].
  rewrite Ex, Ey, Ez. cbn. eexists. split; reflexivity.
Qed.

Lemma scan_while_total (cond : Z -> result bool) (n : nat) :
  forall iv : Z,
    (forall k : Z, iv <= k < iv + Z.of_nat n -> exists b : bool, cond k = Ok b) ->
    exists j : Z, scan_while cond n iv = Ok j.
Proof.
  induction n as [| n IH]; intros iv H; cbn [scan_while].
  - eexists. reflexivity.
  - destruct (H iv) as [b Hb]; [lia |]. rewrite Hb. cbn [bindR].
    destruct b; [| eexists; reflexivity].
    apply IH. intros k Hk. apply H. lia.
Qed.

Lemma scan_while_zero_all (ori : Z -> result Sign) (n : nat) :
  forall (iv : Z) (s : Sign),
    (forall k : Z, iv <= k < iv + Z.of_nat n -> ori k = Ok ZERO) ->
    exists s' : Sign, scan_while_zero ori n iv s = Ok (iv + Z.of_nat n, s').
Proof.
  induction n as [| n IH]; intros iv s H; cbn [scan_while_zero].
  - exists s. rewrite Z.add_0_r. reflexivity.
  - rewrite (H iv) by lia. cbn [bindR].
    rewrite bool_decide_eq_true_2 by reflexivity.
    destruct (IH (iv + 1) ZERO) as [s' Hs'].
    + intros k Hk. apply H. lia.
    + exists s'. rewrite Hs'. f_equal. f_equal. lia.
Qed.

Lemma input_points_elem (dim nb_vertices : Z) (vertices : list float) (i : Z) :
  0 <= i < nb_vertices ->
  input_point dim vertices i ∈ input_points dim nb_vertices vertices.
Proof.
  intros Hi. unfold input_points. apply list_elem_of_fmap.
  exists i. split; [reflexivity |]. apply elem_of_seqZ. lia.
Qed.

Lemma coplanar_all_dot (ps : list Q3) (n : Q3) (c : Q) (x : Q3) :
  Forall (fun x : Q3 =>
      let '(x0, x1, x2) := x in
      let '(n0, n1, n2) := n in
      (n0 * x0 + n1 * x1 + n2 * x2 == c)%Q) ps ->
  x ∈ ps -> (dot n x == c)%Q.
Proof.
  intros H Hx. rewrite Forall_forall in H. specialize (H x Hx).
  destruct x as [[x0 x1] x2], n as [[n0 n1] n2]. exact H.
Qed.

(** On coplanar points every orientation test of the third scan answers
    [ZERO]. *)
Lemma orientation_of_coplanar (d : Delaunay3d) (i0 i1 i2 i3 : Z) :
  (dimension_ d = 3 \/ dimension_ d = 4) ->
  Z.of_nat (length (vertices_ d)) = dimension_ d * nb_vertices_ d ->
  dimension_ d * nb_vertices_ d < 2 ^ 32 ->
  coplanar_all (input_points (dimension_ d) (nb_vertices_ d) (vertices_ d)) ->
  0 <= i0 < nb_vertices_ d -> 0 <= i1 < nb_vertices_ d ->
  0 <= i2 < nb_vertices_ d -> 0 <= i3 < nb_vertices_ d ->
  orientation_of d i0 i1 i2 i3 = Ok ZERO.
Proof.
  intros Hdim Hlen Hsmall (n & c & Hn & Hall) H0 H1 H2 H3.
  destruct (deref_vertex d i0 Hdim Hlen Hsmall H0) as (p0 & E0 & P0).
  destruct (deref_vertex d i1 Hdim Hlen Hsmall H1) as (p1 & E1 & P1).
  destruct (deref_vertex d i2 Hdim Hlen Hsmall H2) as (p2 & E2 & P2).
  destruct (deref_vertex d i3 Hdim Hlen Hsmall H3) as (p3 & E3 & P3).
  unfold orientation_of. rewrite E0, E1, E2, E3. cbn [bindR]. f_equal.
  unfold orient_3d. apply sgnQ_zero.
  apply (plane_orient_det n _ _ _ _ c Hn);
    apply (coplanar_all_dot _ n c _ Hall);
    rewrite ?P0, ?P1, ?P2, ?P3; apply input_points_elem; assumption.
Qed.

(** On a degenerate input the scans find no tetrahedron. *)
Lemma first_tetrahedron_vertices_degenerate (d : Delaunay3d) :
  (dimension_ d = 3 \/ dimension_ d = 4) ->
  Z.of_nat (length (vertices_ d)) = dimension_ d * nb_vertices_ d ->
  dimension_ d * nb_vertices_ d < 2 ^ 32 ->
  degenerate_input (dimension_ d) (nb_vertices_ d) (vertices_ d) ->
  first_tetrahedron_vertices d = Ok None.
Proof.
  intros Hdim Hlen Hsmall Hdeg.
  apply degenerate_input_coplanar in Hdeg.
  unfold first_tetrahedron_vertices, nb_vertices.
  destruct (Z.ltb_spec (nb_vertices_ d) 4) as [? | Hnb]; [reflexivity |].
  destruct Hdeg as [? | Hco]; [lia |].
  destruct (scan_while_total (identical_to d 0)
              (Z.to_nat (nb_vertices_ d - 1)) 1) as [j1 H1].
  { intros k Hk. unfold identical_to.
    destruct (deref_vertex d 0 Hdim Hlen Hsmall) as (p0 & E0 & _); [lia |].
    destruct (deref_vertex d k Hdim Hlen Hsmall) as (pk & Ek & _); [lia |].
    rewrite E0, Ek. eexists. reflexivity. }
  rewrite H1. cbn [bindR]. apply scan_while_spec in H1 as (R1 & _ & _).
  destruct (Z.eqb_spec j1 (nb_vertices_ d)) as [? | N1]; [reflexivity |].
  destruct (scan_while_total (colinear_with d 0 j1)
              (Z.to_nat (nb_vertices_ d - (j1 + 1))) (j1 + 1)) as [j2 H2].
  { intros k Hk. unfold colinear_with.
    destruct (deref_vertex d 0 Hdim Hlen Hsmall) as (p0 & E0 & _); [lia |].
    destruct (deref_vertex d j1 Hdim Hlen Hsmall) as (p1 & E1 & _); [lia |].
    destruct (deref_vertex d k Hdim Hlen Hsmall) as (pk & Ek & _); [lia |].
    rewrite E0, E1, Ek. eexists. reflexivity. }
  rewrite H2. cbn [bindR]. apply scan_while_spec in H2 as (R2 & _ & _).
  destruct (Z.eqb_spec j2 (nb_vertices_ d)) as [? | N2]; [reflexivity |].
  destruct (scan_while_zero_all (orientation_of d 0 j1 j2)
              (Z.to_nat (nb_vertices_ d - (j2 + 1))) (j2 + 1) ZERO) as [s H3].
  { intros k Hk. apply orientation_of_coplanar; try assumption; lia. }
  rewrite H3. cbn [bindR].
  replace (j2 + 1 + Z.of_nat (Z.to_nat (nb_vertices_ d - (j2 + 1))))
    with (nb_vertices_ d) by lia.
  rewrite Z.eqb_refl. reflexivity.
Qed.

Section Driver.

Variable random_int32 : nat -> Z.
Variable tet_is_conflict : Delaunay3d -> Z -> double_ptr -> result bool.
Variable compute_BRIO_order : Z -> list float -> list Z.

(** C6, as the code has it.  On a degenerate input (fewer than 4 points,
    or all the points identical, on one line or in one plane)
    [set_vertices] ends without a fault and leaves the three stores empty:
    no tetrahedron.  The boolean it returns is [true], the value it also
    returns after a complete construction; [false] comes only from a
    progress callback that aborts.  The return comes before the counts of
    cells are published: [nb_cells_] and [nb_finite_cells_] are those of
    before the call, zero on a new object and out of date on an object
    used before.  The degenerate outcome shows in the empty stores only,
    not in the boolean and not in the counts. *)
Theorem degenerate_input_returns_true (fuel : nat) (d : Delaunay3d)
    (nb_vertices : Z) (vertices : list float)
    (progressCallback : option (Z -> Z -> bool)) (rng : nat) :
  well_formed_input d nb_vertices vertices ->
  degenerate_input (dimension_ d) nb_vertices vertices ->
  exists d' : Delaunay3d,
    set_vertices random_int32 tet_is_conflict compute_BRIO_order fuel
                 nb_vertices vertices progressCallback rng d
    = Ok ((negb (aborts progressCallback 0 0), rng), d') /\
    max_t d' = 0 /\
    cell_to_v_store_ d' = [] /\
    cell_to_cell_store_ d' = [] /\
    cell_next_ d' = [] /\
    nb_cells_ d' = nb_cells_ d /\
    nb_finite_cells_ d' = nb_finite_cells_ d.
Proof.
  intros (Hdim & Hw & Hnb & Hlen & Hsmall) Hdeg.
  unfold set_vertices.
  unfold bindM at 1. unfold modify at 1.
  unfold bindM at 1. unfold const at 1.
  unfold bindM at 1.
  assert (Hh : exists dh : Delaunay3d,
             (if weighted_ (set_cur_stamp d 0)
              then
                let* h := const (fun d0 =>
                  of_option (compute_heights (heights_ d0) nb_vertices vertices)) in
                modify (fun d0 => set_heights d0 h)
              else retM tt) (set_cur_stamp d 0) = Ok (tt, dh) /\
             dimension_ dh = dimension_ d /\ nb_cells_ dh = nb_cells_ d /\
             nb_finite_cells_ dh = nb_finite_cells_ d).
  { cbn [weighted_ set_cur_stamp]. destruct (weighted_ d) eqn:Ew.
    - assert (E4 : dimension_ d = 4).
      { symmetry in Hw. apply Z.eqb_eq in Hw. exact Hw. }
      unfold bindM, const, modify, compute_heights.
      destruct (heights_loop_spec vertices (Z.to_nat nb_vertices) 0
                  (vector_resize (heights_ (set_cur_stamp d 0)) nb_vertices 0%float))
        as (hs & Hrun & _);
        [lia | lia | lia | rewrite length_vector_resize; lia |].
      rewrite Hrun. cbn. eexists. split; [reflexivity |].
      split; [reflexivity |]. split; reflexivity.
    - unfold retM. eexists. split; [reflexivity |].
      split; [reflexivity |]. split; reflexivity. }
  destruct Hh as (dh & Hh & Hdh & Hch & Hfh). rewrite Hh.
  unfold bindM at 1. unfold modify at 1.
  unfold bindM at 1. unfold modify at 1.
  unfold bindM at 1. unfold const at 1.
  unfold bindM at 1. unfold modify at 1.
  destruct (aborts progressCallback 0 0).
  - unfold retM. eexists. split; [reflexivity |].
    destruct dh. repeat split; assumption.
  - unfold bindM at 1. unfold create_first_tetrahedron, bindM, const.
    rewrite first_tetrahedron_vertices_degenerate.
    + unfold retM. eexists. split; [reflexivity |].
      destruct dh. repeat split; assumption.
    + destruct dh. cbn in *. rewrite Hdh. exact Hdim.
    + destruct dh. cbn in *. rewrite Hdh. exact Hlen.
    + destruct dh. cbn in *. rewrite Hdh. exact Hsmall.
    + destruct dh. cbn in *. rewrite Hdh. exact Hdeg.
Qed.

End Driver.

Lemma points_on_a_line_degenerate : degenerate_input 3 5 points_on_a_line.
Proof.
  right. right. left. exists (0, 0, 0)%Q, (1, 0, 0)%Q. split.
  - intros (E & _). vm_compute in E. discriminate.
  - unfold input_points. change (seqZ 0 5) with [0; 1; 2; 3; 4]. cbn [map].
    repeat apply Forall_cons_2; try apply Forall_nil_2.
    + exists 0%Q. vm_compute. repeat split; reflexivity.
    + exists 1%Q. vm_compute. repeat split; reflexivity.
    + exists 2%Q. vm_compute. repeat split; reflexivity.
    + exists 3%Q. vm_compute. repeat split; reflexivity.
    + exists 4%Q. vm_compute. repeat split; reflexivity.
Defined.

Lemma degenerate_input_returns_true_witness :
  exists d' : Delaunay3d,
    set_vertices sample_random tet_is_conflict_exact identity_order 10
                 5 points_on_a_line None 0 used_object
    = Ok ((true, 0%nat), d') /\
    max_t d' = 0 /\
    cell_to_v_store_ d' = [] /\
    cell_to_cell_store_ d' = [] /\
    cell_next_ d' = [] /\
    nb_cells_ d' = nb_cells_ used_object /\
    nb_finite_cells_ d' = nb_finite_cells_ used_object.
Proof.
  apply (degenerate_input_returns_true sample_random tet_is_conflict_exact
           identity_order 10 used_object 5 points_on_a_line None 0).
  - repeat split; try (vm_compute; congruence). left. reflexivity.
  - exact points_on_a_line_degenerate.
Defined.

(** C6, as the specification words it, fails: the boolean does not tell a
    degenerate input from a triangulated one.  Five points of one line and
    the four corners of a tetrahedron both make [set_vertices] return
    [true], the first with no cell, the second with one.  The count of
    cells does not tell either: given the five points of one line, the
    object that has triangulated the four corners returns [true], has
    empty stores and still reports one cell. *)
Lemma degenerate_outcome_not_in_boolean :
  exists (d1 d2 d3 : Delaunay3d) (rng : nat),
    degenerate_input 3 5 points_on_a_line /\
    set_vertices sample_random tet_is_conflict_exact identity_order 10
                 5 points_on_a_line None 0 new_object
    = Ok ((true, 0%nat), d1) /\
    max_t d1 = 0 /\ nb_cells_ d1 = 0 /\
    set_vertices sample_random tet_is_conflict_exact identity_order 10
                 4 corner_points None 0 new_object
    = Ok ((true, rng), d2) /\
    nb_cells_ d2 = 1 /\
    set_vertices sample_random tet_is_conflict_exact identity_order 10
                 5 points_on_a_line None 0 d2
    = Ok ((true, 0%nat), d3) /\
    cell_to_v_store_ d3 = [] /\ cell_to_cell_store_ d3 = [] /\
    cell_next_ d3 = [] /\ nb_cells_ d3 = 1.
Proof.
  eexists. eexists. eexists. eexists.
  split; [exact points_on_a_line_degenerate |].
  split; [vm_compute; reflexivity |].
  split; [reflexivity |]. split; [reflexivity |].
  split; [vm_compute; reflexivity |].
  split; [reflexivity |].
  split; [vm_compute; reflexivity |].
  repeat split.
Qed.

(** ** Reasoning on methods *)

Lemma triple_ret {A : Type} (P : Delaunay3d -> Prop) (Q : A -> Prop) (a : A) :
  Q a -> triple P (retM a) Q.
Proof. intros Ha d a' d' H HP. injection H as <- <-. split; assumption. Qed.

Lemma triple_bind {A B : Type} (P : Delaunay3d -> Prop) (m : M A) (k : A -> M B)
    (Q1 : A -> Prop) (Q : B -> Prop) :
  triple P m Q1 ->
  (forall a : A, Q1 a -> triple P (k a) Q) ->
  triple P (bindM m k) Q.
Proof.
  intros Hm Hk d b d' H HP.
  apply bindM_Ok in H as (a & d1 & H1 & H2).
  destruct (Hm d a d1 H1 HP) as [HP1 HQ1].
  exact (Hk a HQ1 d1 b d' H2 HP1).
Qed.

Lemma triple_weaken {A : Type} (P : Delaunay3d -> Prop) (m : M A)
    (Q Q' : A -> Prop) :
  triple P m Q -> (forall a : A, Q a -> Q' a) -> triple P m Q'.
Proof.
  intros Hm HQ d a d' H HP. destruct (Hm d a d' H HP) as [HP' Ha].
  split; [exact HP' | exact (HQ a Ha)].
Qed.

Lemma triple_const {A : Type} (P : Delaunay3d -> Prop)
    (f : Delaunay3d -> result A) :
  triple P (const f) (fun _ => True).
Proof.
  intros d a d' H HP. apply const_Ok in H as (_ & ->). split; [exact HP | exact I].
Qed.

Lemma triple_fail {A : Type} (P : Delaunay3d -> Prop) (Q : A -> Prop) :
  triple P failM Q.
Proof. intros d a d' H. discriminate. Qed.

Lemma triple_out_of_fuel {A : Type} (P : Delaunay3d -> Prop) (Q : A -> Prop) :
  triple P outOfFuelM Q.
Proof. intros d a d' H. discriminate. Qed.

Lemma triple_for_4 (P : Delaunay3d -> Prop) (body : Z -> M unit) :
  (forall f : Z, triple P (body f) (fun _ => True)) ->
  triple P (for_4 body) (fun _ => True).
Proof.
  intros H. unfold for_4.
  repeat (eapply triple_bind; [apply H | intros _ _]). apply H.
Qed.

(** *** The size of the neighbour store *)

Lemma zset_length {A : Type} (l l' : list A) (i : Z) (a : A) :
  zset l i a = Ok l' -> length l' = length l /\ 0 <= i < Z.of_nat (length l).
Proof.
  unfold zset.
  destruct (Z.leb_spec 0 i), (Z.ltb_spec i (Z.of_nat (length l)));
    cbn [andb]; try discriminate.
  intros E. injection E as <-. rewrite length_insert. lia.
Qed.

Lemma at_least_set_tet_adjacent (n : nat) (t lf t2 : Z) :
  triple (at_least n) (set_tet_adjacent t lf t2) (fun _ => True).
Proof.
  intros d a d' H HP. unfold set_tet_adjacent in H.
  apply bindR_Ok in H as (s & Hs & H). injection H as _ <-.
  apply zset_length in Hs as [Hs _].
  split; [| exact I]. unfold at_least in *. cbn. lia.
Qed.

Lemma at_least_set_tet_vertex (n : nat) (t lv v : Z) :
  triple (at_least n) (set_tet_vertex t lv v) (fun _ => True).
Proof.
  intros d a d' H HP. unfold set_tet_vertex in H.
  apply bindR_Ok in H as (s & Hs & H). injection H as _ <-.
  split; [exact HP | exact I].
Qed.

Lemma at_least_set_tet_next (n : nat) (t x : Z) :
  triple (at_least n) (set_tet_next t x) (fun _ => True).
Proof.
  intros d a d' H HP. unfold set_tet_next in H.
  apply bindR_Ok in H as (s & Hs & H). injection H as _ <-.
  split; [exact HP | exact I].
Qed.

(** A cell just made has its four neighbour slots in the store. *)
Lemma new_tetrahedron0_slot (d d' : Delaunay3d) (r : Z) :
  new_tetrahedron0 d = Ok (r, d') ->
  (length (cell_to_cell_store_ d) <= length (cell_to_cell_store_ d'))%nat /\
  0 <= index_t_of (4 * r + 0) < Z.of_nat (length (cell_to_cell_store_ d')).
Proof.
  unfold new_tetrahedron0. intros H.
  apply bindR_Ok in H as ([r0 d1] & H1 & H).
  assert (G : (length (cell_to_cell_store_ d) <= length (cell_to_cell_store_ d1))%nat).
  { destruct (first_free_ d =? END_OF_LIST).
    - injection H1 as _ <-. cbn. rewrite length_app. lia.
    - apply bindR_Ok in H1 as (nx & _ & H1).
      apply bindR_Ok in H1 as ([[] d2] & H2 & H1). injection H1 as _ <-.
      unfold remove_tet_from_list, set_tet_next in H2.
      apply bindR_Ok in H2 as (s & _ & H2). injection H2 as <-. cbn. lia. }
  apply bindR_Ok in H as ([[] d2] & H2 & H).
  apply bindR_Ok in H as ([[] d3] & H3 & H).
  apply bindR_Ok in H as ([[] d4] & H4 & H).
  apply bindR_Ok in H as ([[] d5] & H5 & H). injection H as <- <-.
  unfold set_tet_adjacent in H2, H3, H4, H5.
  apply bindR_Ok in H2 as (s2 & E2 & H2). injection H2 as <-.
  apply bindR_Ok in H3 as (s3 & E3 & H3). injection H3 as <-.
  apply bindR_Ok in H4 as (s4 & E4 & H4). injection H4 as <-.
  apply bindR_Ok in H5 as (s5 & E5 & H5). injection H5 as <-.
  cbn in *.
  apply zset_length in E2 as [L2 B2], E3 as [L3 _], E4 as [L4 _], E5 as [L5 _].
  split; lia.
Qed.

Lemma at_least_new_tetrahedron (n : nat) (v0 v1 v2 v3 : Z) :
  triple (at_least n) (new_tetrahedron v0 v1 v2 v3) (fun _ => True).
Proof.
  unfold new_tetrahedron.
  eapply triple_bind with (Q1 := fun _ => True).
  - intros d r d' H HP. apply new_tetrahedron0_slot in H as [H _].
    split; [| exact I]. unfold at_least in *. lia.
  - intros r _.
    repeat (eapply triple_bind; [apply at_least_set_tet_vertex | intros _ _]).
    apply triple_ret. exact I.
Qed.

Ltac triple_step IH :=
  first
    [ apply triple_ret; exact I
    | apply triple_const
    | apply triple_out_of_fuel
    | apply at_least_set_tet_adjacent
    | apply at_least_set_tet_vertex
    | apply at_least_set_tet_next
    | apply at_least_new_tetrahedron
    | apply IH
    | apply triple_for_4; intros ?
    | eapply triple_bind with (Q1 := fun _ => True); [| intros ? _]
    | match goal with
      | |- triple _ (if ?b then _ else _) _ => destruct b
      | |- triple _ (match ?x with _ => _ end) _ => destruct x
      end ].

Lemma at_least_stellate (n : nat) (fuel : nat) :
  forall v_in t1 f1 prev_f : Z,
    triple (at_least n) (stellate_conflict_zone fuel v_in t1 f1 prev_f)
           (fun _ => True).
Proof.
  induction fuel as [| fuel IH]; intros v_in t1 f1 prev_f;
    cbn [stellate_conflict_zone].
  - apply triple_out_of_fuel.
  - repeat triple_step IH.
Qed.

(** The cell that [stellate_conflict_zone] returns has its neighbour slots
    in the store. *)
Lemma stellate_result_slot (fuel : nat) (v_in t1 f1 prev_f : Z)
    (d d' : Delaunay3d) (r : Z) :
  stellate_conflict_zone fuel v_in t1 f1 prev_f d = Ok (r, d') ->
  0 <= index_t_of (4 * r + 0) < Z.of_nat (length (cell_to_cell_store_ d')).
Proof.
  destruct fuel as [| fuel]; [discriminate |].
  cbn [stellate_conflict_zone]. intros H.
  apply bindM_Ok in H as (a0 & d0 & H0 & H). apply const_Ok in H0 as (_ & ->).
  apply bindM_Ok in H as (a1 & d0 & H0 & H). apply const_Ok in H0 as (_ & ->).
  apply bindM_Ok in H as (a2 & d0 & H0 & H). apply const_Ok in H0 as (_ & ->).
  apply bindM_Ok in H as (a3 & d0 & H0 & H). apply const_Ok in H0 as (_ & ->).
  apply bindM_Ok in H as (new_t & d1 & Hnew & H).
  assert (Hslot : 0 <= index_t_of (4 * new_t + 0)
                  < Z.of_nat (length (cell_to_cell_store_ d1))).
  { unfold new_tetrahedron in Hnew.
    apply bindM_Ok in Hnew as (r0 & d2 & H0 & Hnew).
    apply new_tetrahedron0_slot in H0 as [_ H0].
    assert (Hk : triple (at_least (length (cell_to_cell_store_ d2)))
                   (let* _ := set_tet_vertex r0 0 a0 in
                    let* _ := set_tet_vertex r0 1 a1 in
                    let* _ := set_tet_vertex r0 2 a2 in
                    let* _ := set_tet_vertex r0 3 a3 in retM r0)
                   (fun r => r = r0)).
    { repeat (eapply triple_bind; [apply at_least_set_tet_vertex | intros _ _]).
      apply triple_ret. reflexivity. }
    destruct (Hk d2 new_t d1 Hnew) as [G ->]; [unfold at_least; lia |].
    unfold at_least in G. lia. }
  set (n := length (cell_to_cell_store_ d1)) in *.
  assert (Hrest :
    forall m : M Z,
      m d1 = Ok (r, d') ->
      triple (at_least n) m (fun r => r = new_t) ->
      0 <= index_t_of (4 * r + 0) < Z.of_nat (length (cell_to_cell_store_ d'))).
  { intros m Hm Ht. destruct (Ht d1 r d' Hm) as [G ->]; [unfold at_least, n; lia |].
    unfold at_least in G. lia. }
  apply (Hrest _ H). clear.
  eapply triple_bind with (Q1 := fun _ => True);
    [apply at_least_set_tet_vertex | intros ? _].
  eapply triple_bind with (Q1 := fun _ => True); [apply triple_const | intros ? _].
  eapply triple_bind with (Q1 := fun _ => True);
    [apply at_least_set_tet_adjacent | intros ? _].
  eapply triple_bind with (Q1 := fun _ => True); [apply triple_const | intros ? _].
  eapply triple_bind with (Q1 := fun _ => True);
    [apply at_least_set_tet_adjacent | intros ? _].
  eapply triple_bind with (Q1 := fun _ => True).
  - apply triple_for_4; intros ?. repeat triple_step (at_least_stellate n fuel).
  - intros ? _. apply triple_ret. reflexivity.
Qed.

(** *** The number of cells during the search of the conflict zone *)

Lemma set_tet_next_Ok (t x : Z) (d d' : Delaunay3d) (u : unit) :
  set_tet_next t x d = Ok (u, d') ->
  max_t d' = max_t d /\ 0 <= t < max_t d.
Proof.
  unfold set_tet_next. intros H.
  apply bindR_Ok in H as (s & Hs & H). injection H as _ <-.
  apply zset_length in Hs as [L B]. unfold max_t. cbn. lia.
Qed.

Lemma fewer_cells_set_tet_next (bound t x : Z) :
  triple (fewer_cells bound) (set_tet_next t x) (fun _ => 0 <= t < bound).
Proof.
  intros d u d' H HP. apply set_tet_next_Ok in H as [E B].
  unfold fewer_cells in *. split; lia.
Qed.

Lemma fewer_cells_mark_tet (bound t : Z) :
  triple (fewer_cells bound) (mark_tet t) (fun _ => True).
Proof.
  intros d u d' H HP. unfold mark_tet in H.
  destruct (fewer_cells_set_tet_next bound t (cur_stamp_ d) d u d' H HP).
  tauto.
Qed.

(** The cell chained is the new head of the list. *)
Lemma fewer_cells_chain (bound t : Z) (z : zone) :
  triple (fewer_cells bound) (chain t z)
         (fun z' => 0 <= z_first z' < bound /\ z_bndry z' = z_bndry z).
Proof.
  unfold chain, add_tet_to_list.
  apply triple_bind with (Q1 := fun fl : Z * Z => 0 <= fst fl < bound).
  - destruct (z_last z =? END_OF_LIST).
    + eapply triple_bind; [apply fewer_cells_set_tet_next |].
      intros u Ht. apply triple_ret. exact Ht.
    + eapply triple_bind; [apply fewer_cells_set_tet_next |].
      intros u Ht. apply triple_ret. exact Ht.
  - intros [first last] Ht. apply triple_ret. cbn. split; [exact Ht | reflexivity].
Qed.

Section ConflictZone.

Variable tet_is_conflict : Delaunay3d -> Z -> double_ptr -> result bool.

(** The flood fill leaves a list that is not empty not empty. *)
Lemma fewer_cells_flood (bound : Z) (fuel : nat) :
  forall (p : double_ptr) (t : Z) (z : zone),
    0 <= z_first z < bound ->
    triple (fewer_cells bound)
           (find_conflict_zone_recursive tet_is_conflict fuel p t z)
           (fun z' => 0 <= z_first z' < bound).
Proof.
  induction fuel as [| fuel IH]; intros p t z Hz;
    cbn [find_conflict_zone_recursive].
  - apply triple_out_of_fuel.
  - assert (Hbody : forall (lf : Z) (z : zone),
      0 <= z_first z < bound ->
      triple (fewer_cells bound)
        (let* a := const (fun d => tet_adjacent d t lf) in
         let t2 := index_t_of a in
         let* in_list := const (fun d => tet_is_in_list d t2) in
         if in_list then retM z else
         let* marked := const (fun d => tet_is_marked d t2) in
         if marked then retM z else
         let* conflict := const (fun d => tet_is_conflict d t2 p) in
         if conflict then
           let* z := chain t2 z in
           find_conflict_zone_recursive tet_is_conflict fuel p t2 z
         else
           let* _ := mark_tet t2 in
           retM (mk_zone (Some (t, lf)) (z_first z) (z_last z)))
        (fun z' => 0 <= z_first z' < bound)).
    { intros lf z0 Hz0.
      eapply triple_bind; [apply triple_const | intros a _].
      eapply triple_bind; [apply triple_const | intros in_list _].
      destruct in_list; [apply triple_ret; exact Hz0 |].
      eapply triple_bind; [apply triple_const | intros marked _].
      destruct marked; [apply triple_ret; exact Hz0 |].
      eapply triple_bind; [apply triple_const | intros conflict _].
      destruct conflict.
      - eapply triple_bind; [apply fewer_cells_chain |].
        intros z1 [Hz1 _]. apply IH. exact Hz1.
      - eapply triple_bind; [apply fewer_cells_mark_tet | intros _ _].
        apply triple_ret. exact Hz0. }
    eapply triple_bind; [apply Hbody; exact Hz | intros z1 Hz1].
    eapply triple_bind; [apply Hbody; exact Hz1 | intros z2 Hz2].
    eapply triple_bind; [apply Hbody; exact Hz2 | intros z3 Hz3].
    apply Hbody. exact Hz3.
Qed.

End ConflictZone.

(** ** Insertion: the empty conflict zone *)

Section Insertion.

Variable random_int32 : nat -> Z.
Variable tet_is_conflict : Delaunay3d -> Z -> double_ptr -> result bool.

(** [find_conflict_zone] leaves the conflict list empty exactly in the two
    cases of [nothing_to_insert], and then it has changed the stamp only. *)
Lemma find_conflict_zone_first (fuel : nat) (v t : Z) (o0 o1 o2 o3 : Sign)
    (bndry : option (Z * Z)) (d d1 : Delaunay3d) (z : zone) :
  find_conflict_zone tet_is_conflict fuel v t
    [Some o0; Some o1; Some o2; Some o3] bndry d = Ok (z, d1) ->
  max_t d < END_OF_LIST ->
  (z_first z = END_OF_LIST <-> nothing_to_insert tet_is_conflict d v t o0 o1 o2 o3) /\
  (z_first z = END_OF_LIST ->
   z = mk_zone bndry END_OF_LIST END_OF_LIST /\ d1 = stamped d v).
Proof.
  intros H Hsmall. unfold find_conflict_zone in H.
  apply bindM_Ok in H as ([] & d0 & H0 & H).
  injection H0 as <-. fold (stamped d v) in H.
  apply bindM_Ok in H as (p & d0 & H0 & H). apply const_Ok in H0 as (Hp & ->).
  injection Hp as <-.
  change (vertex_ptr (stamped d v) v) with (vertex_ptr d v) in H.
  apply bindM_Ok in H as (s0 & d0 & H0 & H). apply const_Ok in H0 as (E0 & ->).
  apply bindM_Ok in H as (s1 & d0 & H0 & H). apply const_Ok in H0 as (E1 & ->).
  apply bindM_Ok in H as (s2 & d0 & H0 & H). apply const_Ok in H0 as (E2 & ->).
  apply bindM_Ok in H as (s3 & d0 & H0 & H). apply const_Ok in H0 as (E3 & ->).
  injection E0 as <-. injection E1 as <-. injection E2 as <-. injection E3 as <-.
  fold (nb_zero_of o0 o1 o2 o3) in H.
  unfold nothing_to_insert.
  destruct (Z.geb_spec (nb_zero_of o0 o1 o2 o3) 3) as [Hz | Hz].
  { injection H as <- <-. cbn. split; [| tauto]. split; [intros _; left; lia | reflexivity]. }
  apply bindM_Ok in H as (weighted & d0 & H0 & H). apply const_Ok in H0 as (Ew & ->).
  injection Ew as <-.
  change (weighted_ (stamped d v)) with (weighted_ d) in H.
  apply bindM_Ok in H as (dangling & d0 & H0 & H).
  assert (Hd : d0 = stamped d v /\
               (dangling = true <->
                weighted_ d = true /\
                tet_is_conflict (stamped d v) t (vertex_ptr d v) = Ok false)).
  { destruct (weighted_ d).
    - apply bindM_Ok in H0 as (c & d2 & Hc & H0). apply const_Ok in Hc as (Hc & ->).
      injection H0 as <- <-. split; [reflexivity |]. rewrite Hc.
      destruct c; cbn; split; try tauto; try discriminate.
      intros (_ & E). discriminate.
    - injection H0 as <- <-. split; [reflexivity |].
      split; [discriminate | intros (E & _); discriminate]. }
  destruct Hd as (-> & Hd).
  destruct dangling.
  { injection H as <- <-. cbn. split; [| tauto].
    split; [intros _; right; apply Hd; reflexivity | reflexivity]. }
  assert (Hne : 0 <= z_first z < END_OF_LIST).
  { revert H. 
    set (rest := bindM _ _).
    assert (Ht : triple (fewer_cells END_OF_LIST) rest
                        (fun z' => 0 <= z_first z' < END_OF_LIST)).
    { unfold rest.
      eapply triple_bind; [apply fewer_cells_chain | intros z1 [Hz1 _]].
      eapply triple_bind with (Q1 := fun z' => 0 <= z_first z' < END_OF_LIST).
      - destruct (negb (weighted_ d) && negb (nb_zero_of o0 o1 o2 o3 =? 0));
          [| apply triple_ret; exact Hz1].
        assert (Hseed : forall (o : Sign) (lf : Z) (z : zone),
          0 <= z_first z < END_OF_LIST ->
          triple (fewer_cells END_OF_LIST)
            (if bool_decide (o = ZERO) then
               let* a := const (fun d => tet_adjacent d t lf) in
               chain (index_t_of a) z
             else retM z)
            (fun z' => 0 <= z_first z' < END_OF_LIST)).
        { intros o lf z0 Hz0. destruct (bool_decide (o = ZERO));
            [| apply triple_ret; exact Hz0].
          eapply triple_bind; [apply triple_const | intros a _].
          eapply triple_weaken; [apply fewer_cells_chain |].
          intros z' [Hz' _]. exact Hz'. }
        assert (Hgrow : forall (o : Sign) (lf : Z) (z : zone),
          0 <= z_first z < END_OF_LIST ->
          triple (fewer_cells END_OF_LIST)
            (if bool_decide (o = ZERO) then
               let* a := const (fun d => tet_adjacent d t lf) in
               find_conflict_zone_recursive tet_is_conflict fuel
                 (vertex_ptr d v) (index_t_of a) z
             else retM z)
            (fun z' => 0 <= z_first z' < END_OF_LIST)).
        { intros o lf z0 Hz0. destruct (bool_decide (o = ZERO));
            [| apply triple_ret; exact Hz0].
          eapply triple_bind; [apply triple_const | intros a _].
          apply fewer_cells_flood. exact Hz0. }
        eapply triple_bind; [apply Hseed; exact Hz1 | intros z2 Hz2].
        eapply triple_bind; [apply Hseed; exact Hz2 | intros z3 Hz3].
        eapply triple_bind; [apply Hseed; exact Hz3 | intros z4 Hz4].
        eapply triple_bind; [apply Hseed; exact Hz4 | intros z5 Hz5].
        eapply triple_bind; [apply Hgrow; exact Hz5 | intros z6 Hz6].
        eapply triple_bind; [apply Hgrow; exact Hz6 | intros z7 Hz7].
        eapply triple_bind; [apply Hgrow; exact Hz7 | intros z8 Hz8].
        apply Hgrow. exact Hz8.
      - intros z2 Hz2. apply fewer_cells_flood. exact Hz2. }
    intros H. destruct (Ht _ _ _ H) as [_ G]; [exact Hsmall | exact G]. }
  split; [| intros E; lia].
  split; [intros E; lia |].
  intros [Hnz | Hdang]; [lia |].
  apply Hd in Hdang. discriminate.
Qed.

(** In the two cases of [nothing_to_insert] the search returns at once. *)
Lemma find_conflict_zone_empty (fuel : nat) (v t : Z) (o0 o1 o2 o3 : Sign)
    (bndry : option (Z * Z)) (d : Delaunay3d) :
  nothing_to_insert tet_is_conflict d v t o0 o1 o2 o3 ->
  find_conflict_zone tet_is_conflict fuel v t
    [Some o0; Some o1; Some o2; Some o3] bndry d
  = Ok (mk_zone bndry END_OF_LIST END_OF_LIST, stamped d v).
Proof.
  intros Hn. unfold find_conflict_zone.
  unfold bindM at 1. unfold set_tet_mark_stamp, modify. fold (stamped d v).
  unfold bindM at 1. unfold const at 1.
  unfold bindM at 1. unfold const at 1. cbn [read_slot lookup list_lookup].
  unfold bindM at 1. unfold const at 1. cbn [read_slot lookup list_lookup].
  unfold bindM at 1. unfold const at 1. cbn [read_slot lookup list_lookup].
  unfold bindM at 1. unfold const at 1. cbn [read_slot lookup list_lookup].
  fold (nb_zero_of o0 o1 o2 o3).
  destruct (Z.geb_spec (nb_zero_of o0 o1 o2 o3) 3) as [Hz | Hz]; [reflexivity |].
  destruct Hn as [? | [Hw Hc]]; [lia |].
  unfold bindM at 1. unfold const at 1.
  change (weighted_ (stamped d v)) with (weighted_ d). rewrite Hw.
  unfold bindM at 1. unfold bindM at 1. unfold const at 1.
  change (vertex_ptr (stamped d v) v) with (vertex_ptr d v). rewrite Hc.
  reflexivity.
Qed.

(** C4.  Let [locate] have answered the cell [t] with the four signs
    [o0 .. o3] for vertex [v].  The conflict zone is empty exactly when at
    least three of the four signs are [ZERO], or the triangulation is
    weighted and the cell located is not in conflict with the vertex; and
    [insert] returns [NO_TETRAHEDRON] exactly then.  In that case [insert]
    returns without making a cell: of the whole object only the stamp has
    changed, the vertex store, the neighbour store, the list words and the
    free list are what they were. *)
Theorem insert_returns_no_hint (fuel : nat) (v hint : Z) (rng : nat)
    (d : Delaunay3d) (t : Z) (o0 o1 o2 o3 : Sign) (rng1 : nat) :
  locate random_int32 d fuel (vertex_ptr d v) hint (replicate 4 None) rng
  = Ok (t, [Some o0; Some o1; Some o2; Some o3], rng1) ->
  max_t d < 2 ^ 30 ->
  (nothing_to_insert tet_is_conflict d v t o0 o1 o2 o3 ->
   insert random_int32 tet_is_conflict fuel v hint rng d
   = Ok ((NO_TETRAHEDRON, rng1), stamped d v) /\
   cell_to_v_store_ (stamped d v) = cell_to_v_store_ d /\
   cell_to_cell_store_ (stamped d v) = cell_to_cell_store_ d /\
   cell_next_ (stamped d v) = cell_next_ d /\
   first_free_ (stamped d v) = first_free_ d /\
   max_t (stamped d v) = max_t d) /\
  (forall (z : zone) (d1 : Delaunay3d),
     find_conflict_zone tet_is_conflict fuel v t
       [Some o0; Some o1; Some o2; Some o3] None d = Ok (z, d1) ->
     (z_first z = END_OF_LIST <->
      nothing_to_insert tet_is_conflict d v t o0 o1 o2 o3)) /\
  (forall (r : Z) (rng' : nat) (d' : Delaunay3d),
     insert random_int32 tet_is_conflict fuel v hint rng d = Ok ((r, rng'), d') ->
     addressable d' ->
     (r = NO_TETRAHEDRON <->
      nothing_to_insert tet_is_conflict d v t o0 o1 o2 o3) /\
     (r = NO_TETRAHEDRON -> d' = stamped d v)).
Proof.
  intros Hloc Hsmall.
  assert (Hend : max_t d < END_OF_LIST) by (unfold END_OF_LIST; lia).
  split; [| split].
  - intros Hn. split; [| repeat split].
    unfold insert. unfold bindM at 1. unfold const at 1.
    unfold bindM at 1. unfold const at 1. rewrite Hloc.
    unfold bindM at 1.
    rewrite (find_conflict_zone_empty fuel v t o0 o1 o2 o3 None d Hn).
    reflexivity.
  - intros z d1 H. exact (proj1 (find_conflict_zone_first _ _ _ _ _ _ _ _ _ _ _ H Hend)).
  - intros r rng' d' H Haddr. unfold insert in H.
    apply bindM_Ok in H as (p & d0 & H0 & H). apply const_Ok in H0 as (Hp & ->).
    injection Hp as <-.
    apply bindM_Ok in H as ([located rng2] & d0 & H0 & H).
    apply const_Ok in H0 as (Hl & ->). rewrite Hloc in Hl.
    injection Hl as <- <-.
    apply bindM_Ok in H as (z & d1 & Hz & H).
    destruct (find_conflict_zone_first _ _ _ _ _ _ _ _ _ _ _ Hz Hend)
      as [Hiff Hsame].
    destruct (Z.eqb_spec (z_first z) END_OF_LIST) as [E | N].
    + injection H as <- <- <-. destruct (Hsame E) as [_ ->].
      split; [| reflexivity]. split; [intros _; apply Hiff; exact E | reflexivity].
    + apply bindM_Ok in H as ([t_bndry f_bndry] & d2 & H0 & H).
      apply const_Ok in H0 as (_ & ->).
      apply bindM_Ok in H as (new_tet & d2 & Hst & H).
      apply stellate_result_slot in Hst.
      apply bindM_Ok in H as (ff & d3 & H0 & H). apply const_Ok in H0 as (_ & ->).
      apply bindM_Ok in H as ([] & d3 & Hnext & H).
      apply bindM_Ok in H as ([] & d4 & Hmod & H).
      injection H as <- <- <-. injection Hmod as <-.
      unfold set_tet_next in Hnext. apply bindR_Ok in Hnext as (s & _ & Hnext).
      injection Hnext as <-.
      assert (Hr : new_tet <> NO_TETRAHEDRON).
      { intros ->. destruct Haddr as [_ Haddr]. cbn in Haddr.
        change (index_t_of (4 * NO_TETRAHEDRON + 0)) with (2 ^ 32 - 4) in Hst.
        lia. }
      split; [| contradiction].
      split; [contradiction | intros Hn; apply Hiff in Hn; contradiction].
Qed.

End Insertion.

Lemma insert_returns_no_hint_witness :
  insert sample_random tet_is_conflict_exact 10 4 NO_TETRAHEDRON 0 duplicate_mesh
  = Ok ((NO_TETRAHEDRON, 2%nat), stamped duplicate_mesh 4) /\
  cell_to_v_store_ (stamped duplicate_mesh 4) = cell_to_v_store_ duplicate_mesh /\
  cell_to_cell_store_ (stamped duplicate_mesh 4)
  = cell_to_cell_store_ duplicate_mesh /\
  cell_next_ (stamped duplicate_mesh 4) = cell_next_ duplicate_mesh /\
  first_free_ (stamped duplicate_mesh 4) = first_free_ duplicate_mesh /\
  max_t (stamped duplicate_mesh 4) = max_t duplicate_mesh.
Proof.
  assert (Hloc : locate sample_random duplicate_mesh 10
                   (vertex_ptr duplicate_mesh 4) NO_TETRAHEDRON
                   (replicate 4 None) 0
                 = Ok (0, [Some POSITIVE; Some ZERO; Some ZERO; Some ZERO], 2%nat))
    by (vm_compute; reflexivity).
  assert (Hsmall : max_t duplicate_mesh < 2 ^ 30) by (vm_compute; reflexivity).
  destruct (insert_returns_no_hint sample_random tet_is_conflict_exact 10 4
              NO_TETRAHEDRON 0 duplicate_mesh 0 POSITIVE ZERO ZERO ZERO 2
              Hloc Hsmall) as (H & _ & _).
  apply H. left. vm_compute. discriminate.
Defined.

(** The other side of C4: the fifth point [(1, 1, 1)] is in conflict with
    the virtual cell it is located in, and [insert] returns a cell. *)
Example insert_returns_a_cell :
  exists d' : Delaunay3d,
    insert sample_random tet_is_conflict_exact 10 4 NO_TETRAHEDRON 0
           five_points_first_mesh
    = Ok ((5, 2%nat), d') /\
    max_t d' = 9 /\
    check_combinatorics d' = Ok true /\
    check_geometry tet_is_conflict_exact d' = Ok true.
Proof.
  eexists. split; [vm_compute; reflexivity |].
  repeat split; vm_compute; reflexivity.
Qed.

(** ** Complete runs *)

(** The twelve points are triangulated; the self-checks run by
    [set_vertices] before the compression, adjacency and empty spheres,
    pass; 21 real cells are left, and 14 infinite ones when they are
    kept. *)
Example twelve_points_triangulated :
  exists (d1 d2 : Delaunay3d) (rng1 rng2 : nat),
    set_vertices sample_random tet_is_conflict_exact identity_order 1000
                 12 twelve_points None 0 (checking_object false)
    = Ok ((true, rng1), d1) /\
    nb_cells_ d1 = 21 /\
    all_ok (links_back d1 21) (seqZ 0 21) = Ok true /\
    set_vertices sample_random tet_is_conflict_exact identity_order 1000
                 12 twelve_points None 0 (checking_object true)
    = Ok ((true, rng2), d2) /\
    nb_cells_ d2 = 35 /\ nb_finite_cells_ d2 = 21 /\
    all_ok (links_back d2 35) (seqZ 0 35) = Ok true.
Proof.
  eexists. eexists. eexists. eexists.
  split; [vm_compute; reflexivity |]. split; [reflexivity |].
  split; [vm_compute; reflexivity |].
  split; [vm_compute; reflexivity |]. split; [reflexivity |].
  split; [reflexivity |]. vm_compute. reflexivity.
Qed.

(** A callback that aborts at the third vertex makes [set_vertices]
    return [false]. *)
Example twelve_points_aborted :
  exists (d1 : Delaunay3d) (rng1 : nat),
    set_vertices sample_random tet_is_conflict_exact identity_order 1000
                 12 twelve_points (Some (fun i n => i <? 3)) 0
                 (checking_object false)
    = Ok ((false, rng1), d1).
Proof. eexists. eexists. vm_compute. reflexivity. Qed.

(* ================================================================= *)
(** * Further properties of the code                                *)
(* ================================================================= *)

(** ** Equality of doubles *)

Lemma digits2_pos_bounds (m : positive) :
  2 ^ (Z.pos (digits2_pos m) - 1) <= Z.pos m < 2 ^ Z.pos (digits2_pos m).
Proof.
  induction m as [m IH | m IH |]; cbn [digits2_pos].
  - rewrite Pos2Z.inj_succ.
    replace (Z.succ (Z.pos (digits2_pos m)) - 1) with (Z.pos (digits2_pos m)) by lia.
    rewrite Z.pow_succ_r by lia.
    assert (E : 2 ^ Z.pos (digits2_pos m)
                = 2 * 2 ^ (Z.pos (digits2_pos m) - 1)).
    { rewrite <- Z.pow_succ_r by lia. f_equal. lia. }
    lia.
  - rewrite Pos2Z.inj_succ.
    replace (Z.succ (Z.pos (digits2_pos m)) - 1) with (Z.pos (digits2_pos m)) by lia.
    rewrite Z.pow_succ_r by lia.
    assert (E : 2 ^ Z.pos (digits2_pos m)
                = 2 * 2 ^ (Z.pos (digits2_pos m) - 1)).
    { rewrite <- Z.pow_succ_r by lia. f_equal. lia. }
    lia.
  - cbn. lia.
Qed.

Lemma Qpower_2_pos (e : Z) : (0 < 2 ^ e)%Q.
Proof. apply Qpower_0_lt. reflexivity. Qed.

(** Two mantissas scaled to the same value: the one with the smaller exponent
    is the other shifted. *)
Lemma scaled_equal (m1 m2 : positive) (e1 e2 : Z) :
  e1 <= e2 ->
  ((Z.pos m1 # 1) * 2 ^ e1 == (Z.pos m2 # 1) * 2 ^ e2)%Q ->
  Z.pos m1 = Z.pos m2 * 2 ^ (e2 - e1).
Proof.
  intros Hle H.
  assert (E2 : (2 ^ e2 == 2 ^ (e2 - e1) * 2 ^ e1)%Q).
  { rewrite <- Qpower_plus by discriminate.
    replace (e2 - e1 + e1) with e2 by lia. reflexivity. }
  rewrite E2 in H.
  assert (P := Qpower_2_pos e1).
  assert (H' : ((Z.pos m1 # 1) == (Z.pos m2 # 1) * 2 ^ (e2 - e1))%Q).
  { apply (Qmult_inj_r _ _ (2 ^ e1)%Q); [lra |]. rewrite H. ring. }
  change 2%Q with (inject_Z 2) in H'.
  rewrite <- Zpower_Qpower in H' by lia.
  change (Z.pos m1 # 1)%Q with (inject_Z (Z.pos m1)) in H'.
  change (Z.pos m2 # 1)%Q with (inject_Z (Z.pos m2)) in H'.
  rewrite <- inject_Z_mult in H'. exact (proj1 (inject_Z_injective _ _) H').
Qed.

Lemma valid_finite (m : positive) (e : Z) :
  bounded prec emax m e = true ->
  Z.max (Z.pos (digits2_pos m) + e - 53) (-1074) = e.
Proof.
  unfold bounded, canonical_mantissa, fexp. intros H.
  apply andb_true_iff in H as [H _]. apply Z.eqb_eq in H. exact H.
Qed.

Lemma valid_scaled_equal (m1 m2 : positive) (e1 e2 : Z) :
  bounded prec emax m1 e1 = true ->
  bounded prec emax m2 e2 = true ->
  e1 <= e2 ->
  ((Z.pos m1 # 1) * 2 ^ e1 == (Z.pos m2 # 1) * 2 ^ e2)%Q ->
  e1 = e2 /\ m1 = m2.
Proof.
  intros V1 V2 Hle H.
  apply valid_finite in V1, V2.
  apply scaled_equal in H; [| exact Hle].
  destruct (Z.eq_dec e1 e2) as [-> | Hne].
  - rewrite Z.sub_diag in H. cbn in H. split; [reflexivity | lia].
  - exfalso.
    assert (B1 := digits2_pos_bounds m1). assert (B2 := digits2_pos_bounds m2).
    assert (D2 : Z.pos (digits2_pos m2) = 53) by lia.
    assert (D1 : Z.pos (digits2_pos m1) <= 53) by lia.
    rewrite D2 in B2.
    assert (P1 : 2 ^ Z.pos (digits2_pos m1) <= 2 ^ 53)
      by (apply Z.pow_le_mono_r; lia).
    assert (Pk : 2 ^ 1 <= 2 ^ (e2 - e1)) by (apply Z.pow_le_mono_r; lia).
    change (2 ^ 1) with 2 in Pk. change (2 ^ (53 - 1)) with (2 ^ 52) in B2.
    nia.
Qed.

Lemma SF2Q_finite_pos (m : positive) (e : Z) :
  (0 < (Z.pos m # 1) * 2 ^ e)%Q.
Proof.
  assert (P := Qpower_2_pos e).
  assert (N : (0 < Z.pos m # 1)%Q) by reflexivity. nra.
Qed.

Lemma SFeqb_value (x y : spec_float) :
  SFeqb x y = true -> (SF2Q x == SF2Q y)%Q.
Proof.
  unfold SFeqb.
  destruct x as [sx | sx | | sx mx ex], y as [sy | sy | | sy my ey];
    cbn [SFcompare SF2Q]; try reflexivity; try discriminate;
    try (destruct sx; discriminate); try (destruct sy; discriminate).
  destruct sx, sy; try discriminate.
  - destruct (Z.compare_spec ex ey) as [-> | ? | ?]; try discriminate.
    destruct (Pos.compare_cont Eq mx my) eqn:E; try discriminate.
    apply Pcompare_Eq_eq in E as ->. reflexivity.
  - destruct (Z.compare_spec ex ey) as [-> | ? | ?]; try discriminate.
    destruct (Pos.compare_cont Eq mx my) eqn:E; try discriminate.
    apply Pcompare_Eq_eq in E as ->. reflexivity.
Qed.

Lemma value_SFeqb (x y : spec_float) :
  SpecFloat.valid_binary prec emax x = true ->
  SpecFloat.valid_binary prec emax y = true ->
  match x with S754_zero _ | S754_finite _ _ _ => True | _ => False end ->
  match y with S754_zero _ | S754_finite _ _ _ => True | _ => False end ->
  (SF2Q x == SF2Q y)%Q -> SFeqb x y = true.
Proof.
  unfold SFeqb.
  destruct x as [sx | sx | | sx mx ex], y as [sy | sy | | sy my ey];
    try contradiction; intros Vx Vy _ _ H; cbn [SFcompare]; try reflexivity.
  - exfalso. assert (S := SF2Q_finite_pos my ey). cbn [SF2Q] in H.
    change (Z.neg my # 1)%Q with (- (Z.pos my # 1))%Q in H.
    destruct sy; lra.
  - exfalso. assert (S := SF2Q_finite_pos mx ex). cbn [SF2Q] in H.
    change (Z.neg mx # 1)%Q with (- (Z.pos mx # 1))%Q in H.
    destruct sx; lra.
  - assert (Sx := SF2Q_finite_pos mx ex). assert (Sy := SF2Q_finite_pos my ey).
    cbn [SpecFloat.valid_binary] in Vx, Vy. cbn [SF2Q] in H.
    change (Z.neg mx # 1)%Q with (- (Z.pos mx # 1))%Q in H.
    change (Z.neg my # 1)%Q with (- (Z.pos my # 1))%Q in H.
    assert (G : ((Z.pos mx # 1) * 2 ^ ex == (Z.pos my # 1) * 2 ^ ey)%Q)
      by (destruct sx, sy; lra).
    assert (Same : sx = sy) by (destruct sx, sy; try reflexivity; lra).
    assert (E : ex = ey /\ mx = my).
    { destruct (Z.le_ge_cases ex ey) as [L | L].
      - apply (valid_scaled_equal mx my ex ey Vx Vy L G).
      - symmetry in G.
        destruct (valid_scaled_equal my mx ey ex Vy Vx L G) as [-> ->].
        split; reflexivity. }
    destruct E as [-> ->]. subst sy.
    rewrite Z.compare_refl, Pcompare_refl. destruct sx; reflexivity.
Qed.

(** On numbers, [==] on doubles is the equality of the values. *)
Lemma eqb_value (x y : float) :
  is_number x = true -> is_number y = true ->
  (PrimFloat.eqb x y = true <-> (value x == value y)%Q).
Proof.
  unfold is_number, value. intros Nx Ny. rewrite FloatAxioms.eqb_spec. split.
  - apply SFeqb_value.
  - apply value_SFeqb; try apply Prim2SF_valid.
    + destruct (Prim2SF x); try discriminate; exact I.
    + destruct (Prim2SF y); try discriminate; exact I.
Qed.

Lemma Q3_eq_sym (x y : Q3) : Q3_eq x y -> Q3_eq y x.
Proof.
  destruct x as [[? ?] ?], y as [[? ?] ?]. unfold Q3_eq.
  intros (A & B & C). repeat split; symmetry; assumption.
Qed.

Lemma Q3_eq_refl (x : Q3) : Q3_eq x x.
Proof. destruct x as [[? ?] ?]. repeat split; reflexivity. Qed.

Lemma points_are_identical_pos (p q : point) :
  point_is_number p = true -> point_is_number q = true ->
  (points_are_identical p q = true <-> Q3_eq (pos p) (pos q)).
Proof.
  unfold point_is_number, points_are_identical, pos, Q3_eq.
  intros Hp Hq.
  apply andb_true_iff in Hp as [Hp Hp2]. apply andb_true_iff in Hp as [Hp0 Hp1].
  apply andb_true_iff in Hq as [Hq Hq2]. apply andb_true_iff in Hq as [Hq0 Hq1].
  rewrite !andb_true_iff.
  rewrite (eqb_value _ _ Hp0 Hq0), (eqb_value _ _ Hp1 Hq1), (eqb_value _ _ Hp2 Hq2).
  tauto.
Qed.

(** X1.  [points_are_identical] on two points whose coordinates are
    numbers (no infinity, no NaN) answers [true] exactly when the two
    points are the same point of space: their coordinates have the same
    values, so that [0.0] and [-0.0] are identical.  On such points the
    test is symmetric and every point is identical to itself. *)
Theorem points_are_identical_iff (p q : point) :
  point_is_number p = true -> point_is_number q = true ->
  (points_are_identical p q = true <-> Q3_eq (pos p) (pos q)) /\
  points_are_identical p q = points_are_identical q p /\
  points_are_identical p p = true.
Proof.
  intros Hp Hq. split; [apply points_are_identical_pos; assumption |]. split.
  - destruct (points_are_identical p q) eqn:E1, (points_are_identical q p) eqn:E2;
      try reflexivity.
    + apply (points_are_identical_pos p q Hp Hq) in E1. apply Q3_eq_sym in E1.
      apply (points_are_identical_pos q p Hq Hp) in E1. congruence.
    + apply (points_are_identical_pos q p Hq Hp) in E2. apply Q3_eq_sym in E2.
      apply (points_are_identical_pos p q Hp Hq) in E2. congruence.
  - apply (points_are_identical_pos p p Hp Hp). apply Q3_eq_refl.
Qed.

Lemma points_are_identical_iff_witness :
  (points_are_identical (mkpoint 0 1 2) (mkpoint (- 0) 1 2) = true <->
   Q3_eq (pos (mkpoint 0 1 2)) (pos (mkpoint (- 0) 1 2))) /\
  points_are_identical (mkpoint 0 1 2) (mkpoint (- 0) 1 2)
  = points_are_identical (mkpoint (- 0) 1 2) (mkpoint 0 1 2) /\
  points_are_identical (mkpoint 0 1 2) (mkpoint 0 1 2) = true.
Proof.
  apply (points_are_identical_iff (mkpoint 0 1 2) (mkpoint (- 0) 1 2)).
  - vm_compute. reflexivity.
  - vm_compute. reflexivity.
Defined.

(** ** The first tetrahedron and degenerate inputs *)

(** The coordinates of a vertex of a buffer of numbers are numbers. *)
Lemma deref_vertex_number (d : Delaunay3d) (i : Z) :
  (dimension_ d = 3 \/ dimension_ d = 4) ->
  Z.of_nat (length (vertices_ d)) = dimension_ d * nb_vertices_ d ->
  dimension_ d * nb_vertices_ d < 2 ^ 32 ->
  Forall (fun x => is_number x = true) (vertices_ d) ->
  0 <= i < nb_vertices_ d ->
  exists p : point,
    deref d (vertex_ptr d i) = Ok p /\
    pos p = input_point (dimension_ d) (vertices_ d) i /\
    point_is_number p = true.
Proof.
  intros Hdim Hlen Hsmall Hnum Hi.
  unfold vertex_ptr, index_t_of. rewrite Z.mod_small by nia.
  unfold deref, input_point, coordinate.
  destruct (zth_is_Some (vertices_ d) (dimension_ d * i)) as [x Ex]; [nia |].
  destruct (zth_is_Some (vertices_ d) (dimension_ d * i + 1)) as [y Ey]; [nia |].
  destruct (zth_is_Some (vertices_ d) (dimension_ d * i + 2)) as [z Ez]; [nia |].
  rewrite Ex, Ey, Ez. cbn. eexists. split; [reflexivity |]. split; [reflexivity |].
  rewrite Forall_forall in Hnum.
  unfold zth in Ex, Ey, Ez.
  destruct (_ && _) in Ex; [| discriminate].
  destruct (_ && _) in Ey; [| discriminate].
  destruct (_ && _) in Ez; [| discriminate].
  apply list_elem_of_lookup_2 in Ex, Ey, Ez.
  unfold point_is_number. cbn.
  rewrite (Hnum x Ex), (Hnum y Ey), (Hnum z Ez). reflexivity.
Qed.

Lemma points_are_colinear_cross (p1 p2 p3 : point) :
  points_are_colinear p1 p2 p3 = true <->
  Q3_zero (cross (Q3_sub (pos p2) (pos p1)) (Q3_sub (pos p3) (pos p1))).
Proof.
  rewrite <- four_tests_cross.
  unfold points_are_colinear. rewrite !andb_true_iff, !bool_decide_eq_true.
  unfold orient_3d. rewrite !sgnQ_zero.
  assert (E0 : Q3_eq (pos q000) (0, 0, 0)%Q) by (repeat split; reflexivity).
  assert (E1 : Q3_eq (pos q001) (0, 0, 1)%Q)
    by (repeat split; try reflexivity; apply value_one).
  assert (E2 : Q3_eq (pos q010) (0, 1, 0)%Q)
    by (repeat split; try reflexivity; apply value_one).
  assert (E3 : Q3_eq (pos q100) (1, 0, 0)%Q)
    by (repeat split; try reflexivity; apply value_one).
  rewrite (orient_det_last_ext _ _ _ _ _ E0), (orient_det_last_ext _ _ _ _ _ E1),
          (orient_det_last_ext _ _ _ _ _ E2), (orient_det_last_ext _ _ _ _ _ E3).
  tauto.
Qed.

Section Scans.

Variable d : Delaunay3d.
Hypothesis Hdim : dimension_ d = 3 \/ dimension_ d = 4.
Hypothesis Hlen : Z.of_nat (length (vertices_ d)) = dimension_ d * nb_vertices_ d.
Hypothesis Hsmall : dimension_ d * nb_vertices_ d < 2 ^ 32.
Hypothesis Hnum : Forall (fun x => is_number x = true) (vertices_ d).

Let P (i : Z) : Q3 := input_point (dimension_ d) (vertices_ d) i.

Lemma identical_to_spec (i k : Z) :
  0 <= i < nb_vertices_ d -> 0 <= k < nb_vertices_ d ->
  exists b : bool,
    identical_to d i k = Ok b /\ (b = true <-> Q3_eq (P i) (P k)).
Proof.
  intros Hi Hk. unfold identical_to.
  destruct (deref_vertex_number d i Hdim Hlen Hsmall Hnum Hi) as (p & E & Pp & Np).
  destruct (deref_vertex_number d k Hdim Hlen Hsmall Hnum Hk) as (q & F & Pq & Nq).
  rewrite E, F. cbn [bindR]. eexists. split; [reflexivity |].
  unfold P. rewrite <- Pp, <- Pq. apply points_are_identical_pos; assumption.
Qed.

Lemma colinear_with_spec (i j k : Z) :
  0 <= i < nb_vertices_ d -> 0 <= j < nb_vertices_ d -> 0 <= k < nb_vertices_ d ->
  exists b : bool,
    colinear_with d i j k = Ok b /\
    (b = true <-> Q3_zero (cross (Q3_sub (P j) (P i)) (Q3_sub (P k) (P i)))).
Proof.
  intros Hi Hj Hk. unfold colinear_with.
  destruct (deref_vertex d i Hdim Hlen Hsmall Hi) as (p & E & Pp).
  destruct (deref_vertex d j Hdim Hlen Hsmall Hj) as (q & F & Pq).
  destruct (deref_vertex d k Hdim Hlen Hsmall Hk) as (r & G & Pr).
  rewrite E, F, G. cbn [bindR]. eexists. split; [reflexivity |].
  unfold P. rewrite <- Pp, <- Pq, <- Pr. apply points_are_colinear_cross.
Qed.

Lemma orientation_of_spec (i j k l : Z) :
  0 <= i < nb_vertices_ d -> 0 <= j < nb_vertices_ d ->
  0 <= k < nb_vertices_ d -> 0 <= l < nb_vertices_ d ->
  exists s : Sign,
    orientation_of d i j k l = Ok s /\
    (s = ZERO <-> (orient_det (P i) (P j) (P k) (P l) == 0)%Q).
Proof.
  intros Hi Hj Hk Hl. unfold orientation_of.
  destruct (deref_vertex d i Hdim Hlen Hsmall Hi) as (p & E & Pp).
  destruct (deref_vertex d j Hdim Hlen Hsmall Hj) as (q & F & Pq).
  destruct (deref_vertex d k Hdim Hlen Hsmall Hk) as (r & G & Pr).
  destruct (deref_vertex d l Hdim Hlen Hsmall Hl) as (s & H & Ps).
  rewrite E, F, G, H. cbn [bindR]. eexists. split; [reflexivity |].
  unfold P. rewrite <- Pp, <- Pq, <- Pr, <- Ps. unfold orient_3d. apply sgnQ_zero.
Qed.

End Scans.

Lemma Q3_sub_zero (x y : Q3) : Q3_zero (Q3_sub y x) <-> Q3_eq x y.
Proof.
  destruct x as [[? ?] ?], y as [[? ?] ?]. unfold Q3_zero, Q3_eq, Q3_sub.
  split; intros (A & B & C); repeat split; lra.
Qed.

(** A point whose cross product test with two distinct points vanishes is
    on their line. *)
Lemma on_line (x y z : Q3) :
  ~ Q3_eq x y -> Q3_zero (cross (Q3_sub y x) (Q3_sub z x)) ->
  exists t : Q, Q3_eq z (Q3_along x (Q3_sub y x) t).
Proof.
  intros Hne Hc.
  destruct (cross_zero_parallel (Q3_sub y x) (Q3_sub z x)) as [t Ht].
  - rewrite Q3_sub_zero. exact Hne.
  - exact Hc.
  - exists t. destruct x as [[? ?] ?], y as [[? ?] ?], z as [[? ?] ?].
    unfold Q3_eq, Q3_along, Q3_sub in *. destruct Ht as (A & B & C).
    repeat split; lra.
Qed.

Lemma in_plane_eq (x y z q : Q3) : Q3_eq q x -> in_plane x y z q.
Proof.
  destruct x as [[? ?] ?], y as [[? ?] ?], z as [[? ?] ?], q as [[? ?] ?].
  unfold in_plane, Q3_eq, dot, cross, Q3_sub. intros (-> & -> & ->). reflexivity.
Qed.

Lemma in_plane_line (x y z q : Q3) (t : Q) :
  Q3_eq q (Q3_along x (Q3_sub y x) t) -> in_plane x y z q.
Proof.
  destruct x as [[? ?] ?], y as [[? ?] ?], z as [[? ?] ?], q as [[? ?] ?].
  unfold in_plane, Q3_eq, dot, cross, Q3_sub, Q3_along.
  intros (-> & -> & ->). ring.
Qed.

Lemma in_plane_third (x y z : Q3) : in_plane x y z z.
Proof.
  destruct x as [[? ?] ?], y as [[? ?] ?], z as [[? ?] ?].
  unfold in_plane, dot, cross, Q3_sub. ring.
Qed.

Lemma in_plane_flat (x y z q : Q3) :
  (orient_det x y z q == 0)%Q -> in_plane x y z q.
Proof.
  rewrite orient_det_cross.
  destruct x as [[? ?] ?], y as [[? ?] ?], z as [[? ?] ?], q as [[? ?] ?].
  unfold in_plane, dot, cross, Q3_sub. intros H. lra.
Qed.

Lemma in_plane_coplanar (x y z : Q3) (ps : list Q3) :
  ~ Q3_zero (cross (Q3_sub y x) (Q3_sub z x)) ->
  Forall (in_plane x y z) ps -> coplanar_all ps.
Proof.
  intros Hn H.
  exists (cross (Q3_sub y x) (Q3_sub z x)),
         (dot (cross (Q3_sub y x) (Q3_sub z x)) x).
  split; [exact Hn |].
  eapply Forall_impl; [exact H |]. intros [[q0 q1] q2] Hq.
  unfold in_plane in Hq.
  destruct (cross (Q3_sub y x) (Q3_sub z x)) as [[n0 n1] n2].
  exact Hq.
Qed.

Lemma Forall_input_points (Q : Q3 -> Prop) (dim nb : Z) (vertices : list float) :
  (forall i : Z, 0 <= i < nb -> Q (input_point dim vertices i)) ->
  Forall Q (input_points dim nb vertices).
Proof.
  intros H. apply Forall_forall. intros x Hx. unfold input_points in Hx.
  apply list_elem_of_fmap in Hx as (i & -> & Hi). apply elem_of_seqZ in Hi.
  apply H. lia.
Qed.

(** Where the scans of [create_first_tetrahedron] find no tetrahedron in a
    buffer of numbers, the input is degenerate. *)
Lemma first_tetrahedron_vertices_none (d : Delaunay3d) :
  (dimension_ d = 3 \/ dimension_ d = 4) ->
  Z.of_nat (length (vertices_ d)) = dimension_ d * nb_vertices_ d ->
  dimension_ d * nb_vertices_ d < 2 ^ 32 ->
  Forall (fun x => is_number x = true) (vertices_ d) ->
  first_tetrahedron_vertices d = Ok None ->
  degenerate_input (dimension_ d) (nb_vertices_ d) (vertices_ d).
Proof.
  intros Hdim Hlen Hsmall Hnum H.
  unfold first_tetrahedron_vertices, nb_vertices in H.
  destruct (Z.ltb_spec (nb_vertices_ d) 4) as [Hlt | Hnb]; [left; exact Hlt |].
  right.
  set (P := input_point (dimension_ d) (vertices_ d)).
  apply bindR_Ok in H as (j1 & H1 & H).
  apply scan_while_spec in H1 as (R1 & L1 & S1).
  assert (I1 : forall k : Z, 0 <= k < j1 -> Q3_eq (P k) (P 0)).
  { intros k Hk. destruct (Z.eq_dec k 0) as [-> | Hk0]; [apply Q3_eq_refl |].
    destruct (identical_to_spec d Hdim Hlen Hsmall Hnum 0 k) as (b & Eb & Hb);
      [lia | lia |].
    rewrite L1 in Eb by lia. injection Eb as <-.
    apply Q3_eq_sym, Hb. reflexivity. }
  destruct (Z.eqb_spec j1 (nb_vertices_ d)) as [E1 | N1].
  { left. exists (P 0). apply Forall_input_points. intros i Hi.
    apply I1. lia. }
  assert (D1 : ~ Q3_eq (P 0) (P j1)).
  { destruct (identical_to_spec d Hdim Hlen Hsmall Hnum 0 j1) as (b & Eb & Hb);
      [lia | lia |].
    rewrite S1 in Eb by lia. injection Eb as <-.
    intros E. apply Hb in E. discriminate. }
  apply bindR_Ok in H as (j2 & H2 & H).
  apply scan_while_spec in H2 as (R2 & L2 & S2).
  assert (I2 : forall k : Z, 0 <= k < j2 ->
                 exists t : Q, Q3_eq (P k) (Q3_along (P 0) (Q3_sub (P j1) (P 0)) t)).
  { intros k Hk.
    destruct (Z.lt_trichotomy k j1) as [Hlow | [-> | Hhigh]].
    - exists 0%Q. specialize (I1 k ltac:(lia)).
      destruct (P k) as [[? ?] ?], (P 0) as [[? ?] ?], (P j1) as [[? ?] ?].
      unfold Q3_eq, Q3_along, Q3_sub in *. destruct I1 as (A & B & C).
      repeat split; lra.
    - exists 1%Q.
      destruct (P 0) as [[? ?] ?], (P j1) as [[? ?] ?].
      unfold Q3_eq, Q3_along, Q3_sub. repeat split; ring.
    - destruct (colinear_with_spec d Hdim Hlen Hsmall 0 j1 k) as (b & Eb & Hb);
        [lia | lia | lia |].
      rewrite L2 in Eb by lia. injection Eb as <-.
      apply on_line; [exact D1 | apply Hb; reflexivity]. }
  destruct (Z.eqb_spec j2 (nb_vertices_ d)) as [E2 | N2].
  { right. left. exists (P 0), (Q3_sub (P j1) (P 0)). split.
    - rewrite Q3_sub_zero. exact D1.
    - apply Forall_input_points. intros i Hi. apply I2. lia. }
  assert (D2 : ~ Q3_zero (cross (Q3_sub (P j1) (P 0)) (Q3_sub (P j2) (P 0)))).
  { destruct (colinear_with_spec d Hdim Hlen Hsmall 0 j1 j2) as (b & Eb & Hb);
      [lia | lia | lia |].
    rewrite S2 in Eb by lia. injection Eb as <-.
    intros E. apply Hb in E. discriminate. }
  apply bindR_Ok in H as ([j3 s] & H3 & H).
  apply scan_while_zero_spec in H3 as (R3 & L3 & S3).
  destruct (Z.eqb_spec j3 (nb_vertices_ d)) as [E3 | N3].
  2: { destruct (bool_decide (s = NEGATIVE)); discriminate. }
  right. right.
  apply (in_plane_coplanar (P 0) (P j1) (P j2)); [exact D2 |].
  apply Forall_input_points. intros i Hi.
  destruct (Z.lt_trichotomy i j2) as [Hlow | [-> | Hhigh]].
  - destruct (I2 i) as [t Ht]; [lia |]. apply (in_plane_line _ _ _ _ t). exact Ht.
  - apply in_plane_third.
  - apply in_plane_flat.
    destruct (orientation_of_spec d Hdim Hlen Hsmall 0 j1 j2 i) as (s' & Es & Hs);
      [lia | lia | lia | lia |].
    rewrite L3 in Es by lia. injection Es as <-. apply Hs. reflexivity.
Qed.

Lemma scan_while_zero_total (ori : Z -> result Sign) (n : nat) :
  forall (iv : Z) (s : Sign),
    (forall k : Z, iv <= k < iv + Z.of_nat n -> exists s' : Sign, ori k = Ok s') ->
    exists r : Z * Sign, scan_while_zero ori n iv s = Ok r.
Proof.
  induction n as [| n IH]; intros iv s H; cbn [scan_while_zero].
  - eexists. reflexivity.
  - destruct (H iv) as [s' Hs']; [lia |]. rewrite Hs'. cbn [bindR].
    destruct (bool_decide (s' = ZERO)); [| eexists; reflexivity].
    apply IH. intros k Hk. apply H. lia.
Qed.

(** The scans read inside the buffer: they return. *)
Lemma first_tetrahedron_vertices_total (d : Delaunay3d) :
  (dimension_ d = 3 \/ dimension_ d = 4) ->
  Z.of_nat (length (vertices_ d)) = dimension_ d * nb_vertices_ d ->
  dimension_ d * nb_vertices_ d < 2 ^ 32 ->
  exists r : option (Z * Z * Z * Z), first_tetrahedron_vertices d = Ok r.
Proof.
  intros Hdim Hlen Hsmall.
  unfold first_tetrahedron_vertices, nb_vertices.
  destruct (Z.ltb_spec (nb_vertices_ d) 4) as [? | Hnb]; [eexists; reflexivity |].
  destruct (scan_while_total (identical_to d 0)
              (Z.to_nat (nb_vertices_ d - 1)) 1) as [j1 H1].
  { intros k Hk. unfold identical_to.
    destruct (deref_vertex d 0 Hdim Hlen Hsmall) as (p0 & E0 & _); [lia |].
    destruct (deref_vertex d k Hdim Hlen Hsmall) as (pk & Ek & _); [lia |].
    rewrite E0, Ek. eexists. reflexivity. }
  rewrite H1. cbn [bindR]. apply scan_while_spec in H1 as (R1 & _ & _).
  destruct (Z.eqb_spec j1 (nb_vertices_ d)) as [? | N1]; [eexists; reflexivity |].
  destruct (scan_while_total (colinear_with d 0 j1)
              (Z.to_nat (nb_vertices_ d - (j1 + 1))) (j1 + 1)) as [j2 H2].
  { intros k Hk. unfold colinear_with.
    destruct (deref_vertex d 0 Hdim Hlen Hsmall) as (p0 & E0 & _); [lia |].
    destruct (deref_vertex d j1 Hdim Hlen Hsmall) as (p1 & E1 & _); [lia |].
    destruct (deref_vertex d k Hdim Hlen Hsmall) as (pk & Ek & _); [lia |].
    rewrite E0, E1, Ek. eexists. reflexivity. }
  rewrite H2. cbn [bindR]. apply scan_while_spec in H2 as (R2 & _ & _).
  destruct (Z.eqb_spec j2 (nb_vertices_ d)) as [? | N2]; [eexists; reflexivity |].
  destruct (scan_while_zero_total (orientation_of d 0 j1 j2)
              (Z.to_nat (nb_vertices_ d - (j2 + 1))) (j2 + 1) ZERO) as [[j3 s] H3].
  { intros k Hk. unfold orientation_of.
    destruct (deref_vertex d 0 Hdim Hlen Hsmall) as (p0 & E0 & _); [lia |].
    destruct (deref_vertex d j1 Hdim Hlen Hsmall) as (p1 & E1 & _); [lia |].
    destruct (deref_vertex d j2 Hdim Hlen Hsmall) as (p2 & E2 & _); [lia |].
    destruct (deref_vertex d k Hdim Hlen Hsmall) as (pk & Ek & _); [lia |].
    rewrite E0, E1, E2, Ek. eexists. reflexivity. }
  rewrite H3. cbn [bindR].
  destruct (j3 =? nb_vertices_ d); [eexists; reflexivity |].
  destruct (bool_decide (s = NEGATIVE)); eexists; reflexivity.
Qed.

(** X2.  On the empty stores and a buffer of numbers,
    [create_first_tetrahedron] returns without a fault, and it returns
    [false] exactly when the input is degenerate: fewer than 4 points, or
    all the points identical, on one line or in one plane.  It has then
    changed nothing of the object. *)
Theorem first_tetrahedron_fails_iff_degenerate (d : Delaunay3d) :
  (dimension_ d = 3 \/ dimension_ d = 4) ->
  Z.of_nat (length (vertices_ d)) = dimension_ d * nb_vertices_ d ->
  dimension_ d * nb_vertices_ d < 2 ^ 32 ->
  Forall (fun x => is_number x = true) (vertices_ d) ->
  cell_to_v_store_ d = [] ->
  cell_to_cell_store_ d = [] ->
  cell_next_ d = [] ->
  first_free_ d = END_OF_LIST ->
  exists (r : option (Z * Z * Z * Z)) (d' : Delaunay3d),
    create_first_tetrahedron d = Ok (r, d') /\
    (r = None <-> degenerate_input (dimension_ d) (nb_vertices_ d) (vertices_ d)) /\
    (r = None -> d' = d).
Proof.
  intros Hdim Hlen Hsmall Hnum Ev Ec En Ef.
  destruct (first_tetrahedron_vertices_total d Hdim Hlen Hsmall) as [r Hr].
  unfold create_first_tetrahedron, bindM, const. rewrite Hr.
  destruct r as [[[[i0 i1] i2] i3] |].
  - destruct (first_tetrahedron_vertices_spec _ _ _ _ _ Hr)
      as (j1 & j2 & j3 & s & H4 & Hj1 & Hj2 & Hj3 & Hjn & _ & _ & _ & _
          & _ & _ & _ & Hiv & _).
    unfold nb_vertices in *.
    assert (B : 0 <= i0 < 2 ^ 31 /\ 0 <= i1 < 2 ^ 31 /\
                0 <= i2 < 2 ^ 31 /\ 0 <= i3 < 2 ^ 31).
    { destruct (bool_decide (s = NEGATIVE)); injection Hiv as -> -> -> ->; lia. }
    destruct B as (B0 & B1 & B2 & B3).
    rewrite (link_first_tetrahedron_stores d i0 i1 i2 i3 Ev Ec En Ef B0 B1 B2 B3).
    eexists. eexists. split; [reflexivity |]. split; [| discriminate].
    split; [discriminate |]. intros Hdeg.
    rewrite (first_tetrahedron_vertices_degenerate d Hdim Hlen Hsmall Hdeg) in Hr.
    discriminate.
  - exists None, d. split; [reflexivity |]. split; [| reflexivity].
    split; [| reflexivity]. intros _.
    apply first_tetrahedron_vertices_none; assumption.
Qed.

Lemma first_tetrahedron_fails_iff_degenerate_witness :
  exists (r : option (Z * Z * Z * Z)) (d' : Delaunay3d),
    create_first_tetrahedron unbuilt_mesh = Ok (r, d') /\
    (r = None <-> degenerate_input 3 5 five_points) /\
    (r = None -> d' = unbuilt_mesh).
Proof.
  apply (first_tetrahedron_fails_iff_degenerate unbuilt_mesh).
  - left. reflexivity.
  - reflexivity.
  - reflexivity.
  - repeat (apply Forall_cons_2; [vm_compute; reflexivity |]). apply Forall_nil_2.
  - reflexivity.
  - reflexivity.
  - reflexivity.
  - reflexivity.
Defined.

(** ** The self-checks *)

Lemma all_ok_spec (check : Z -> result bool) (l : list Z) :
  (forall t : Z, t ∈ l -> exists b : bool, check t = Ok b) ->
  exists b : bool,
    all_ok check l = Ok b /\
    (b = true <-> forall t : Z, t ∈ l -> check t = Ok true).
Proof.
  induction l as [| t l IH]; intros H; cbn [all_ok].
  - exists true. split; [reflexivity |]. split; [| reflexivity].
    intros _ t Ht. apply elem_of_nil in Ht. contradiction.
  - destruct (H t) as [b Hb]; [left |].
    destruct IH as (r & Hr & Hiff); [intros t' Ht'; apply H; right; exact Ht' |].
    rewrite Hb, Hr. cbn [bindR]. eexists. split; [reflexivity |].
    rewrite andb_true_iff, Hiff. split.
    + intros [-> Hall] t' Ht'. apply elem_of_cons in Ht' as [-> | Ht'];
        [exact Hb | apply Hall; exact Ht'].
    + intros Hall. split.
      * specialize (Hall t ltac:(left)). congruence.
      * intros t' Ht'. apply Hall. right. exact Ht'.
Qed.

Lemma all_ok_true (check : Z -> result bool) (l : list Z) :
  all_ok check l = Ok true -> forall t : Z, t ∈ l -> check t = Ok true.
Proof.
  induction l as [| t l IH]; cbn [all_ok]; intros H t' Ht'.
  - apply elem_of_nil in Ht'. contradiction.
  - apply bindR_Ok in H as (b & Hb & H). apply bindR_Ok in H as (r & Hr & H).
    injection H as H. apply andb_true_iff in H as [-> ->].
    apply elem_of_cons in Ht' as [-> | Ht']; [exact Hb | exact (IH Hr t' Ht')].
Qed.

Lemma tet_adjacent_read (d : Delaunay3d) (t lf : Z) :
  well_sized d -> 0 <= t < max_t d -> 0 <= lf < 4 ->
  exists a : Z, tet_adjacent d t lf = Ok a /\ -1 <= a < max_t d.
Proof.
  intros (Hs & _ & Hc & Hr) Ht Hlf. unfold tet_adjacent, index_t_of.
  rewrite Z.mod_small by lia.
  destruct (zth_is_Some (cell_to_cell_store_ d) (4 * t + lf)) as [a Ha]; [lia |].
  rewrite Ha. exists a. split; [reflexivity |].
  rewrite Forall_forall in Hr. apply Hr.
  unfold zth in Ha. destruct (_ && _) in Ha; [| discriminate].
  apply list_elem_of_lookup_2 in Ha. exact Ha.
Qed.

Lemma tet_vertex_read (d : Delaunay3d) (t lv : Z) :
  well_sized d -> 0 <= t < max_t d -> 0 <= lv < 4 ->
  exists v : Z, tet_vertex d t lv = Ok v.
Proof.
  intros (Hs & Hv & _ & _) Ht Hlv. unfold tet_vertex, index_t_of.
  rewrite Z.mod_small by lia.
  destruct (zth_is_Some (cell_to_v_store_ d) (4 * t + lv)) as [a Ha]; [lia |].
  rewrite Ha. exists a. reflexivity.
Qed.

Lemma tet_is_free_read (d : Delaunay3d) (t : Z) :
  0 <= t < max_t d -> exists b : bool, tet_is_free d t = Ok b.
Proof.
  intros Ht. unfold tet_is_free, tet_is_in_list, tet_next, max_t in *.
  destruct (zth_is_Some (cell_next_ d) t) as [a Ha]; [lia |].
  rewrite Ha. cbn. eexists. reflexivity.
Qed.

Lemma index_t_of_small (x : Z) : 0 <= x < 2 ^ 32 -> index_t_of x = x.
Proof. intros H. unfold index_t_of. apply Z.mod_small. exact H. Qed.

(** The checks of one cell. *)
Lemma tet_combinatorics_ok_spec (d : Delaunay3d) (t : Z) :
  well_sized d -> 0 <= t < max_t d ->
  exists b : bool,
    tet_combinatorics_ok d t = Ok b /\
    (b = true <->
     (tet_is_free d t = Ok false ->
      (forall lf : Z, 0 <= lf < 4 -> facet_linked d t lf) /\
      one_infinite_vertex_at_most d t)).
Proof.
  intros Hw Ht. assert (Hs : max_t d < 2 ^ 30) by apply Hw.
  unfold tet_combinatorics_ok.
  destruct (tet_is_free_read d t Ht) as [free Hfree]. rewrite Hfree. cbn [bindR].
  destruct free.
  { exists true. split; [reflexivity |]. split; [discriminate | reflexivity]. }
  cbv beta zeta. rewrite !(signed_index_t_of_small t) by lia.
  assert (Hfacet : forall lf : Z, 0 <= lf < 4 ->
    exists b : bool,
      (let+ a := tet_adjacent d t lf in
       if a =? -1 then Ok false
       else if a =? t then Ok false
       else
         let+ b0 := tet_adjacent d (index_t_of a) 0 in
         let+ b1 := tet_adjacent d (index_t_of a) 1 in
         let+ b2 := tet_adjacent d (index_t_of a) 2 in
         let+ b3 := tet_adjacent d (index_t_of a) 3 in
         Ok ((b0 =? t) || (b1 =? t) || (b2 =? t) || (b3 =? t))) = Ok b /\
      (b = true <-> facet_linked d t lf)).
  { intros lf Hlf. unfold facet_linked.
    destruct (tet_adjacent_read d t lf Hw Ht Hlf) as (a & Ha & Ra).
    rewrite Ha. cbn [bindR].
    destruct (Z.eqb_spec a (-1)) as [E1 | N1].
    { exists false. split; [reflexivity |]. split; [discriminate |].
      intros (a' & Ha' & Hn & _). injection Ha' as <-. contradiction. }
    destruct (Z.eqb_spec a t) as [E2 | N2].
    { exists false. split; [reflexivity |]. split; [discriminate |].
      intros (a' & Ha' & _ & Hn & _). injection Ha' as <-. contradiction. }
    rewrite index_t_of_small by lia.
    destruct (tet_adjacent_read d a 0 Hw) as (b0 & E0 & _); [lia | lia |].
    destruct (tet_adjacent_read d a 1 Hw) as (b1 & E1 & _); [lia | lia |].
    destruct (tet_adjacent_read d a 2 Hw) as (b2 & E2 & _); [lia | lia |].
    destruct (tet_adjacent_read d a 3 Hw) as (b3 & E3 & _); [lia | lia |].
    rewrite E0, E1, E2, E3. cbn [bindR]. eexists. split; [reflexivity |].
    rewrite !orb_true_iff, !Z.eqb_eq. split.
    - intros H. exists a. split; [reflexivity |].
      split; [assumption |]. split; [assumption |].
      destruct H as [[[-> | ->] | ->] | ->];
        [exists 0 | exists 1 | exists 2 | exists 3]; (split; [lia | assumption]).
    - intros (a' & Ha' & _ & _ & lf2 & Hlf2 & Hb).
      injection Ha' as <-.
      assert (C : lf2 = 0 \/ lf2 = 1 \/ lf2 = 2 \/ lf2 = 3) by lia.
      destruct C as [-> | [-> | [-> | ->]]]; rewrite Hb in *.
      + injection E0 as <-. tauto.
      + injection E1 as <-. tauto.
      + injection E2 as <-. tauto.
      + injection E3 as <-. tauto. }
  destruct (Hfacet 0 ltac:(lia)) as (ok0 & K0 & I0). rewrite K0. cbn [bindR].
  destruct (Hfacet 1 ltac:(lia)) as (ok1 & K1 & I1). rewrite K1. cbn [bindR].
  destruct (Hfacet 2 ltac:(lia)) as (ok2 & K2 & I2). rewrite K2. cbn [bindR].
  destruct (Hfacet 3 ltac:(lia)) as (ok3 & K3 & I3). rewrite K3. cbn [bindR].
  destruct (tet_vertex_read d t 0 Hw Ht ltac:(lia)) as (v0 & V0). rewrite V0.
  destruct (tet_vertex_read d t 1 Hw Ht ltac:(lia)) as (v1 & V1). rewrite V1.
  destruct (tet_vertex_read d t 2 Hw Ht ltac:(lia)) as (v2 & V2). rewrite V2.
  destruct (tet_vertex_read d t 3 Hw Ht ltac:(lia)) as (v3 & V3). rewrite V3.
  cbn [bindR]. eexists. split; [reflexivity |].
  rewrite !andb_true_iff, negb_true_iff, I0, I1, I2, I3. split.
  - intros ((((F0 & F1) & F2) & F3) & Hinf) _. split.
    + intros lf Hlf.
      assert (C : lf = 0 \/ lf = 1 \/ lf = 2 \/ lf = 3) by lia.
      destruct C as [-> | [-> | [-> | ->]]]; assumption.
    + intros lv lv' Hlv Hlv' [A B].
      assert (C : (lv = 0 /\ lv' = 1) \/ (lv = 0 /\ lv' = 2) \/ (lv = 0 /\ lv' = 3) \/
                  (lv = 1 /\ lv' = 2) \/ (lv = 1 /\ lv' = 3) \/ (lv = 2 /\ lv' = 3))
        by lia.
      destruct C as [[-> ->] | [[-> ->] | [[-> ->] | [[-> ->] | [[-> ->] | [-> ->]]]]]];
        rewrite ?V0, ?V1, ?V2, ?V3 in A; rewrite ?V0, ?V1, ?V2, ?V3 in B;
        injection A as A; injection B as B;
        destruct (Z.eqb_spec v0 (-1)), (Z.eqb_spec v1 (-1)),
                 (Z.eqb_spec v2 (-1)), (Z.eqb_spec v3 (-1));
        cbn in Hinf; try discriminate; try lia.
  - intros H. destruct (H eq_refl) as [HF Hinf].
    split; [repeat split; apply HF; lia |].
    destruct (Z.eqb_spec v0 (-1)) as [-> | ?], (Z.eqb_spec v1 (-1)) as [-> | ?],
             (Z.eqb_spec v2 (-1)) as [-> | ?], (Z.eqb_spec v3 (-1)) as [-> | ?];
      try reflexivity; exfalso;
      first [ apply (Hinf 0 1); [lia | lia | split; assumption]
            | apply (Hinf 0 2); [lia | lia | split; assumption]
            | apply (Hinf 0 3); [lia | lia | split; assumption]
            | apply (Hinf 1 2); [lia | lia | split; assumption]
            | apply (Hinf 1 3); [lia | lia | split; assumption]
            | apply (Hinf 2 3); [lia | lia | split; assumption] ].
Qed.

(** The marks of one cell, read back from a run. *)
Lemma mark_vertex_inv (v : Z) (h h' : list bool) :
  mark_vertex v h = Ok h' ->
  length h' = length h /\ (v < 0 \/ index_t_of v < Z.of_nat (length h)).
Proof.
  unfold mark_vertex. destruct (Z.geb_spec v 0) as [Hv | Hv]; intros H.
  - apply zset_length in H as [L R]. split; [exact L | right; lia].
  - injection H as <-. split; [reflexivity | left; lia].
Qed.

Lemma check_combinatorics_tet_inv (d : Delaunay3d) (t : Z) (ok ok' : bool)
    (h h' : list bool) :
  check_combinatorics_tet d t (ok, h) = Ok (ok', h') ->
  exists b : bool,
    tet_combinatorics_ok d t = Ok b /\ ok' = ok && b /\
    length h' = length h /\
    vertex_slots_below d (Z.of_nat (length h)) t.
Proof.
  intros H. unfold check_combinatorics_tet in H. cbn [fst snd] in H.
  apply bindR_Ok in H as (b & Hb & H).
  apply bindR_Ok in H as (v0 & E0 & H). apply bindR_Ok in H as (h0 & M0 & H).
  apply bindR_Ok in H as (v1 & E1 & H). apply bindR_Ok in H as (h1 & M1 & H).
  apply bindR_Ok in H as (v2 & E2 & H). apply bindR_Ok in H as (h2 & M2 & H).
  apply bindR_Ok in H as (v3 & E3 & H). apply bindR_Ok in H as (h3 & M3 & H).
  injection H as <- <-.
  apply mark_vertex_inv in M0 as [L0 R0]. apply mark_vertex_inv in M1 as [L1 R1].
  apply mark_vertex_inv in M2 as [L2 R2]. apply mark_vertex_inv in M3 as [L3 R3].
  rewrite L0 in R1. rewrite L1, L0 in R2. rewrite L2, L1, L0 in R3.
  exists b. split; [exact Hb |]. split; [reflexivity |]. split; [congruence |].
  intros lv Hlv.
  assert (lv = 0 \/ lv = 1 \/ lv = 2 \/ lv = 3) as [-> | [-> | [-> | ->]]] by lia;
    eexists; (split; [eassumption | assumption]).
Qed.

Lemma check_combinatorics_loop_inv (d : Delaunay3d) (l : list Z) :
  forall (ok ok' : bool) (h h' : list bool),
    check_combinatorics_loop d l (ok, h) = Ok (ok', h') ->
    exists b : bool,
      all_ok (tet_combinatorics_ok d) l = Ok b /\ ok' = ok && b /\
      length h' = length h /\
      forall t : Z, t ∈ l -> vertex_slots_below d (Z.of_nat (length h)) t.
Proof.
  induction l as [| t l IH]; intros ok ok' h h' H; cbn [check_combinatorics_loop] in H.
  - injection H as <- <-. exists true. split; [reflexivity |].
    split; [rewrite andb_true_r; reflexivity |]. split; [reflexivity |].
    intros t Ht. apply elem_of_nil in Ht. contradiction.
  - apply bindR_Ok in H as ([ok1 h1] & H1 & H).
    apply check_combinatorics_tet_inv in H1 as (b1 & Hb1 & -> & L1 & S1).
    apply IH in H as (r & Hr & -> & L & S).
    exists (b1 && r). cbn [all_ok]. rewrite Hb1, Hr. cbn [bindR].
    split; [reflexivity |]. split; [symmetry; apply andb_assoc |]. split; [congruence |].
    intros t' Ht'. apply elem_of_cons in Ht' as [-> | Ht']; [exact S1 |].
    rewrite <- L1. apply S. exact Ht'.
Qed.

(** A run of [check_combinatorics] that reaches the assertion has made the
    checks of all the cells, and all its marks in the table. *)
Lemma check_combinatorics_inv (d : Delaunay3d) (b : bool) :
  check_combinatorics d = Ok b ->
  all_ok (tet_combinatorics_ok d) (seqZ 0 (max_t d)) = Ok b /\
  vertices_in_range d.
Proof.
  intros H. unfold check_combinatorics in H.
  apply bindR_Ok in H as ([ok h] & Hloop & H).
  apply bindR_Ok in H as ([] & _ & H). injection H as <-. cbn [fst].
  apply check_combinatorics_loop_inv in Hloop as (r & Hr & -> & _ & S).
  split; [exact Hr |].
  intros t Ht lv Hlv.
  destruct (S t ltac:(apply elem_of_seqZ; lia) lv Hlv) as (v & Ev & Rv).
  exists v. split; [exact Ev |]. rewrite length_replicate in Rv.
  destruct Rv as [Rv | Rv]; [left; exact Rv |].
  destruct (Z.lt_ge_cases v 0) as [? | Hv]; [left; assumption | right].
  assert (0 <= index_t_of v) by (apply Z.mod_pos_bound; lia). lia.
Qed.

(** The two directions of the test on a store of the right sizes. *)
Lemma check_combinatorics_sound (d : Delaunay3d) :
  well_sized d -> check_combinatorics d = Ok true -> combinatorics_ok d.
Proof.
  intros Hw H t Ht Hfree. apply check_combinatorics_inv in H as [H _].
  apply all_ok_true with (t := t) in H; [| apply elem_of_seqZ; lia].
  destruct (tet_combinatorics_ok_spec d t Hw Ht) as (b & Hb & Hi).
  rewrite H in Hb. injection Hb as <-. apply Hi; [reflexivity | exact Hfree].
Qed.

(** X3.  On stores of the right sizes [check_combinatorics] reaches its
    assertion exactly when every vertex slot of every cell, free or not,
    holds a negative value or a vertex of the object: the marks
    [v_has_tet[index_t(v)] = true] are not guarded, and a vertex slot that
    holds [nb_vertices] or more sends the write out of the table.  When the
    assertion is reached, the flag [ok] it asserts is [true] exactly when
    every cell that is not free has, behind each of its four facets, a
    neighbour that is set, is not the cell itself and has the cell behind
    one of its own facets, and has at most one vertex at infinity. *)
Theorem check_combinatorics_iff (d : Delaunay3d) :
  well_sized d ->
  ((exists b : bool, check_combinatorics d = Ok b) <-> vertices_in_range d) /\
  (forall b : bool,
     check_combinatorics d = Ok b -> (b = true <-> combinatorics_ok d)).
Proof.
  intros Hw.
  destruct (all_ok_spec (tet_combinatorics_ok d) (seqZ 0 (max_t d)))
    as (r & Hr & Hiff).
  { intros t Ht. apply elem_of_seqZ in Ht.
    destruct (tet_combinatorics_ok_spec d t Hw) as (b & Hb & _); [lia |].
    exists b. exact Hb. }
  split.
  - split.
    + intros [b Hb]. apply check_combinatorics_inv in Hb as [_ Hv]. exact Hv.
    + intros Hv. exists r. apply check_combinatorics_run; assumption.
  - intros b Hb. apply check_combinatorics_inv in Hb as [Hb _].
    rewrite Hr in Hb. injection Hb as <-.
    rewrite Hiff. unfold combinatorics_ok. split.
    + intros H t Ht Hfree.
      destruct (tet_combinatorics_ok_spec d t Hw Ht) as (b' & Hb' & Hi).
      rewrite H in Hb' by (apply elem_of_seqZ; lia). injection Hb' as <-.
      apply Hi; [reflexivity | exact Hfree].
    + intros H t Ht. apply elem_of_seqZ in Ht.
      destruct (tet_combinatorics_ok_spec d t Hw) as (b' & Hb' & Hi); [lia |].
      rewrite Hb'. f_equal. apply Hi. intros Hfree. apply H; [lia | exact Hfree].
Qed.

Lemma check_combinatorics_iff_witness :
  ((exists b : bool, check_combinatorics first_mesh = Ok b) <->
   vertices_in_range first_mesh) /\
  (forall b : bool,
     check_combinatorics first_mesh = Ok b ->
     (b = true <-> combinatorics_ok first_mesh)).
Proof.
  apply (check_combinatorics_iff first_mesh).
  split; [reflexivity |]. split; [reflexivity |]. split; [reflexivity |].
  apply (bool_decide_unpack _). vm_compute. exact I.
Defined.

Lemma all_ok_all_true (check : Z -> result bool) (l : list Z) :
  (forall t : Z, t ∈ l -> check t = Ok true) -> all_ok check l = Ok true.
Proof.
  intros H. destruct (all_ok_spec check l) as (b & Hb & Hiff).
  - intros t Ht. exists true. apply H. exact Ht.
  - rewrite Hb. f_equal. apply Hiff. exact H.
Qed.

Section Geometry.

Variable tet_is_conflict : Delaunay3d -> Z -> double_ptr -> result bool.

Lemma check_geometry_tet_iff (d : Delaunay3d) (t : Z) :
  well_sized d -> nb_vertices d <= 2 ^ 31 -> 0 <= t < max_t d ->
  (check_geometry_tet tet_is_conflict d t = Ok true <->
   (tet_is_free d t = Ok false ->
    forall v : Z, 0 <= v < nb_vertices d ->
      (forall lv : Z, 0 <= lv < 4 -> tet_vertex d t lv <> Ok v) ->
      tet_is_conflict d t (vertex_ptr d v) = Ok false)).
Proof.
  intros Hw Hnb Ht. unfold check_geometry_tet.
  destruct (tet_is_free_read d t Ht) as [free Hfree]. rewrite Hfree. cbn [bindR].
  destruct free; [split; [discriminate | reflexivity] |].
  destruct (tet_vertex_read d t 0 Hw Ht ltac:(lia)) as (v0 & V0). rewrite V0.
  destruct (tet_vertex_read d t 1 Hw Ht ltac:(lia)) as (v1 & V1). rewrite V1.
  destruct (tet_vertex_read d t 2 Hw Ht ltac:(lia)) as (v2 & V2). rewrite V2.
  destruct (tet_vertex_read d t 3 Hw Ht ltac:(lia)) as (v3 & V3). rewrite V3.
  cbn [bindR].
  assert (Hv : forall v : Z, 0 <= v < nb_vertices d ->
    ((v =? v0) || (v =? v1) || (v =? v2) || (v =? v3) = false <->
     forall lv : Z, 0 <= lv < 4 -> tet_vertex d t lv <> Ok v)).
  { intros v Hv. rewrite !orb_false_iff, !Z.eqb_neq. split.
    - intros (((N0 & N1) & N2) & N3) lv Hlv E.
      assert (C : lv = 0 \/ lv = 1 \/ lv = 2 \/ lv = 3) by lia.
      destruct C as [-> | [-> | [-> | ->]]]; congruence.
    - intros H. repeat split; intros ->.
      + apply (H 0); [lia | exact V0].
      + apply (H 1); [lia | exact V1].
      + apply (H 2); [lia | exact V2].
      + apply (H 3); [lia | exact V3]. }
  split.
  - intros H _ v Hvr Hnot.
    apply all_ok_true with (t := v) in H; [| apply elem_of_seqZ; lia].
    cbv zeta in H. rewrite signed_index_t_of_small in H by lia.
    rewrite (proj2 (Hv v Hvr) Hnot) in H.
    apply bindR_Ok in H as (c & Hc & H). injection H as H.
    apply negb_true_iff in H. subst c. exact Hc.
  - intros H. apply all_ok_all_true. intros v Hvr. apply elem_of_seqZ in Hvr.
    cbv zeta. rewrite signed_index_t_of_small by lia.
    destruct ((v =? v0) || (v =? v1) || (v =? v2) || (v =? v3)) eqn:E;
      [reflexivity |].
    rewrite (H eq_refl v ltac:(lia) (proj1 (Hv v ltac:(lia)) E)). reflexivity.
Qed.

(** X4.  The flag [ok] that [check_geometry] asserts is [true] exactly
    when no cell that is not free is in conflict with a vertex that is not
    one of its four, whatever the conflict predicate. *)
Theorem check_geometry_iff (d : Delaunay3d) :
  well_sized d -> nb_vertices d <= 2 ^ 31 ->
  (check_geometry tet_is_conflict d = Ok true <-> geometry_ok tet_is_conflict d).
Proof.
  intros Hw Hnb. unfold check_geometry, geometry_ok. split.
  - intros H t Ht. apply all_ok_true with (t := t) in H; [| apply elem_of_seqZ; lia].
    apply (check_geometry_tet_iff d t Hw Hnb Ht). exact H.
  - intros H. apply all_ok_all_true. intros t Ht. apply elem_of_seqZ in Ht.
    apply (check_geometry_tet_iff d t Hw Hnb); [lia |]. apply H. lia.
Qed.

End Geometry.

Lemma check_geometry_iff_witness :
  check_geometry tet_is_conflict_exact first_mesh = Ok true <->
  geometry_ok tet_is_conflict_exact first_mesh.
Proof.
  apply (check_geometry_iff tet_is_conflict_exact first_mesh).
  - split; [reflexivity |]. split; [reflexivity |]. split; [reflexivity |].
    apply (bool_decide_unpack _). vm_compute. exact I.
  - vm_compute. discriminate.
Defined.

(** ** What insertion leaves alone *)

Section Invariants.

Variable P : Delaunay3d -> Prop.
Hypothesis HP : store_invariant P.

Lemma keeps_ret {A : Type} (a : A) : keeps P (retM a).
Proof. apply triple_ret. exact I. Qed.

Lemma keeps_bind {A B : Type} (m : M A) (k : A -> M B) :
  keeps P m -> (forall a : A, keeps P (k a)) -> keeps P (bindM m k).
Proof.
  intros Hm Hk. eapply triple_bind with (Q1 := fun _ => True);
    [apply Hm | intros a _; apply Hk].
Qed.

Lemma keeps_const {A : Type} (f : Delaunay3d -> result A) : keeps P (const f).
Proof. apply triple_const. Qed.

Lemma keeps_fail {A : Type} : keeps P (@failM A).
Proof. apply triple_fail. Qed.

Lemma keeps_out_of_fuel {A : Type} : keeps P (@outOfFuelM A).
Proof. apply triple_out_of_fuel. Qed.

Lemma keeps_for_4 (body : Z -> M unit) :
  (forall f : Z, keeps P (body f)) -> keeps P (for_4 body).
Proof. intros H. apply triple_for_4. intros f. apply H. Qed.

Lemma keeps_set_tet_next (t x : Z) : keeps P (set_tet_next t x).
Proof.
  intros d a d' H Hd. unfold set_tet_next in H.
  apply bindR_Ok in H as (s & Hs & H). injection H as _ <-.
  apply zset_length in Hs as [Hs _].
  split; [| exact I]. apply HP; assumption.
Qed.

Lemma keeps_set_tet_vertex (t lv v : Z) : keeps P (set_tet_vertex t lv v).
Proof.
  intros d a d' H Hd. unfold set_tet_vertex in H.
  apply bindR_Ok in H as (s & Hs & H). injection H as _ <-.
  apply zset_length in Hs as [Hs _].
  split; [| exact I]. apply HP; assumption.
Qed.

Lemma keeps_set_tet_adjacent (t lf t2 : Z) : keeps P (set_tet_adjacent t lf t2).
Proof.
  intros d a d' H Hd. unfold set_tet_adjacent in H.
  apply bindR_Ok in H as (s & Hs & H). injection H as _ <-.
  apply zset_length in Hs as [Hs _].
  split; [| exact I]. apply HP; assumption.
Qed.

Lemma keeps_mark_tet (t : Z) : keeps P (mark_tet t).
Proof.
  intros d a d' H Hd. unfold mark_tet in H.
  exact (keeps_set_tet_next t (cur_stamp_ d) d a d' H Hd).
Qed.

Lemma keeps_set_tet_mark_stamp (stamp : Z) : keeps P (set_tet_mark_stamp stamp).
Proof.
  intros d a d' H Hd. injection H as _ <-. split; [| exact I]. apply HP. exact Hd.
Qed.

Lemma keeps_set_first_free (x : Z) :
  keeps P (modify (fun d => set_first_free d x)).
Proof.
  intros d a d' H Hd. injection H as _ <-. split; [| exact I]. apply HP. exact Hd.
Qed.

Lemma keeps_new_tetrahedron0 : keeps P new_tetrahedron0.
Proof.
  intros d r d' H Hd. unfold new_tetrahedron0 in H.
  apply bindR_Ok in H as ([r0 d1] & H1 & H).
  assert (G : P d1).
  { destruct (first_free_ d =? END_OF_LIST).
    - injection H1 as _ <-. apply (proj2 (proj2 (proj2 (proj2 (proj2 HP))))). exact Hd.
    - apply bindR_Ok in H1 as (nx & _ & H1).
      apply bindR_Ok in H1 as ([[] d2] & H2 & H1). injection H1 as _ <-.
      apply (keeps_set_tet_next _ _ _ _ _ H2). apply HP. exact Hd. }
  apply bindR_Ok in H as ([[] d2] & H2 & H).
  apply bindR_Ok in H as ([[] d3] & H3 & H).
  apply bindR_Ok in H as ([[] d4] & H4 & H).
  apply bindR_Ok in H as ([[] d5] & H5 & H). injection H as _ <-.
  split; [| exact I].
  apply (keeps_set_tet_adjacent _ _ _ _ _ _ H5).
  apply (keeps_set_tet_adjacent _ _ _ _ _ _ H4).
  apply (keeps_set_tet_adjacent _ _ _ _ _ _ H3).
  apply (keeps_set_tet_adjacent _ _ _ _ _ _ H2). exact G.
Qed.

End Invariants.

Ltac keeps_step IH :=
  first
    [ apply keeps_ret
    | apply keeps_const
    | apply keeps_out_of_fuel
    | apply keeps_fail
    | apply keeps_set_tet_adjacent; assumption
    | apply keeps_set_tet_vertex; assumption
    | apply keeps_set_tet_next; assumption
    | apply keeps_mark_tet; assumption
    | apply keeps_set_tet_mark_stamp; assumption
    | apply keeps_set_first_free; assumption
    | apply keeps_new_tetrahedron0; assumption
    | apply IH
    | apply keeps_for_4; intros ?
    | apply keeps_bind; [| intros ?]
    | match goal with
      | |- keeps _ (if ?b then _ else _) => destruct b
      | |- keeps _ (match ?x with _ => _ end) => destruct x
      end ].

Section Methods.

Variable P : Delaunay3d -> Prop.
Hypothesis HP : store_invariant P.

Variable random_int32 : nat -> Z.
Variable tet_is_conflict : Delaunay3d -> Z -> double_ptr -> result bool.

Lemma keeps_new_tetrahedron (v0 v1 v2 v3 : Z) :
  keeps P (new_tetrahedron v0 v1 v2 v3).
Proof. unfold new_tetrahedron. repeat keeps_step keeps_ret. Qed.

Lemma keeps_chain (t : Z) (z : zone) : keeps P (chain t z).
Proof. unfold chain, add_tet_to_list. repeat keeps_step keeps_ret. Qed.

Lemma keeps_link_first_tetrahedron (iv0 iv1 iv2 iv3 : Z) :
  keeps P (link_first_tetrahedron iv0 iv1 iv2 iv3).
Proof.
  unfold link_first_tetrahedron.
  repeat first [ apply keeps_new_tetrahedron | keeps_step keeps_ret ].
Qed.

Lemma keeps_create_first_tetrahedron : keeps P create_first_tetrahedron.
Proof.
  unfold create_first_tetrahedron.
  repeat first [ apply keeps_link_first_tetrahedron | keeps_step keeps_ret ].
Qed.

Lemma keeps_flood (fuel : nat) :
  forall (p : double_ptr) (t : Z) (z : zone),
    keeps P (find_conflict_zone_recursive tet_is_conflict fuel p t z).
Proof.
  induction fuel as [| fuel IH]; intros p t z; cbn [find_conflict_zone_recursive].
  - apply keeps_out_of_fuel.
  - repeat first [ apply keeps_chain | keeps_step IH ].
Qed.

Lemma keeps_find_conflict_zone (fuel : nat) (v t : Z) (orient : orient_slots)
    (bndry : option (Z * Z)) :
  keeps P (find_conflict_zone tet_is_conflict fuel v t orient bndry).
Proof.
  unfold find_conflict_zone.
  repeat first [ apply keeps_chain | apply keeps_flood | keeps_step keeps_flood ].
Qed.

Lemma keeps_stellate (fuel : nat) :
  forall v_in t1 f1 prev_f : Z,
    keeps P (stellate_conflict_zone fuel v_in t1 f1 prev_f).
Proof.
  induction fuel as [| fuel IH]; intros v_in t1 f1 prev_f;
    cbn [stellate_conflict_zone].
  - apply keeps_out_of_fuel.
  - repeat first [ apply keeps_new_tetrahedron | keeps_step IH ].
Qed.

Lemma keeps_insert (fuel : nat) (v hint : Z) (rng : nat) :
  keeps P (insert random_int32 tet_is_conflict fuel v hint rng).
Proof.
  unfold insert.
  repeat first [ apply keeps_find_conflict_zone | apply keeps_stellate
               | keeps_step keeps_stellate ].
Qed.

Lemma keeps_insert_loop (fuel : nat) (cb : option (Z -> Z -> bool))
    (nb v0 v1 v2 v3 : Z) (n : nat) :
  forall (i hint : Z) (rng : nat),
    keeps P (insert_loop random_int32 tet_is_conflict fuel cb nb v0 v1 v2 v3
                         n i hint rng).
Proof.
  induction n as [| n IH]; intros i hint rng; cbn [insert_loop].
  - apply keeps_ret.
  - repeat first [ apply keeps_insert | keeps_step IH ].
Qed.

End Methods.

Lemma store_invariant_input (c : Z * Z * list float * list Z * bool * bool * Z * Z
                                 * bool * list float * bool) :
  store_invariant (fun d => input_of d = c).
Proof. repeat split; intros; assumption. Qed.

Lemma store_invariant_in_step : store_invariant stores_in_step.
Proof.
  unfold store_invariant, stores_in_step, max_t.
  split; [intros d s Hs [A B]; cbn; split; lia |].
  split; [intros d s Hs [A B]; cbn; split; lia |].
  split; [intros d s Hs [A B]; cbn; split; lia |].
  split; [intros d x H; exact H |].
  split; [intros d x H; exact H |].
  intros d [A B]. cbn. rewrite !length_app. cbn. split; lia.
Qed.

Lemma store_invariant_at_least_cells (n : Z) :
  store_invariant (fun d => n <= max_t d).
Proof.
  unfold store_invariant, max_t.
  split; [intros d s Hs H; exact H |].
  split; [intros d s Hs H; exact H |].
  split; [intros d s Hs H; cbn; lia |].
  split; [intros d x H; exact H |].
  split; [intros d x H; exact H |].
  intros d H. cbn. rewrite length_app. cbn. lia.
Qed.

Lemma keeps_Ok {A : Type} (P : Delaunay3d -> Prop) (m : M A)
    (d d' : Delaunay3d) (a : A) :
  keeps P m -> m d = Ok (a, d') -> P d -> P d'.
Proof. intros Hm H Hd. exact (proj1 (Hm d a d' H Hd)). Qed.

Lemma keeps_input_Ok {A : Type} (m : M A) (d d' : Delaunay3d) (a : A) :
  (forall c, keeps (fun x => input_of x = c) m) ->
  m d = Ok (a, d') -> input_of d' = input_of d.
Proof. intros Hm H. exact (keeps_Ok _ m d d' a (Hm (input_of d)) H eq_refl). Qed.

Section FrameTheorems.

Variable random_int32 : nat -> Z.
Variable tet_is_conflict : Delaunay3d -> Z -> double_ptr -> result bool.
Variable compute_BRIO_order : Z -> list float -> list Z.

(** X5.  [insert], with the point location, the search of the conflict zone
    and the stellation it runs, changes the three cell stores, the head of
    the free list and the stamp, and nothing else of the object: not the
    vertices, the heights, the order of insertion, the flags, or the
    counts of cells that the base class reports.  It keeps the three stores
    in step (four vertex slots and four neighbour slots for each cell), and
    it never shortens them: cells are recycled through the free list, not
    removed. *)
Theorem insert_keeps_input (fuel : nat) (v hint : Z) (rng : nat)
    (d d' : Delaunay3d) (r : Z * nat) :
  insert random_int32 tet_is_conflict fuel v hint rng d = Ok (r, d') ->
  input_of d' = input_of d /\
  (stores_in_step d -> stores_in_step d') /\
  max_t d <= max_t d'.
Proof.
  intros H.
  split; [| split].
  - apply (keeps_Ok (fun x => input_of x = input_of d) _ d d' r
             (keeps_insert _ (store_invariant_input (input_of d))
                random_int32 tet_is_conflict fuel v hint rng) H).
    reflexivity.
  - apply (keeps_Ok stores_in_step _ d d' r
             (keeps_insert _ store_invariant_in_step
                random_int32 tet_is_conflict fuel v hint rng) H).
  - apply (keeps_Ok (fun x => max_t d <= max_t x) _ d d' r
             (keeps_insert _ (store_invariant_at_least_cells (max_t d))
                random_int32 tet_is_conflict fuel v hint rng) H).
    lia.
Qed.

(** Where the insertion loop answers [false], the callback has refused one
    of its steps. *)
Lemma insert_loop_false (fuel : nat) (cb : option (Z -> Z -> bool))
    (nb v0 v1 v2 v3 : Z) (n : nat) :
  forall (i hint : Z) (rng rng' : nat) (d d' : Delaunay3d),
    insert_loop random_int32 tet_is_conflict fuel cb nb v0 v1 v2 v3 n i hint rng d
    = Ok ((false, rng'), d') ->
    exists (f : Z -> Z -> bool) (j : Z),
      cb = Some f /\ i <= j < i + Z.of_nat n /\ f j nb = false.
Proof.
  induction n as [| n IH]; intros i hint rng rng' d d' H; cbn [insert_loop] in H.
  - discriminate.
  - destruct (aborts cb i nb) eqn:Ea.
    + unfold aborts in Ea. destruct cb as [f |]; [| discriminate].
      exists f, i. split; [reflexivity |]. split; [lia |].
      apply negb_true_iff. exact Ea.
    + apply bindM_Ok in H as (v & d1 & _ & H).
      destruct (negb (v =? v0) && negb (v =? v1) && negb (v =? v2) && negb (v =? v3)).
      * apply bindM_Ok in H as ([new_hint rng1] & d2 & _ & H).
        apply IH in H as (f & j & E & Hj & Hf). exists f, j. repeat split; (lia || assumption).
      * apply IH in H as (f & j & E & Hj & Hf). exists f, j. repeat split; (lia || assumption).
Qed.

(** X6.  [set_vertices] returns [false] only when the progress callback has
    refused a step: the first call [(0, 0)], or the call [(i, nb_vertices)]
    made before the insertion of the [i]-th vertex.  It has then returned
    before the compression: the counts of cells that the object reports are
    those of before the call. *)
Theorem set_vertices_false_on_abort (fuel : nat) (nb_vertices : Z)
    (vertices : list float) (cb : option (Z -> Z -> bool)) (rng rng' : nat)
    (d d' : Delaunay3d) :
  set_vertices random_int32 tet_is_conflict compute_BRIO_order fuel
               nb_vertices vertices cb rng d = Ok ((false, rng'), d') ->
  (exists f : Z -> Z -> bool,
     cb = Some f /\
     (f 0 0 = false \/
      exists i : Z, 0 <= i < nb_vertices /\ f i nb_vertices = false)) /\
  nb_cells_ d' = nb_cells_ d /\
  nb_finite_cells_ d' = nb_finite_cells_ d.
Proof.
  intros H. unfold set_vertices in H.
  apply bindM_Ok in H as ([] & d1 & H1 & H). injection H1 as <-.
  apply bindM_Ok in H as (weighted & d2 & H2 & H). apply const_Ok in H2 as (_ & ->).
  apply bindM_Ok in H as ([] & d2 & H2 & H).
  assert (C2 : nb_cells_ d2 = nb_cells_ d /\ nb_finite_cells_ d2 = nb_finite_cells_ d).
  { destruct weighted.
    - apply bindM_Ok in H2 as (h & d3 & H3 & H2). apply const_Ok in H3 as (_ & ->).
      injection H2 as <-. split; reflexivity.
    - injection H2 as <-. split; reflexivity. }
  apply bindM_Ok in H as ([] & d3 & H3 & H). injection H3 as <-.
  apply bindM_Ok in H as ([] & d3 & H3 & H). injection H3 as <-.
  apply bindM_Ok in H as (do_reorder & d3 & H3 & H). apply const_Ok in H3 as (_ & ->).
  apply bindM_Ok in H as ([] & d3 & H3 & H). injection H3 as <-.
  destruct (aborts cb 0 0) eqn:Ea.
  { injection H as _ <-. split; [| exact C2].
    unfold aborts in Ea. destruct cb as [f |]; [| discriminate].
    exists f. split; [reflexivity |]. left. apply negb_true_iff. exact Ea. }
  apply bindM_Ok in H as (first & d4 & H4 & H).
  apply (keeps_input_Ok _ _ _ _
           (fun c => keeps_create_first_tetrahedron _ (store_invariant_input c)))
    in H4.
  destruct first as [[[[v0 v1] v2] v3] |]; [| discriminate].
  apply bindM_Ok in H as ([completed rng1] & d5 & H5 & H).
  destruct completed; cbn [negb] in H.
  { apply bindM_Ok in H as (debug & d6 & _ & H).
    apply bindM_Ok in H as ([] & d7 & _ & H).
    apply bindM_Ok in H as ([] & d8 & _ & H). discriminate. }
  injection H as _ <-.
  split.
  - apply insert_loop_false in H5 as (f & j & E & Hj & Hf).
    exists f. split; [exact E |]. right. exists j. split; [lia | exact Hf].
  - apply (keeps_input_Ok _ _ _ _
             (fun c => keeps_insert_loop _ (store_invariant_input c)
                random_int32 tet_is_conflict fuel cb
                nb_vertices v0 v1 v2 v3 (Z.to_nat nb_vertices) 0 NO_TETRAHEDRON rng))
      in H5.
    unfold input_of in H4, H5. cbn in H4.
    injection H5 as _ _ _ _ _ _ E1 E2 _ _ _.
    injection H4 as _ _ _ _ _ _ E3 E4 _ _ _.
    destruct C2 as [C2 C3]. split; congruence.
Qed.

End FrameTheorems.

Lemma insert_keeps_input_witness :
  exists d' : Delaunay3d,
    insert sample_random tet_is_conflict_exact 10 4 NO_TETRAHEDRON 0
           five_points_first_mesh = Ok ((5, 2%nat), d') /\
    (input_of d' = input_of five_points_first_mesh) /\
    (stores_in_step five_points_first_mesh -> stores_in_step d') /\
    (max_t five_points_first_mesh <= max_t d').
Proof.
  eexists. split; [vm_compute; reflexivity |].
  eapply (insert_keeps_input sample_random tet_is_conflict_exact 10 4
            NO_TETRAHEDRON 0 five_points_first_mesh).
  vm_compute. reflexivity.
Defined.

Lemma set_vertices_false_on_abort_witness :
  exists (d' : Delaunay3d) (rng' : nat),
    set_vertices sample_random tet_is_conflict_exact identity_order 1000
                 12 twelve_points (Some (fun i n => i <? 3)) 0
                 (checking_object false) = Ok ((false, rng'), d') /\
    (exists f : Z -> Z -> bool,
       Some (fun i n : Z => i <? 3) = Some f /\
       (f 0 0 = false \/ exists i : Z, 0 <= i < 12 /\ f i 12 = false)) /\
    nb_cells_ d' = 0 /\ nb_finite_cells_ d' = 0.
Proof.
  eexists. eexists. split; [vm_compute; reflexivity |].
  eapply (set_vertices_false_on_abort sample_random tet_is_conflict_exact
            identity_order 1000 12 twelve_points (Some (fun i n => i <? 3)) 0 _
            (checking_object false)).
  vm_compute. reflexivity.
Defined.

(** ** The conflict zone *)

Lemma zth_insert_eq {A : Type} (l : list A) (i : Z) (a : A) :
  0 <= i < Z.of_nat (length l) -> zth (<[Z.to_nat i := a]> l) i = Some a.
Proof.
  intros H. unfold zth. rewrite length_insert.
  destruct (Z.leb_spec 0 i); [| lia].
  destruct (Z.ltb_spec i (Z.of_nat (length l))); [| lia].
  cbn [andb]. apply list_lookup_insert_eq. lia.
Qed.

Lemma zth_insert_ne {A : Type} (l : list A) (i j : Z) (a : A) :
  0 <= i -> i <> j -> zth (<[Z.to_nat i := a]> l) j = zth l j.
Proof.
  intros Hi Hne. unfold zth. rewrite length_insert.
  destruct ((0 <=? j) && (j <? Z.of_nat (length l))) eqn:E; [| reflexivity].
  apply andb_true_iff in E as [E1 E2]. apply Z.leb_le in E1.
  apply list_lookup_insert_ne. lia.
Qed.

Lemma land_flag_small (w : Z) : 0 <= w < 2 ^ 31 -> Z.land w NOT_IN_LIST_BIT = 0.
Proof.
  intros H. unfold NOT_IN_LIST_BIT. apply Z.bits_inj'. intros k Hk.
  rewrite Z.land_spec, Z.bits_0, Z.pow2_bits_eqb by lia.
  destruct (Z.eqb_spec 31 k) as [<- | ?]; [| apply andb_false_r].
  rewrite andb_true_r.
  destruct (Z.eq_dec w 0) as [-> | Hw]; [apply Z.bits_0 |].
  apply Z.bits_above_log2; [lia |]. apply Z.log2_lt_pow2; lia.
Qed.

Lemma land_flag_stamp (v : Z) : Z.land (Z.lor v NOT_IN_LIST_BIT) NOT_IN_LIST_BIT <> 0.
Proof.
  unfold NOT_IN_LIST_BIT. intros H.
  apply (f_equal (fun x => Z.testbit x 31)) in H.
  rewrite Z.land_spec, Z.lor_spec, Z.bits_0, Z.pow2_bits_eqb in H by lia.
  cbn in H. rewrite orb_true_r in H. discriminate.
Qed.

Lemma only_words_refl (d : Delaunay3d) : only_words d d.
Proof. exists (cell_next_ d). split; [reflexivity |]. destruct d. reflexivity. Qed.

Lemma only_words_trans (d1 d2 d3 : Delaunay3d) :
  only_words d1 d2 -> only_words d2 d3 -> only_words d1 d3.
Proof.
  intros (w1 & L1 & ->) (w2 & L2 & ->). exists w2. split.
  - cbn in L2. lia.
  - reflexivity.
Qed.

Lemma grows_refl (d : Delaunay3d) : grows d d.
Proof. split; [apply only_words_refl |]. split; intros c H; exact H. Qed.

Lemma grows_trans (d1 d2 d3 : Delaunay3d) : grows d1 d2 -> grows d2 d3 -> grows d1 d3.
Proof.
  intros (W1 & L1 & M1) (W2 & L2 & M2). split; [eapply only_words_trans; eassumption |].
  split; intros c H; [apply L2, L1, H | apply M2, M1, H].
Qed.

Lemma only_words_adjacent (d d' : Delaunay3d) (t f : Z) :
  only_words d d' -> tet_adjacent d' t f = tet_adjacent d t f.
Proof. intros (w & _ & ->). reflexivity. Qed.

Lemma only_words_max_t (d d' : Delaunay3d) : only_words d d' -> max_t d' = max_t d.
Proof. intros (w & L & ->). unfold max_t. cbn. lia. Qed.

Lemma only_words_stamp (d d' : Delaunay3d) :
  only_words d d' -> cur_stamp_ d' = cur_stamp_ d.
Proof. intros (w & _ & ->). reflexivity. Qed.

Lemma marked_not_in_list (d : Delaunay3d) (c : Z) :
  stamp_flagged d -> tet_is_marked d c = Ok true -> tet_is_in_list d c = Ok false.
Proof.
  unfold stamp_flagged, tet_is_marked, tet_is_in_list. intros Hs H.
  apply bindR_Ok in H as (n & Hn & H). injection H as H. apply Z.eqb_eq in H.
  subst n. rewrite Hn. cbn [bindR]. f_equal. apply Z.eqb_neq. exact Hs.
Qed.

Lemma grows_boundary_facet (d d' : Delaunay3d) (t f : Z) :
  stamp_flagged d -> grows d d' -> boundary_facet d t f -> boundary_facet d' t f.
Proof.
  intros Hs (W & L & Mk) (Hin & a & Ha & Hm & _).
  split; [apply L, Hin |]. exists a.
  split; [rewrite (only_words_adjacent d d' t f W); exact Ha |].
  split; [apply Mk, Hm |].
  apply marked_not_in_list; [| apply Mk, Hm].
  unfold stamp_flagged. rewrite (only_words_stamp d d' W). exact Hs.
Qed.

Lemma grows_bndry_ok (d d' : Delaunay3d) (z : zone) :
  stamp_flagged d -> grows d d' -> bndry_ok d z -> bndry_ok d' z.
Proof.
  intros Hs G H t f E. apply (grows_boundary_facet d d' t f Hs G). apply H, E.
Qed.

Lemma grows_head_ok (d d' : Delaunay3d) (z : zone) :
  grows d d' -> head_ok d z -> head_ok d' z.
Proof.
  intros (_ & L & _) (R & H). split; [exact R |]. intros N. apply L, H, N.
Qed.

(** Writing the word of a cell. *)
Lemma set_tet_next_spec (c x : Z) (d d' : Delaunay3d) (u : unit) :
  set_tet_next c x d = Ok (u, d') ->
  0 <= c < max_t d /\
  d' = set_cell_next d (<[Z.to_nat c := x]> (cell_next_ d)) /\
  tet_next d' c = Ok x /\
  (forall c' : Z, c' <> c -> tet_next d' c' = tet_next d c').
Proof.
  unfold set_tet_next, zset, max_t. intros H.
  destruct (Z.leb_spec 0 c); [| discriminate].
  destruct (Z.ltb_spec c (Z.of_nat (length (cell_next_ d)))); [| discriminate].
  cbn in H. injection H as _ <-. split; [lia |]. split; [reflexivity |].
  unfold tet_next. cbn [cell_next_ set_cell_next]. split.
  - rewrite zth_insert_eq by lia. reflexivity.
  - intros c' Hne. rewrite zth_insert_ne by lia. reflexivity.
Qed.

Lemma set_tet_next_only_words (c x : Z) (d d' : Delaunay3d) (u : unit) :
  set_tet_next c x d = Ok (u, d') -> only_words d d'.
Proof.
  intros H. apply set_tet_next_spec in H as (_ & -> & _).
  eexists. split; [| reflexivity]. apply length_insert.
Qed.

(** A cell that is neither in the list nor marked can take any word. *)
Lemma set_tet_next_grows (c x : Z) (d d' : Delaunay3d) (u : unit) :
  set_tet_next c x d = Ok (u, d') ->
  tet_is_in_list d c = Ok false -> tet_is_marked d c = Ok false ->
  grows d d'.
Proof.
  intros H Hl Hm. split; [exact (set_tet_next_only_words _ _ _ _ _ H) |].
  assert (Hs : cur_stamp_ d' = cur_stamp_ d)
    by (apply only_words_stamp, (set_tet_next_only_words _ _ _ _ _ H)).
  apply set_tet_next_spec in H as (_ & _ & _ & Hother).
  split; intros c' Hc'; destruct (Z.eq_dec c' c) as [-> | Hne]; try congruence.
  - unfold tet_is_in_list in *. rewrite Hother by exact Hne. exact Hc'.
  - unfold tet_is_marked in *. rewrite Hother, Hs by exact Hne. exact Hc'.
Qed.

(** Chaining a cell: it becomes the head, with a word that reads "in a
    list". *)
Lemma chain_spec (c : Z) (z z' : zone) (d d' : Delaunay3d) :
  chain c z d = Ok (z', d') ->
  0 <= z_first z < 2 ^ 31 ->
  exists w : Z,
    set_tet_next c w d = Ok (tt, d') /\ 0 <= w < 2 ^ 31 /\
    z_first z' = c /\ z_bndry z' = z_bndry z /\
    tet_is_in_list d' c = Ok true.
Proof.
  unfold chain, add_tet_to_list. intros H Hf.
  apply bindM_Ok in H as ([first last] & d1 & H1 & H). injection H as <- <-.
  assert (G : exists w : Z, set_tet_next c w d = Ok (tt, d1) /\ 0 <= w < 2 ^ 31 /\
                            first = c).
  { destruct (z_last z =? END_OF_LIST).
    - apply bindM_Ok in H1 as ([] & d2 & H2 & H1). injection H1 as <- _ <-.
      exists END_OF_LIST. split; [exact H2 |]. split; [| reflexivity].
      unfold END_OF_LIST. lia.
    - apply bindM_Ok in H1 as ([] & d2 & H2 & H1). injection H1 as <- _ <-.
      exists (z_first z). split; [exact H2 |]. split; [exact Hf | reflexivity]. }
  destruct G as (w & Hw & Rw & ->). exists w.
  split; [exact Hw |]. split; [exact Rw |]. split; [reflexivity |].
  split; [reflexivity |].
  apply set_tet_next_spec in Hw as (_ & _ & Hc & _).
  unfold tet_is_in_list. rewrite Hc. cbn [bindR]. rewrite land_flag_small by exact Rw.
  reflexivity.
Qed.

Lemma grows_stamp_flagged (d d' : Delaunay3d) :
  grows d d' -> stamp_flagged d -> stamp_flagged d'.
Proof.
  intros (W & _ & _) H. unfold stamp_flagged. rewrite (only_words_stamp d d' W). exact H.
Qed.

Lemma grows_max_t (d d' : Delaunay3d) : grows d d' -> max_t d' = max_t d.
Proof. intros (W & _ & _). apply only_words_max_t, W. Qed.

Section Flood.

Variable tet_is_conflict : Delaunay3d -> Z -> double_ptr -> result bool.

(** The flood fill from a cell [t] of the list: cells are only added to
    the list or marked, the head stays a cell of the list, and the facet
    kept as boundary, if any, is a boundary facet. *)
Lemma flood_spec (fuel : nat) :
  forall (p : double_ptr) (t : Z) (z z' : zone) (d d' : Delaunay3d),
    find_conflict_zone_recursive tet_is_conflict fuel p t z d = Ok (z', d') ->
    max_t d < 2 ^ 31 -> stamp_flagged d ->
    tet_is_in_list d t = Ok true ->
    head_ok d z -> bndry_ok d z ->
    grows d d' /\ head_ok d' z' /\ bndry_ok d' z'.
Proof.
  induction fuel as [| fuel IH]; intros p t z z' d d' H Hmax Hst Hin Hh Hb;
    cbn [find_conflict_zone_recursive] in H; [discriminate |].
  assert (Hbody : forall (lf : Z) (z z' : zone) (d d' : Delaunay3d),
    (let* a := const (fun d => tet_adjacent d t lf) in
     let t2 := index_t_of a in
     let* in_list := const (fun d => tet_is_in_list d t2) in
     if in_list then retM z else
     let* marked := const (fun d => tet_is_marked d t2) in
     if marked then retM z else
     let* conflict := const (fun d => tet_is_conflict d t2 p) in
     if conflict then
       let* z := chain t2 z in
       find_conflict_zone_recursive tet_is_conflict fuel p t2 z
     else
       let* _ := mark_tet t2 in
       retM (mk_zone (Some (t, lf)) (z_first z) (z_last z))) d = Ok (z', d') ->
    max_t d < 2 ^ 31 -> stamp_flagged d ->
    tet_is_in_list d t = Ok true ->
    head_ok d z -> bndry_ok d z ->
    grows d d' /\ head_ok d' z' /\ bndry_ok d' z').
  { clear H Hmax Hst Hin Hh Hb z z' d d'.
    intros lf z z' d d' H Hmax Hst Hin Hh Hb.
    apply bindM_Ok in H as (a & d0 & H0 & H). apply const_Ok in H0 as (Ha & ->).
    cbv zeta in H.
    apply bindM_Ok in H as (in_list & d0 & H0 & H). apply const_Ok in H0 as (Hl & ->).
    destruct in_list.
    { injection H as <- <-. split; [apply grows_refl | split; assumption]. }
    apply bindM_Ok in H as (marked & d0 & H0 & H). apply const_Ok in H0 as (Hm & ->).
    destruct marked.
    { injection H as <- <-. split; [apply grows_refl | split; assumption]. }
    apply bindM_Ok in H as (conflict & d0 & H0 & H). apply const_Ok in H0 as (_ & ->).
    destruct conflict.
    - apply bindM_Ok in H as (z1 & d1 & Hc & H).
      apply chain_spec in Hc as (w & Hw & Rw & F1 & B1 & L1); [| apply Hh].
      assert (G1 : grows d d1) by (exact (set_tet_next_grows _ _ _ _ _ Hw Hl Hm)).
      assert (R1 : 0 <= index_t_of a < max_t d)
        by (apply set_tet_next_spec in Hw; tauto).
      destruct (IH p (index_t_of a) z1 z' d1 d' H) as (G2 & Hh2 & Hb2).
      + rewrite (grows_max_t d d1 G1). exact Hmax.
      + exact (grows_stamp_flagged d d1 G1 Hst).
      + exact L1.
      + split; [rewrite F1; lia | intros _; rewrite F1; exact L1].
      + intros tb fb E. rewrite B1 in E.
        apply (grows_boundary_facet d d1 tb fb Hst G1). apply Hb, E.
      + split; [exact (grows_trans d d1 d' G1 G2) | split; assumption].
    - apply bindM_Ok in H as ([] & d1 & Hmk & H). injection H as <- <-.
      unfold mark_tet in Hmk.
      assert (G1 : grows d d1) by (exact (set_tet_next_grows _ _ _ _ _ Hmk Hl Hm)).
      split; [exact G1 |]. split.
      + apply (grows_head_ok d d1 _ G1). exact Hh.
      + intros tb fb E. cbn [z_bndry] in E. injection E as <- <-.
        assert (Hmarked : tet_is_marked d1 (index_t_of a) = Ok true).
        { assert (Es : cur_stamp_ d1 = cur_stamp_ d)
            by (apply only_words_stamp, G1).
          apply set_tet_next_spec in Hmk as (_ & _ & Hc & _).
          unfold tet_is_marked. rewrite Hc, Es. cbn [bindR]. rewrite Z.eqb_refl.
          reflexivity. }
        split; [apply G1, Hin |]. exists a.
        split; [rewrite (only_words_adjacent d d1 t lf (proj1 G1)); exact Ha |].
        split; [exact Hmarked |].
        apply marked_not_in_list; [exact (grows_stamp_flagged d d1 G1 Hst) | exact Hmarked]. }
  apply bindM_Ok in H as (z1 & d1 & H1 & H).
  apply Hbody in H1 as (G1 & Hh1 & Hb1); try assumption.
  apply bindM_Ok in H as (z2 & d2 & H2 & H).
  apply Hbody in H2 as (G2 & Hh2 & Hb2); try assumption;
    [| rewrite (grows_max_t d d1 G1); exact Hmax
     | exact (grows_stamp_flagged d d1 G1 Hst) | apply G1, Hin].
  assert (G02 := grows_trans d d1 d2 G1 G2).
  apply bindM_Ok in H as (z3 & d3 & H3 & H).
  apply Hbody in H3 as (G3 & Hh3 & Hb3); try assumption;
    [| rewrite (grows_max_t d d2 G02); exact Hmax
     | exact (grows_stamp_flagged d d2 G02 Hst) | apply G02, Hin].
  assert (G03 := grows_trans d d2 d3 G02 G3).
  apply Hbody in H as (G4 & Hh4 & Hb4); try assumption;
    [| rewrite (grows_max_t d d3 G03); exact Hmax
     | exact (grows_stamp_flagged d d3 G03 Hst) | apply G03, Hin].
  split; [exact (grows_trans d d3 d' G03 G4) | split; assumption].
Qed.

End Flood.

Lemma relinks_refl (d : Delaunay3d) : relinks d d.
Proof. split; [apply only_words_refl | intros c H; exact H]. Qed.

Lemma relinks_trans (d1 d2 d3 : Delaunay3d) :
  relinks d1 d2 -> relinks d2 d3 -> relinks d1 d3.
Proof.
  intros (W1 & L1) (W2 & L2). split; [eapply only_words_trans; eassumption |].
  intros c H. apply L2, L1, H.
Qed.

Lemma grows_relinks (d d' : Delaunay3d) : grows d d' -> relinks d d'.
Proof. intros (W & L & _). split; assumption. Qed.

Lemma relinks_head_ok (d d' : Delaunay3d) (z : zone) :
  relinks d d' -> head_ok d z -> head_ok d' z.
Proof. intros (_ & L) (R & H). split; [exact R |]. intros N. apply L, H, N. Qed.

Lemma chain_relinks (c : Z) (z z' : zone) (d d' : Delaunay3d) :
  chain c z d = Ok (z', d') ->
  max_t d < 2 ^ 31 ->
  head_ok d z ->
  relinks d d' /\ head_ok d' z' /\ z_bndry z' = z_bndry z /\
  tet_is_in_list d' c = Ok true.
Proof.
  intros H Hmax Hh. apply chain_spec in H as (w & Hw & Rw & F & B & L); [| apply Hh].
  assert (W : only_words d d') by exact (set_tet_next_only_words _ _ _ _ _ Hw).
  assert (R : 0 <= c < max_t d) by (apply set_tet_next_spec in Hw; tauto).
  assert (Rl : relinks d d').
  { split; [exact W |]. intros c' Hc'.
    destruct (Z.eq_dec c' c) as [-> | Hne]; [exact L |].
    apply set_tet_next_spec in Hw as (_ & _ & _ & Hother).
    unfold tet_is_in_list in *. rewrite Hother by exact Hne. exact Hc'. }
  split; [exact Rl |]. split; [| split; [exact B | exact L]].
  split; [rewrite F; lia |].
  intros _. rewrite F. exact L.
Qed.

Section Zone.

Variable tet_is_conflict : Delaunay3d -> Z -> double_ptr -> result bool.

Lemma seed_spec (t : Z) (o : Sign) (lf : Z) (z z' : zone) (d d' : Delaunay3d) :
  (if bool_decide (o = ZERO) then
     let* a := const (fun d => tet_adjacent d t lf) in
     chain (index_t_of a) z
   else retM z) d = Ok (z', d') ->
  max_t d < 2 ^ 31 ->
  head_ok d z ->
  relinks d d' /\ head_ok d' z' /\ z_bndry z' = z_bndry z /\
  (o = ZERO ->
   exists a : Z, tet_adjacent d t lf = Ok a /\
                 tet_is_in_list d' (index_t_of a) = Ok true).
Proof.
  intros H Hmax Hh. destruct (bool_decide_reflect (o = ZERO)) as [E | N].
  - apply bindM_Ok in H as (a & d0 & H0 & H). apply const_Ok in H0 as (Ha & ->).
    apply chain_relinks in H as (R & Hh' & B & L); [| exact Hmax | exact Hh].
    split; [exact R |]. split; [exact Hh' |]. split; [exact B |].
    intros _. exists a. split; assumption.
  - injection H as <- <-. split; [apply relinks_refl |]. split; [exact Hh |].
    split; [reflexivity | contradiction].
Qed.

Lemma grow_spec (fuel : nat) (p : double_ptr) (t : Z) (o : Sign) (lf : Z)
    (z z' : zone) (d d' : Delaunay3d) :
  (if bool_decide (o = ZERO) then
     let* a := const (fun d => tet_adjacent d t lf) in
     find_conflict_zone_recursive tet_is_conflict fuel p (index_t_of a) z
   else retM z) d = Ok (z', d') ->
  max_t d < 2 ^ 31 -> stamp_flagged d ->
  head_ok d z -> bndry_ok d z ->
  (o = ZERO ->
   exists a : Z, tet_adjacent d t lf = Ok a /\
                 tet_is_in_list d (index_t_of a) = Ok true) ->
  grows d d' /\ head_ok d' z' /\ bndry_ok d' z'.
Proof.
  intros H Hmax Hst Hh Hb Hseed. destruct (bool_decide_reflect (o = ZERO)) as [E | N].
  - apply bindM_Ok in H as (a & d0 & H0 & H). apply const_Ok in H0 as (Ha & ->).
    destruct (Hseed E) as (a' & Ha' & L). rewrite Ha in Ha'. injection Ha' as <-.
    exact (flood_spec tet_is_conflict fuel p _ z z' d d' H Hmax Hst L Hh Hb).
  - injection H as <- <-. split; [apply grows_refl | split; assumption].
Qed.

(** X7.  [find_conflict_zone] writes words of [cell_next_] and the stamp, and
    nothing else: the vertex store, the neighbour store and the free list
    are as before.  Where it leaves a conflict list, the head of the list
    and the cell located are in it; and the facet it hands over as
    [t_bndry], [f_bndry] is what [stellate_conflict_zone] asserts of its
    arguments: a cell of the list whose neighbour across the facet is not
    in the list. *)
Theorem find_conflict_zone_boundary (fuel : nat) (v t : Z) (orient : orient_slots)
    (d d' : Delaunay3d) (z : zone) :
  find_conflict_zone tet_is_conflict fuel v t orient None d = Ok (z, d') ->
  max_t d < 2 ^ 31 ->
  only_words (stamped d v) d' /\
  (z_first z <> END_OF_LIST ->
   tet_is_in_list d' (z_first z) = Ok true /\ tet_is_in_list d' t = Ok true) /\
  (forall tb fb : Z, z_bndry z = Some (tb, fb) -> boundary_facet d' tb fb).
Proof.
  intros H Hmax. unfold find_conflict_zone in H.
  apply bindM_Ok in H as ([] & d0 & H0 & H). injection H0 as <-.
  fold (stamped d v) in H. set (ds := stamped d v) in *.
  assert (Hmaxs : max_t ds < 2 ^ 31) by exact Hmax.
  assert (Hst : stamp_flagged ds) by (apply land_flag_stamp).
  apply bindM_Ok in H as (p & d0 & H0 & H). apply const_Ok in H0 as (_ & ->).
  apply bindM_Ok in H as (o0 & d0 & H0 & H). apply const_Ok in H0 as (_ & ->).
  apply bindM_Ok in H as (o1 & d0 & H0 & H). apply const_Ok in H0 as (_ & ->).
  apply bindM_Ok in H as (o2 & d0 & H0 & H). apply const_Ok in H0 as (_ & ->).
  apply bindM_Ok in H as (o3 & d0 & H0 & H). apply const_Ok in H0 as (_ & ->).
  cbv zeta in H.
  assert (Hempty : forall (z0 : zone) (d0 : Delaunay3d),
    retM (mk_zone None END_OF_LIST END_OF_LIST) ds = Ok (z0, d0) ->
    only_words ds d0 /\
    (z_first z0 <> END_OF_LIST ->
     tet_is_in_list d0 (z_first z0) = Ok true /\ tet_is_in_list d0 t = Ok true) /\
    (forall tb fb : Z, z_bndry z0 = Some (tb, fb) -> boundary_facet d0 tb fb)).
  { intros z0 d0 E. injection E as <- <-. split; [apply only_words_refl |].
    split; [intros N; contradiction | intros tb fb E; discriminate]. }
  destruct (_ >=? 3); [exact (Hempty _ _ H) |].
  apply bindM_Ok in H as (weighted & d0 & H0 & H). apply const_Ok in H0 as (_ & ->).
  apply bindM_Ok in H as (dangling & d0 & H0 & H).
  assert (E0 : d0 = ds).
  { destruct weighted.
    - apply bindM_Ok in H0 as (c & d1 & H1 & H0). apply const_Ok in H1 as (_ & ->).
      injection H0 as _ <-. reflexivity.
    - injection H0 as _ <-. reflexivity. }
  subst d0. clear H0.
  destruct dangling; [exact (Hempty _ _ H) |]. clear Hempty.
  apply bindM_Ok in H as (z1 & d1 & H1 & H).
  assert (Hh0 : head_ok ds (mk_zone None END_OF_LIST END_OF_LIST)).
  { split; [unfold END_OF_LIST; cbn; lia | intros N; contradiction]. }
  apply chain_relinks in H1 as (R1 & Hh1 & B1 & L1); [| exact Hmaxs | exact Hh0].
  cbn [z_bndry] in B1.
  apply bindM_Ok in H as (z2 & d2 & H2 & H).
  assert (G2 : relinks d1 d2 /\ max_t d2 < 2 ^ 31 /\ stamp_flagged d2 /\
               head_ok d2 z2 /\ bndry_ok d2 z2).
  { assert (Hmax1 : max_t d1 < 2 ^ 31)
      by (rewrite (only_words_max_t ds d1 (proj1 R1)); exact Hmaxs).
    assert (Hst1 : stamp_flagged d1)
      by (unfold stamp_flagged; rewrite (only_words_stamp ds d1 (proj1 R1)); exact Hst).
    assert (Hb1 : bndry_ok d1 z1) by (intros tb fb E; rewrite B1 in E; discriminate).
    destruct (negb weighted && negb (_ =? 0)).
    2: { injection H2 as <- <-. split; [apply relinks_refl |]. tauto. }
    apply bindM_Ok in H2 as (s1 & e1 & S1 & H2).
    apply seed_spec in S1 as (Q1 & K1 & C1 & A1); [| exact Hmax1 | exact Hh1].
    assert (M1 : max_t e1 < 2 ^ 31)
      by (rewrite (only_words_max_t d1 e1 (proj1 Q1)); exact Hmax1).
    apply bindM_Ok in H2 as (s2 & e2 & S2 & H2).
    apply seed_spec in S2 as (Q2 & K2 & C2 & A2); [| exact M1 | exact K1].
    assert (M2 : max_t e2 < 2 ^ 31)
      by (rewrite (only_words_max_t e1 e2 (proj1 Q2)); exact M1).
    apply bindM_Ok in H2 as (s3 & e3 & S3 & H2).
    apply seed_spec in S3 as (Q3 & K3 & C3 & A3); [| exact M2 | exact K2].
    assert (M3 : max_t e3 < 2 ^ 31)
      by (rewrite (only_words_max_t e2 e3 (proj1 Q3)); exact M2).
    apply bindM_Ok in H2 as (s4 & e4 & S4 & H2).
    apply seed_spec in S4 as (Q4 & K4 & C4 & A4); [| exact M3 | exact K3].
    assert (M4 : max_t e4 < 2 ^ 31)
      by (rewrite (only_words_max_t e3 e4 (proj1 Q4)); exact M3).
    assert (Q14 : relinks d1 e4)
      by (exact (relinks_trans _ _ _ (relinks_trans _ _ _ (relinks_trans _ _ _ Q1 Q2) Q3) Q4)).
    assert (St4 : stamp_flagged e4)
      by (unfold stamp_flagged; rewrite (only_words_stamp d1 e4 (proj1 Q14)); exact Hst1).
    assert (Bn4 : bndry_ok e4 s4).
    { intros tb fb E. rewrite C4, C3, C2, C1, B1 in E. discriminate. }
    (* the seeds are in the list when the flood fills start *)
    assert (T0 : o0 = ZERO -> exists a : Z,
              tet_adjacent e4 t 0 = Ok a /\ tet_is_in_list e4 (index_t_of a) = Ok true).
    { intros E. destruct (A1 E) as (a & Ha & La). exists a. split.
      - rewrite (only_words_adjacent d1 e4 t 0 (proj1 Q14)). exact Ha.
      - apply Q4, Q3, Q2, La. }
    assert (T1 : o1 = ZERO -> exists a : Z,
              tet_adjacent e4 t 1 = Ok a /\ tet_is_in_list e4 (index_t_of a) = Ok true).
    { intros E. destruct (A2 E) as (a & Ha & La). exists a. split.
      - rewrite (only_words_adjacent e1 e4 t 1
                   (proj1 (relinks_trans _ _ _ (relinks_trans _ _ _ Q2 Q3) Q4))).
        exact Ha.
      - apply Q4, Q3, La. }
    assert (T2 : o2 = ZERO -> exists a : Z,
              tet_adjacent e4 t 2 = Ok a /\ tet_is_in_list e4 (index_t_of a) = Ok true).
    { intros E. destruct (A3 E) as (a & Ha & La). exists a. split.
      - rewrite (only_words_adjacent e2 e4 t 2 (proj1 (relinks_trans _ _ _ Q3 Q4))).
        exact Ha.
      - apply Q4, La. }
    assert (T3 : o3 = ZERO -> exists a : Z,
              tet_adjacent e4 t 3 = Ok a /\ tet_is_in_list e4 (index_t_of a) = Ok true).
    { intros E. destruct (A4 E) as (a & Ha & La). exists a. split.
      - rewrite (only_words_adjacent e3 e4 t 3 (proj1 Q4)). exact Ha.
      - exact La. }
    apply bindM_Ok in H2 as (g1 & f1 & F1 & H2).
    apply grow_spec in F1 as (W1 & X1 & Y1); try assumption.
    assert (carry : forall (e f : Delaunay3d) (lf : Z) (o : Sign),
      grows e f ->
      (o = ZERO -> exists a : Z,
         tet_adjacent e t lf = Ok a /\ tet_is_in_list e (index_t_of a) = Ok true) ->
      (o = ZERO -> exists a : Z,
         tet_adjacent f t lf = Ok a /\ tet_is_in_list f (index_t_of a) = Ok true)).
    { intros e f lf o G T E. destruct (T E) as (a & Ha & La). exists a. split.
      - rewrite (only_words_adjacent e f t lf (proj1 G)). exact Ha.
      - apply G, La. }
    apply bindM_Ok in H2 as (g2 & f2 & F2 & H2).
    apply grow_spec in F2 as (W2 & X2 & Y2); try assumption;
      [| rewrite (grows_max_t e4 f1 W1); exact M4
       | exact (grows_stamp_flagged e4 f1 W1 St4)
       | exact (carry e4 f1 1 o1 W1 T1)].
    assert (W02 := grows_trans _ _ _ W1 W2).
    apply bindM_Ok in H2 as (g3 & f3 & F3 & H2).
    apply grow_spec in F3 as (W3 & X3 & Y3); try assumption;
      [| rewrite (grows_max_t e4 f2 W02); exact M4
       | exact (grows_stamp_flagged e4 f2 W02 St4)
       | exact (carry e4 f2 2 o2 W02 T2)].
    assert (W03 := grows_trans _ _ _ W02 W3).
    apply grow_spec in H2 as (W4 & X4 & Y4); try assumption;
      [| rewrite (grows_max_t e4 f3 W03); exact M4
       | exact (grows_stamp_flagged e4 f3 W03 St4)
       | exact (carry e4 f3 3 o3 W03 T3)].
    assert (W04 := grows_trans _ _ _ W03 W4).
    split; [exact (relinks_trans _ _ _ Q14 (grows_relinks _ _ W04)) |].
    split; [rewrite (grows_max_t e4 d2 W04); exact M4 |].
    split; [exact (grows_stamp_flagged e4 d2 W04 St4) |].
    split; assumption. }
  destruct G2 as (R2 & Hmax2 & Hst2 & Hh2 & Hb2).
  assert (Lt : tet_is_in_list d2 t = Ok true) by (apply R2, L1).
  destruct (flood_spec tet_is_conflict fuel p t z2 z d2 d' H Hmax2 Hst2 Lt Hh2 Hb2)
    as (G & Hh & Hb).
  split.
  - exact (only_words_trans _ _ _
             (only_words_trans _ _ _ (proj1 R1) (proj1 R2)) (proj1 G)).
  - split; [| exact Hb]. intros N. split; [apply Hh, N | apply G, Lt].
Qed.

End Zone.


Lemma find_conflict_zone_boundary_witness :
  exists (z : zone) (d' : Delaunay3d),
    find_conflict_zone tet_is_conflict_exact 10 4 1
      [Some POSITIVE; Some POSITIVE; Some POSITIVE; Some POSITIVE] None
      five_points_first_mesh = Ok (z, d') /\
    only_words (stamped five_points_first_mesh 4) d' /\
    (z_first z <> END_OF_LIST ->
     tet_is_in_list d' (z_first z) = Ok true /\ tet_is_in_list d' 1 = Ok true) /\
    (forall tb fb : Z, z_bndry z = Some (tb, fb) -> boundary_facet d' tb fb).
Proof.
  eexists. eexists. split; [vm_compute; reflexivity |].
  eapply (find_conflict_zone_boundary tet_is_conflict_exact 10 4 1
            [Some POSITIVE; Some POSITIVE; Some POSITIVE; Some POSITIVE]
            five_points_first_mesh).
  - vm_compute. reflexivity.
  - vm_compute. reflexivity.
Defined.

(** ** The compression of the stores *)

Lemma kept_below_succ (d : Delaunay3d) (t : Z) :
  0 <= t ->
  kept_below d (t + 1)
  = kept_below d t ++ (if keepb d t then [t] else []).
Proof.
  intros Ht. unfold kept_below.
  rewrite seqZ_app by lia. rewrite filter_app. f_equal.
  change (seqZ (0 + t) 1) with [0 + t]. rewrite Z.add_0_l.
  rewrite filter_cons, filter_nil. destruct (keepb d t) eqn:E.
  - rewrite decide_True by reflexivity. reflexivity.
  - rewrite decide_False by discriminate. reflexivity.
Qed.

Lemma kept_below_length (d : Delaunay3d) (t : Z) :
  0 <= t -> Z.of_nat (length (kept_below d t)) <= t.
Proof.
  intros Ht. unfold kept_below.
  pose proof (length_filter (fun c => keepb d c = true) (seqZ 0 t)) as H.
  rewrite length_seqZ in H. lia.
Qed.

Lemma kept_below_elem (d : Delaunay3d) (t c : Z) :
  c ∈ kept_below d t <-> keepb d c = true /\ 0 <= c < t.
Proof.
  unfold kept_below. rewrite list_elem_of_filter, elem_of_seqZ. tauto.
Qed.

(** The [k]-th cell kept is kept, and [k] cells are kept below it. *)
Lemma kept_below_lookup (d : Delaunay3d) (t : Z) :
  0 <= t ->
  forall (k : nat) (c : Z),
    kept_below d t !! k = Some c ->
    keepb d c = true /\ 0 <= c < t /\ length (kept_below d c) = k.
Proof.
  intros Ht. pattern t. apply natlike_ind; [| | exact Ht]; clear t Ht.
  - intros k c H. unfold kept_below in H. cbn in H. discriminate.
  - intros t Ht IH k c H. unfold Z.succ in *.
    rewrite kept_below_succ in H by lia.
    apply lookup_app_Some in H as [H | [Hk H]].
    + destruct (IH k c H) as (A & B & C). split; [exact A |]. split; [lia | exact C].
    + destruct (keepb d t) eqn:E.
      * apply list_lookup_singleton_Some in H as [H <-].
        split; [exact E |]. split; [lia |]. lia.
      * rewrite lookup_nil in H. discriminate.
Qed.

Lemma kept_below_index (d : Delaunay3d) (t : Z) :
  0 <= t ->
  forall c : Z, keepb d c = true -> 0 <= c < t ->
    kept_below d t !! length (kept_below d c) = Some c.
Proof.
  intros Ht. pattern t. apply natlike_ind; [| | exact Ht]; clear t Ht.
  - intros c _ H. lia.
  - intros t Ht IH c Hc Hr. unfold Z.succ in *.
    rewrite kept_below_succ by lia.
    destruct (Z.eq_dec c t) as [-> | Hne].
    + rewrite Hc. rewrite lookup_app_r by lia. rewrite Nat.sub_diag. reflexivity.
    + apply lookup_app_l_Some. apply IH; [exact Hc | lia].
Qed.

Lemma zset_Ok {A : Type} (l : list A) (i : Z) (a : A) :
  0 <= i < Z.of_nat (length l) -> zset l i a = Ok (<[Z.to_nat i := a]> l).
Proof.
  intros H. unfold zset.
  destruct (Z.leb_spec 0 i); [| lia].
  destruct (Z.ltb_spec i (Z.of_nat (length l))); [| lia]. reflexivity.
Qed.

Lemma zth_None {A : Type} (l : list A) (i : Z) :
  ~ 0 <= i < Z.of_nat (length l) -> zth l i = None.
Proof.
  intros H. unfold zth.
  destruct (Z.leb_spec 0 i); [| reflexivity].
  destruct (Z.ltb_spec i (Z.of_nat (length l))); [lia | reflexivity].
Qed.

(** [Memory::copy] of one cell onto another. *)
Lemma copy_cell_spec (store : list Z) (to from : Z) :
  0 <= from -> 0 <= to ->
  4 * from + 4 <= Z.of_nat (length store) ->
  4 * to + 4 <= Z.of_nat (length store) ->
  Z.of_nat (length store) <= 2 ^ 32 ->
  exists s' : list Z,
    copy_cell store to from = Ok s' /\
    length s' = length store /\
    (forall l : Z, 0 <= l < 4 -> zth s' (4 * to + l) = zth store (4 * from + l)) /\
    (forall i : Z, ~ 4 * to <= i < 4 * to + 4 -> zth s' i = zth store i).
Proof.
  intros Hf Ht Lf Lt Hs. unfold copy_cell, index_t_of.
  rewrite !Z.mod_small by lia.
  destruct (zth_is_Some store (from * 4)) as [a0 E0]; [lia |].
  destruct (zth_is_Some store (from * 4 + 1)) as [a1 E1]; [lia |].
  destruct (zth_is_Some store (from * 4 + 2)) as [a2 E2]; [lia |].
  destruct (zth_is_Some store (from * 4 + 3)) as [a3 E3]; [lia |].
  rewrite E0, E1, E2, E3. cbn [of_option bindR].
  rewrite zset_Ok by lia. cbn [bindR].
  rewrite zset_Ok by (rewrite length_insert; lia). cbn [bindR].
  rewrite zset_Ok by (rewrite !length_insert; lia). cbn [bindR].
  rewrite zset_Ok by (rewrite !length_insert; lia).
  eexists. split; [reflexivity |]. split; [rewrite !length_insert; reflexivity |].
  split.
  - intros l Hl.
    assert (C : l = 0 \/ l = 1 \/ l = 2 \/ l = 3) by lia.
    destruct C as [-> | [-> | [-> | ->]]].
    + rewrite !zth_insert_ne by lia.
      replace (4 * to + 0) with (to * 4) by lia.
      rewrite zth_insert_eq by lia.
      replace (4 * from + 0) with (from * 4) by lia. symmetry. exact E0.
    + rewrite !zth_insert_ne by lia.
      replace (4 * to + 1) with (to * 4 + 1) by lia.
      rewrite zth_insert_eq by (rewrite !length_insert; lia).
      replace (4 * from + 1) with (from * 4 + 1) by lia. symmetry. exact E1.
    + rewrite !zth_insert_ne by lia.
      replace (4 * to + 2) with (to * 4 + 2) by lia.
      rewrite zth_insert_eq by (rewrite !length_insert; lia).
      replace (4 * from + 2) with (from * 4 + 2) by lia. symmetry. exact E2.
    + replace (4 * to + 3) with (to * 4 + 3) by lia.
      rewrite zth_insert_eq by (rewrite !length_insert; lia).
      replace (4 * from + 3) with (from * 4 + 3) by lia. symmetry. exact E3.
  - intros i Hi. rewrite !zth_insert_ne by lia. reflexivity.
Qed.

Lemma set_tet_next_run (t x : Z) (d : Delaunay3d) :
  0 <= t < max_t d ->
  set_tet_next t x d
  = Ok (tt, set_cell_next d (<[Z.to_nat t := x]> (cell_next_ d))).
Proof.
  intros H. unfold set_tet_next. unfold max_t in H. rewrite zset_Ok by lia. reflexivity.
Qed.

Lemma is_kept_ext (d0 d : Delaunay3d) (t : Z) :
  0 <= t < 2 ^ 30 ->
  keep_infinite_ d = keep_infinite_ d0 ->
  zth (cell_next_ d) t = zth (cell_next_ d0) t ->
  (forall l : Z, 0 <= l < 4 ->
     zth (cell_to_v_store_ d) (4 * t + l) = zth (cell_to_v_store_ d0) (4 * t + l)) ->
  is_kept d t = is_kept d0 t.
Proof.
  intros Ht Hk Hn Hv.
  unfold is_kept, tet_is_real, tet_is_finite, tet_is_virtual, tet_is_free,
    tet_is_in_list, tet_next, tet_vertex, index_t_of.
  rewrite !Z.mod_small by lia.
  rewrite Hk, Hn, !Hv by lia. reflexivity.
Qed.

Lemma is_kept_read (d : Delaunay3d) (t : Z) :
  four_slots d -> 0 <= t < max_t d -> exists b : bool, is_kept d t = Ok b.
Proof.
  intros (Hs & Hv & _) Ht.
  unfold is_kept, tet_is_real, tet_is_finite, tet_is_virtual, tet_is_free,
    tet_is_in_list, tet_next, tet_vertex, index_t_of.
  rewrite !Z.mod_small by lia.
  destruct (zth_is_Some (cell_next_ d) t) as [w Ew]; [unfold max_t in Ht; lia |].
  destruct (zth_is_Some (cell_to_v_store_ d) (4 * t + 0)) as [v0 E0]; [lia |].
  destruct (zth_is_Some (cell_to_v_store_ d) (4 * t + 1)) as [v1 E1]; [lia |].
  destruct (zth_is_Some (cell_to_v_store_ d) (4 * t + 2)) as [v2 E2]; [lia |].
  destruct (zth_is_Some (cell_to_v_store_ d) (4 * t + 3)) as [v3 E3]; [lia |].
  rewrite Ew, E0, E1, E2, E3. cbn [of_option bindR].
  destruct (keep_infinite_ d && negb (Z.land w NOT_IN_LIST_BIT =? 0));
    [eexists; reflexivity |].
  destruct (Z.land w NOT_IN_LIST_BIT =? 0); eexists; reflexivity.
Qed.

Lemma keepb_is_kept (d : Delaunay3d) (t : Z) (b : bool) :
  is_kept d t = Ok b -> keepb d t = b.
Proof. unfold keepb. intros ->. destruct b; reflexivity. Qed.

(** The test at the head of the loop body. *)
Lemma compress_test {A : Type} (k : bool -> M A) (d : Delaunay3d) (t : Z) (b : bool) :
  is_kept d t = Ok b ->
  (let* keep_infinite := const (fun d => Ok (keep_infinite_ d)) in
   let* free := const (fun d => tet_is_free d t) in
   let* keep :=
     (if keep_infinite && negb free then retM true
      else const (fun d => tet_is_real d t)) in
   k keep) d = k b d.
Proof.
  unfold is_kept, bindM, const. intros H.
  destruct (tet_is_free d t) as [free | |]; cbn [bindR] in H; try discriminate.
  destruct (keep_infinite_ d && negb free).
  - injection H as <-. reflexivity.
  - rewrite H. reflexivity.
Qed.

Section Compression.

Variable d0 : Delaunay3d.
Hypothesis Hfour : four_slots d0.

Lemma compress_inv_start : compress_inv d0 0 0 d0.
Proof.
  unfold compress_inv. do 5 (split; [reflexivity |]).
  split; [intros i _; split; reflexivity |].
  split; [intros j _; reflexivity |].
  split; [intros k c H; unfold kept_below in H; cbn in H; discriminate |].
  intros j Hj. lia.
Qed.

Lemma compress_inv_step (t nb : Z) (d : Delaunay3d) :
  0 <= t < max_t d0 ->
  compress_inv d0 t nb d ->
  exists d' : Delaunay3d,
    (forall (n : nat) (del : Z),
       compress_loop (S n) t nb del d
       = compress_loop n (t + 1)
           (if keepb d0 t then nb + 1 else nb)
           (if keepb d0 t then del else del + 1) d') /\
    compress_inv d0 (t + 1) (if keepb d0 t then nb + 1 else nb) d'.
Proof.
  intros Ht (Hnb & Hki & Lv & Lc & Ln & Hhigh & Hnext & Hlow & Hwords).
  destruct Hfour as (Hs & Hv0 & Hc0).
  assert (Hmax : max_t d = max_t d0) by (unfold max_t; lia).
  assert (Hle : nb <= t) by (rewrite Hnb; apply kept_below_length; lia).
  assert (Hnn : 0 <= nb) by lia.
  assert (Ek : is_kept d t = is_kept d0 t).
  { apply is_kept_ext; [lia | exact Hki | apply Hnext; lia |].
    intros l Hl. apply Hhigh. lia. }
  destruct (is_kept_read d0 t Hfour Ht) as [b Eb].
  rewrite Eb in Ek. rewrite (keepb_is_kept d0 t b Eb).
  destruct b.
  - (* the cell is kept *)
    destruct (copy_cell_spec (cell_to_v_store_ d) nb t) as (sv & Esv & Lsv & Wsv & Osv);
      [lia | lia | lia | lia | lia |].
    destruct (copy_cell_spec (cell_to_cell_store_ d) nb t)
      as (sc & Esc & Lsc & Wsc & Osc); [lia | lia | lia | lia | lia |].
    set (d1 := if t =? nb then d
               else set_cell_to_cell_store (set_cell_to_v_store d sv) sc).
    exists (set_cell_next d1 (<[Z.to_nat t := nb]> (cell_next_ d1))).
    assert (Hd1 : max_t d1 = max_t d /\ cell_next_ d1 = cell_next_ d /\
                  keep_infinite_ d1 = keep_infinite_ d /\
                  length (cell_to_v_store_ d1) = length (cell_to_v_store_ d) /\
                  length (cell_to_cell_store_ d1) = length (cell_to_cell_store_ d) /\
                  (forall l : Z, 0 <= l < 4 ->
                     zth (cell_to_v_store_ d1) (4 * nb + l)
                     = zth (cell_to_v_store_ d) (4 * t + l) /\
                     zth (cell_to_cell_store_ d1) (4 * nb + l)
                     = zth (cell_to_cell_store_ d) (4 * t + l)) /\
                  (forall i : Z, ~ 4 * nb <= i < 4 * nb + 4 ->
                     zth (cell_to_v_store_ d1) i = zth (cell_to_v_store_ d) i /\
                     zth (cell_to_cell_store_ d1) i = zth (cell_to_cell_store_ d) i)).
    { unfold d1. destruct (Z.eqb_spec t nb) as [-> | Hne].
      - repeat split; reflexivity.
      - cbn. repeat split; try assumption; try reflexivity.
        + apply Wsv. assumption.
        + apply Wsc. assumption.
        + apply Osv. assumption.
        + apply Osc. assumption. }
    destruct Hd1 as (M1 & N1 & K1 & LV1 & LC1 & W1 & O1).
    split.
    + intros n del. cbn [compress_loop].
      rewrite (compress_test _ d t true Ek).
      unfold bindM at 1.
      unfold d1. destruct (t =? nb); cbn [negb].
      * unfold retM. unfold bindM at 1. rewrite set_tet_next_run by lia. reflexivity.
      * rewrite Esv. cbn [bindR]. rewrite Esc. cbn [bindR]. unfold bindM at 1.
        rewrite set_tet_next_run by (unfold max_t in *; cbn; lia). reflexivity.
    + unfold compress_inv. cbn [cell_to_v_store_ cell_to_cell_store_ cell_next_
                                 keep_infinite_ set_cell_next].
      rewrite kept_below_succ by lia. rewrite (keepb_is_kept d0 t true Eb).
      rewrite length_app, length_insert. cbn [length].
      split; [lia |]. split; [congruence |]. split; [congruence |].
      split; [congruence |]. split; [congruence |].
      split; [| split; [| split]].
      * intros i Hi. destruct (O1 i) as [A B]; [lia |].
        destruct (Hhigh i) as [A' B']; [lia |]. split; congruence.
      * intros j Hj. rewrite N1, zth_insert_ne by lia. apply Hnext. lia.
      * intros k c H l Hl.
        apply lookup_app_Some in H as [H | [Hk H]].
        -- assert (Hklt : Z.of_nat k < nb).
           { apply lookup_lt_Some in H. lia. }
           destruct (O1 (4 * Z.of_nat k + l)) as [A B]; [lia |].
           destruct (Hlow k c H l Hl) as [A' B']. split; congruence.
        -- apply list_lookup_singleton_Some in H as [H <-].
           replace (Z.of_nat k) with nb by lia.
           destruct (W1 l Hl) as [A B]. destruct (Hhigh (4 * t + l)) as [A' B']; [lia |].
           split; congruence.
      * intros j Hj. rewrite N1.
        destruct (Z.eq_dec j t) as [-> | Hne].
        -- rewrite zth_insert_eq by (unfold max_t in *; lia).
           unfold old2new_word. rewrite (keepb_is_kept d0 t true Eb). f_equal. exact Hnb.
        -- rewrite zth_insert_ne by lia. apply Hwords. lia.
  - (* the cell is dropped *)
    exists (set_cell_next d (<[Z.to_nat t := index_t_of (-1)]> (cell_next_ d))).
    split.
    + intros n del. cbn [compress_loop].
      rewrite (compress_test _ d t false Ek).
      unfold bindM at 1. rewrite set_tet_next_run by lia. reflexivity.
    + unfold compress_inv. cbn [cell_to_v_store_ cell_to_cell_store_ cell_next_
                                 keep_infinite_ set_cell_next].
      rewrite kept_below_succ by lia. rewrite (keepb_is_kept d0 t false Eb).
      rewrite app_nil_r, length_insert.
      split; [exact Hnb |]. split; [exact Hki |]. split; [exact Lv |].
      split; [exact Lc |]. split; [exact Ln |].
      split; [| split; [| split]].
      * intros i Hi. apply Hhigh. lia.
      * intros j Hj. rewrite zth_insert_ne by lia. apply Hnext. lia.
      * exact Hlow.
      * intros j Hj. destruct (Z.eq_dec j t) as [-> | Hne].
        -- rewrite zth_insert_eq by (unfold max_t in *; lia).
           unfold old2new_word. rewrite (keepb_is_kept d0 t false Eb). reflexivity.
        -- rewrite zth_insert_ne by lia. apply Hwords. lia.
Qed.

(** The first loop of the compression. *)
Lemma compress_loop_spec (n : nat) :
  forall (t nb del : Z) (d : Delaunay3d),
    0 <= t -> t + Z.of_nat n = max_t d0 ->
    compress_inv d0 t nb d ->
    exists (del' : Z) (d' : Delaunay3d),
      compress_loop n t nb del d
      = Ok ((Z.of_nat (length (kept_cells d0)), del'), d') /\
      compress_inv d0 (max_t d0) (Z.of_nat (length (kept_cells d0))) d'.
Proof.
  induction n as [| n IH]; intros t nb del d Ht Hn Hinv.
  - cbn [compress_loop]. replace t with (max_t d0) in * by lia.
    assert (E : nb = Z.of_nat (length (kept_cells d0))) by apply Hinv.
    subst nb. exists del, d. split; [reflexivity | exact Hinv].
  - destruct (compress_inv_step t nb d) as (d1 & Hrun & Hinv1); [lia | exact Hinv |].
    rewrite Hrun. apply IH; [lia | lia | exact Hinv1].
Qed.

End Compression.

Lemma zth_vector_resize {A : Type} (l : list A) (n i : Z) (fill : A) :
  0 <= i < n -> n <= Z.of_nat (length l) ->
  zth (vector_resize l n fill) i = zth l i.
Proof.
  intros Hi Hn. unfold zth. rewrite length_vector_resize.
  destruct (Z.leb_spec 0 i); [| lia].
  destruct (Z.ltb_spec i (Z.of_nat (Z.to_nat n))); [| lia].
  destruct (Z.ltb_spec i (Z.of_nat (length l))); [| lia].
  cbn [andb]. unfold vector_resize.
  rewrite lookup_app_l by (rewrite length_take; lia).
  apply lookup_take_lt. lia.
Qed.

(** The loop that sends the neighbour slots through [old2new]. *)
Lemma remap_loop_spec (n : nat) :
  forall (i : Z) (d : Delaunay3d),
    0 <= i -> i + Z.of_nat n = Z.of_nat (length (cell_to_cell_store_ d)) ->
    (forall j : Z, i <= j < Z.of_nat (length (cell_to_cell_store_ d)) ->
       exists a w : Z,
         zth (cell_to_cell_store_ d) j = Some a /\ zth (cell_next_ d) a = Some w) ->
    exists store : list Z,
      remap_loop n i d = Ok (tt, set_cell_to_cell_store d store) /\
      length store = length (cell_to_cell_store_ d) /\
      (forall j : Z, j < i -> zth store j = zth (cell_to_cell_store_ d) j) /\
      (forall j a w : Z, i <= j ->
         zth (cell_to_cell_store_ d) j = Some a -> zth (cell_next_ d) a = Some w ->
         zth store j = Some (signed_index_t_of w)).
Proof.
  induction n as [| n IH]; intros i d Hi Hn Hread.
  - exists (cell_to_cell_store_ d). cbn [remap_loop]. split.
    + unfold retM. destruct d. reflexivity.
    + split; [reflexivity |]. split; [reflexivity |].
      intros j a w Hj Ha. exfalso.
      assert (N : zth (cell_to_cell_store_ d) j = None) by (apply zth_None; lia).
      congruence.
  - destruct (Hread i) as (a & w & Ea & Ew); [lia |].
    cbn [remap_loop]. unfold bindM at 1. unfold const at 1. rewrite Ea.
    cbn [of_option]. unfold bindM at 1. unfold const at 1. rewrite Ew.
    cbn [of_option]. unfold bindM at 1. rewrite zset_Ok by lia. cbn [bindR].
    set (d1 := set_cell_to_cell_store d _).
    destruct (IH (i + 1) d1) as (store & Hrun & Hlen & Hlow & Hhigh).
    + lia.
    + unfold d1. cbn. rewrite length_insert. lia.
    + intros j Hj. unfold d1 in *. cbn in *. rewrite length_insert in Hj.
      rewrite zth_insert_ne by lia. apply Hread. lia.
    + exists store. split; [rewrite Hrun; unfold d1; reflexivity |].
      split; [rewrite Hlen; unfold d1; cbn; apply length_insert |].
      split.
      * intros j Hj. rewrite Hlow by lia. unfold d1. cbn.
        apply zth_insert_ne; lia.
      * intros j a' w' Hj Ha' Hw'.
        destruct (Z.eq_dec j i) as [-> | Hne].
        -- rewrite Hlow by lia. unfold d1. cbn. rewrite zth_insert_eq by lia.
           congruence.
        -- apply (Hhigh j a' w'); [lia | |].
           ++ unfold d1. cbn. rewrite zth_insert_ne by lia. exact Ha'.
           ++ exact Hw'.
Qed.

Lemma signed_old2new_word (d : Delaunay3d) (a : Z) :
  0 <= a < 2 ^ 30 -> signed_index_t_of (old2new_word d a) = new_index d a.
Proof.
  intros Ha. unfold old2new_word, new_index. destruct (keepb d a); [| reflexivity].
  apply signed_index_t_of_small. pose proof (kept_below_length d a). lia.
Qed.

Lemma tet_adjacent_zth (d : Delaunay3d) (c l : Z) :
  0 <= c < 2 ^ 30 -> 0 <= l < 4 ->
  tet_adjacent d c l = of_option (zth (cell_to_cell_store_ d) (4 * c + l)).
Proof.
  intros Hc Hl. unfold tet_adjacent, index_t_of. rewrite Z.mod_small by lia.
  reflexivity.
Qed.

Lemma tet_vertex_zth (d : Delaunay3d) (c l : Z) :
  0 <= c < 2 ^ 30 -> 0 <= l < 4 ->
  tet_vertex d c l = of_option (zth (cell_to_v_store_ d) (4 * c + l)).
Proof.
  intros Hc Hl. unfold tet_vertex, index_t_of. rewrite Z.mod_small by lia.
  reflexivity.
Qed.

Lemma of_option_Ok {A : Type} (o : option A) (a : A) :
  of_option o = Ok a -> o = Some a.
Proof. destruct o; [intros H; injection H as ->; reflexivity | discriminate]. Qed.

Lemma compress_loop_keeps_input (c : Z * Z * list float * list Z * bool * bool * Z * Z
                                     * bool * list float * bool) (n : nat) :
  forall t nb_tets nb_tets_to_delete : Z,
    keeps (fun d => input_of d = c) (compress_loop n t nb_tets nb_tets_to_delete).
Proof.
  pose proof (store_invariant_input c) as HP.
  induction n as [| n IH]; intros t nb del; cbn [compress_loop].
  - apply keeps_ret.
  - repeat first
      [ keeps_step IH
      | match goal with
        | |- keeps _ (fun d => _) =>
            let d := fresh "d" in
            let H := fresh "H" in
            intros d [] ? H ?;
            apply bindR_Ok in H as (? & _ & H);
            apply bindR_Ok in H as (? & _ & H);
            injection H as <-; split; [assumption | exact I]
        end ].
Qed.

Lemma remap_loop_keeps_input (c : Z * Z * list float * list Z * bool * bool * Z * Z
                                  * bool * list float * bool) (n : nat) :
  forall i : Z, keeps (fun d => input_of d = c) (remap_loop n i).
Proof.
  pose proof (store_invariant_input c) as HP.
  induction n as [| n IH]; intros i; cbn [remap_loop].
  - apply keeps_ret.
  - repeat first
      [ keeps_step IH
      | match goal with
        | |- keeps _ (fun d => _) =>
            let d := fresh "d" in
            let H := fresh "H" in
            intros d [] ? H ?;
            apply bindR_Ok in H as (? & _ & H);
            injection H as <-; split; [assumption | exact I]
        end ].
Qed.

(** The compression up to the renumbering of the neighbours. *)
Lemma compress_phase1 (k : Z -> M unit) (d : Delaunay3d) :
  four_slots d -> neighbours_in_range d ->
  exists d' : Delaunay3d,
    (let* n := const (fun d => Ok (max_t d)) in
     let* (nb_tets, _) := compress_loop (Z.to_nat n) 0 0 0 in
     let* _ := modify (fun d =>
                 set_cell_to_cell_store
                   (set_cell_to_v_store d
                      (vector_resize (cell_to_v_store_ d) (4 * nb_tets) 0))
                   (vector_resize (cell_to_cell_store_ d) (4 * nb_tets) 0)) in
     let* _ := remap_loop (Z.to_nat (4 * nb_tets)) 0 in
     k nb_tets) d
    = k (Z.of_nat (length (kept_cells d))) d' /\
    compressed d d'.
Proof.
  intros Hfour Hrange.
  assert (Hn : 0 <= max_t d) by (unfold max_t; lia).
  destruct (compress_loop_spec d Hfour (Z.to_nat (max_t d)) 0 0 0 d)
    as (del & d1 & Hrun & Hinv);
    [lia | lia | apply compress_inv_start |].
  destruct Hinv as (_ & Hki & Lv & Lc & Ln & _ & _ & Hlow & Hwords).
  fold (kept_cells d) in Hlow.
  set (NB := Z.of_nat (length (kept_cells d))) in *.
  assert (HNB : NB <= max_t d) by (apply kept_below_length; lia).
  destruct Hfour as (Hs & Hv0 & Hc0).
  set (d2 := set_cell_to_cell_store
               (set_cell_to_v_store d1
                  (vector_resize (cell_to_v_store_ d1) (4 * NB) 0))
               (vector_resize (cell_to_cell_store_ d1) (4 * NB) 0)).
  assert (Hcell : forall j : Z, 0 <= j < 4 * NB ->
            exists (kk : nat) (c l a : Z),
              j = 4 * Z.of_nat kk + l /\ 0 <= l < 4 /\
              kept_cells d !! kk = Some c /\
              zth (cell_to_cell_store_ d) (4 * c + l) = Some a /\ 0 <= a < max_t d /\
              zth (cell_to_cell_store_ d2) j = Some a).
  { intros j Hj.
    destruct (lookup_lt_is_Some_2 (kept_cells d) (Z.to_nat (j / 4))) as [c Ec].
    { unfold NB in Hj. apply Nat2Z.inj_lt. rewrite Z2Nat.id by (apply Z.div_pos; lia).
      apply Z.div_lt_upper_bound; lia. }
    assert (Hc : c ∈ kept_cells d) by (eapply list_elem_of_lookup_2; exact Ec).
    assert (Rc : 0 <= c < max_t d).
    { unfold kept_cells in Hc. apply kept_below_elem in Hc. tauto. }
    assert (Hl : 0 <= j mod 4 < 4) by (apply Z.mod_pos_bound; lia).
    destruct (Hrange c Hc (j mod 4) Hl) as (a & Ha & Ra).
    rewrite tet_adjacent_zth in Ha by lia. apply of_option_Ok in Ha.
    exists (Z.to_nat (j / 4)), c, (j mod 4), a.
    assert (Ej : j = 4 * Z.of_nat (Z.to_nat (j / 4)) + j mod 4).
    { rewrite Z2Nat.id by (apply Z.div_pos; lia). apply Z.div_mod. lia. }
    split; [exact Ej |]. split; [exact Hl |]. split; [exact Ec |].
    split; [exact Ha |]. split; [exact Ra |].
    unfold d2. cbn [cell_to_cell_store_ set_cell_to_cell_store].
    rewrite zth_vector_resize by lia.
    rewrite Ej at 1. rewrite (proj2 (Hlow _ c Ec (j mod 4) Hl)). exact Ha. }
  destruct (remap_loop_spec (Z.to_nat (4 * NB)) 0 d2)
    as (store & Hremap & Lstore & _ & Hstore).
  { lia. }
  { unfold d2. cbn. rewrite length_vector_resize. lia. }
  { intros j Hj. unfold d2 in Hj. cbn in Hj. rewrite length_vector_resize in Hj.
    destruct (Hcell j) as (kk & c & l & a & _ & _ & _ & _ & Ra & Ea); [lia |].
    exists a, (old2new_word d a). split; [exact Ea |].
    unfold d2. cbn. apply Hwords. lia. }
  exists (set_cell_to_cell_store d2 store). split.
  - unfold bindM at 1. unfold const at 1. unfold bindM at 1. rewrite Hrun.
    unfold bindM at 1. unfold modify at 1. fold d2. unfold bindM at 1.
    rewrite Hremap. reflexivity.
  - unfold compressed.
    split.
    { pose proof (compress_loop_keeps_input (input_of d) _ _ _ _ d _ d1 Hrun eq_refl)
        as [Hin _].
      rewrite <- Hin. reflexivity. }
    split.
    { intros j Hj. cbn. apply Hwords. lia. }
    cbn [cell_to_v_store_ cell_to_cell_store_ cell_next_
         keep_infinite_ set_cell_to_cell_store d2 set_cell_to_v_store].
    split; [exact Hki |].
    split; [rewrite length_vector_resize; fold NB; lia |].
    split; [rewrite Lstore; unfold d2; cbn; rewrite length_vector_resize; fold NB; lia |].
    split; [exact Ln |].
    intros kk c Ec l Hl.
    assert (Hk : Z.of_nat kk < NB) by (apply lookup_lt_Some in Ec; unfold NB; lia).
    split.
    + rewrite zth_vector_resize by lia. apply (Hlow kk c Ec l Hl).
    + destruct (Hcell (4 * Z.of_nat kk + l)) as (kk' & c' & l' & a & Ej & Hl' & Ec' & Ea & Ra & Ea2);
        [lia |].
      assert (kk' = kk) by lia. subst kk'. assert (l' = l) by lia. subst l'.
      rewrite Ec in Ec'. injection Ec' as <-.
      exists a. split; [exact Ea |].
      rewrite (Hstore (4 * Z.of_nat kk + l) a (old2new_word d a));
        [| lia | exact Ea2 | unfold d2; cbn; apply Hwords; lia].
      rewrite signed_old2new_word by lia. reflexivity.
Qed.

Lemma is_kept_real (d : Delaunay3d) (c : Z) :
  keep_infinite_ d = false -> is_kept d c = tet_is_real d c.
Proof.
  intros Hk. unfold is_kept, tet_is_real. rewrite Hk. cbn [andb].
  destruct (tet_is_free d c); reflexivity.
Qed.

Lemma keepb_real (d : Delaunay3d) (c : Z) :
  keep_infinite_ d = false -> (keepb d c = true <-> tet_is_real d c = Ok true).
Proof.
  intros Hk. unfold keepb. rewrite (is_kept_real d c Hk).
  destruct (tet_is_real d c) as [[] | |]; split; congruence.
Qed.

(** The compression of an object that does not keep its infinite cells. *)
Lemma compress_real_spec (fuel : nat) (d : Delaunay3d) :
  four_slots d -> neighbours_in_range d -> keep_infinite_ d = false ->
  exists d' : Delaunay3d,
    compress fuel d = Ok (tt, d') /\
    nb_cells_ d' = Z.of_nat (length (kept_cells d)) /\
    Z.of_nat (length (cell_to_v_store_ d')) = 4 * nb_cells_ d' /\
    Z.of_nat (length (cell_to_cell_store_ d')) = 4 * nb_cells_ d' /\
    (forall (k : nat) (c : Z), kept_cells d !! k = Some c ->
     forall l : Z, 0 <= l < 4 ->
       tet_vertex d' (Z.of_nat k) l = tet_vertex d c l /\
       exists a : Z,
         tet_adjacent d c l = Ok a /\
         tet_adjacent d' (Z.of_nat k) l = Ok (new_index d a)).
Proof.
  intros Hfour Hrange Hki.
  destruct (compress_phase1
              (fun nb_tets =>
                 let* keep_infinite := const (fun d => Ok (keep_infinite_ d)) in
                 let* _ :=
                   (if keep_infinite then
                      let* _ := modify (fun d => set_nb_finite_cells d 0) in
                      let* _ := partition_loop fuel 0 (index_t_of (nb_tets - 1)) in
                      remap_loop (Z.to_nat (4 * nb_tets)) 0
                    else retM tt) in
                 modify (fun d => set_nb_cells d nb_tets))
              d Hfour Hrange) as (d1 & Hrun & Hc).
  destruct Hc as (_ & _ & Hki1 & Lv & Lc & Ln & Hcells).
  exists (set_nb_cells d1 (Z.of_nat (length (kept_cells d)))). split.
  - unfold compress. rewrite Hrun. unfold bindM at 1. unfold const at 1.
    rewrite Hki1, Hki. reflexivity.
  - cbn [nb_cells_ cell_to_v_store_ cell_to_cell_store_ set_nb_cells].
    split; [reflexivity |]. split; [exact Lv |]. split; [exact Lc |].
    intros k c Ec l Hl.
    assert (Hk : Z.of_nat k < Z.of_nat (length (kept_cells d)))
      by (apply lookup_lt_Some in Ec; lia).
    assert (Rc : 0 <= c < max_t d).
    { apply list_elem_of_lookup_2 in Ec. unfold kept_cells in Ec.
      apply kept_below_elem in Ec. tauto. }
    assert (HNB : Z.of_nat (length (kept_cells d)) <= max_t d)
      by (apply kept_below_length; unfold max_t; lia).
    destruct Hfour as (Hs & _ & _).
    destruct (Hcells k c Ec l Hl) as (Ev & a & Ea & Ea').
    rewrite !tet_vertex_zth, !tet_adjacent_zth by lia.
    cbn [cell_to_v_store_ cell_to_cell_store_ set_nb_cells].
    split; [rewrite Ev; reflexivity |].
    exists a. rewrite Ea, Ea'. split; reflexivity.
Qed.

(** X8.  The compression of an object that does not keep its infinite
    cells returns, and leaves exactly the real cells (neither free nor
    virtual) in the order they had: [nb_cells_] is their number, the two
    stores hold four slots for each, the [k]-th cell of the result has the
    vertices of the [k]-th real cell, and each of its neighbour slots holds
    the new index of the neighbour that cell had, or [-1] where that
    neighbour was not real. *)
Theorem compress_keeps_real_cells (fuel : nat) (d : Delaunay3d) :
  four_slots d -> neighbours_in_range d -> keep_infinite_ d = false ->
  exists d' : Delaunay3d,
    compress fuel d = Ok (tt, d') /\
    nb_cells_ d' = Z.of_nat (length (kept_cells d)) /\
    Z.of_nat (length (cell_to_v_store_ d')) = 4 * nb_cells_ d' /\
    Z.of_nat (length (cell_to_cell_store_ d')) = 4 * nb_cells_ d' /\
    (forall c : Z, c ∈ kept_cells d <-> 0 <= c < max_t d /\ tet_is_real d c = Ok true) /\
    (forall (k : nat) (c : Z), kept_cells d !! k = Some c ->
     new_index d c = Z.of_nat k /\
     forall l : Z, 0 <= l < 4 ->
       tet_vertex d' (Z.of_nat k) l = tet_vertex d c l /\
       exists a : Z,
         tet_adjacent d c l = Ok a /\
         tet_adjacent d' (Z.of_nat k) l = Ok (new_index d a)).
Proof.
  intros Hfour Hrange Hki.
  destruct (compress_real_spec fuel d Hfour Hrange Hki)
    as (d' & Hrun & Hnb & Lv & Lc & Hcells).
  exists d'. split; [exact Hrun |]. split; [exact Hnb |].
  split; [exact Lv |]. split; [exact Lc |]. split.
  - intros c. unfold kept_cells. rewrite kept_below_elem, (keepb_real d c Hki). tauto.
  - intros k c Ec. split; [| apply Hcells; exact Ec].
    destruct (kept_below_lookup d (max_t d)) with (k := k) (c := c) as (Kc & _ & Lk);
      [unfold max_t; lia | exact Ec |].
    unfold new_index. rewrite Kc, Lk. reflexivity.
Qed.

Lemma well_sized_four_slots (d : Delaunay3d) : well_sized d -> four_slots d.
Proof. intros (A & B & C & _). split; [exact A |]. split; assumption. Qed.

Lemma combinatorics_ok_range (d : Delaunay3d) :
  well_sized d -> combinatorics_ok d -> keep_infinite_ d = false ->
  neighbours_in_range d.
Proof.
  intros Hw Hok Hki c Hc l Hl. unfold kept_cells in Hc.
  apply kept_below_elem in Hc as [Kc Rc]. apply (keepb_real d c Hki) in Kc.
  assert (Hfree : tet_is_free d c = Ok false).
  { unfold tet_is_real in Kc. destruct (tet_is_free d c) as [[] | |];
      cbn [bindR] in Kc; try discriminate. reflexivity. }
  destruct (Hok c Rc Hfree) as [Hlinks _].
  destruct (Hlinks l Hl) as (a & Ha & N1 & _).
  destruct (tet_adjacent_read d c l Hw Rc Hl) as (a' & Ha' & Ra).
  rewrite Ha in Ha'. injection Ha' as <-. exists a. split; [exact Ha | lia].
Qed.

(** X9.  The compression keeps the adjacency symmetric.  If
    [check_combinatorics] holds of the stores (every cell in use has four
    neighbours that link back), then in the compressed stores of an object
    that does not keep its infinite cells every neighbour slot holds [-1]
    or the index of another cell of the result, which has the cell behind
    one of its own facets. *)
Theorem compress_keeps_links (fuel : nat) (d : Delaunay3d) :
  well_sized d -> combinatorics_ok d -> keep_infinite_ d = false ->
  exists d' : Delaunay3d,
    compress fuel d = Ok (tt, d') /\
    forall k l : Z, 0 <= k < nb_cells_ d' -> 0 <= l < 4 ->
      exists a' : Z,
        tet_adjacent d' k l = Ok a' /\
        (a' = -1 \/
         (0 <= a' < nb_cells_ d' /\ a' <> k /\
          exists l2 : Z, 0 <= l2 < 4 /\ tet_adjacent d' a' l2 = Ok k)).
Proof.
  intros Hw Hok Hki.
  assert (Hfour := well_sized_four_slots d Hw).
  assert (Hrange := combinatorics_ok_range d Hw Hok Hki).
  destruct (compress_real_spec fuel d Hfour Hrange Hki)
    as (d' & Hrun & Hnb & Lv & Lc & Hcells).
  exists d'. split; [exact Hrun |]. intros k l Hk Hl.
  assert (Hn : 0 <= max_t d) by (unfold max_t; lia).
  destruct (lookup_lt_is_Some_2 (kept_cells d) (Z.to_nat k)) as [c Ec]; [lia |].
  destruct (Hcells _ c Ec l Hl) as (_ & a & Ha & Ha').
  rewrite Z2Nat.id in Ha' by lia.
  exists (new_index d a). split; [exact Ha' |].
  destruct (kept_below_lookup d (max_t d) Hn _ c Ec) as (Kc & Rc & Lk).
  assert (Hfree : tet_is_free d c = Ok false).
  { apply (keepb_real d c Hki) in Kc. unfold tet_is_real in Kc.
    destruct (tet_is_free d c) as [[] | |]; cbn [bindR] in Kc; try discriminate.
    reflexivity. }
  destruct (Hok c Rc Hfree) as [Hlinks _].
  destruct (Hlinks l Hl) as (a0 & Ha0 & N1 & Nc & l2 & Hl2 & Hback).
  rewrite Ha in Ha0. injection Ha0 as <-.
  destruct (Hrange c ltac:(eapply list_elem_of_lookup_2; exact Ec) l Hl)
    as (a0 & Ha0 & Ra).
  rewrite Ha in Ha0. injection Ha0 as <-.
  unfold new_index at 2. destruct (keepb d a) eqn:Ka; [right | left; unfold new_index; rewrite Ka; reflexivity].
  assert (Ea : kept_cells d !! length (kept_below d a) = Some a)
    by (apply kept_below_index; [lia | exact Ka | exact Ra]).
  assert (Hka : Z.of_nat (length (kept_below d a)) < nb_cells_ d').
  { rewrite Hnb. apply lookup_lt_Some in Ea. lia. }
  unfold new_index. rewrite Ka.
  split; [lia |]. split.
  - intros E. assert (E' : length (kept_below d a) = Z.to_nat k) by lia.
    rewrite E' in Ea. congruence.
  - exists l2. split; [exact Hl2 |].
    destruct (Hcells _ a Ea l2 Hl2) as (_ & a2 & Ha2 & Ha2').
    rewrite Hback in Ha2. injection Ha2 as <-.
    rewrite Ha2'. f_equal. unfold new_index. rewrite Kc, Lk. lia.
Qed.

Lemma five_points_mesh_well_sized : well_sized five_points_mesh.
Proof.
  split; [reflexivity |]. split; [reflexivity |]. split; [reflexivity |].
  apply (bool_decide_unpack _). vm_compute. exact I.
Defined.

Lemma five_points_mesh_linked : combinatorics_ok five_points_mesh.
Proof.
  apply check_combinatorics_sound; [exact five_points_mesh_well_sized |].
  vm_compute. reflexivity.
Defined.

Lemma five_points_mesh_in_range : neighbours_in_range five_points_mesh.
Proof.
  apply combinatorics_ok_range.
  - exact five_points_mesh_well_sized.
  - exact five_points_mesh_linked.
  - reflexivity.
Defined.

Lemma compress_keeps_real_cells_witness :
  exists d' : Delaunay3d,
    compress 10 five_points_mesh = Ok (tt, d') /\
    nb_cells_ d' = Z.of_nat (length (kept_cells five_points_mesh)) /\
    Z.of_nat (length (cell_to_v_store_ d')) = 4 * nb_cells_ d' /\
    Z.of_nat (length (cell_to_cell_store_ d')) = 4 * nb_cells_ d' /\
    (forall c : Z,
       c ∈ kept_cells five_points_mesh <->
       0 <= c < max_t five_points_mesh /\ tet_is_real five_points_mesh c = Ok true) /\
    (forall (k : nat) (c : Z), kept_cells five_points_mesh !! k = Some c ->
     new_index five_points_mesh c = Z.of_nat k /\
     forall l : Z, 0 <= l < 4 ->
       tet_vertex d' (Z.of_nat k) l = tet_vertex five_points_mesh c l /\
       exists a : Z,
         tet_adjacent five_points_mesh c l = Ok a /\
         tet_adjacent d' (Z.of_nat k) l = Ok (new_index five_points_mesh a)).
Proof.
  apply (compress_keeps_real_cells 10 five_points_mesh).
  - split; [reflexivity |]. split; reflexivity.
  - exact five_points_mesh_in_range.
  - reflexivity.
Defined.

Lemma compress_keeps_links_witness :
  exists d' : Delaunay3d,
    compress 10 five_points_mesh = Ok (tt, d') /\
    forall k l : Z, 0 <= k < nb_cells_ d' -> 0 <= l < 4 ->
      exists a' : Z,
        tet_adjacent d' k l = Ok a' /\
        (a' = -1 \/
         (0 <= a' < nb_cells_ d' /\ a' <> k /\
          exists l2 : Z, 0 <= l2 < 4 /\ tet_adjacent d' a' l2 = Ok k)).
Proof.
  apply (compress_keeps_links 10 five_points_mesh).
  - exact five_points_mesh_well_sized.
  - exact five_points_mesh_linked.
  - reflexivity.
Defined.

(** ** The queries *)

Lemma SFltb_trans (x y z : spec_float) :
  SFltb x y = true -> SFltb y z = true -> SFltb x z = true.
Proof.
  unfold SFltb.
  destruct x as [sx | sx | | sx mx ex], y as [sy | sy | | sy my ey],
    z as [sz | sz | | sz mz ez]; cbn;
    try discriminate; try (destruct sx, sy, sz; (discriminate || reflexivity)).
  rewrite !Pos.compare_cont_spec. cbn [Pos.switch_Eq].
  destruct sx, sy, sz; try discriminate; try reflexivity;
    destruct (Z.compare_spec ex ey), (Z.compare_spec ey ez); try discriminate;
    subst;
    try (rewrite Z.compare_refl);
    try (destruct (Z.compare_spec ex ez); [lia | reflexivity || lia | reflexivity || lia]);
    try (destruct (Z.compare_spec ey ez); [lia | reflexivity || lia | reflexivity || lia]);
    try (destruct (Z.compare_spec ex ey); [lia | reflexivity || lia | reflexivity || lia]);
    destruct (Pos.compare_spec mx my), (Pos.compare_spec my mz); cbn;
    try discriminate; intros _ _;
    destruct (Pos.compare_spec mx mz); cbn; (reflexivity || lia).
Qed.

Lemma SFltb_irrefl (x : spec_float) : SFltb x x = false.
Proof.
  unfold SFltb. destruct x as [s | s | | s m e]; cbn; try reflexivity.
  - destruct s; reflexivity.
  - rewrite Z.compare_refl, Pos.compare_cont_spec, Pos.compare_refl.
    destruct s; reflexivity.
Qed.

Lemma ltb_trans (x y z : float) :
  (x <? y)%float = true -> (y <? z)%float = true -> (x <? z)%float = true.
Proof. rewrite !ltb_spec. apply SFltb_trans. Qed.

Lemma ltb_irrefl (x : float) : (x <? x)%float = false.
Proof. rewrite ltb_spec. apply SFltb_irrefl. Qed.

Section NearestVertex.

Variable random_int32 : nat -> Z.
Variable Delaunay_nearest_vertex : Delaunay3d -> double_ptr -> result Z.
Variable distance2 : point -> point -> float.

Lemma slot_distance_unique (d : Delaunay3d) (p : double_ptr) (t lv v v' : Z)
    (dist dist' : float) :
  slot_distance distance2 d p t lv v dist ->
  slot_distance distance2 d p t lv v' dist' ->
  v' = v /\ dist' = dist.
Proof.
  intros (_ & Hv & _ & x & y & Hx & Hy & ->) (_ & Hv' & _ & x' & y' & Hx' & Hy' & ->).
  rewrite Hv in Hv'. injection Hv' as <-.
  rewrite Hx in Hx'. injection Hx' as <-.
  rewrite Hy in Hy'. injection Hy' as <-.
  split; reflexivity.
Qed.

Lemma nearest_vertex_step_spec (d : Delaunay3d) (p : double_ptr) (t k : Z)
    (best best' : float * Z) :
  0 <= k < 4 ->
  nearest_vertex_step distance2 d p t k best = Ok best' ->
  nearest_so_far distance2 d p t k best ->
  nearest_so_far distance2 d p t (k + 1) best'.
Proof.
  intros Hk H [Hfrom Hmin]. unfold nearest_vertex_step in H.
  apply bindR_Ok in H as (v & Hv & H).
  destruct (Z.ltb_spec v 0) as [Hneg | Hpos].
  { injection H as <-. split.
    - destruct Hfrom as [-> | (lv & v0 & Hlv & Hs)]; [left; reflexivity |].
      right. exists lv, v0. split; [lia | exact Hs].
    - intros lv v0 dist Hlv Hs.
      destruct (Z.eq_dec lv k) as [-> | Hne]; [| apply (Hmin lv v0); [lia | exact Hs]].
      destruct Hs as (_ & Hv0 & Hv0' & _). rewrite Hv in Hv0. injection Hv0 as <-. lia. }
  apply bindR_Ok in H as (x & Hx & H).
  apply bindR_Ok in H as (y & Hy & H).
  assert (Hslot : slot_distance distance2 d p t k v (distance2 x y)).
  { split; [exact Hk |]. split; [exact Hv |]. split; [exact Hpos |].
    exists x, y. repeat split; assumption. }
  destruct (distance2 x y <? fst best)%float eqn:Hlt; injection H as <-.
  - split.
    + right. exists k, v. split; [lia |]. split; [exact Hslot |].
      split; [reflexivity |]. cbn [fst].
      destruct Hfrom as [-> | (lv & v0 & _ & _ & _ & Hfar)]; [exact Hlt |].
      exact (ltb_trans _ _ _ Hlt Hfar).
    + intros lv v0 dist Hlv Hs. cbn [fst].
      destruct (Z.eq_dec lv k) as [-> | Hne].
      * destruct (slot_distance_unique _ _ _ _ _ _ _ _ Hslot Hs) as [_ ->].
        apply ltb_irrefl.
      * destruct (dist <? distance2 x y)%float eqn:E; [| reflexivity].
        rewrite <- (Hmin lv v0 dist); [| lia | exact Hs].
        symmetry. exact (ltb_trans _ _ _ E Hlt).
  - split.
    + destruct Hfrom as [-> | (lv & v0 & Hlv & Hs)]; [left; reflexivity |].
      right. exists lv, v0. split; [lia | exact Hs].
    + intros lv v0 dist Hlv Hs.
      destruct (Z.eq_dec lv k) as [-> | Hne]; [| apply (Hmin lv v0); [lia | exact Hs]].
      destruct (slot_distance_unique _ _ _ _ _ _ _ _ Hslot Hs) as [_ ->]. exact Hlt.
Qed.

(** X10.  [nearest_vertex] on an object that is not weighted: it locates
    the point from no hint; where [locate] answers no cell or a virtual
    cell, the result is that of the linear search of the base class;
    otherwise the result is picked among the four vertices of the located
    cell only: it is the vertex of a slot of that cell whose squared
    distance is below [1e30] and that no slot of the cell beats, or
    [index_t(-1)] where no slot of the cell has a squared distance below
    [1e30]. *)
Theorem nearest_vertex_among_cell_vertices (fuel : nat) (p : double_ptr)
    (rng rng' : nat) (d : Delaunay3d) (r : Z) :
  weighted_ d = false ->
  nearest_vertex random_int32 Delaunay_nearest_vertex distance2 fuel p rng d
  = Ok (r, rng') ->
  exists (t : Z) (orient : orient_slots),
    locate random_int32 d fuel p NO_TETRAHEDRON (replicate 4 None) rng
    = Ok (t, orient, rng') /\
    (((t = NO_TETRAHEDRON \/ tet_is_virtual d t = Ok true) /\
      Delaunay_nearest_vertex d p = Ok r) \/
     (t <> NO_TETRAHEDRON /\ tet_is_virtual d t = Ok false /\
      ((r = NO_TETRAHEDRON /\
        forall (lv v : Z) (dist : float),
          slot_distance distance2 d p t lv v dist ->
          (dist <? far_away)%float = false) \/
       (exists (lv v : Z) (dist : float),
          slot_distance distance2 d p t lv v dist /\
          r = index_t_of v /\
          (dist <? far_away)%float = true /\
          forall (lv' v' : Z) (dist' : float),
            slot_distance distance2 d p t lv' v' dist' ->
            (dist' <? dist)%float = false)))).
Proof.
  intros Hw H. unfold nearest_vertex in H. rewrite Hw in H.
  apply bindR_Ok in H as ([[t orient] rng1] & Hloc & H). cbn [fst] in H.
  apply bindR_Ok in H as (outside & Hout & H).
  exists t, orient.
  destruct outside.
  - apply bindR_Ok in H as (r0 & Hr0 & H). injection H as <- <-.
    split; [exact Hloc |]. left. split; [| exact Hr0].
    destruct (Z.eqb_spec t NO_TETRAHEDRON) as [-> | _]; [left; reflexivity |].
    right. exact Hout.
  - destruct (Z.eqb_spec t NO_TETRAHEDRON) as [-> | Hne]; [discriminate |].
    apply bindR_Ok in H as (b0 & H0 & H).
    apply bindR_Ok in H as (b1 & H1 & H).
    apply bindR_Ok in H as (b2 & H2 & H).
    apply bindR_Ok in H as (b3 & H3 & H). injection H as <- <-.
    split; [exact Hloc |]. right. split; [exact Hne |]. split; [exact Hout |].
    assert (I0 : nearest_so_far distance2 d p t 0 (far_away, NO_TETRAHEDRON)).
    { split; [left; reflexivity |].
      intros lv v dist Hlv (Hr & _). lia. }
    apply (nearest_vertex_step_spec _ _ _ 0 _ _ ltac:(lia) H0) in I0.
    apply (nearest_vertex_step_spec _ _ _ 1 _ _ ltac:(lia) H1) in I0.
    apply (nearest_vertex_step_spec _ _ _ 2 _ _ ltac:(lia) H2) in I0.
    apply (nearest_vertex_step_spec _ _ _ 3 _ _ ltac:(lia) H3) in I0.
    destruct I0 as [Hfrom Hmin].
    assert (Hall : forall (lv v : Z) (dist : float),
               slot_distance distance2 d p t lv v dist ->
               (dist <? fst b3)%float = false).
    { intros lv v dist Hs. apply (Hmin lv v); [| exact Hs].
      destruct Hs as (Hr & _). lia. }
    destruct Hfrom as [-> | (lv & v & _ & Hs & Hr & Hfar)].
    + left. split; [reflexivity |]. exact Hall.
    + right. exists lv, v, (fst b3).
      split; [exact Hs |]. split; [exact Hr |]. split; [exact Hfar | exact Hall].
Qed.

End NearestVertex.

(** The cell that the loop "find a tetrahedron randomly" ends with is the
    hint it was given, or a cell of the store that does not read free. *)
Lemma random_hint_accepted (random_int32 : nat -> Z) (d : Delaunay3d) (fuel : nat) :
  forall (hint : Z) (rng : nat) (h : Z) (rng' : nat),
    random_hint random_int32 d fuel hint rng = Ok (h, rng') ->
    (h = hint /\ hint <> NO_TETRAHEDRON) \/
    (0 <= h < max_t d /\ tet_is_free d h = Ok false).
Proof.
  induction fuel as [| fuel IH]; intros hint rng h rng' H; cbn [random_hint] in H;
    destruct (Z.eqb_spec hint NO_TETRAHEDRON) as [E | E]; cbn [negb] in H;
    try (injection H as <- <-; left; split; [reflexivity | exact E]).
  - discriminate.
  - destruct (Z.eqb_spec (max_t d) 0) as [? | Hm]; [discriminate |].
    apply bindR_Ok in H as (free & Hfree & H).
    apply IH in H. destruct H as [[-> Hne] | H]; [| right; exact H].
    destruct free; [contradiction Hne; reflexivity |].
    right. split; [| exact Hfree].
    apply Z.mod_pos_bound. unfold max_t in *. lia.
Qed.

(** [locate] from no hint answers only after a walk that started from a
    cell that does not read free and whose first vertex slot is in the
    store. *)
Lemma locate_needs_start (random_int32 : nat -> Z) (d : Delaunay3d) (fuel : nat)
    (p : double_ptr) (orient : orient_slots) (rng : nat)
    (res : Z * orient_slots * nat) :
  locate random_int32 d fuel p NO_TETRAHEDRON orient rng = Ok res ->
  exists (h : Z) (rngh : nat),
    random_hint random_int32 d fuel NO_TETRAHEDRON rng = Ok (h, rngh) /\
    0 <= h < max_t d /\ tet_is_free d h = Ok false /\
    exists v : Z, tet_vertex d h 0 = Ok v.
Proof.
  intros H. unfold locate in H. apply bindR_Ok in H as (w & H & _).
  unfold locate_start in H. apply bindR_Ok in H as ([hint1 rng1] & H & _).
  unfold locate_inexact in H. apply bindR_Ok in H as ([h rngh] & Hrh & H).
  apply bindR_Ok in H as (h' & Hs & _).
  exists h, rngh. split; [exact Hrh |].
  destruct (random_hint_accepted _ _ _ _ _ _ _ Hrh) as [[_ Hne] | [Hr Hfree]];
    [contradiction Hne; reflexivity |].
  split; [exact Hr |]. split; [exact Hfree |].
  unfold start_from_real in Hs. apply bindR_Ok in Hs as (virt & Hv & _).
  unfold tet_is_virtual in Hv. apply bindR_Ok in Hv as (v0 & Hv0 & _).
  exists v0. exact Hv0.
Qed.

(** How a word of [cell_next_] reads. *)
Lemma tet_is_free_small (d : Delaunay3d) (t w : Z) :
  zth (cell_next_ d) t = Some w -> 0 <= w < 2 ^ 31 -> tet_is_free d t = Ok true.
Proof.
  intros Hw Hr. unfold tet_is_free, tet_is_in_list, tet_next. rewrite Hw.
  cbn [of_option bindR]. rewrite land_flag_small by exact Hr. reflexivity.
Qed.


Lemma tet_vertex_out_of_store (d : Delaunay3d) (nb t : Z) :
  Z.of_nat (length (cell_to_v_store_ d)) = 4 * nb ->
  nb <= t < 2 ^ 30 -> tet_vertex d t 0 = Fault.
Proof.
  intros Hlen Ht. unfold tet_vertex, index_t_of. rewrite Z.mod_small by lia.
  rewrite zth_None by lia. reflexivity.
Qed.

Lemma tet_vertex_in_store (d : Delaunay3d) (nb t v : Z) :
  Z.of_nat (length (cell_to_v_store_ d)) = 4 * nb ->
  0 <= t < 2 ^ 30 -> tet_vertex d t 0 = Ok v -> t < nb.
Proof.
  intros Hlen Ht Hv. destruct (Z.lt_ge_cases t nb) as [? | Hge]; [assumption |].
  rewrite (tet_vertex_out_of_store d nb t) in Hv by lia. discriminate.
Qed.


Section QueriesAfterCompression.

Variable random_int32 : nat -> Z.
Variable Delaunay_nearest_vertex : Delaunay3d -> double_ptr -> result Z.
Variable distance2 : point -> point -> float.

Lemma nearest_vertex_locates (fuel : nat) (p : double_ptr) (rng : nat)
    (d : Delaunay3d) (res : Z * nat) :
  weighted_ d = false ->
  nearest_vertex random_int32 Delaunay_nearest_vertex distance2 fuel p rng d
  = Ok res ->
  exists res' : Z * orient_slots * nat,
    locate random_int32 d fuel p NO_TETRAHEDRON (replicate 4 None) rng = Ok res'.
Proof.
  intros Hw H. unfold nearest_vertex in H. rewrite Hw in H.
  apply bindR_Ok in H as (res' & H & _). exists res'. exact H.
Qed.


End QueriesAfterCompression.

Lemma partition_words_write (nb : Z) (d1 x x' : Delaunay3d) (f i f' i' c w : Z)
    (u : unit) :
  partition_words nb d1 x f i ->
  set_tet_next c w x = Ok (u, x') ->
  0 <= c < nb -> 0 <= w < nb -> 0 <= f' <= nb -> -1 <= i' < nb ->
  (forall j : Z, 0 <= j < f' \/ i' < j < nb -> (0 <= j < f \/ i < j < nb) \/ j = c) ->
  partition_words nb d1 x' f' i'.
Proof.
  intros (_ & _ & (Hw & Ln & Lv & Hhigh) & Hlow) Hset Hc Hwr Hf' Hi' Hcov.
  apply set_tet_next_spec in Hset as (Hr & -> & _ & _).
  split; [exact Hf' |]. split; [exact Hi' |]. split.
  - split; [exact Hw |]. cbn [cell_next_ set_cell_next cell_to_v_store_].
    split; [rewrite length_insert; exact Ln |]. split; [exact Lv |].
    intros j Hj. rewrite zth_insert_ne by lia. apply Hhigh. exact Hj.
  - intros j Hj. cbn [cell_next_ set_cell_next].
    destruct (Z.eq_dec j c) as [-> | Hne].
    + exists w. split; [| exact Hwr]. apply zth_insert_eq. unfold max_t in Hr. lia.
    + rewrite zth_insert_ne by lia. apply Hlow.
      destruct (Hcov j Hj) as [H | H]; [exact H | contradiction].
Qed.

Lemma partition_words_frame (nb : Z) (d1 x x' : Delaunay3d) (f i : Z) :
  partition_words nb d1 x f i ->
  cell_next_ x' = cell_next_ x -> weighted_ x' = weighted_ x ->
  length (cell_to_v_store_ x') = length (cell_to_v_store_ x) ->
  partition_words nb d1 x' f i.
Proof.
  intros (Hf & Hi & (Hw & Ln & Lv & Hhigh) & Hlow) En Ew Ev.
  unfold partition_words, query_frame. rewrite En, Ew, Ev.
  split; [exact Hf |]. split; [exact Hi |]. split; [| exact Hlow].
  split; [exact Hw |]. split; [exact Ln |]. split; [exact Lv | exact Hhigh].
Qed.

Lemma tet_is_finite_in_store (d : Delaunay3d) (nb t : Z) (b : bool) :
  Z.of_nat (length (cell_to_v_store_ d)) = 4 * nb ->
  0 <= t < 2 ^ 30 -> tet_is_finite d t = Ok b -> t < nb.
Proof.
  intros Hlen Ht H. unfold tet_is_finite in H. apply bindR_Ok in H as (virt & H & _).
  unfold tet_is_virtual in H. apply bindR_Ok in H as (v0 & H & _).
  exact (tet_vertex_in_store d nb t v0 Hlen Ht H).
Qed.

Lemma tet_is_finite_wrapped (d : Delaunay3d) (nb : Z) :
  Z.of_nat (length (cell_to_v_store_ d)) = 4 * nb -> nb < 2 ^ 30 ->
  tet_is_finite d (index_t_of (-1)) = Fault.
Proof.
  intros Hlen Hnb. unfold tet_is_finite, tet_is_virtual, tet_vertex.
  change (index_t_of (4 * index_t_of (-1) + 0)) with (2 ^ 32 - 4).
  rewrite zth_None by lia. reflexivity.
Qed.

Lemma swap_cells_length (store store' : list Z) (a b : Z) :
  swap_cells store a b = Ok store' -> length store' = length store.
Proof.
  assert (S1 : forall (l : Z) (s s' : list Z),
             (let+ x := of_option (zth s (index_t_of (4 * a + l))) in
              let+ y := of_option (zth s (index_t_of (4 * b + l))) in
              let+ s := zset s (index_t_of (4 * a + l)) y in
              zset s (index_t_of (4 * b + l)) x) = Ok s' ->
             length s' = length s).
  { intros l s s' H.
    apply bindR_Ok in H as (x & _ & H). apply bindR_Ok in H as (y & _ & H).
    apply bindR_Ok in H as (s1 & H1 & H).
    apply zset_length in H1 as [H1 _]. apply zset_length in H as [H _]. congruence. }
  unfold swap_cells. cbv beta zeta. intros H.
  apply bindR_Ok in H as (s0 & H0 & H). apply S1 in H0.
  apply bindR_Ok in H as (s1 & H1 & H). apply S1 in H1.
  apply bindR_Ok in H as (s2 & H2 & H). apply S1 in H2.
  apply S1 in H. congruence.
Qed.

Section PartitionWords.

Variables (nb : Z) (d1 : Delaunay3d).
Hypothesis Hnb : nb < 2 ^ 30.

Lemma advance_finite_words (i : Z) (fuel : nat) :
  forall (f : Z) (x : Delaunay3d) (f' : Z) (x' : Delaunay3d),
    partition_words nb d1 x f i ->
    advance_finite fuel f x = Ok (f', x') ->
    partition_words nb d1 x' f' i /\ f' < nb.
Proof.
  induction fuel as [| fuel IH]; intros f x f' x' Hpw H; cbn [advance_finite] in H.
  - discriminate.
  - apply bindM_Ok in H as (fin & x1 & Hfin & H).
    apply const_Ok in Hfin as (Hfin & ->).
    assert (Hf : f < nb).
    { destruct Hpw as (Hf & _ & (_ & _ & Lv & _) & _).
      apply (tet_is_finite_in_store x nb f fin Lv); [lia | exact Hfin]. }
    destruct fin.
    + apply bindM_Ok in H as ([] & x2 & Hset & H).
      apply bindM_Ok in H as ([] & x3 & Hmod & H).
      unfold modify in Hmod. injection Hmod as <-.
      assert (Hf0 : 0 <= f) by (destruct Hpw as (Hf0 & _); lia).
      rewrite index_t_of_small in H by lia.
      refine (IH (f + 1) _ f' x' _ H).
      apply (partition_words_frame nb d1 x2); try reflexivity.
      apply (partition_words_write nb d1 x x2 f i (f + 1) i f f tt Hpw Hset);
        try lia.
      destruct Hpw as (_ & Hi & _). lia.
    + injection H as <- <-. split; [exact Hpw | exact Hf].
Qed.

Lemma retreat_infinite_words (f : Z) (fuel : nat) :
  forall (i : Z) (x : Delaunay3d) (p : Z) (x' : Delaunay3d),
    partition_words nb d1 x f i ->
    retreat_infinite fuel (index_t_of i) x = Ok (p, x') ->
    0 <= p /\ partition_words nb d1 x' f p.
Proof.
  induction fuel as [| fuel IH]; intros i x p x' Hpw H; cbn [retreat_infinite] in H.
  - discriminate.
  - apply bindM_Ok in H as (fin & x1 & Hfin & H).
    apply const_Ok in Hfin as (Hfin & ->).
    assert (Hi : 0 <= i).
    { destruct Hpw as (_ & Hi & (_ & _ & Lv & _) & _).
      destruct (Z.eq_dec i (-1)) as [-> | ?]; [| lia].
      rewrite (tet_is_finite_wrapped x nb Lv Hnb) in Hfin. discriminate. }
    assert (Hi' : i < nb) by (destruct Hpw as (_ & Hi' & _); lia).
    rewrite (index_t_of_small i) in H, Hfin by lia.
    destruct fin; cbn [negb] in H.
    + injection H as <- <-. split; [exact Hi | exact Hpw].
    + apply bindM_Ok in H as ([] & x2 & Hset & H).
      refine (IH (i - 1) _ p x' _ H).
      apply (partition_words_write nb d1 x x2 f i f (i - 1) i i tt Hpw Hset);
        try lia.
      destruct Hpw as (Hf & _). lia.
Qed.

Lemma partition_loop_words (fuel : nat) :
  forall (f i : Z) (x x' : Delaunay3d),
    partition_words nb d1 x f i ->
    partition_loop fuel f (index_t_of i) x = Ok (tt, x') ->
    query_frame nb d1 x' /\
    forall j : Z, 0 <= j < nb ->
      exists w : Z, zth (cell_next_ x') j = Some w /\ 0 <= w < nb.
Proof.
  induction fuel as [| fuel IH]; intros f i x x' Hpw H; cbn [partition_loop] in H.
  - discriminate.
  - apply bindM_Ok in H as (f1 & x1 & Hadv & H).
    apply (advance_finite_words i fuel f x f1 x1 Hpw) in Hadv as [Hpw1 Hf1].
    apply bindM_Ok in H as (i1 & x2 & Hret & H).
    apply (retreat_infinite_words f1 fuel i x1 i1 x2 Hpw1) in Hret as [Hi1 Hpw2].
    destruct (Z.gtb_spec f1 i1) as [Hgt | Hle].
    + injection H as <-. destruct Hpw2 as (_ & _ & Hq & Hlow).
      split; [exact Hq |]. intros j Hj. apply Hlow. lia.
    + assert (Hf0 : 0 <= f1) by (destruct Hpw2 as (Hf0 & _); lia).
      assert (Hi2 : i1 < nb) by (destruct Hpw2 as (_ & Hi2 & _); lia).
      apply bindM_Ok in H as ([] & x3 & Hset1 & H).
      apply bindM_Ok in H as ([] & x4 & Hset2 & H).
      apply bindM_Ok in H as ([] & x5 & Hmod & H).
      unfold modify in Hmod. injection Hmod as <-.
      apply bindM_Ok in H as ([] & x6 & Hswap & H).
      apply bindR_Ok in Hswap as (sc & Hsc & Hswap).
      apply bindR_Ok in Hswap as (sv & Hsv & Hswap).
      injection Hswap as <-.
      rewrite (index_t_of_small (f1 + 1)) in H by lia.
      refine (IH (f1 + 1) (i1 - 1) _ x' _ H).
      apply (partition_words_frame nb d1 x4); try reflexivity.
      * apply (partition_words_write nb d1 x3 x4 (f1 + 1) i1 (f1 + 1) (i1 - 1)
                 i1 f1 tt); try lia; [| exact Hset2].
        apply (partition_words_write nb d1 x2 x3 f1 i1 (f1 + 1) i1 f1 i1 tt Hpw2 Hset1);
          lia.
      * cbn. apply swap_cells_length in Hsv. exact Hsv.
Qed.

End PartitionWords.

Lemma remap_loop_query_frame (n : nat) :
  forall (i : Z) (x x' : Delaunay3d),
    remap_loop n i x = Ok (tt, x') ->
    cell_next_ x' = cell_next_ x /\ weighted_ x' = weighted_ x /\
    cell_to_v_store_ x' = cell_to_v_store_ x.
Proof.
  induction n as [| n IH]; intros i x x' H; cbn [remap_loop] in H.
  - injection H as <-. repeat split.
  - apply bindM_Ok in H as (t & x1 & Ht & H). apply const_Ok in Ht as (_ & ->).
    apply bindM_Ok in H as (t' & x1 & Ht' & H). apply const_Ok in Ht' as (_ & ->).
    apply bindM_Ok in H as ([] & x1 & Hset & H).
    apply bindR_Ok in Hset as (s & _ & Hset). injection Hset as <-.
    apply IH in H as (E1 & E2 & E3). rewrite E1, E2, E3. repeat split.
Qed.

(** With the infinite cells kept, every word of [cell_next_] that the
    compression leaves below [nb_cells_] is the index of a cell, and the
    words beyond are those of [old2new]. *)
Lemma compress_infinite_words (fuel : nat) (d d' : Delaunay3d) :
  four_slots d -> neighbours_in_range d -> keep_infinite_ d = true ->
  compress fuel d = Ok (tt, d') ->
  nb_cells_ d' = Z.of_nat (length (kept_cells d)) /\
  weighted_ d' = weighted_ d /\
  max_t d' = max_t d /\
  Z.of_nat (length (cell_to_v_store_ d')) = 4 * nb_cells_ d' /\
  (forall j : Z, 0 <= j < nb_cells_ d' ->
     exists w : Z, zth (cell_next_ d') j = Some w /\ 0 <= w < nb_cells_ d') /\
  (forall j : Z, nb_cells_ d' <= j < max_t d ->
     zth (cell_next_ d') j = Some (old2new_word d j)).
Proof.
  intros Hfour Hrange Hki H.
  destruct (compress_phase1
              (fun nb_tets =>
                 let* keep_infinite := const (fun d => Ok (keep_infinite_ d)) in
                 let* _ :=
                   (if keep_infinite then
                      let* _ := modify (fun d => set_nb_finite_cells d 0) in
                      let* _ := partition_loop fuel 0 (index_t_of (nb_tets - 1)) in
                      remap_loop (Z.to_nat (4 * nb_tets)) 0
                    else retM tt) in
                 modify (fun d => set_nb_cells d nb_tets))
              d Hfour Hrange) as (d1 & Hrun & Hc).
  unfold compress in H. rewrite Hrun in H. clear Hrun.
  destruct Hc as (Hin & Hwords & Hki1 & Lv & _ & Ln & _).
  set (NB := Z.of_nat (length (kept_cells d))) in *.
  assert (HNB : NB <= max_t d) by (apply kept_below_length; unfold max_t; lia).
  assert (Hs : max_t d < 2 ^ 30) by (destruct Hfour as (Hs & _); exact Hs).
  apply bindM_Ok in H as (ki & x0 & Hk & H). apply const_Ok in Hk as (Hk & ->).
  rewrite Hki1, Hki in Hk. injection Hk as <-.
  apply bindM_Ok in H as ([] & x4 & H & Hend).
  unfold modify in Hend. injection Hend as <-.
  apply bindM_Ok in H as ([] & x1 & Hmod & H).
  unfold modify in Hmod. injection Hmod as <-.
  apply bindM_Ok in H as ([] & x2 & Hpart & H).
  apply remap_loop_query_frame in H as (En & Ew & Ev).
  apply (partition_loop_words NB (set_nb_finite_cells d1 0) ltac:(lia) fuel 0 (NB - 1))
    in Hpart.
  - destruct Hpart as ((Hw & Ln2 & Lv2 & Hhigh) & Hlow).
    cbn [nb_cells_ set_nb_cells weighted_ cell_to_v_store_ cell_next_].
    split; [reflexivity |].
    split.
    { rewrite Ew, Hw. cbn. unfold input_of in Hin.
      injection Hin as _ _ _ _ _ _ _ _ E _ _. exact E. }
    split.
    { unfold max_t. cbn. rewrite En, Ln2. cbn. rewrite Ln. reflexivity. }
    split; [rewrite Ev; exact Lv2 |].
    split.
    + intros j Hj. rewrite En. apply Hlow. exact Hj.
    + intros j Hj. rewrite En, Hhigh by lia. cbn. apply Hwords. lia.
  - split; [unfold NB; lia |]. split; [unfold NB; lia |]. split.
    + split; [reflexivity |]. split; [reflexivity |]. split; [exact Lv |].
      intros j _. reflexivity.
    + intros j Hj. lia.
Qed.

Section NoQuery.

Variable random_int32 : nat -> Z.
Variable Delaunay_nearest_vertex : Delaunay3d -> double_ptr -> result Z.
Variable distance2 : point -> point -> float.

(** X12.  On an object that keeps its infinite cells, the compression
    leaves in [cell_next_] an index of a cell for every cell of the
    result: [tet_is_free] holds of all the cells that the object has.  The
    draw of a start refuses them all, and what it accepts is beyond the
    stores: [locate] from no hint, and [nearest_vertex] with it on an
    object that is not weighted, never return. *)
Theorem no_query_after_compress_with_infinite_cells (fuel : nat)
    (d d' : Delaunay3d) :
  four_slots d -> neighbours_in_range d ->
  keep_infinite_ d = true -> weighted_ d = false ->
  compress fuel d = Ok (tt, d') ->
  (forall t : Z, 0 <= t < nb_cells_ d' -> tet_is_free d' t = Ok true) /\
  (forall (fuel' : nat) (p : double_ptr) (orient : orient_slots) (rng : nat)
          (res : Z * orient_slots * nat),
     locate random_int32 d' fuel' p NO_TETRAHEDRON orient rng <> Ok res) /\
  (forall (fuel' : nat) (p : double_ptr) (rng : nat) (res : Z * nat),
     nearest_vertex random_int32 Delaunay_nearest_vertex distance2 fuel' p rng d'
     <> Ok res).
Proof.
  intros Hfour Hrange Hki Hw H.
  destruct (compress_infinite_words fuel d d' Hfour Hrange Hki H)
    as (Hnb & Hw' & Hmax & Lv & Hlow & Hhigh).
  assert (Hs : max_t d < 2 ^ 30) by (destruct Hfour as (Hs & _); exact Hs).
  assert (HNB : nb_cells_ d' <= max_t d).
  { rewrite Hnb. apply kept_below_length. unfold max_t. lia. }
  assert (Hfree : forall t : Z, 0 <= t < nb_cells_ d' -> tet_is_free d' t = Ok true).
  { intros t Ht. destruct (Hlow t Ht) as (w & Ew & Hr).
    apply (tet_is_free_small d' t w Ew). lia. }
  assert (Hloc : forall (fuel' : nat) (p : double_ptr) (orient : orient_slots)
                        (rng : nat) (res : Z * orient_slots * nat),
             locate random_int32 d' fuel' p NO_TETRAHEDRON orient rng <> Ok res).
  { intros fuel' p orient rng res Hl.
    destruct (locate_needs_start _ _ _ _ _ _ _ Hl)
      as (h & rngh & _ & Hr & Hf & v & Hv).
    rewrite Hmax in Hr.
    assert (Hh : h < nb_cells_ d')
      by (apply (tet_vertex_in_store d' (nb_cells_ d') h v Lv); [lia | exact Hv]).
    rewrite Hfree in Hf by lia. discriminate. }
  split; [exact Hfree |]. split; [exact Hloc |].
  intros fuel' p rng res Hq.
  assert (Hw2 : weighted_ d' = false) by (rewrite Hw'; exact Hw).
  destruct (nearest_vertex_locates _ _ _ _ _ _ _ _ Hw2 Hq) as (res' & Hl).
  exact (Hloc _ _ _ _ _ Hl).
Qed.

End NoQuery.

(** ** Sample runs of the queries *)

Lemma neighbours_in_rangeb_sound (d : Delaunay3d) :
  neighbours_in_rangeb d = true -> neighbours_in_range d.
Proof.
  intros H c Hc l Hl. unfold neighbours_in_rangeb in H.
  apply list_elem_of_In in Hc.
  pose proof (proj1 (forallb_forall _ _) H c Hc) as Hcell.
  assert (Hin : In l [0; 1; 2; 3]).
  { assert (l = 0 \/ l = 1 \/ l = 2 \/ l = 3) as [-> | [-> | [-> | ->]]] by lia;
      cbn; tauto. }
  pose proof (proj1 (forallb_forall _ _) Hcell l Hin) as Hslot.
  cbv beta in Hslot.
  destruct (tet_adjacent d c l) as [a | |]; try discriminate.
  exists a. split; [reflexivity |].
  apply andb_true_iff in Hslot as [E1 E2]. lia.
Qed.

Lemma nearest_vertex_among_cell_vertices_witness :
  exists (t : Z) (orient : orient_slots),
    locate sample_random first_mesh 10 (elsewhere near_corner_2) NO_TETRAHEDRON
           (replicate 4 None) 0
    = Ok (t, orient, 2%nat) /\
    (((t = NO_TETRAHEDRON \/ tet_is_virtual first_mesh t = Ok true) /\
      no_search first_mesh (elsewhere near_corner_2) = Ok 2) \/
     (t <> NO_TETRAHEDRON /\ tet_is_virtual first_mesh t = Ok false /\
      ((2 = NO_TETRAHEDRON /\
        forall (lv v : Z) (dist : float),
          slot_distance sample_distance2 first_mesh (elsewhere near_corner_2)
                        t lv v dist ->
          (dist <? far_away)%float = false) \/
       (exists (lv v : Z) (dist : float),
          slot_distance sample_distance2 first_mesh (elsewhere near_corner_2)
                        t lv v dist /\
          2 = index_t_of v /\
          (dist <? far_away)%float = true /\
          forall (lv' v' : Z) (dist' : float),
            slot_distance sample_distance2 first_mesh (elsewhere near_corner_2)
                          t lv' v' dist' ->
            (dist' <? dist)%float = false)))).
Proof.
  apply (nearest_vertex_among_cell_vertices sample_random no_search
           sample_distance2 10 (elsewhere near_corner_2) 0 2 first_mesh 2).
  - reflexivity.
  - vm_compute. reflexivity.
Defined.


Lemma no_query_after_compress_with_infinite_cells_witness :
  exists d' : Delaunay3d,
    compress 20 five_points_mesh_with_infinite = Ok (tt, d') /\
    (forall t : Z, 0 <= t < nb_cells_ d' -> tet_is_free d' t = Ok true) /\
    (forall (fuel' : nat) (p : double_ptr) (orient : orient_slots) (rng : nat)
            (res : Z * orient_slots * nat),
       locate sample_random d' fuel' p NO_TETRAHEDRON orient rng <> Ok res) /\
    (forall (fuel' : nat) (p : double_ptr) (rng : nat) (res : Z * nat),
       nearest_vertex sample_random no_search sample_distance2 fuel' p rng d'
       <> Ok res).
Proof.
  eexists. split; [vm_compute; reflexivity |].
  apply (no_query_after_compress_with_infinite_cells sample_random no_search
           sample_distance2 20 five_points_mesh_with_infinite).
  - split; [reflexivity |]. split; reflexivity.
  - apply neighbours_in_rangeb_sound. vm_compute. reflexivity.
  - reflexivity.
  - reflexivity.
  - vm_compute. reflexivity.
Defined.

(** ** The finite cells first *)

Lemma tet_is_finite_agree (x y : Delaunay3d) (j w : Z) :
  0 <= j < 2 ^ 30 -> 0 <= w < 2 ^ 30 ->
  (forall l : Z, 0 <= l < 4 ->
     zth (cell_to_v_store_ x) (4 * j + l) = zth (cell_to_v_store_ y) (4 * w + l)) ->
  tet_is_finite x j = tet_is_finite y w.
Proof.
  intros Hj Hw H. unfold tet_is_finite, tet_is_virtual.
  rewrite !tet_vertex_zth by lia.
  rewrite (H 0), (H 1), (H 2), (H 3) by lia. reflexivity.
Qed.

Lemma tet_is_finite_same_store (x y : Delaunay3d) (j : Z) :
  cell_to_v_store_ x = cell_to_v_store_ y -> tet_is_finite x j = tet_is_finite y j.
Proof.
  intros H. unfold tet_is_finite, tet_is_virtual, tet_vertex. rewrite H. reflexivity.
Qed.

Lemma tet_is_finite_read (x : Delaunay3d) (nb j : Z) :
  Z.of_nat (length (cell_to_v_store_ x)) = 4 * nb -> nb < 2 ^ 30 ->
  0 <= j < nb -> exists b : bool, tet_is_finite x j = Ok b.
Proof.
  intros Hlen Hnb Hj. unfold tet_is_finite, tet_is_virtual.
  rewrite !tet_vertex_zth by lia.
  destruct (zth_is_Some (cell_to_v_store_ x) (4 * j + 0)) as [v0 E0]; [lia |].
  destruct (zth_is_Some (cell_to_v_store_ x) (4 * j + 1)) as [v1 E1]; [lia |].
  destruct (zth_is_Some (cell_to_v_store_ x) (4 * j + 2)) as [v2 E2]; [lia |].
  destruct (zth_is_Some (cell_to_v_store_ x) (4 * j + 3)) as [v3 E3]; [lia |].
  rewrite E0, E1, E2, E3. cbn. eexists. reflexivity.
Qed.

(** Exchanging two slots of a store. *)
Lemma swap_slot_spec (s : list Z) (a b : Z) :
  0 <= a < Z.of_nat (length s) -> 0 <= b < Z.of_nat (length s) -> a <> b ->
  exists s' : list Z,
    (let+ x := of_option (zth s a) in
     let+ y := of_option (zth s b) in
     let+ s := zset s a y in
     zset s b x) = Ok s' /\
    length s' = length s /\
    forall k : Z,
      zth s' k = if k =? a then zth s b else if k =? b then zth s a else zth s k.
Proof.
  intros Ha Hb Hne.
  destruct (zth_is_Some s a) as [x Ex]; [lia |].
  destruct (zth_is_Some s b) as [y Ey]; [lia |].
  rewrite Ex, Ey. cbn [of_option bindR].
  rewrite zset_Ok by lia. cbn [bindR].
  rewrite zset_Ok by (rewrite length_insert; lia).
  eexists. split; [reflexivity |]. split; [rewrite !length_insert; reflexivity |].
  intros k.
  destruct (Z.eqb_spec k a) as [-> | Na].
  - rewrite zth_insert_ne by lia. rewrite zth_insert_eq by lia. reflexivity.
  - destruct (Z.eqb_spec k b) as [-> | Nb].
    + rewrite zth_insert_eq by (rewrite length_insert; lia). reflexivity.
    + rewrite !zth_insert_ne by lia. reflexivity.
Qed.

(** [swap_cells] exchanges the four slots of two cells and nothing else. *)
Lemma swap_cells_spec (s : list Z) (nb a b : Z) :
  Z.of_nat (length s) = 4 * nb -> nb < 2 ^ 30 ->
  0 <= a < nb -> 0 <= b < nb -> a <> b ->
  exists s' : list Z,
    swap_cells s a b = Ok s' /\
    length s' = length s /\
    (forall l : Z, 0 <= l < 4 ->
       zth s' (4 * a + l) = zth s (4 * b + l) /\
       zth s' (4 * b + l) = zth s (4 * a + l)) /\
    (forall (j l : Z), j <> a -> j <> b -> 0 <= l < 4 ->
       zth s' (4 * j + l) = zth s (4 * j + l)).
Proof.
  intros Hlen Hnb Ha Hb Hne. unfold swap_cells. cbv beta zeta.
  rewrite !index_t_of_small by lia.
  destruct (swap_slot_spec s (4 * a + 0) (4 * b + 0)) as (s0 & E0 & L0 & K0);
    [lia | lia | lia |].
  rewrite E0. cbn [bindR].
  destruct (swap_slot_spec s0 (4 * a + 1) (4 * b + 1)) as (s1 & E1 & L1 & K1);
    [lia | lia | lia |].
  rewrite E1. cbn [bindR].
  destruct (swap_slot_spec s1 (4 * a + 2) (4 * b + 2)) as (s2 & E2 & L2 & K2);
    [lia | lia | lia |].
  rewrite E2. cbn [bindR].
  destruct (swap_slot_spec s2 (4 * a + 3) (4 * b + 3)) as (s3 & E3 & L3 & K3);
    [lia | lia | lia |].
  rewrite E3.
  assert (K : forall k : Z,
            zth s3 k =
            if k =? 4 * a + 3 then zth s (4 * b + 3) else
            if k =? 4 * b + 3 then zth s (4 * a + 3) else
            if k =? 4 * a + 2 then zth s (4 * b + 2) else
            if k =? 4 * b + 2 then zth s (4 * a + 2) else
            if k =? 4 * a + 1 then zth s (4 * b + 1) else
            if k =? 4 * b + 1 then zth s (4 * a + 1) else
            if k =? 4 * a + 0 then zth s (4 * b + 0) else
            if k =? 4 * b + 0 then zth s (4 * a + 0) else zth s k).
  { intros k. rewrite K3, !K2, !K1, !K0.
    repeat match goal with
           | |- context [?u =? ?v] => destruct (Z.eqb_spec u v); try lia
           end; reflexivity. }
  exists s3. split; [reflexivity |]. split; [congruence |]. split.
  - intros l Hl. rewrite !K.
    assert (l = 0 \/ l = 1 \/ l = 2 \/ l = 3) as [-> | [-> | [-> | ->]]] by lia;
      repeat match goal with
             | |- context [?u =? ?v] => destruct (Z.eqb_spec u v); try lia
             end; split; reflexivity.
  - intros j l Hja Hjb Hl. rewrite K.
    repeat match goal with
           | |- context [?u =? ?v] => destruct (Z.eqb_spec u v); try lia
           end. reflexivity.
Qed.

Section Partition.

Variables (nb : Z) (d1 : Delaunay3d).
Hypothesis Hnb : nb < 2 ^ 30.
Hypothesis Hwords : nb <= max_t d1.

Lemma advance_finite_spec (i : Z) (fuel : nat) :
  forall (f : Z) (x : Delaunay3d) (p : Z),
    partition_inv nb d1 f i x ->
    f <= p -> p <= i + 1 -> p < nb -> tet_is_finite x p = Ok false ->
    p - f + 1 <= Z.of_nat fuel ->
    exists (f1 : Z) (x1 : Delaunay3d),
      advance_finite fuel f x = Ok (f1, x1) /\
      f <= f1 <= p /\ tet_is_finite x1 f1 = Ok false /\
      partition_inv nb d1 f1 i x1 /\
      cell_to_v_store_ x1 = cell_to_v_store_ x /\
      cell_to_cell_store_ x1 = cell_to_cell_store_ x.
Proof.
  induction fuel as [| fuel IH]; intros f x p Hinv Hfp Hpi Hpn Hp Hfuel; [lia |].
  destruct Hinv as (Hf0 & Hfi & Hin & Lv & Lc & Ln & Hnf & Hmid & Hout & Hlow & Hhigh).
  cbn [advance_finite]. unfold bindM at 1. unfold const at 1.
  destruct (tet_is_finite_read x nb f Lv Hnb ltac:(lia)) as [b Hb].
  rewrite Hb. cbn [bindR]. destruct b.
  - assert (Hne : f <> p) by (intros ->; congruence).
    assert (Hmax : 0 <= f < max_t x) by (unfold max_t in *; lia).
    unfold bindM at 1. rewrite (set_tet_next_run f f x Hmax). cbn [bindR].
    unfold bindM at 1. unfold modify at 1. cbn [bindR].
    cbn [nb_finite_cells_ set_cell_next]. rewrite Hnf.
    rewrite !index_t_of_small by lia.
    set (x2 := set_nb_finite_cells _ _).
    destruct (IH (f + 1) x2 p) as (f1 & x1 & Hrun & Hr & Hf1 & Hinv1 & Ev & Ec).
    + assert (Efin : forall j : Z, tet_is_finite x2 j = tet_is_finite x j)
        by (intros j; apply tet_is_finite_same_store; reflexivity).
      split; [lia |]. split; [lia |]. split; [lia |].
      split; [exact Lv |]. split; [exact Lc |].
      split.
      { unfold x2. cbn [cell_next_ set_cell_next set_nb_finite_cells].
        rewrite length_insert. exact Ln. }
      split; [reflexivity |].
      split; [intros j Hj; apply Hmid; lia |].
      split.
      * intros j Hj. unfold x2. cbn [cell_next_ set_cell_next set_nb_finite_cells].
        destruct (Z.eq_dec j f) as [-> | Hjf].
        -- exists f. split; [lia |].
           rewrite zth_insert_eq by (unfold max_t in Hmax; lia).
           split; [reflexivity |]. split; [reflexivity |]. apply Hmid. lia.
        -- destruct (Hout j ltac:(lia)) as (w & Hw & E1 & E2 & Ag).
           exists w. split; [lia |]. rewrite !zth_insert_ne by lia.
           split; [exact E1 |]. split; [exact E2 | exact Ag].
      * split.
        -- intros j Hj. rewrite Efin.
           destruct (Z.eq_dec j f) as [-> | Hjf]; [exact Hb |].
           apply Hlow. lia.
        -- intros j Hj. rewrite Efin. apply Hhigh. exact Hj.
    + lia.
    + lia.
    + lia.
    + rewrite <- Hp. apply tet_is_finite_same_store. reflexivity.
    + lia.
    + exists f1, x1. split; [exact Hrun |]. split; [lia |].
      split; [exact Hf1 |]. split; [exact Hinv1 |].
      split; [rewrite Ev | rewrite Ec]; reflexivity.
  - exists f, x. split; [reflexivity |]. split; [lia |]. split; [exact Hb |].
    split; [| split; reflexivity].
    repeat (split; [assumption |]). assumption.
Qed.

Lemma retreat_infinite_spec (f : Z) (fuel : nat) :
  forall (i : Z) (x : Delaunay3d) (q : Z),
    partition_inv nb d1 f i x ->
    f - 1 <= q -> 0 <= q <= i -> tet_is_finite x q = Ok true ->
    i - q + 1 <= Z.of_nat fuel ->
    exists (i1 : Z) (x1 : Delaunay3d),
      retreat_infinite fuel i x = Ok (i1, x1) /\
      q <= i1 <= i /\ tet_is_finite x1 i1 = Ok true /\
      partition_inv nb d1 f i1 x1 /\
      cell_to_v_store_ x1 = cell_to_v_store_ x /\
      cell_to_cell_store_ x1 = cell_to_cell_store_ x.
Proof.
  induction fuel as [| fuel IH]; intros i x q Hinv Hfq Hqi Hq Hfuel; [lia |].
  destruct Hinv as (Hf0 & Hfi & Hin & Lv & Lc & Ln & Hnf & Hmid & Hout & Hlow & Hhigh).
  cbn [retreat_infinite]. unfold bindM at 1. unfold const at 1.
  destruct (tet_is_finite_read x nb i Lv Hnb ltac:(lia)) as [b Hb].
  rewrite Hb. cbn [bindR]. destruct b; cbn [negb].
  - exists i, x. split; [reflexivity |]. split; [lia |]. split; [exact Hb |].
    split; [| split; reflexivity].
    repeat (split; [assumption |]). assumption.
  - assert (Hne : i <> q) by (intros ->; congruence).
    assert (Hmax : 0 <= i < max_t x) by (unfold max_t in *; lia).
    unfold bindM at 1. rewrite (set_tet_next_run i i x Hmax). cbn [bindR].
    rewrite !index_t_of_small by lia.
    set (x2 := set_cell_next _ _).
    destruct (IH (i - 1) x2 q) as (i1 & x1 & Hrun & Hr & Hi1 & Hinv1 & Ev & Ec).
    + assert (Efin : forall j : Z, tet_is_finite x2 j = tet_is_finite x j)
        by (intros j; apply tet_is_finite_same_store; reflexivity).
      split; [lia |]. split; [lia |]. split; [lia |].
      split; [exact Lv |]. split; [exact Lc |].
      split.
      { unfold x2. cbn [cell_next_ set_cell_next]. rewrite length_insert. exact Ln. }
      split; [exact Hnf |].
      split; [intros j Hj; apply Hmid; lia |].
      split.
      * intros j Hj. unfold x2. cbn [cell_next_ set_cell_next].
        destruct (Z.eq_dec j i) as [-> | Hji].
        -- exists i. split; [lia |].
           rewrite zth_insert_eq by (unfold max_t in Hmax; lia).
           split; [reflexivity |]. split; [reflexivity |]. apply Hmid. lia.
        -- destruct (Hout j ltac:(lia)) as (w & Hw & E1 & E2 & Ag).
           exists w. split; [lia |]. rewrite !zth_insert_ne by lia.
           split; [exact E1 |]. split; [exact E2 | exact Ag].
      * split; [intros j Hj; rewrite Efin; apply Hlow; exact Hj |].
        intros j Hj. rewrite Efin.
        destruct (Z.eq_dec j i) as [-> | Hji]; [exact Hb |].
        apply Hhigh. lia.
    + lia.
    + lia.
    + rewrite <- Hq. apply tet_is_finite_same_store. reflexivity.
    + lia.
    + exists i1, x1. split; [exact Hrun |]. split; [lia |].
      split; [exact Hi1 |]. split; [exact Hinv1 |].
      split; [rewrite Ev | rewrite Ec]; reflexivity.
Qed.

Lemma partition_loop_spec (fuel : nat) :
  forall (f i : Z) (x : Delaunay3d) (p q : Z),
    partition_inv nb d1 f i x ->
    f <= p -> p <= i + 1 -> p < nb -> tet_is_finite x p = Ok false ->
    f - 1 <= q -> 0 <= q <= i -> tet_is_finite x q = Ok true ->
    i - f + 3 <= Z.of_nat fuel ->
    exists (f' : Z) (x' : Delaunay3d),
      partition_loop fuel f i x = Ok (tt, x') /\
      0 < f' < nb /\ partition_inv nb d1 f' (f' - 1) x'.
Proof.
  induction fuel as [| fuel IH]; intros f i x p q Hinv Hfp Hpi Hpn Hp Hfq Hqi Hq Hfuel;
    [lia |].
  cbn [partition_loop]. unfold bindM at 1.
  pose proof (proj1 Hinv) as Hf00.
  destruct (advance_finite_spec i fuel f x p Hinv Hfp Hpi Hpn Hp ltac:(lia))
    as (f1 & x1 & Hrun1 & Hf1 & Hinf1 & Hinv1 & Ev1 & Ec1).
  rewrite Hrun1. cbn [bindR]. unfold bindM at 1.
  assert (Hq1 : exists q1 : Z,
             f1 - 1 <= q1 /\ 0 <= q1 <= i /\ tet_is_finite x1 q1 = Ok true).
  { destruct (Z.eq_dec f1 f) as [-> | Hne].
    - exists q. split; [lia |]. split; [lia |].
      rewrite <- Hq. apply tet_is_finite_same_store. exact Ev1.
    - exists (f1 - 1). split; [lia |]. split; [lia |].
      destruct Hinv1 as (_ & _ & _ & _ & _ & _ & _ & _ & _ & Hlow & _).
      apply Hlow. lia. }
  destruct Hq1 as (q1 & Hfq1 & Hqi1 & Hq1).
  destruct (retreat_infinite_spec f1 fuel i x1 q1 Hinv1 Hfq1 Hqi1 Hq1 ltac:(lia))
    as (i1 & x2 & Hrun2 & Hi1 & Hfin2 & Hinv2 & Ev2 & Ec2).
  rewrite Hrun2. cbn [bindR].
  assert (Hinf2 : tet_is_finite x2 f1 = Ok false).
  { rewrite <- Hinf1. apply tet_is_finite_same_store. exact Ev2. }
  destruct (Z.gtb_spec f1 i1) as [Hgt | Hle].
  - exists f1, x2. split; [reflexivity |]. split; [lia |].
    replace (f1 - 1) with i1 by lia. exact Hinv2.
  - assert (Hlt : f1 < i1).
    { destruct (Z.eq_dec f1 i1) as [E | ?]; [| lia]. rewrite E in Hinf2. congruence. }
    destruct Hinv2 as (Hf0 & Hfi & Hin & Lv & Lc & Ln & Hnf & Hmid & Hout & Hlow & Hhigh).
    assert (Hmax1 : 0 <= f1 < max_t x2) by (unfold max_t in *; lia).
    unfold bindM at 1. rewrite (set_tet_next_run f1 i1 x2 Hmax1). cbn [bindR].
    set (x3 := set_cell_next x2 _).
    assert (Hmax2 : 0 <= i1 < max_t x3).
    { unfold x3, max_t. cbn [cell_next_ set_cell_next]. rewrite length_insert.
      unfold max_t in *. lia. }
    unfold bindM at 1. rewrite (set_tet_next_run i1 f1 x3 Hmax2). cbn [bindR].
    set (x4 := set_cell_next x3 _).
    unfold bindM at 1. unfold modify at 1. cbn [bindR].
    set (x5 := set_nb_finite_cells x4 _).
    destruct (swap_cells_spec (cell_to_cell_store_ x2) nb f1 i1 Lc Hnb)
      as (sc & Esc & Lsc & Hsc & Hsc'); [lia | lia | lia |].
    destruct (swap_cells_spec (cell_to_v_store_ x2) nb f1 i1 Lv Hnb)
      as (sv & Esv & Lsv & Hsv & Hsv'); [lia | lia | lia |].
    unfold bindM at 1.
    change (cell_to_cell_store_ x5) with (cell_to_cell_store_ x2).
    change (cell_to_v_store_ x5) with (cell_to_v_store_ x2).
    rewrite Esc. cbn [bindR]. rewrite Esv. cbn [bindR].
    set (x6 := set_cell_to_v_store (set_cell_to_cell_store x5 sc) sv).
    rewrite !index_t_of_small by lia.
    assert (Efin : forall j : Z, 0 <= j < nb -> j <> f1 -> j <> i1 ->
               tet_is_finite x6 j = tet_is_finite x2 j).
    { intros j Hj N1 N2. apply tet_is_finite_agree; [lia | lia |].
      intros l Hl. apply (Hsv' j l N1 N2 Hl). }
    assert (Ef1 : tet_is_finite x6 f1 = Ok true).
    { rewrite <- Hfin2. apply tet_is_finite_agree; [lia | lia |].
      intros l Hl. apply (Hsv l Hl). }
    assert (Ei1 : tet_is_finite x6 i1 = Ok false).
    { rewrite <- Hinf2. apply tet_is_finite_agree; [lia | lia |].
      intros l Hl. apply (Hsv l Hl). }
    destruct (IH (f1 + 1) (i1 - 1) x6 i1 f1) as (f' & x' & Hrun & Hf' & Hinv');
      try lia; try assumption.
    + split; [lia |]. split; [lia |]. split; [lia |].
      split; [unfold x6; cbn [cell_to_v_store_ set_cell_to_v_store]; lia |].
      split.
      { unfold x6. cbn [cell_to_cell_store_ set_cell_to_v_store set_cell_to_cell_store].
        lia. }
      split.
      { unfold x6, x5, x4, x3.
        cbn [cell_next_ set_cell_to_v_store set_cell_to_cell_store
             set_nb_finite_cells set_cell_next].
        rewrite !length_insert. exact Ln. }
      split.
      { unfold x6, x5, x4, x3.
        cbn [nb_finite_cells_ set_cell_to_v_store set_cell_to_cell_store
             set_nb_finite_cells set_cell_next].
        rewrite Hnf. apply index_t_of_small. lia. }
      split.
      { intros j Hj l Hl.
        unfold x6. cbn [cell_to_v_store_ cell_to_cell_store_ set_cell_to_v_store
                        set_cell_to_cell_store].
        rewrite (Hsv' j l) by lia. rewrite (Hsc' j l) by lia.
        apply (Hmid j); lia. }
      split.
      { intros j Hj.
        unfold x6, x5, x4, x3.
        cbn [cell_next_ cell_to_v_store_ cell_to_cell_store_ set_cell_to_v_store
             set_cell_to_cell_store set_nb_finite_cells set_cell_next].
        unfold cells_agree.
        cbn [cell_next_ cell_to_v_store_ cell_to_cell_store_ set_cell_to_v_store
             set_cell_to_cell_store set_nb_finite_cells set_cell_next].
        destruct (Z.eq_dec j f1) as [-> | Njf].
        { exists i1. split; [lia |].
          rewrite (zth_insert_ne _ i1 f1) by lia.
          rewrite zth_insert_eq by (unfold max_t in Hmax1; lia).
          rewrite zth_insert_eq
            by (rewrite length_insert; unfold max_t in Hmax1; unfold max_t in *; lia).
          split; [reflexivity |]. split; [reflexivity |].
          intros l Hl. rewrite (proj1 (Hsv l Hl)), (proj1 (Hsc l Hl)).
          apply (Hmid i1); lia. }
        destruct (Z.eq_dec j i1) as [-> | Nji].
        { exists f1. split; [lia |].
          rewrite zth_insert_eq
            by (rewrite length_insert; unfold max_t in Hmax1; unfold max_t in *; lia).
          rewrite (zth_insert_ne _ i1 f1) by lia.
          rewrite zth_insert_eq by (unfold max_t in Hmax1; lia).
          split; [reflexivity |]. split; [reflexivity |].
          intros l Hl. rewrite (proj2 (Hsv l Hl)), (proj2 (Hsc l Hl)).
          apply (Hmid f1); lia. }
        destruct (Hout j ltac:(lia)) as (w & Hw & E1 & E2 & Ag).
        exists w. split; [lia |].
        rewrite !zth_insert_ne by lia.
        split; [exact E1 |]. split; [exact E2 |].
        intros l Hl. rewrite (Hsv' j l) by lia. rewrite (Hsc' j l) by lia.
        apply (Ag l Hl). }
      split.
      { intros j Hj. destruct (Z.eq_dec j f1) as [-> | Njf]; [exact Ef1 |].
        rewrite Efin by lia. apply Hlow. lia. }
      { intros j Hj. destruct (Z.eq_dec j i1) as [-> | Nji]; [exact Ei1 |].
        rewrite Efin by lia. apply Hhigh. lia. }
    + exists f', x'. split; [exact Hrun |]. split; assumption.
Qed.

End Partition.

Lemma keepb_not_free (d : Delaunay3d) (c : Z) :
  keep_infinite_ d = true -> (keepb d c = true <-> tet_is_free d c = Ok false).
Proof.
  intros Hk. unfold keepb, is_kept, tet_is_real. rewrite Hk.
  destruct (tet_is_free d c) as [[] | |]; cbn; split; congruence.
Qed.

(** The compression of an object that keeps its infinite cells, up to the
    end of the loop that moves the finite cells first. *)
Lemma compress_partition_spec (fuel : nat) (d : Delaunay3d) :
  four_slots d -> keep_infinite_ d = true ->
  (forall c : Z, c ∈ kept_cells d ->
   forall l : Z, 0 <= l < 4 ->
     exists a : Z, tet_adjacent d c l = Ok a /\ a ∈ kept_cells d) ->
  (exists c : Z, c ∈ kept_cells d /\ tet_is_finite d c = Ok true) ->
  (exists c : Z, c ∈ kept_cells d /\ tet_is_finite d c = Ok false) ->
  Z.of_nat (length (kept_cells d)) + 2 <= Z.of_nat fuel ->
  exists (d1 x : Delaunay3d) (store : list Z) (f : Z),
    compressed d d1 /\
    compress fuel d
    = Ok (tt, set_nb_cells (set_cell_to_cell_store x store)
                (Z.of_nat (length (kept_cells d)))) /\
    0 < f < Z.of_nat (length (kept_cells d)) /\
    partition_inv (Z.of_nat (length (kept_cells d)))
                  (set_nb_finite_cells d1 0) f (f - 1) x /\
    length store = length (cell_to_cell_store_ x) /\
    (forall j a w : Z, 0 <= j ->
       zth (cell_to_cell_store_ x) j = Some a -> zth (cell_next_ x) a = Some w ->
       zth store j = Some (signed_index_t_of w)).
Proof.
  intros Hfour Hki Hclosed (cf & Hcf & Ff) (ci & Hci & Fi) Hfuel.
  assert (Hs : max_t d < 2 ^ 30) by (destruct Hfour as (Hs & _); exact Hs).
  assert (Hn : 0 <= max_t d) by (unfold max_t; lia).
  assert (Hrange : neighbours_in_range d).
  { intros c Hc l Hl. destruct (Hclosed c Hc l Hl) as (a & Ha & Ka).
    exists a. split; [exact Ha |]. unfold kept_cells in Ka.
    apply kept_below_elem in Ka. lia. }
  destruct (compress_phase1
              (fun nb_tets =>
                 let* keep_infinite := const (fun d => Ok (keep_infinite_ d)) in
                 let* _ :=
                   (if keep_infinite then
                      let* _ := modify (fun d => set_nb_finite_cells d 0) in
                      let* _ := partition_loop fuel 0 (index_t_of (nb_tets - 1)) in
                      remap_loop (Z.to_nat (4 * nb_tets)) 0
                    else retM tt) in
                 modify (fun d => set_nb_cells d nb_tets))
              d Hfour Hrange) as (d1 & Hrun & Hc).
  set (NB := Z.of_nat (length (kept_cells d))) in *.
  assert (HNB : NB <= max_t d) by (apply kept_below_length; lia).
  pose proof Hc as (Hin & Hwords & Hki1 & Lv & Lc & Ln & Hcells).
  (* the positions of the two cells given *)
  assert (Hpos : forall c : Z, c ∈ kept_cells d ->
            exists k : nat, kept_cells d !! k = Some c /\ Z.of_nat k < NB).
  { intros c Hc'. apply list_elem_of_lookup_1 in Hc' as [k Hk].
    exists k. split; [exact Hk |]. apply lookup_lt_Some in Hk. unfold NB. lia. }
  set (x0 := set_nb_finite_cells d1 0).
  assert (Hfin : forall (c : Z) (k : nat), kept_cells d !! k = Some c ->
            tet_is_finite x0 (Z.of_nat k) = tet_is_finite d c).
  { intros c k Hk.
    assert (Z.of_nat k < NB) by (apply lookup_lt_Some in Hk; unfold NB; lia).
    assert (0 <= c < max_t d).
    { apply list_elem_of_lookup_2 in Hk. unfold kept_cells in Hk.
      apply kept_below_elem in Hk. lia. }
    apply tet_is_finite_agree; [lia | lia |].
    intros l Hl. apply (Hcells k c Hk l Hl). }
  destruct (Hpos cf Hcf) as (kf & Hkf & Rkf).
  destruct (Hpos ci Hci) as (ki & Hki' & Rki).
  assert (Hinv0 : partition_inv NB x0 0 (NB - 1) x0).
  { split; [lia |]. split; [lia |]. split; [lia |].
    split; [exact Lv |]. split; [exact Lc |]. split; [reflexivity |].
    split; [reflexivity |].
    split; [intros j Hj l Hl; split; reflexivity |].
    split; [intros j Hj; lia |].
    split; intros j Hj; lia. }
  destruct (partition_loop_spec NB x0 ltac:(lia)
              ltac:(unfold x0, max_t; cbn; unfold max_t in HNB; lia)
              fuel 0 (NB - 1) x0 (Z.of_nat ki) (Z.of_nat kf) Hinv0)
    as (f & x & Hpart & Hf & Hinv); try lia.
  { rewrite (Hfin ci ki Hki'). exact Fi. }
  { rewrite (Hfin cf kf Hkf). exact Ff. }
  pose proof Hinv as (_ & _ & _ & Lvx & Lcx & Lnx & Hnf & _ & Hout & Hlow & Hhigh).
  (* every neighbour slot of the cells after the loop can be renumbered *)
  assert (Hslot : forall j : Z, 0 <= j < 4 * NB ->
            exists a w : Z,
              zth (cell_to_cell_store_ x) j = Some a /\ 0 <= a < NB /\
              zth (cell_next_ x) a = Some w).
  { intros j Hj.
    assert (Hq : 0 <= j / 4 < NB).
    { split; [apply Z.div_pos; lia | apply Z.div_lt_upper_bound; lia]. }
    assert (Hl : 0 <= j mod 4 < 4) by (apply Z.mod_pos_bound; lia).
    assert (Ej : j = 4 * (j / 4) + j mod 4) by (apply Z.div_mod; lia).
    destruct (Hout (j / 4) ltac:(lia)) as (w & Hw & _ & _ & Ag).
    destruct (lookup_lt_is_Some_2 (kept_cells d) (Z.to_nat w)) as [c Ec];
      [unfold NB in *; lia |].
    destruct (Hcells _ c Ec (j mod 4) Hl) as (_ & a & Ea & Ea1).
    rewrite Z2Nat.id in Ea1 by lia.
    assert (Hc' : c ∈ kept_cells d) by (eapply list_elem_of_lookup_2; exact Ec).
    destruct (Hclosed c Hc' (j mod 4) Hl) as (a' & Ha' & Ka').
    assert (Rc : 0 <= c < max_t d).
    { unfold kept_cells in Hc'. apply kept_below_elem in Hc'. lia. }
    rewrite tet_adjacent_zth in Ha' by lia. apply of_option_Ok in Ha'.
    rewrite Ea in Ha'. injection Ha' as <-.
    unfold kept_cells in Ka'. apply kept_below_elem in Ka' as [Ka Ra].
    assert (Ina : 0 <= new_index d a < NB).
    { unfold new_index. rewrite Ka.
      pose proof (kept_below_index d (max_t d) Hn a Ka Ra) as E.
      apply lookup_lt_Some in E. fold (kept_cells d) in E. unfold NB. lia. }
    destruct (Hout (new_index d a) ltac:(lia)) as (w1 & _ & Ew1 & _ & _).
    exists (new_index d a), w1. split; [| split; [exact Ina | exact Ew1]].
    rewrite Ej. rewrite (proj2 (Ag (j mod 4) Hl)).
    unfold x0. cbn [cell_to_cell_store_ set_nb_finite_cells]. exact Ea1. }
  destruct (remap_loop_spec (Z.to_nat (4 * NB)) 0 x) as (store & Hremap & Ls & _ & Hstore).
  { lia. }
  { lia. }
  { intros j Hj. destruct (Hslot j ltac:(lia)) as (a & w & Ea & _ & Ew).
    exists a, w. split; assumption. }
  exists d1, x, store, f.
  split; [exact Hc |]. split.
  - unfold compress. rewrite Hrun.
    unfold bindM at 1. unfold const at 1. rewrite Hki1, Hki. cbn [bindR].
    unfold bindM at 1. unfold bindM at 1. unfold modify at 1. cbn [bindR].
    fold x0. unfold bindM at 1.
    rewrite index_t_of_small by lia. rewrite Hpart. cbn [bindR].
    rewrite Hremap. reflexivity.
  - split; [exact Hf |]. split; [exact Hinv |]. split; [exact Ls |].
    intros j a w Hj. apply Hstore. lia.
Qed.

(** X13.  On an object that keeps its infinite cells, the compression,
    given a bound on its loops of two more than the number of cells in
    use, returns and leaves the cells that are not free, the finite ones
    first: the cells below [nb_finite_cells_] have no vertex at infinity,
    the others up to [nb_cells_] have one; each cell in use of before has
    a place of its own in the result, where its four vertices are found as
    they were and each neighbour slot holds the place of the neighbour it
    had.  This needs stores where the neighbours of the cells in use are
    in use, and at least one finite and one infinite cell in use (the two
    pointers of the loop run out of the stores otherwise). *)
Theorem compress_puts_finite_cells_first (fuel : nat) (d : Delaunay3d) :
  four_slots d -> keep_infinite_ d = true ->
  (forall c : Z, c ∈ kept_cells d ->
   forall l : Z, 0 <= l < 4 ->
     exists a : Z, tet_adjacent d c l = Ok a /\ a ∈ kept_cells d) ->
  (exists c : Z, c ∈ kept_cells d /\ tet_is_finite d c = Ok true) ->
  (exists c : Z, c ∈ kept_cells d /\ tet_is_finite d c = Ok false) ->
  Z.of_nat (length (kept_cells d)) + 2 <= Z.of_nat fuel ->
  exists (d' : Delaunay3d) (place : Z -> Z),
    compress fuel d = Ok (tt, d') /\
    nb_cells_ d' = Z.of_nat (length (kept_cells d)) /\
    0 < nb_finite_cells_ d' < nb_cells_ d' /\
    (forall c : Z,
       c ∈ kept_cells d <-> 0 <= c < max_t d /\ tet_is_free d c = Ok false) /\
    (forall k : Z, 0 <= k < nb_cells_ d' ->
       tet_is_finite d' k = Ok (k <? nb_finite_cells_ d')) /\
    (forall c : Z, c ∈ kept_cells d ->
       0 <= place c < nb_cells_ d' /\
       forall l : Z, 0 <= l < 4 ->
         tet_vertex d' (place c) l = tet_vertex d c l /\
         exists a : Z,
           tet_adjacent d c l = Ok a /\
           tet_adjacent d' (place c) l = Ok (place a)) /\
    (forall c c' : Z, c ∈ kept_cells d -> c' ∈ kept_cells d ->
       place c = place c' -> c = c').
Proof.
  intros Hfour Hki Hclosed Hf Hi Hfuel.
  destruct (compress_partition_spec fuel d Hfour Hki Hclosed Hf Hi Hfuel)
    as (d1 & x & store & f & Hc & Hrun & Hfr & Hinv & Ls & Hstore).
  set (NB := Z.of_nat (length (kept_cells d))) in *.
  assert (Hs : max_t d < 2 ^ 30) by (destruct Hfour as (Hs & _); exact Hs).
  assert (Hn : 0 <= max_t d) by (unfold max_t; lia).
  assert (HNB : NB <= max_t d) by (apply kept_below_length; lia).
  destruct Hc as (_ & _ & _ & _ & _ & _ & Hcells).
  destruct Hinv as (_ & _ & _ & Lvx & Lcx & _ & Hnf & _ & Hout & Hlow & Hhigh).
  set (place := fun c : Z =>
         match zth (cell_next_ x) (new_index d c) with
         | Some w => w
         | None => 0
         end).
  (* a cell in use, its index after the first loop, and its place *)
  assert (Hplace : forall c : Z, c ∈ kept_cells d ->
            exists k : nat,
              kept_cells d !! k = Some c /\ new_index d c = Z.of_nat k /\
              Z.of_nat k < NB /\ 0 <= place c < NB /\
              zth (cell_next_ x) (Z.of_nat k) = Some (place c) /\
              zth (cell_next_ x) (place c) = Some (Z.of_nat k) /\
              cells_agree x (set_nb_finite_cells d1 0) (place c) (Z.of_nat k)).
  { intros c Hc. pose proof Hc as Hc'. unfold kept_cells in Hc'.
    apply kept_below_elem in Hc' as [Kc Rc].
    pose proof (kept_below_index d (max_t d) Hn c Kc Rc) as Ek.
    fold (kept_cells d) in Ek.
    exists (length (kept_below d c)).
    assert (Ei : new_index d c = Z.of_nat (length (kept_below d c))).
    { unfold new_index. rewrite Kc. reflexivity. }
    assert (Rk : Z.of_nat (length (kept_below d c)) < NB).
    { apply lookup_lt_Some in Ek. unfold NB. lia. }
    destruct (Hout (Z.of_nat (length (kept_below d c))) ltac:(lia))
      as (w & Hw & E1 & E2 & _).
    assert (Ep : place c = w) by (unfold place; rewrite Ei, E1; reflexivity).
    destruct (Hout w ltac:(lia)) as (w2 & _ & E3 & _ & Ag).
    rewrite E2 in E3. injection E3 as <-.
    rewrite Ep. split; [exact Ek |]. split; [exact Ei |]. split; [exact Rk |].
    split; [lia |]. split; [exact E1 |]. split; [exact E2 | exact Ag]. }
  exists (set_nb_cells (set_cell_to_cell_store x store) NB), place.
  split; [exact Hrun |].
  cbn [nb_cells_ nb_finite_cells_ set_nb_cells set_cell_to_cell_store]. rewrite Hnf.
  split; [reflexivity |]. split; [exact Hfr |]. split; [| split; [| split]].
  - intros c. unfold kept_cells. rewrite kept_below_elem, (keepb_not_free d c Hki).
    tauto.
  - intros k Hk.
    rewrite (tet_is_finite_same_store _ x k) by reflexivity.
    destruct (Z.ltb_spec k f) as [Hlt | Hge]; [apply Hlow | apply Hhigh]; lia.
  - intros c Hc.
    destruct (Hplace c Hc) as (k & Ek & Ei & Rk & Rp & _ & _ & Ag).
    split; [exact Rp |]. intros l Hl.
    assert (Rc : 0 <= c < max_t d).
    { unfold kept_cells in Hc. apply kept_below_elem in Hc. lia. }
    destruct (Hcells k c Ek l Hl) as (Ev & a & Ea & Ea1).
    rewrite !tet_vertex_zth, !tet_adjacent_zth by lia.
    cbn [cell_to_v_store_ cell_to_cell_store_ set_nb_cells set_cell_to_cell_store].
    split.
    + rewrite (proj1 (Ag l Hl)).
      cbn [cell_to_v_store_ set_nb_finite_cells]. rewrite Ev. reflexivity.
    + exists a. rewrite Ea. split; [reflexivity |].
      destruct (Hclosed c Hc l Hl) as (a' & Ha' & Ka').
      rewrite tet_adjacent_zth in Ha' by lia. apply of_option_Ok in Ha'.
      rewrite Ea in Ha'. injection Ha' as <-.
      destruct (Hplace a Ka') as (ka & _ & Eia & _ & Rpa & Ewa & _ & _).
      rewrite (Hstore (4 * place c + l) (new_index d a) (place a)); [| lia | |].
      * rewrite signed_index_t_of_small by lia. reflexivity.
      * rewrite (proj2 (Ag l Hl)).
        cbn [cell_to_cell_store_ set_nb_finite_cells]. exact Ea1.
      * rewrite Eia. exact Ewa.
  - intros c c' Hc Hc' E.
    destruct (Hplace c Hc) as (k & Ek & _ & _ & _ & _ & Eb & _).
    destruct (Hplace c' Hc') as (k' & Ek' & _ & _ & _ & _ & Eb' & _).
    rewrite E, Eb' in Eb. injection Eb as Eb.
    assert (k = k') by lia. subst k'. congruence.
Qed.

Lemma five_points_mesh_with_infinite_closed :
  forall c : Z, c ∈ kept_cells five_points_mesh_with_infinite ->
  forall l : Z, 0 <= l < 4 ->
    exists a : Z,
      tet_adjacent five_points_mesh_with_infinite c l = Ok a /\
      a ∈ kept_cells five_points_mesh_with_infinite.
Proof.
  intros c Hc l Hl.
  change (kept_cells five_points_mesh_with_infinite)
    with [0; 2; 3; 4; 5; 6; 7; 8] in *.
  assert (l = 0 \/ l = 1 \/ l = 2 \/ l = 3) as [-> | [-> | [-> | ->]]] by lia;
    repeat (apply elem_of_cons in Hc as [-> | Hc];
            [eexists; split; [vm_compute; reflexivity |];
             apply (bool_decide_unpack _); vm_compute; exact I |]);
    apply elem_of_nil in Hc; contradiction.
Defined.

Lemma compress_puts_finite_cells_first_witness :
  exists (d' : Delaunay3d) (place : Z -> Z),
    compress 20 five_points_mesh_with_infinite = Ok (tt, d') /\
    nb_cells_ d' = Z.of_nat (length (kept_cells five_points_mesh_with_infinite)) /\
    0 < nb_finite_cells_ d' < nb_cells_ d' /\
    (forall c : Z,
       c ∈ kept_cells five_points_mesh_with_infinite <->
       0 <= c < max_t five_points_mesh_with_infinite /\
       tet_is_free five_points_mesh_with_infinite c = Ok false) /\
    (forall k : Z, 0 <= k < nb_cells_ d' ->
       tet_is_finite d' k = Ok (k <? nb_finite_cells_ d')) /\
    (forall c : Z, c ∈ kept_cells five_points_mesh_with_infinite ->
       0 <= place c < nb_cells_ d' /\
       forall l : Z, 0 <= l < 4 ->
         tet_vertex d' (place c) l = tet_vertex five_points_mesh_with_infinite c l /\
         exists a : Z,
           tet_adjacent five_points_mesh_with_infinite c l = Ok a /\
           tet_adjacent d' (place c) l = Ok (place a)) /\
    (forall c c' : Z,
       c ∈ kept_cells five_points_mesh_with_infinite ->
       c' ∈ kept_cells five_points_mesh_with_infinite ->
       place c = place c' -> c = c').
Proof.
  apply (compress_puts_finite_cells_first 20 five_points_mesh_with_infinite).
  - split; [reflexivity |]. split; reflexivity.
  - reflexivity.
  - exact five_points_mesh_with_infinite_closed.
  - exists 0. split; [apply (bool_decide_unpack _); vm_compute; exact I |].
    vm_compute. reflexivity.
  - exists 2. split; [apply (bool_decide_unpack _); vm_compute; exact I |].
    vm_compute. reflexivity.
  - vm_compute. discriminate.
Defined.
